(* ===== verification/_CoqProject ===== *)
-Q . S2P
Prelude.v
PyStr.v
Utf8.v
Md5.v
LogExcerpt.v
Fingerprint.v
Suppression.v
Pod.v
Dispatcher.v
Scan.v
Concurrency.v
Html.v
Index.v
Realert.v
Json.v
JsonText.v
Mail.v
Inference.v
Simulation.v
Startup.v
