(* ===== verification/Prelude.v ===== *)
(** * A verification of the EKS monitoring dashboard (src/eks.py)

    ** The program

    [src/eks.py] is a Flask application.  Its request handler
    [dashboard_data] lists the pods of a namespace through [kubectl] and,
    for every pod, classifies its health, derives an issue key, consults
    the global dict [sent_alerts] (a time-to-live suppression cache), and
    for a new or expired issue asks an Azure OpenAI deployment for a
    diagnosis, mails the diagnosis, and records the alert time.  [/health]
    counts namespaces and pods; [/namespaces] lists namespaces; both
    answer [json.dumps] of their result.  [/eks_dashboard/] serves the
    file [dashboard.html].  Requests
    are served on threads ([app.run(debug=True)]), all sharing
    [sent_alerts].

    ** Files, in dependency order

    - [Prelude] (this file): the state-and-exception monad [PyM] of Python
      code ([ret], [bind], [raise], [catch], notation [x <- c ;; k]), the
      [for] loop [py_for], the slice [lastn] ([l[-n:]]), hint databases.
    - [PyStr]: the Python [str] builtins the code calls ([lower], [in],
      [splitlines], [join], [strip], [encode]), on Latin-1 code points, with
      the lemmas that [splitlines] commutes with [lower] and that splitting
      what [join] built gives the lines back.
    - [Utf8]: [bytes.decode("utf-8", errors="replace")] of [kubectl]'s
      output in [get_logs] and [get_manifest] (lines 34-40), the strict
      decoding of [open().read()], and [str.encode()] (line 48), as
      CPython's codecs.h writes them, with [Z.shiftl]/[Z.lor] on bytes.
    - [Md5]: [hashlib.md5(...).hexdigest()] after RFC 1321 (32-bit words as
      [Z] with explicit wrap-around), checked on test vectors.
    - [LogExcerpt]: [extract_relevant_logs] (lines 42-45) and the log test
      [has_error] (line 155).
    - [Fingerprint]: the two issue keys: [issue_key] (line 135) and
      [hash_logs] (lines 47-48) of the excerpt (lines 160-161).
    - [Suppression]: [should_send_alert] (lines 95-99) as a pure decision
      [should_send_alert_at] over the dict, the write [record_alert]
      (lines 140, 165), the interface class [AlertCache] with its contract
      [AlertCacheLaws], the dict instance and the abstract instance (the
      list of alerts sent), and the refinement between them.
    - [Pod]: the pod JSON ([Pod], [ContainerStatus]), [restarts] (line 120),
      the waiting-reason loop (lines 123-130), the branch condition
      (line 132) and the verdict [classify].
    - [Dispatcher]: one iteration of the pod loop, [process_pod]
      (lines 116-186), with [should_send_alert], [analyze_logs] (50-66),
      [analyze_container_issue] (68-80) and [send_email] (82-93) in [PyM].
      The state [World] is [sent_alerts] plus what the outside world has
      seen: clock readings taken, prompts sent, SMTP attempts, mails
      delivered.  The environment [Env] holds oracles: the i-th
      [time.time()], the answer to the i-th chat completion ([None] when
      the client raises), the outcome of the i-th SMTP session, [kubectl]
      output, [strftime] and [DEFAULT_NAMESPACE].
    - [Scan]: the pod loop of [dashboard_data] (lines 109-186) as
      [py_for] of [process_pod] over [get_pods] (lines 27-32), collecting
      rows and diagnostics as data; [health] (206-213), [list_namespaces]
      (105-107), [DEFAULT_NAMESPACE] (line 13) and the [startup] reset of
      [sent_alerts] (line 216).
    - [Concurrency]: requests as threads at program points of the alert
      step and of its reads of [sent_alerts] (lines 137-149), a step
      relation interleaving them, and the same threads under a lock.
    - [Html]: the page [dashboard_data] returns (lines 144-152, 169-175,
      179-204), as the sequence of code points of the Python [str]:
      [row_html], [diagnostic_html], [page_layout], [render_page], and
      the whole handler [dashboard_page].
    - [Index]: [index] (lines 101-103), [open("dashboard.html").read()]
      with strict UTF-8 decoding and universal newlines, over an oracle
      [read_file] of the file system.
    - [Realert]: [requests n], the same pod processed by [n] requests in
      a row on the shared [sent_alerts].
    - [Json]: the Python values [json.loads] returns ([pyval]), Python's
      subscript, [.get], [bool], [int], [len], [for] and [str] on them,
      and the code that reads them: [read_pod] (lines 117-130),
      [process_pod_py] (the loop body on a [pyval] pod, ending in
      [Dispatcher.pod_body]), [get_pods_py] (27-32), [dashboard_data_py],
      [get_namespaces_py] (22-25) and [health_py] (206-213).
    - [JsonText]: [json.dumps] (lines 107, 211, 213) and [json.loads]
      (lines 24, 30) on text, as CPython's [json] encoder and scanner
      write and read it, [str(e)] of the exceptions, and the two
      endpoints from [kubectl]'s standard output to the response text:
      [list_namespaces_text] and [health_text].
    - [Mail]: [send_email] (lines 82-93) in detail: [MIMEText] with its
      charset choice and base64 body ([binascii.b2a_base64] as its C loop
      over a wrapping 32-bit accumulator, [email.base64mime.body_encode]),
      the headers, [SMTP_HOST], [int(SMTP_PORT)] and the session oracle,
      with the refinement of [Dispatcher.send_email].
    - [Inference]: the requests of lines 59-65 and 73-79 to the Azure
      OpenAI deployment and the three outcomes of the call (it raises, its
      content is a text, or [None]), with the refinement of
      [Dispatcher.chat_completion].
    - [Simulation]: [cache_scan], the abstract run of a request through
      any [AlertCache], and the simulation of [dashboard_data] by it.
    - [Startup]: the import of the module (lines 8-20): [load_dotenv]
      without override over [os.environ], [DEFAULT_NAMESPACE], the
      arguments of the Azure OpenAI client, and [main] (lines 215-216).

    [Pod] and [Dispatcher] work on typed pods ([Pod], string fields);
    [Json] shows that on the JSON [kubectl] prints for a typed pod the
    code on Python values computes exactly what the typed model computes,
    so the theorems of the typed model are theorems about the code on
    well-formed input, and it handles every other input as Python does.
    [Utf8] relates the bytes [kubectl] prints to the Latin-1 strings of
    the rest ([get_logs_latin1]); [JsonText] composes [json.loads],
    [Json]'s handlers and [json.dumps] into whole endpoints.
    [Html] and [Realert] build on [Scan] and [Dispatcher]; [Concurrency]
    reuses the operations of [Dispatcher] as the atomic actions of a
    thread.  [Simulation] relates [Scan] to the abstract history of
    [Suppression].  [Startup] gives the environment every [os.getenv] of
    [Scan], [Mail] and [Inference] reads.

    ** What is proved

    - Extractor: the excerpt splits back into exactly the last 100 matching
      lines, in log order; it is bounded and filtered; the whole-log test of
      line 155 holds iff the excerpt is non-empty, so [analyze_logs] always
      reaches the inference service on a flagged log.
    - Keys: a blocked key never equals a log digest; the blocked key is
      injective on colon-free names and reasons, and collides otherwise;
      the log key ignores lines the extractor drops.
    - Cache: the exact TTL window (an alert is allowed iff
      [now > t + 3600]); the dict meets the cache contract on positive
      timestamps and answers every query like the abstract alert history.
    - Dispatcher: no [KeyError]; a suppressed issue costs one clock reading
      and nothing else; a new issue costs one prompt and one mail whose body
      is the diagnosis, then one record; a failed diagnosis or mail records
      nothing; [sent_alerts] changes only together with a mail.
    - Scan: rows follow the pod list; a failing pod listing degrades to an
      empty report; entries are never removed; a re-scan within the TTL
      sends nothing; one failing pod aborts the whole request.
    - Concurrency: a thread alone computes [alert_then_report] within six
      actions; two unlocked requests can both mail one issue and leave
      the older of their clock readings in the dict, so the next alert
      is allowed early; under a lock
      at most one mail is sent; in every reachable state of any number of
      requests, a read of [sent_alerts[key]] finds its key, so no
      interleaving raises [KeyError].  Termination: every interleaving of
      any number of requests is finite ([sn] of the step relation), with
      at most six actions per request, and every maximal run ends with
      all requests finished.
    - Page: the placeholder paragraph is shown exactly when no listed pod
      is unhealthy; the log excerpt of a pod reaches the page verbatim,
      with no HTML escaping.
    - JSON input: the request and [/health] on [kubectl]'s JSON equal the
      typed [dashboard_data] and [health]; reading a malformed pod raises
      before any side effect and aborts the whole request; [/health]
      never raises and never changes the state.
    - Text: [bytes.decode(errors="replace")] is exactly the Unicode
      standard's substitution of maximal ill-formed subparts; it inverts
      [str.encode()], yields only scalar values and no more code points
      than bytes; every value [json.loads] builds has distinct dict keys
      and integers of at most 4300 digits, its fuel never cuts a reading
      short, [json.loads(json.dumps(v)) == v]
      for every such value, and [json.dumps] writes printable ASCII only.
    - Endpoints on text: [/namespaces] answers the JSON list of the names
      in [kubectl]'s listing, whatever its layout and extra keys;
      [/health] always answers the JSON of its OK or ERROR dict with
      200 or 500, which reads back; [/eks_dashboard/] serves the file's
      text with its line ends normalised, or raises [UnicodeDecodeError]
      when the file encodes no text.
    - Mail: the binascii loop writes the RFC 4648 encoding and decodes
      back; a mail client reads exactly the diagnosis from the message,
      whose base64 lines have at most 76 characters; the detailed
      [send_email] refines the dispatcher's when [SMTP_PORT] is an
      integer and raises [ValueError] before any session otherwise.
    - Inference: the dispatcher's [chat_completion] is the client call
      with a [None] content taken as a failure; a [None] content makes
      the alert step raise [AttributeError] at [MIMEText(None)] before the
      mail, so nothing is recorded.
    - Liveness of alerting: with a clock advancing at least one second per
      reading and working inference and mail services, a persisting issue
      is mailed again within 3602 requests from any world whose recorded
      times are not in the future.
    - Refinement of a whole request: a completed [dashboard_data] keeps
      [sent_alerts] in agreement with the abstract alert history run over
      the listed pods at clock readings taken in order, and sends exactly
      the mails of that abstract run.
    - Startup: after the import, a variable reads the value the process
      was started with, else the last binding of [.env]; the namespace
      default and the client arguments are read from that environment.

    ** Bounds and fuel

    Five definitions take fuel, each with a theorem that the fuel given
    is enough: [b2a_drain] gets 2 iterations, enough since [leftbits] is
    0, 2 or 4 between bytes ([b2a_fold_leftbits]); [chunks_fuel] gets the
    number of bytes, each slice taking at least one
    ([strip_chunks_fuel]); [utf8_decode_fuel] and [utf8_decode_strict_fuel]
    get the number of bytes (each step consumes at least one byte;
    [utf8_decode_fuel_enough], [utf8_decode_strict_encode]), and the
    JSON parser [parse_value] gets one more than the number of characters
    ([json_fuel_le]: a value's text is at least as long as the fuel it
    needs; [json_loads_fuel_enough]: on any text, every larger fuel gives
    the same answer, since a run consumes at least as many characters as
    the fuel it needs).  Integers of [json.loads] and [int()] have at most 4300
    digits, CPython 3.11's [sys.get_int_max_str_digits()].
    Otherwise [line_segments] recurses structurally with one
    character of look-ahead for CR LF; [md5_blocks] recurses on the exact
    number of 64-byte blocks of the padded message; [run_solo] takes a
    bound, and [run_solo_check] shows that 6 actions finish
    every thread; [interleavings_terminate] bounds every interleaving by
    the weight [pc_weight] (actions left, at most 6 per thread).  The
    bound 3602 of [persistent_issue_realerted] is the TTL plus the request
    that finds it expired plus one: each held-back request reads the clock
    once and the clock gains at least a second per reading.  Timestamps
    are integers; the TTL is 3600.  Strings are code points below 256,
    except in [Utf8], [Html] and [Index], which hold any code point
    ([pystr]); the icons of the page are U+23F3, U+274C and U+2705.

    ** Not modelled

    The content of the [kubectl], OpenAI and SMTP exchanges and of the
    file system (oracles: [Env], [kubectl_stdout], [read_file],
    [smtp_session], [chat_create]); an SMTP session either delivers or
    raises, so the model has no session that delivers the mail and then
    raises at [QUIT] when the [with] block of line 91 exits (the mail is
    then out but line 140 does not run); the dispatcher's model takes a [None]
    content of a chat completion as a failure of the call ([Inference]
    relates the two); the
    dispatcher reads logs and manifests as the Latin-1 strings
    [env_logs] and [env_manifest], which [Utf8.get_logs_latin1] ties to
    [get_logs] on the logs whose code points are below 256.  The imports
    (lines 2-6); the Flask routing and its UTF-8 encoding of the answers;
    inside the libraries: the parsing and interpolation of the [.env]
    file (its bindings are an input of [Startup.load_dotenv]), [Flask()]
    and the server of [app.run] (lines 9, 217; [Concurrency] models its
    threads on the state they share), and what the [AzureOpenAI]
    constructor does with its arguments ([Startup] keeps them, the
    service's answers are [chat_create]); the unused [feedback_cache]
    (line 11), whose values the code never shows; code
    points above U+00FF in [str.lower] and [splitlines]; JSON numbers
    with a fraction or an exponent and strings with code points above
    U+00FF, for which [json_loads] answers [None] instead of a value;
    the locale: [open] is taken to use UTF-8.  [int] and [json] follow
    CPython 3.11 (its 4300-digit limit), as does the rest of the model
    of Python.

    Requests are interleaved at their alert steps: the other statements
    of a request touch no state shared between threads, and the pods of
    one request are threads that run in order, whose interleavings are
    among those of the step relation.

    ** Prelude

    This file also holds what the components share: the monad, the loop,
    [lastn], generic list lemmas, and the hint databases [eks] and
    [eks_rw]. *)

From stdpp Require Import base list strings gmap.
From Stdlib Require Import ZArith Lia.

Declare Scope pym_scope.
Delimit Scope pym_scope with pym.

Create HintDb eks.
Create Rewrite HintDb eks_rw.

(** ** Outcomes of a Python computation *)

Inductive outcome (E A : Type) : Type :=
| Ok (a : A)
| Exc (e : E).
Arguments Ok {E A} a.
Arguments Exc {E A} e.

(** A computation over the process state [S] that may raise an [E]. *)
Definition PyM (S E A : Type) : Type := S -> outcome E A * S.

Section Monad.
Context {S E : Type}.

Definition ret {A} (a : A) : PyM S E A := fun s => (Ok a, s).

Definition bind {A B} (c : PyM S E A) (f : A -> PyM S E B) : PyM S E B :=
  fun s =>
    match c s with
    | (Ok a, s') => f a s'
    | (Exc e, s') => (Exc e, s')
    end.

Definition get : PyM S E S := fun s => (Ok s, s).
Definition put (s : S) : PyM S E unit := fun _ => (Ok tt, s).
Definition modify (f : S -> S) : PyM S E unit := fun s => (Ok tt, f s).
Definition raise {A} (e : E) : PyM S E A := fun s => (Exc e, s).

(** [try: c except: h]: the handler runs in the state the failure left. *)
Definition catch {A} (c : PyM S E A) (h : E -> PyM S E A) : PyM S E A :=
  fun s =>
    match c s with
    | (Ok a, s') => (Ok a, s')
    | (Exc e, s') => h e s'
    end.
End Monad.

Notation "x <- c ;; k" := (bind c (fun x => k))
  (at level 100, c at next level, right associativity) : pym_scope.
Notation "c ;;; k" := (bind c (fun _ => k))
  (at level 100, right associativity) : pym_scope.

Local Open Scope pym_scope.

(** The body of a Python [for] loop over [xs], accumulating into [acc]. *)
Fixpoint py_for {S E A B} (xs : list A) (acc : B) (body : B -> A -> PyM S E B)
  : PyM S E B :=
  match xs with
  | [] => ret acc
  | x :: xs' => acc' <- body acc x ;; py_for xs' acc' body
  end.

Section MonadLemmas.
Context {S E : Type}.

Lemma bind_ret_l {A B} (a : A) (f : A -> PyM S E B) s :
  bind (ret a) f s = f a s.
Proof. reflexivity. Qed.

Lemma bind_Ok {A B} (c : PyM S E A) (f : A -> PyM S E B) s a s' :
  c s = (Ok a, s') -> bind c f s = f a s'.
Proof. intros H. unfold bind. by rewrite H. Qed.

Lemma bind_Exc {A B} (c : PyM S E A) (f : A -> PyM S E B) s e s' :
  c s = (Exc e, s') -> bind c f s = (Exc e, s').
Proof. intros H. unfold bind. by rewrite H. Qed.

Lemma bind_assoc {A B C} (c : PyM S E A) (f : A -> PyM S E B)
      (g : B -> PyM S E C) s :
  bind (bind c f) g s = bind c (fun a => bind (f a) g) s.
Proof. unfold bind. destruct (c s) as [[a|e] s']; reflexivity. Qed.

(** A state property [P] that every step of a loop body preserves
    (on success and on failure) holds after the loop. *)
Lemma py_for_preserves {A B} (P : S -> Prop) (xs : list A) (acc : B)
      (body : B -> A -> PyM S E B) s :
  (forall acc' x s0, P s0 -> P (snd (body acc' x s0))) ->
  P s -> P (snd (py_for xs acc body s)).
Proof.
  intros Hbody. revert acc s. induction xs as [|x xs IH]; intros acc s Hs;
    [done|]. simpl. unfold bind.
  specialize (Hbody acc x s Hs).
  destruct (body acc x s) as [[a|e] s'] eqn:Hb; simpl in *; [by apply IH | done].
Qed.
End MonadLemmas.

#[export] Hint Rewrite @bind_ret_l @bind_assoc : eks_rw.

(** ** What a computation changes and what it raises *)

Section Effects.
Context {S E : Type}.

(** [c] leaves the state as it found it, whether it returns or raises. *)
Definition reads_only {A} (c : PyM S E A) : Prop := forall s, (c s).2 = s.

(** Every exception [c] raises satisfies [P]. *)
Definition raises_only {A} (P : E -> Prop) (c : PyM S E A) : Prop :=
  forall s e s', c s = (Exc e, s') -> P e.

Lemma reads_only_ret {A} (a : A) : reads_only (ret a).
Proof. done. Qed.

Lemma reads_only_raise {A} (e : E) : reads_only (raise (A := A) e).
Proof. done. Qed.

Lemma reads_only_bind {A B} (c : PyM S E A) (f : A -> PyM S E B) :
  reads_only c -> (forall a, reads_only (f a)) -> reads_only (bind c f).
Proof.
  intros Hc Hf s. unfold bind. specialize (Hc s).
  destruct (c s) as [[a|e] s']; cbn in *; [by rewrite Hf | done].
Qed.

Lemma raises_only_ret {A} P (a : A) : raises_only P (ret a).
Proof. by intros s e s' [=]. Qed.

Lemma raises_only_raise {A} (P : E -> Prop) e : P e -> raises_only P (raise (A := A) e).
Proof. by intros He s e' s' [= <- _]. Qed.

Lemma raises_only_get P : raises_only P get.
Proof. by intros s e s' [=]. Qed.

Lemma raises_only_put P s0 : raises_only P (put s0).
Proof. by intros s e s' [=]. Qed.

Lemma raises_only_modify P f : raises_only P (modify f).
Proof. by intros s e s' [=]. Qed.

Lemma raises_only_bind {A B} P (c : PyM S E A) (f : A -> PyM S E B) :
  raises_only P c -> (forall a, raises_only P (f a)) -> raises_only P (bind c f).
Proof.
  intros Hc Hf s e s'. unfold bind.
  destruct (c s) as [[a|e'] s1] eqn:E1; [apply Hf | intros [= <- _]; eapply Hc, E1].
Qed.

Lemma raises_only_weaken {A} (P Q : E -> Prop) (c : PyM S E A) :
  (forall e, P e -> Q e) -> raises_only P c -> raises_only Q c.
Proof. intros HPQ Hc s e s' H. apply HPQ, (Hc s e s' H). Qed.

(** An exception of [c ;; f] where [c] only reads. *)
Lemma bind_exc_reads {A B} (c : PyM S E A) (f : A -> PyM S E B) s e s' :
  reads_only c -> bind c f s = (Exc e, s') ->
  (c s = (Exc e, s) /\ s' = s) \/ (exists a, c s = (Ok a, s) /\ f a s = (Exc e, s')).
Proof.
  intros Hc. unfold bind. specialize (Hc s).
  destruct (c s) as [[a|e'] s1]; cbn in Hc; subst s1; [right; eauto | intros [= <- <-]; by left].
Qed.
End Effects.

#[export] Hint Resolve reads_only_ret reads_only_raise reads_only_bind
  raises_only_ret raises_only_get raises_only_put raises_only_modify : eks.

(** Split a computation into its binds and branches to bound what it raises. *)
Ltac raises_only_tac :=
  repeat match goal with
  | |- raises_only _ (bind _ _) => apply raises_only_bind; [|intros]
  | |- raises_only _ (ret _) => apply raises_only_ret
  | |- raises_only _ get => apply raises_only_get
  | |- raises_only _ (put _) => apply raises_only_put
  | |- raises_only _ (modify _) => apply raises_only_modify
  | |- raises_only _ (raise _) => apply raises_only_raise
  | |- raises_only _ (if ?b then _ else _) => destruct b
  | |- raises_only _ (match ?x with _ => _ end) => destruct x
  end.

(** ** Python's slice [l[-n:]] *)

(** [l[-n:]] keeps the last [n] elements, or all of [l] when it is shorter. *)
Definition lastn {A} (n : nat) (l : list A) : list A := drop (length l - n) l.

Section Lastn.
Context {A : Type}.

Lemma lastn_length_le (n : nat) (l : list A) : length (lastn n l) <= n.
Proof. unfold lastn. rewrite length_drop. lia. Qed.

Lemma lastn_length (n : nat) (l : list A) :
  length (lastn n l) = Nat.min n (length l).
Proof. unfold lastn. rewrite length_drop. lia. Qed.

Lemma lastn_short (n : nat) (l : list A) : length l <= n -> lastn n l = l.
Proof. intros H. unfold lastn. by replace (length l - n) with 0 by lia. Qed.

Lemma lastn_suffix (n : nat) (l : list A) : lastn n l `suffix_of` l.
Proof. apply suffix_drop. Qed.

Lemma lastn_sublist (n : nat) (l : list A) : lastn n l `sublist_of` l.
Proof. apply sublist_drop. Qed.

Lemma Forall_lastn (P : A -> Prop) (n : nat) (l : list A) :
  Forall P l -> Forall P (lastn n l).
Proof. apply Forall_drop. Qed.

(** The kept elements are exactly the last ones: nothing after them is dropped. *)
Lemma lastn_app_drop (n : nat) (l : list A) :
  take (length l - n) l ++ lastn n l = l.
Proof. apply take_drop. Qed.
End Lastn.

#[export] Hint Resolve lastn_length_le lastn_suffix lastn_sublist Forall_lastn : eks.

(** ** Boolean list tests *)

Lemma existsb_map {A B} (f : B -> bool) (g : A -> B) (l : list A) :
  existsb f (map g l) = existsb (fun x => f (g x)) l.
Proof. induction l as [|x l IH]; simpl; [done | by rewrite IH]. Qed.

Lemma existsb_filter_nil {A} (f : A -> bool) (l : list A) :
  existsb f l = false <-> List.filter f l = [].
Proof.
  induction l as [|x l IH]; simpl; [done|].
  destruct (f x); simpl; [split; discriminate | done].
Qed.

#[export] Hint Rewrite @existsb_map : eks_rw.

Lemma existsb_orb {A} (f g : A -> bool) (l : list A) :
  existsb f l || existsb g l = existsb (fun x => f x || g x) l.
Proof.
  induction l as [|x l IH]; simpl; [done|]. rewrite <- IH.
  destruct (f x), (g x), (existsb f l), (existsb g l); reflexivity.
Qed.

Lemma lastn_nil_iff {A} (n : nat) (l : list A) : 0 < n -> lastn n l = [] <-> l = [].
Proof.
  intros Hn. split; [|by intros ->].
  intros H. apply (f_equal length) in H. rewrite lastn_length in H. simpl in H.
  destruct l; simpl in *; [done | lia].
Qed.

(** A raise in the body of a [for] loop ends the loop with that raise. *)
Lemma py_for_app_exc {S E A B} (pre post : list A) (x : A) (acc acc1 : B)
      (body : B -> A -> PyM S E B) s s1 e s2 :
  py_for pre acc body s = (Ok acc1, s1) -> body acc1 x s1 = (Exc e, s2) ->
  py_for (pre ++ x :: post) acc body s = (Exc e, s2).
Proof.
  revert acc s. induction pre as [|y pre IH]; intros acc s Hpre Hx; cbn in *.
  - injection Hpre as <- <-. unfold bind. by rewrite Hx.
  - unfold bind in *. destruct (body acc y s) as [[a|e'] s'];
      [by apply IH | discriminate].
Qed.

(** ** Integers: comparisons and bit operations *)

Local Open Scope Z_scope.

(** Case analysis on every boolean comparison of integers in the goal. *)
Ltac zcase :=
  repeat match goal with
  | |- context [Z.ltb ?a ?b] => destruct (Z.ltb_spec a b)
  | |- context [Z.leb ?a ?b] => destruct (Z.leb_spec a b)
  | |- context [Z.eqb ?a ?b] => destruct (Z.eqb_spec a b)
  end; cbn [negb andb orb].

(** Rewrite every comparison of integers that the hypotheses decide,
    without case analysis. *)
Ltac zdecide :=
  repeat (match goal with
  | |- context [Z.ltb ?a ?b] =>
      first [ rewrite (proj2 (Z.ltb_lt a b)) by lia | rewrite (proj2 (Z.ltb_ge a b)) by lia ]
  | |- context [Z.leb ?a ?b] =>
      first [ rewrite (proj2 (Z.leb_le a b)) by lia | rewrite (proj2 (Z.leb_gt a b)) by lia ]
  | |- context [Z.eqb ?a ?b] =>
      first [ rewrite (proj2 (Z.eqb_eq a b)) by lia | rewrite (proj2 (Z.eqb_neq a b)) by lia ]
  end; cbn [negb andb orb]).

(** [lia] after turning division and modulo by constants into equations. *)
Ltac zdiv_lia := Z.div_mod_to_equations; lia.

(** An [or] of a value with no bit below [k] and one below [2 ^ k] is their sum. *)
Lemma lor_disjoint (h x k : Z) :
  (0 <= k -> Z.land h (Z.ones k) = 0 -> 0 <= x < 2 ^ k -> Z.lor h x = h + x)%Z.
Proof.
  intros Hk Hh Hx.
  assert (Hland : Z.land h x = 0).
  { apply Z.bits_inj'. intros m Hm. rewrite Z.land_spec, Z.bits_0.
    destruct (Z.lt_ge_cases m k) as [Hlt|Hge].
    - apply (f_equal (fun z => Z.testbit z m)) in Hh.
      rewrite Z.land_spec, Z.testbit_ones, Z.bits_0 in Hh by lia.
      replace ((0 <=? m) && (m <? k)) with true in Hh by (symmetry; apply andb_true_iff; lia).
      by rewrite andb_true_r in Hh; rewrite Hh.
    - destruct (Z.eq_dec x 0) as [->|Hx0]; [by rewrite Z.bits_0, andb_false_r|].
      rewrite (Z.bits_above_log2 x m), andb_false_r; [done | lia |].
      assert (Z.log2 x < k) by (apply Z.log2_lt_pow2; lia). lia. }
  by rewrite <- Z.lxor_lor, <- Z.add_nocarry_lxor.
Qed.
