(* ===== verification/PyStr.v ===== *)
(** * PyStr: the Python [str] builtins the monitor calls

    Python strings are sequences of code points; the development models
    them as Rocq [string]s, i.e. code points below 256 (Latin-1).  On that
    range the builtins below are exact:
    - [py_lower]: [str.lower] (ASCII and Latin-1 capitals, except U+00D7);
    - [py_startswith], [py_contains]: [str.startswith] and [x in s];
    - [py_splitlines]: [str.splitlines()], which splits at \n, \r, \r\n,
      \v, \f, \x1c, \x1d, \x1e and \x85 and drops one trailing empty line;
    - [py_join]: [sep.join(l)];
    - [py_isspace], [py_strip]: [str.isspace] and [str.strip()];
    - [py_encode_utf8]: [str.encode()].
    [line_segments] splits at every boundary and keeps the trailing empty
    segment; [py_splitlines] is defined from it as CPython does. *)

From stdpp Require Import base list strings.
From Stdlib Require Import Ascii ZArith Lia.
From S2P Require Import Prelude.

Local Open Scope string_scope.

Definition LF : ascii := ascii_of_nat 10.
Definition CR : ascii := ascii_of_nat 13.
Definition nl : string := String LF EmptyString.

(** ** Case folding *)

Definition py_lower_char (c : ascii) : ascii :=
  let n := nat_of_ascii c in
  if (Nat.leb 65 n && Nat.leb n 90) || (Nat.leb 192 n && Nat.leb n 222 && negb (Nat.eqb n 215))
  then ascii_of_nat (n + 32) else c.

Fixpoint py_lower (s : string) : string :=
  match s with
  | EmptyString => EmptyString
  | String c s' => String (py_lower_char c) (py_lower s')
  end.

(** ** Substring test *)

Fixpoint py_startswith (p s : string) : bool :=
  match p, s with
  | EmptyString, _ => true
  | String a p', String b s' => Ascii.eqb a b && py_startswith p' s'
  | String _ _, EmptyString => false
  end.

(** [p in s] *)
Fixpoint py_contains (p s : string) : bool :=
  py_startswith p s ||
  match s with
  | EmptyString => false
  | String _ s' => py_contains p s'
  end.

(** ** Line splitting *)

Definition is_line_boundary (c : ascii) : bool :=
  bool_decide (nat_of_ascii c ∈ [10; 11; 12; 13; 28; 29; 30; 133]).

Fixpoint line_segments (s : string) : list string :=
  match s with
  | EmptyString => [EmptyString]
  | String c s' =>
      if Ascii.eqb c CR then
        match s' with
        | String d s'' =>
            if Ascii.eqb d LF then EmptyString :: line_segments s''
            else EmptyString :: line_segments s'
        | EmptyString => EmptyString :: line_segments s'
        end
      else if is_line_boundary c then EmptyString :: line_segments s'
      else
        match line_segments s' with
        | [] => [String c EmptyString]
        | l :: ls => String c l :: ls
        end
  end.

Definition py_splitlines (s : string) : list string :=
  let segs := line_segments s in
  if bool_decide (last segs = Some EmptyString) then removelast segs else segs.

Fixpoint py_join (sep : string) (l : list string) : string :=
  match l with
  | [] => EmptyString
  | [x] => x
  | x :: l' => x +:+ sep +:+ py_join sep l'
  end.

(** [str.encode()]: UTF-8, one byte below U+0080 and two bytes above. *)
Definition py_encode_utf8 (s : string) : list Z :=
  List.concat (map (fun c =>
    let n := Z.of_nat (nat_of_ascii c) in
    if Z.ltb n 128 then [n] else [192 + n / 64; 128 + n mod 64]%Z)
    (String.list_ascii_of_string s)).

(** ** Whitespace *)

Definition py_isspace (c : ascii) : bool :=
  bool_decide (nat_of_ascii c ∈ [9; 10; 11; 12; 13; 28; 29; 30; 31; 32; 133; 160]).

Fixpoint py_lstrip (s : string) : string :=
  match s with
  | EmptyString => EmptyString
  | String c s' => if py_isspace c then py_lstrip s' else s
  end.

Fixpoint py_rstrip (s : string) : string :=
  match s with
  | EmptyString => EmptyString
  | String c s' =>
      match py_rstrip s' with
      | EmptyString => if py_isspace c then EmptyString else String c EmptyString
      | r => String c r
      end
  end.

Definition py_strip (s : string) : string := py_rstrip (py_lstrip s).

(** Characters of a string, as a predicate. *)
Fixpoint str_forall (f : ascii -> bool) (s : string) : bool :=
  match s with
  | EmptyString => true
  | String c s' => f c && str_forall f s'
  end.

Definition no_boundary (s : string) : bool :=
  str_forall (fun c => negb (is_line_boundary c)) s.

(** ** Generic facts *)

Lemma string_len_ind (P : string -> Prop) :
  (forall s, (forall t, String.length t < String.length s -> P t) -> P s) ->
  forall s, P s.
Proof.
  intros H. apply (well_founded_induction (Wf_nat.well_founded_ltof _ String.length)).
  exact H.
Qed.

Lemma string_app_cons c (s t : string) : String c s +:+ t = String c (s +:+ t).
Proof. reflexivity. Qed.

Lemma string_app_nil_r (s : string) : s +:+ EmptyString = s.
Proof. induction s as [|c s IH]; [done | (rewrite string_app_cons, IH; done)]. Qed.

(** One unfolding of [line_segments] on a non-empty string. *)
Lemma line_segments_String c s' :
  line_segments (String c s') =
    if Ascii.eqb c CR then
      match s' with
      | String d s'' =>
          if Ascii.eqb d LF then EmptyString :: line_segments s''
          else EmptyString :: line_segments s'
      | EmptyString => EmptyString :: line_segments s'
      end
    else if is_line_boundary c then EmptyString :: line_segments s'
    else
      match line_segments s' with
      | [] => [String c EmptyString]
      | l :: ls => String c l :: ls
      end.
Proof. reflexivity. Qed.

(** [lower] changes letters only, so it maps line boundaries to themselves. *)
Lemma py_lower_char_boundary c : is_line_boundary (py_lower_char c) = is_line_boundary c.
Proof. destruct c as [[] [] [] [] [] [] [] []]; reflexivity. Qed.

Lemma py_lower_char_CR c : Ascii.eqb (py_lower_char c) CR = Ascii.eqb c CR.
Proof. destruct c as [[] [] [] [] [] [] [] []]; reflexivity. Qed.

Lemma py_lower_char_LF c : Ascii.eqb (py_lower_char c) LF = Ascii.eqb c LF.
Proof. destruct c as [[] [] [] [] [] [] [] []]; reflexivity. Qed.

Lemma CR_boundary c : Ascii.eqb c CR = true -> is_line_boundary c = true.
Proof. intros ->%Ascii.eqb_eq. reflexivity. Qed.

#[export] Hint Rewrite py_lower_char_boundary py_lower_char_CR py_lower_char_LF
  string_app_nil_r : eks_rw.

(** ** Segments *)

Lemma line_segments_lower s :
  line_segments (py_lower s) = map py_lower (line_segments s).
Proof.
  induction s as [s IH] using string_len_ind. destruct s as [|c s']; [done|].
  cbn [py_lower]. rewrite (line_segments_String (py_lower_char c)), (line_segments_String c).
  rewrite py_lower_char_CR, py_lower_char_boundary.
  destruct (Ascii.eqb c CR) eqn:Hcr.
  - destruct s' as [|d s'']; cbn [py_lower]; [reflexivity|].
    rewrite py_lower_char_LF. destruct (Ascii.eqb d LF); cbn [map]; f_equal;
      [apply (IH s'') | apply (IH (String d s''))]; simpl; lia.
  - destruct (is_line_boundary c).
    + cbn [map]. f_equal. apply IH. simpl; lia.
    + rewrite (IH s') by (simpl; lia). by destruct (line_segments s').
Qed.

Lemma line_segments_no_boundary s :
  Forall (fun l => no_boundary l = true) (line_segments s).
Proof.
  induction s as [s IH] using string_len_ind. destruct s as [|c s']; [by repeat constructor|].
  rewrite line_segments_String.
  destruct (Ascii.eqb c CR) eqn:Hcr.
  - destruct s' as [|d s'']; [by repeat constructor|].
    destruct (Ascii.eqb d LF); (constructor; [done|]);
      [apply (IH s'') | apply (IH (String d s''))]; simpl; lia.
  - destruct (is_line_boundary c) eqn:Hb.
    + constructor; [done|]. apply IH. simpl; lia.
    + pose proof (IH s' ltac:(simpl; lia)) as Hs'.
      destruct (line_segments s') as [|l ls];
        [constructor; [|constructor] | inversion Hs'; subst; constructor; [|done]];
        unfold no_boundary in *; simpl; rewrite Hb; simpl; auto.
Qed.

(** The first segment is a prefix, followed by a boundary or by the end. *)
Lemma line_segments_head s :
  exists hd tl rest, line_segments s = hd :: tl /\ s = hd +:+ rest /\
    (rest = EmptyString \/ exists c r, rest = String c r /\ is_line_boundary c = true).
Proof.
  induction s as [|c s' IH]; [exists EmptyString, [], EmptyString; auto|].
  destruct (Ascii.eqb c CR) eqn:Hcr.
  - exists EmptyString, (List.tail (line_segments (String c s'))), (String c s').
    split; [| split; [done | right; eauto using CR_boundary]].
    rewrite line_segments_String, Hcr.
    destruct s' as [|d s'']; [|destruct (Ascii.eqb d LF)]; reflexivity.
  - rewrite line_segments_String, Hcr. destruct (is_line_boundary c) eqn:Hb.
    + exists EmptyString, (line_segments s'), (String c s'). split; [done | split; [done | right; eauto]].
    + destruct IH as (hd & tl & rest & -> & -> & Hrest).
      exists (String c hd), tl, rest. done.
Qed.

Lemma startswith_boundary w b r :
  w <> EmptyString -> no_boundary w = true -> is_line_boundary b = true ->
  py_startswith w (String b r) = false.
Proof.
  destruct w as [|a w']; [done|]. simpl. intros _ [Ha _]%andb_prop Hb.
  destruct (Ascii.eqb_spec a b); [subst; by rewrite Hb in Ha | done].
Qed.

Lemma startswith_app_boundary w hd rest :
  no_boundary w = true ->
  (rest = EmptyString \/ exists c r, rest = String c r /\ is_line_boundary c = true) ->
  py_startswith w (hd +:+ rest) = py_startswith w hd.
Proof.
  revert w. induction hd as [|b hd IH]; intros w Hw Hrest; simpl.
  - destruct w as [|a w']; [done|].
    destruct Hrest as [-> | (c & r & -> & Hc)]; [done|].
    by apply startswith_boundary.
  - rewrite string_app_cons. destruct w as [|a w']; [done|].
    simpl in Hw. apply andb_prop in Hw as [_ Hw]. cbn [py_startswith].
    by rewrite IH.
Qed.

(** A boundary-free needle occurs in a text iff it occurs in one segment. *)
Lemma contains_String w c s :
  py_contains w (String c s) = py_startswith w (String c s) || py_contains w s.
Proof. destruct w; reflexivity. Qed.

Lemma contains_empty w : w <> EmptyString -> py_contains w EmptyString = false.
Proof. by destruct w. Qed.

Lemma contains_segments w s :
  w <> EmptyString -> no_boundary w = true ->
  py_contains w s = existsb (py_contains w) (line_segments s).
Proof.
  intros Hw Hnb. induction s as [s IH] using string_len_ind.
  destruct s as [|c s']; [destruct w; [done|reflexivity]|].
  rewrite contains_String, line_segments_String, (IH s') by (simpl; lia).
  destruct (Ascii.eqb c CR) eqn:Hcr.
  - rewrite (startswith_boundary w c) by auto using CR_boundary.
    cbn [orb]. destruct s' as [|d s''];
      [| destruct (Ascii.eqb d LF) eqn:Hlf]; cbn [existsb];
      rewrite contains_empty by done; [reflexivity | | reflexivity].
    apply Ascii.eqb_eq in Hlf as ->.
    change (line_segments (String LF s'')) with (EmptyString :: line_segments s'').
    cbn [existsb]. by rewrite contains_empty.
  - destruct (is_line_boundary c) eqn:Hb.
    + rewrite (startswith_boundary w c) by done. cbn [existsb].
      by rewrite contains_empty.
    + destruct (line_segments_head s') as (hd & tl & rest & Hseg & Hs & Hrest).
      rewrite Hseg. rewrite Hs at 1. cbn [existsb].
      rewrite <- string_app_cons, (startswith_app_boundary w (String c hd) rest) by done.
      rewrite contains_String. by rewrite orb_assoc.
Qed.

Lemma line_segments_splitlines s :
  line_segments s = py_splitlines s \/ line_segments s = (py_splitlines s ++ [EmptyString])%list.
Proof.
  unfold py_splitlines. case_bool_decide as Hl; [|by left].
  right. apply last_Some in Hl as [l' Hl]. rewrite Hl. by rewrite removelast_last.
Qed.

(** [w in s.lower()] iff some line [l] of [s.splitlines()] has [w in l.lower()]. *)
Lemma contains_lower_splitlines w s :
  w <> EmptyString -> no_boundary w = true ->
  py_contains w (py_lower s) = existsb (fun l => py_contains w (py_lower l)) (py_splitlines s).
Proof.
  intros Hw Hnb. rewrite contains_segments by done. rewrite line_segments_lower.
  rewrite existsb_map.
  destruct (line_segments_splitlines s) as [-> | ->]; [done|].
  rewrite existsb_app. simpl. destruct w; [done|]. simpl. by rewrite !orb_false_r.
Qed.

(** ** Splitting what [join] built *)

Lemma line_segments_app_nb x s hd tl :
  no_boundary x = true -> line_segments s = hd :: tl ->
  line_segments (x +:+ s) = (x +:+ hd) :: tl.
Proof.
  intros Hx Hs. induction x as [|c x IH]; [done|].
  unfold no_boundary in Hx. cbn [str_forall] in Hx. apply andb_prop in Hx as [Hc Hx].
  apply negb_true_iff in Hc.
  rewrite !string_app_cons, line_segments_String, Hc.
  destruct (Ascii.eqb c CR) eqn:Hcr; [by rewrite CR_boundary in Hc|].
  by rewrite IH.
Qed.

Lemma line_segments_nb x : no_boundary x = true -> line_segments x = [x].
Proof.
  intros Hx. rewrite <- (string_app_nil_r x) at 1.
  rewrite (line_segments_app_nb x EmptyString EmptyString []) by done.
  by rewrite string_app_nil_r.
Qed.

Lemma line_segments_join ls :
  ls <> [] -> Forall (fun l => no_boundary l = true) ls ->
  line_segments (py_join nl ls) = ls.
Proof.
  induction ls as [|x [|y ls] IH]; intros Hne Hall; [done | |].
  - inversion Hall; subst. by apply line_segments_nb.
  - inversion Hall as [|? ? Hx Hrest]; subst.
    change (py_join nl (x :: y :: ls)) with (x +:+ String LF (py_join nl (y :: ls))).
    rewrite (line_segments_app_nb x _ EmptyString (y :: ls)); [by rewrite string_app_nil_r | done |].
    change (line_segments (String LF (py_join nl (y :: ls))))
      with (EmptyString :: line_segments (py_join nl (y :: ls))).
    rewrite IH; done.
Qed.

(** Round trip: splitting lines that [join] glued gives the lines back,
    when none is empty and none holds a line boundary. *)
Lemma splitlines_join ls :
  Forall (fun l => no_boundary l = true /\ l <> EmptyString) ls ->
  py_splitlines (py_join nl ls) = ls.
Proof.
  intros Hall. destruct ls as [|x ls]; [reflexivity|].
  unfold py_splitlines. rewrite line_segments_join; [| done |].
  - case_bool_decide as Hl; [|done]. exfalso.
    apply last_Some_elem_of in Hl. rewrite Forall_forall in Hall.
    by destruct (Hall _ Hl).
  - eapply Forall_impl; [exact Hall | by intros ? []].
Qed.

Lemma py_join_empty sep ls :
  Forall (fun l => l <> EmptyString) ls -> py_join sep ls = EmptyString -> ls = [].
Proof.
  intros Hall Hj. destruct ls as [|x [|y ls]]; [done | |]; inversion Hall; subst.
  - done.
  - destruct x; [done | discriminate].
Qed.

(** ** Whitespace *)

Lemma py_rstrip_empty s : py_rstrip s = EmptyString -> str_forall py_isspace s = true.
Proof.
  induction s as [|c s IH]; [done|]. cbn [py_rstrip str_forall].
  destruct (py_rstrip s) eqn:Hr; [|discriminate].
  destruct (py_isspace c); [|discriminate]. intros _. by apply IH.
Qed.

Lemma py_lstrip_forall s :
  str_forall py_isspace (py_lstrip s) = true -> str_forall py_isspace s = true.
Proof.
  induction s as [|c s IH]; [done|]. cbn [py_lstrip str_forall].
  destruct (py_isspace c) eqn:Hc; [done|]. by cbn [str_forall]; rewrite Hc.
Qed.

(** [not s.strip()] holds only of all-whitespace strings. *)
Lemma py_strip_empty s : py_strip s = EmptyString -> str_forall py_isspace s = true.
Proof. intros H. by apply py_lstrip_forall, py_rstrip_empty. Qed.

Lemma startswith_forall f w s :
  py_startswith w s = true -> str_forall f s = true -> str_forall f w = true.
Proof.
  revert s. induction w as [|a w IH]; intros [|b s]; cbn [py_startswith str_forall];
    try done.
  intros [->%Ascii.eqb_eq Hw]%andb_prop [Hb Hs]%andb_prop.
  rewrite Hb. eauto.
Qed.

(** A property of every character of [s] holds of every substring. *)
Lemma contains_forall f w s :
  py_contains w s = true -> str_forall f s = true -> str_forall f w = true.
Proof.
  induction s as [|c s IH].
  - destruct w; [done | discriminate].
  - rewrite contains_String. intros [Hst | Hc]%orb_true_iff Hs.
    + by eapply startswith_forall.
    + cbn [str_forall] in Hs. apply andb_prop in Hs as [_ Hs]. auto.
Qed.

Lemma str_forall_app f s t : str_forall f (s +:+ t) = str_forall f s && str_forall f t.
Proof.
  induction s as [|c s IH]; [done|]. rewrite string_app_cons. cbn [str_forall].
  by rewrite IH, andb_assoc.
Qed.

Lemma py_lower_char_isspace c : py_isspace (py_lower_char c) = py_isspace c.
Proof. destruct c as [[] [] [] [] [] [] [] []]; reflexivity. Qed.

Lemma str_forall_lower_isspace s :
  str_forall py_isspace (py_lower s) = str_forall py_isspace s.
Proof.
  induction s as [|c s IH]; [done|]. cbn [py_lower str_forall].
  by rewrite py_lower_char_isspace, IH.
Qed.

Lemma splitlines_no_boundary s : Forall (fun l => no_boundary l = true) (py_splitlines s).
Proof.
  pose proof (line_segments_no_boundary s) as H.
  destruct (line_segments_splitlines s) as [E|E]; rewrite E in H; [done|].
  by apply Forall_app in H as [H _].
Qed.

Lemma join_head_forall f sep x rest :
  str_forall f (py_join sep (x :: rest)) = true -> str_forall f x = true.
Proof.
  destruct rest as [|y rest]; [done|]. change (py_join sep (x :: y :: rest))
    with (x +:+ sep +:+ py_join sep (y :: rest)).
  rewrite str_forall_app. by intros [? _]%andb_prop.
Qed.
