(* ===== verification/Utf8.v ===== *)
(** * Utf8: [bytes.decode("utf-8", errors="replace")] and [str.encode()]

    [get_logs] and [get_manifest] (src/eks.py, lines 34-40) run [kubectl]
    and decode its standard output with [errors="replace"]; [hash_logs]
    (line 48) encodes a [str] back to UTF-8.  Both conversions are modelled
    as CPython 3.11 performs them (Objects/stringlib/codecs.h and
    Objects/unicodeobject.c):
    - [utf8_step]: one iteration of the decoder on the bytes [ch :: rest]:
      [Some] code point and the bytes after it, or [None] and the bytes
      after the invalid sequence, which CPython ends after the bytes that
      were still valid (invalid start byte: one byte; invalid continuation
      after [k] good bytes: [k] bytes; unexpected end of data: everything
      left);
    - [utf8_decode_replace]: the decoding loop, where the [replace] error
      handler writes U+FFFD for each invalid sequence;
    - [utf8_encode_cp], [utf8_encode]: [str.encode()], which raises on a
      surrogate code point ([None]).
    Bytes are integers in [0, 256); a Python [str] is its list of code
    points ([pystr]).

    The theorems: the decoder inverts the encoder, it only produces
    scalar values (so [.encode()] of a decoded text never raises), it never
    produces more code points than bytes, and it is exactly the U+FFFD
    substitution of maximal subparts of the Unicode standard (chapter 3.9).
    [PyStr.py_encode_utf8] is [utf8_encode] on Latin-1 strings. *)

From stdpp Require Import base list strings.
From Stdlib Require Import ZArith Lia Ascii.
From S2P Require Import Prelude PyStr.

Local Open Scope Z_scope.

(** A Python [str], as its code points. *)
Abbreviation pystr := (list Z).

(** The code points of a Latin-1 string. *)
Definition cps (s : string) : pystr :=
  map (fun c => Z.of_nat (nat_of_ascii c)) (String.list_ascii_of_string s).

Definition is_byte (b : Z) : Prop := 0 <= b < 256.

(** The code points a Python [str] can hold. *)
Definition in_unicode_range (c : Z) : Prop := 0 <= c <= 0x10FFFF.

(** [Py_UNICODE_IS_SURROGATE] *)
Definition is_surrogate (c : Z) : bool := (0xD800 <=? c) && (c <=? 0xDFFF).

Definition is_scalar (c : Z) : Prop := in_unicode_range c /\ is_surrogate c = false.

Definition REPLACEMENT_CHARACTER : Z := 0xFFFD.

Definition IS_CONTINUATION_BYTE (ch : Z) : bool := (0x80 <=? ch) && (ch <? 0xC0).

(** ** Decoding *)

(** One iteration of [utf8_decode] on [ch :: r0]. *)
Definition utf8_step (ch : Z) (r0 : list Z) : option Z * list Z :=
  if ch <? 0x80 then (Some ch, r0)
  else if ch <? 0xE0 then
    if ch <? 0xC2 then (None, r0)
    else match r0 with
      | [] => (None, [])
      | ch2 :: r1 =>
          if negb (IS_CONTINUATION_BYTE ch2) then (None, r0)
          else (Some (Z.shiftl ch 6 + ch2 - (Z.shiftl 0xC0 6 + 0x80)), r1)
      end
  else if ch <? 0xF0 then
    match r0 with
    | [] => (None, [])
    | ch2 :: r1 =>
        if negb (IS_CONTINUATION_BYTE ch2) || (if ch2 <? 0xA0 then ch =? 0xE0 else ch =? 0xED)
        then (None, r0)
        else match r1 with
          | [] => (None, [])
          | ch3 :: r2 =>
              if negb (IS_CONTINUATION_BYTE ch3) then (None, r1)
              else (Some (Z.shiftl ch 12 + Z.shiftl ch2 6 + ch3 -
                          (Z.shiftl 0xE0 12 + Z.shiftl 0x80 6 + 0x80)), r2)
          end
    end
  else if ch <? 0xF5 then
    match r0 with
    | [] => (None, [])
    | ch2 :: r1 =>
        if negb (IS_CONTINUATION_BYTE ch2) || (if ch2 <? 0x90 then ch =? 0xF0 else ch =? 0xF4)
        then (None, r0)
        else match r1 with
          | [] => (None, [])
          | ch3 :: r2 =>
              if negb (IS_CONTINUATION_BYTE ch3) then (None, r1)
              else match r2 with
                | [] => (None, [])
                | ch4 :: r3 =>
                    if negb (IS_CONTINUATION_BYTE ch4) then (None, r2)
                    else (Some (Z.shiftl ch 18 + Z.shiftl ch2 12 + Z.shiftl ch3 6 + ch4 -
                                (Z.shiftl 0xF0 18 + Z.shiftl 0x80 12 + Z.shiftl 0x80 6 + 0x80)), r3)
                end
          end
    end
  else (None, r0).

(** The decoding loop; [fuel] bounds the iterations and the length of
    the input is enough ([utf8_decode_fuel_enough]). *)
Fixpoint utf8_decode_fuel (fuel : nat) (bs : list Z) : pystr :=
  match fuel, bs with
  | _, [] => []
  | O, _ :: _ => []
  | S n, ch :: r =>
      let '(c, rest) := utf8_step ch r in
      default REPLACEMENT_CHARACTER c :: utf8_decode_fuel n rest
  end.

(** [bs.decode("utf-8", errors="replace")] *)
Definition utf8_decode_replace (bs : list Z) : pystr := utf8_decode_fuel (length bs) bs.

(** [bs.decode("utf-8")] with the default [strict] error handler: [None]
    is the [UnicodeDecodeError] raised at the first invalid sequence. *)
Fixpoint utf8_decode_strict_fuel (fuel : nat) (bs : list Z) : option pystr :=
  match fuel, bs with
  | _, [] => Some []
  | O, _ :: _ => None
  | S n, ch :: r =>
      let '(c, rest) := utf8_step ch r in
      c' ← c; cs ← utf8_decode_strict_fuel n rest; Some (c' :: cs)
  end.

Definition utf8_decode_strict (bs : list Z) : option pystr := utf8_decode_strict_fuel (length bs) bs.

(** ** Encoding *)

(** One code point of [str.encode()]. *)
Definition utf8_encode_cp (ch : Z) : option (list Z) :=
  if ch <? 0x80 then Some [ch]
  else if ch <? 0x800 then Some [Z.lor 0xC0 (Z.shiftr ch 6); Z.lor 0x80 (Z.land ch 0x3F)]
  else if is_surrogate ch then None
  else if ch <? 0x10000 then
    Some [Z.lor 0xE0 (Z.shiftr ch 12); Z.lor 0x80 (Z.land (Z.shiftr ch 6) 0x3F);
          Z.lor 0x80 (Z.land ch 0x3F)]
  else
    Some [Z.lor 0xF0 (Z.shiftr ch 18); Z.lor 0x80 (Z.land (Z.shiftr ch 12) 0x3F);
          Z.lor 0x80 (Z.land (Z.shiftr ch 6) 0x3F); Z.lor 0x80 (Z.land ch 0x3F)].

(** [s.encode()]: [None] is the [UnicodeEncodeError] of a surrogate. *)
Fixpoint utf8_encode (s : pystr) : option (list Z) :=
  match s with
  | [] => Some []
  | c :: s' => b1 ← utf8_encode_cp c; b2 ← utf8_encode s'; Some (b1 ++ b2)
  end.

(** ** The encoder in arithmetic form *)

Lemma lor_C0 x : 0 <= x < 64 -> Z.lor 0xC0 x = 0xC0 + x.
Proof. intros. apply (lor_disjoint _ _ 6); [lia | reflexivity | cbn; lia]. Qed.
Lemma lor_80 x : 0 <= x < 64 -> Z.lor 0x80 x = 0x80 + x.
Proof. intros. apply (lor_disjoint _ _ 6); [lia | reflexivity | cbn; lia]. Qed.
Lemma lor_E0 x : 0 <= x < 16 -> Z.lor 0xE0 x = 0xE0 + x.
Proof. intros. apply (lor_disjoint _ _ 4); [lia | reflexivity | cbn; lia]. Qed.
Lemma lor_F0 x : 0 <= x < 8 -> Z.lor 0xF0 x = 0xF0 + x.
Proof. intros. apply (lor_disjoint _ _ 3); [lia | reflexivity | cbn; lia]. Qed.

Lemma utf8_encode_cp_arith c :
  in_unicode_range c ->
  utf8_encode_cp c =
    if c <? 0x80 then Some [c]
    else if c <? 0x800 then Some [0xC0 + c / 64; 0x80 + c mod 64]
    else if is_surrogate c then None
    else if c <? 0x10000 then Some [0xE0 + c / 4096; 0x80 + (c / 64) mod 64; 0x80 + c mod 64]
    else Some [0xF0 + c / 262144; 0x80 + (c / 4096) mod 64; 0x80 + (c / 64) mod 64;
               0x80 + c mod 64].
Proof.
  unfold in_unicode_range, utf8_encode_cp. intros Hc.
  rewrite !Z.shiftr_div_pow2 by lia. change 0x3F with (Z.ones 6).
  rewrite !Z.land_ones by lia. change (2 ^ 6) with 64. change (2 ^ 12) with 4096.
  change (2 ^ 18) with 262144.
  destruct (is_surrogate c); zcase; try reflexivity;
    rewrite ?lor_C0, ?lor_E0, ?lor_F0, ?lor_80 by zdiv_lia; reflexivity.
Qed.

(** ** The decoding loop *)

Ltac solve_suffix := first [reflexivity | apply suffix_nil | apply suffix_cons_r; solve_suffix].

Lemma utf8_step_suffix ch r : (utf8_step ch r).2 `suffix_of` r.
Proof. unfold utf8_step. repeat case_match; cbn; solve_suffix. Qed.

Lemma utf8_step_length ch r : (length (utf8_step ch r).2 <= length r)%nat.
Proof. apply suffix_length, utf8_step_suffix. Qed.

Lemma utf8_decode_fuel_irrel n m bs :
  (length bs <= n)%nat -> (length bs <= m)%nat -> utf8_decode_fuel n bs = utf8_decode_fuel m bs.
Proof.
  revert m bs. induction n as [|n IH]; intros [|m] [|ch r] Hn Hm; cbn in *; try done; try lia.
  pose proof (utf8_step_length ch r). destruct (utf8_step ch r) as [c rest].
  f_equal. apply IH; cbn in *; lia.
Qed.

Lemma utf8_decode_fuel_enough n bs :
  (length bs <= n)%nat -> utf8_decode_fuel n bs = utf8_decode_replace bs.
Proof. intros. by apply utf8_decode_fuel_irrel. Qed.

Lemma utf8_decode_replace_nil : utf8_decode_replace [] = [].
Proof. reflexivity. Qed.

Lemma utf8_decode_replace_cons ch r :
  utf8_decode_replace (ch :: r) =
    default REPLACEMENT_CHARACTER (utf8_step ch r).1 :: utf8_decode_replace (utf8_step ch r).2.
Proof.
  unfold utf8_decode_replace at 1. cbn [length utf8_decode_fuel].
  pose proof (utf8_step_length ch r). destruct (utf8_step ch r) as [c rest].
  f_equal. by apply utf8_decode_fuel_enough.
Qed.

#[export] Hint Rewrite utf8_decode_replace_nil utf8_decode_replace_cons : eks_rw.

(** Induction following the decoder: one step at a time. *)
Lemma utf8_decode_rect (P : list Z -> Prop) :
  P [] -> (forall ch r, P (utf8_step ch r).2 -> P (ch :: r)) -> forall bs, P bs.
Proof.
  intros Hnil Hcons bs. remember (length bs) as n eqn:Hn. revert bs Hn.
  induction n as [n IH] using lt_wf_ind. intros [|ch r] ->; [done|].
  apply Hcons, (IH (length (utf8_step ch r).2)); [|done].
  pose proof (utf8_step_length ch r). cbn. lia.
Qed.

Lemma Forall_utf8_step (P : Z -> Prop) ch r : Forall P r -> Forall P (utf8_step ch r).2.
Proof.
  intros H. destruct (utf8_step_suffix ch r) as [k Hk]. rewrite Hk in H. by apply Forall_app in H as [_ ?].
Qed.

(** ** One step against the encoder *)

Ltac step_cases :=
  unfold utf8_step, IS_CONTINUATION_BYTE; rewrite ?Z.shiftl_mul_pow2 by lia;
  change (2 ^ 6) with 64 in *; change (2 ^ 12) with 4096 in *; change (2 ^ 18) with 262144 in *.

(** The bytes of a scalar value decode to it, whatever follows. *)
Lemma utf8_step_encode c b bs rest :
  is_scalar c -> utf8_encode_cp c = Some (b :: bs) -> utf8_step b (bs ++ rest) = (Some c, rest).
Proof.
  intros [Hc Hs]. rewrite utf8_encode_cp_arith by done. rewrite Hs.
  unfold is_surrogate in Hs. unfold in_unicode_range in Hc.
  zcase; intros [= <- <-]; cbn [app]; step_cases; zcase;
    try (exfalso; zdiv_lia); do 2 f_equal; zdiv_lia.
Qed.

(** A decoded code point is a scalar value and its bytes are the ones read. *)
Lemma utf8_step_sound ch r c rest :
  is_byte ch -> utf8_step ch r = (Some c, rest) ->
  is_scalar c /\ exists bs, utf8_encode_cp c = Some bs /\ ch :: r = bs ++ rest.
Proof.
  unfold is_byte, is_scalar, in_unicode_range. intros Hch.
  destruct r as [|ch2 [|ch3 [|ch4 r]]]; step_cases; zcase; intros [= <- <-];
    (split; [split; [zdiv_lia | unfold is_surrogate; zcase; first [reflexivity | exfalso; zdiv_lia]]|]);
    (rewrite utf8_encode_cp_arith by (unfold in_unicode_range; zdiv_lia));
    unfold is_surrogate; zcase; try (exfalso; zdiv_lia);
    (eexists; split; [reflexivity|]); cbn [app]; repeat f_equal; zdiv_lia.
Qed.

Lemma utf8_encode_cp_Some c bs : utf8_encode_cp c = Some bs -> is_surrogate c = false /\ bs <> [].
Proof. unfold utf8_encode_cp, is_surrogate. zcase; intros [= <-]; split; try done; lia. Qed.

Lemma utf8_encode_cp_scalar c : is_scalar c -> is_Some (utf8_encode_cp c).
Proof. intros [Hc Hs]. unfold utf8_encode_cp. rewrite Hs. zcase; eauto. Qed.

Lemma REPLACEMENT_CHARACTER_scalar : is_scalar REPLACEMENT_CHARACTER.
Proof. split; [unfold in_unicode_range, REPLACEMENT_CHARACTER; lia | reflexivity]. Qed.

(** ** The decoder against the encoder *)

(** Decoding the encoding of a string, followed by any bytes. *)
Lemma utf8_decode_encode_app s bs rest :
  Forall in_unicode_range s -> utf8_encode s = Some bs ->
  utf8_decode_replace (bs ++ rest) = s ++ utf8_decode_replace rest.
Proof.
  revert bs. induction s as [|c s IH]; intros bs Hs Henc; cbn in Henc.
  - by injection Henc as <-.
  - apply Forall_cons in Hs as [Hc Hs].
    destruct (utf8_encode_cp c) as [b1|] eqn:E1; [|done]. cbn in Henc.
    destruct (utf8_encode s) as [b2|] eqn:E2; [|done]. injection Henc as <-.
    destruct (utf8_encode_cp_Some c b1 E1) as [Hsur Hne].
    destruct b1 as [|b b1]; [done|].
    rewrite <- app_assoc, <- app_comm_cons, utf8_decode_replace_cons,
      (utf8_step_encode c b b1 _ (conj Hc Hsur) E1).
    cbn. f_equal. by apply IH.
Qed.

Lemma utf8_decode_scalars bs : Forall is_byte bs -> Forall is_scalar (utf8_decode_replace bs).
Proof.
  induction bs as [|ch r IH] using utf8_decode_rect; intros Hbs; rewrite ?utf8_decode_replace_cons;
    [constructor|]. apply Forall_cons in Hbs as [Hch Hr].
  constructor; [|by apply IH, Forall_utf8_step].
  destruct (utf8_step ch r) as [[c|] rest] eqn:E; cbn; [|apply REPLACEMENT_CHARACTER_scalar].
  exact (proj1 (utf8_step_sound ch r c rest Hch E)).
Qed.

Lemma utf8_decode_length bs : (length (utf8_decode_replace bs) <= length bs)%nat.
Proof.
  induction bs as [|ch r IH] using utf8_decode_rect; [done|].
  rewrite utf8_decode_replace_cons. pose proof (utf8_step_length ch r). cbn. lia.
Qed.

Lemma utf8_encode_scalars s : Forall is_scalar s -> is_Some (utf8_encode s).
Proof.
  induction 1 as [|c s Hc _ [b2 Hb2]]; [eauto|].
  destruct (utf8_encode_cp_scalar c Hc) as [b1 Hb1]. cbn. rewrite Hb1, Hb2. eauto.
Qed.

(** [PyStr.py_encode_utf8] is [str.encode()] on Latin-1 strings. *)
Lemma py_encode_utf8_spec s : utf8_encode (cps s) = Some (py_encode_utf8 s).
Proof.
  induction s as [|a s IH]; [done|]. cbn [cps map String.list_ascii_of_string utf8_encode].
  pose proof (nat_ascii_bounded a) as Ha.
  rewrite utf8_encode_cp_arith by (unfold in_unicode_range; lia).
  fold (cps s). rewrite IH. unfold py_encode_utf8. cbn [map concat String.list_ascii_of_string].
  unfold is_surrogate. zcase; try lia; reflexivity.
Qed.

(** ** The specification: substitution of maximal subparts

    Unicode 15, section 3.9 (U+FFFD Substitution of Maximal Subparts): a
    decoder reads a well-formed sequence as its scalar value, and
    otherwise replaces the maximal subpart at the head of the input, the
    longest prefix that is an initial subsequence of a well-formed
    sequence, or a single byte when there is none, by one U+FFFD. *)

(** [p] begins the encoding of some scalar value. *)
Definition initial_subsequence (p : list Z) : Prop :=
  exists c bs, is_scalar c /\ utf8_encode_cp c = Some bs /\ p `prefix_of` bs.

(** [p] is the maximal subpart at the head of [p ++ rest]. *)
Definition maximal_subpart (p rest : list Z) : Prop :=
  p <> [] /\ (initial_subsequence p \/ length p = 1%nat) /\
  (forall b rest', rest = b :: rest' -> ~ initial_subsequence (p ++ [b])).

Inductive decodes : list Z -> pystr -> Prop :=
| decodes_nil : decodes [] []
| decodes_scalar c bs rest cs :
    is_scalar c -> utf8_encode_cp c = Some bs -> decodes rest cs -> decodes (bs ++ rest) (c :: cs)
| decodes_subpart p rest cs :
    (forall c bs, is_scalar c -> utf8_encode_cp c = Some bs -> ~ bs `prefix_of` (p ++ rest)) ->
    maximal_subpart p rest -> decodes rest cs ->
    decodes (p ++ rest) (REPLACEMENT_CHARACTER :: cs).

Lemma initial_subsequence_app p q : initial_subsequence (p ++ q) -> initial_subsequence p.
Proof.
  intros (c & bs & Hc & E & Hp). exists c, bs. split_and!; [done | done |].
  by apply prefix_app_l in Hp.
Qed.

(** A prefix on which the decoder succeeds begins an encoding. *)
Lemma initial_of_step ch k filler :
  is_byte ch -> (utf8_step ch (k ++ filler)).1 <> None ->
  (length (utf8_step ch (k ++ filler)).2 <= length filler)%nat -> initial_subsequence (ch :: k).
Proof.
  intros Hch Hok Hlen. destruct (utf8_step ch (k ++ filler)) as [[c|] rest] eqn:E; [|done].
  destruct (utf8_step_sound _ _ _ _ Hch E) as (Hc & bs & Hbs & Hsplit).
  exists c, bs. split_and!; [done | done |]. cbn in Hlen.
  assert (Hl := f_equal length Hsplit). rewrite length_app in Hl. cbn in Hl. rewrite length_app in Hl.
  destruct (prefix_weak_total (ch :: k) bs (ch :: k ++ filler)) as [|Hp];
    [by exists filler | rewrite Hsplit; by exists rest | done |].
  rewrite (prefix_length_eq bs (ch :: k)); [done | done | cbn; lia].
Qed.

(** A byte on which the decoder fails does not continue an encoding. *)
Lemma not_initial_of_step ch k b :
  (forall X, (utf8_step ch (k ++ b :: X)).1 = None) -> ~ initial_subsequence (ch :: k ++ [b]).
Proof.
  intros Hfail (c & bs & Hc & E & [m ->]).
  pose proof (utf8_step_encode c ch ((k ++ [b]) ++ m) [] Hc E) as Hs.
  rewrite app_nil_r, <- app_assoc in Hs. cbn in Hs. specialize (Hfail m). by rewrite Hs in Hfail.
Qed.

Ltac step_result := cbn [app]; step_cases; zdecide; cbn.

Ltac maximal_subpart_tac :=
  split; [done|]; split;
  [ first [ right; reflexivity
          | left; apply (initial_of_step _ _ [0x80; 0x80]);
            [unfold is_byte; lia | step_result; discriminate | step_result; lia] ]
  | first [ solve [intros ? ? [=]]
          | intros b rest' Heq; injection Heq as Hb _; subst b;
            lazymatch goal with |- ~ initial_subsequence ((?ch :: ?k) ++ [?b]) =>
              apply (not_initial_of_step ch k b); intros X; step_result; reflexivity end ] ].

(** A failing step consumes exactly the maximal subpart. *)
Lemma utf8_step_None ch r rest :
  is_byte ch -> utf8_step ch r = (None, rest) ->
  exists p, ch :: r = p ++ rest /\ maximal_subpart p rest.
Proof.
  unfold is_byte. intros Hch.
  destruct r as [|ch2 [|ch3 [|ch4 r]]]; step_cases; zcase; try (exfalso; lia); intros [= <-];
    first [ exists [ch]; split; [reflexivity|]
          | exists [ch; ch2]; split; [reflexivity|]
          | exists [ch; ch2; ch3]; split; [reflexivity|]
          | exists [ch; ch2; ch3; ch4]; split; [reflexivity|] ];
    maximal_subpart_tac.
Qed.

(** Two maximal subparts at the head of the same input are equal. *)
Lemma maximal_subpart_prefix p rest p' rest' :
  p ++ rest = p' ++ rest' -> p `prefix_of` p' ->
  maximal_subpart p rest -> maximal_subpart p' rest' -> p = p'.
Proof.
  intros Heq Hpre (Hne & _ & Hmax) (_ & Hinit' & _).
  destruct Hpre as [[|b m] ->]; [by rewrite app_nil_r|].
  exfalso. rewrite <- app_assoc in Heq. apply app_inv_head in Heq. cbn in Heq.
  apply (Hmax b (m ++ rest') Heq).
  destruct Hinit' as [Hi | Hl].
  - apply (initial_subsequence_app _ m). by rewrite <- app_assoc.
  - rewrite length_app in Hl. cbn in Hl. destruct p; cbn in Hl; [done | lia].
Qed.

Lemma maximal_subpart_unique p rest p' rest' :
  p ++ rest = p' ++ rest' -> maximal_subpart p rest -> maximal_subpart p' rest' -> p = p'.
Proof.
  intros Heq Hm Hm'.
  destruct (prefix_weak_total p p' (p ++ rest)) as [Hp | Hp];
    [by exists rest | rewrite Heq; by exists rest' | |].
  - exact (maximal_subpart_prefix _ _ _ _ Heq Hp Hm Hm').
  - symmetry. exact (maximal_subpart_prefix _ _ _ _ (eq_sym Heq) Hp Hm' Hm).
Qed.

(** No encoding of a scalar value begins where a step fails. *)
Lemma utf8_step_None_no_scalar ch r rest c bs :
  utf8_step ch r = (None, rest) -> is_scalar c -> utf8_encode_cp c = Some bs ->
  ~ bs `prefix_of` (ch :: r).
Proof.
  intros E Hc Hbs [m Hm]. destruct (utf8_encode_cp_Some c bs Hbs) as [_ Hne].
  destruct bs as [|b bt]; [done|]. injection Hm as -> ->.
  by rewrite (utf8_step_encode c b bt m Hc Hbs) in E.
Qed.

(** The decoder's output is a decoding. *)
Lemma decodes_utf8_decode_replace bs : Forall is_byte bs -> decodes bs (utf8_decode_replace bs).
Proof.
  induction bs as [|ch r IH] using utf8_decode_rect; intros Hbs; [constructor|].
  apply Forall_cons in Hbs as [Hch Hr]. rewrite utf8_decode_replace_cons.
  specialize (IH (Forall_utf8_step _ ch r Hr)).
  destruct (utf8_step ch r) as [[c|] rest] eqn:E; cbn in IH |- *.
  - destruct (utf8_step_sound ch r c rest Hch E) as (Hc & bs & Hbs & ->).
    by apply decodes_scalar.
  - destruct (utf8_step_None ch r rest Hch E) as (p & Hsplit & Hmax). rewrite Hsplit.
    apply decodes_subpart; [|done|done].
    intros c bs Hc Hbs. rewrite <- Hsplit. exact (utf8_step_None_no_scalar ch r rest c bs E Hc Hbs).
Qed.

(** Every decoding is the decoder's output. *)
Lemma decodes_functional bs cs : decodes bs cs -> Forall is_byte bs -> cs = utf8_decode_replace bs.
Proof.
  induction 1 as [|c bs rest cs Hc Hbs _ IH|p rest cs Hnone Hmax _ IH]; intros Hbytes; [done| |].
  - apply Forall_app in Hbytes as [_ Hr].
    destruct (utf8_encode_cp_Some c bs Hbs) as [_ Hne]. destruct bs as [|b bt]; [done|].
    rewrite <- app_comm_cons, utf8_decode_replace_cons, (utf8_step_encode c b bt rest Hc Hbs).
    cbn. f_equal. by apply IH.
  - apply Forall_app in Hbytes as [Hp Hr]. pose proof (proj1 Hmax) as Hne.
    destruct p as [|ch k]; [done|]. apply Forall_cons in Hp as [Hch _].
    rewrite <- app_comm_cons, utf8_decode_replace_cons.
    destruct (utf8_step ch (k ++ rest)) as [[c|] rest''] eqn:E.
    + exfalso. destruct (utf8_step_sound _ _ _ _ Hch E) as (Hc & bs & Hbs & Hsplit).
      apply (Hnone c bs Hc Hbs). rewrite <- app_comm_cons, Hsplit. by exists rest''.
    + destruct (utf8_step_None _ _ _ Hch E) as (p' & Hsplit & Hmax').
      rewrite app_comm_cons in Hsplit.
      pose proof (maximal_subpart_unique _ _ _ _ Hsplit Hmax Hmax') as <-.
      apply app_inv_head in Hsplit as <-. cbn. f_equal. by apply IH.
Qed.

(** A decoding without U+FFFD re-encodes to the bytes decoded. *)
Lemma utf8_decode_reencode bs :
  Forall is_byte bs -> REPLACEMENT_CHARACTER ∉ utf8_decode_replace bs ->
  utf8_encode (utf8_decode_replace bs) = Some bs.
Proof.
  induction bs as [|ch r IH] using utf8_decode_rect; intros Hbs Hno; [done|].
  apply Forall_cons in Hbs as [Hch Hr]. rewrite utf8_decode_replace_cons in Hno |- *.
  specialize (IH (Forall_utf8_step _ ch r Hr)).
  destruct (utf8_step ch r) as [[c|] rest] eqn:E; cbn in IH, Hno |- *; [|by destruct Hno; left].
  destruct (utf8_step_sound ch r c rest Hch E) as (_ & bs & Hbs & Hsplit).
  rewrite Hbs, IH; [cbn; by rewrite Hsplit|]. intros Hin. apply Hno. by right.
Qed.

(** What the strict decoder returns encodes back to its input. *)
Lemma utf8_decode_strict_sound n bs cs :
  Forall is_byte bs -> utf8_decode_strict_fuel n bs = Some cs ->
  Forall is_scalar cs /\ utf8_encode cs = Some bs.
Proof.
  revert bs cs. induction n as [|n IH]; intros [|ch r] cs Hbs H; cbn in H;
    try (by injection H as <-); try discriminate.
  apply Forall_cons in Hbs as [Hch Hr]. pose proof (Forall_utf8_step _ ch r Hr) as Hrest.
  destruct (utf8_step ch r) as [[c|] rest] eqn:E; [|discriminate]. cbn in H, Hrest.
  destruct (utf8_decode_strict_fuel n rest) as [cs'|] eqn:E2; [|discriminate]. injection H as <-.
  destruct (utf8_step_sound ch r c rest Hch E) as (Hc & b & Hb & Hsplit).
  destruct (IH rest cs' Hrest E2) as [Hs' He']. split; [by constructor|].
  cbn. rewrite Hb, He'. cbn. by rewrite Hsplit.
Qed.

(** The strict decoder reads back every encoding, with the fuel of its length. *)
Lemma utf8_decode_strict_encode s bs n :
  Forall in_unicode_range s -> utf8_encode s = Some bs -> (length bs <= n)%nat ->
  utf8_decode_strict_fuel n bs = Some s.
Proof.
  revert bs n. induction s as [|c s IH]; intros bs n Hs Henc Hn; cbn in Henc.
  - injection Henc as <-. by destruct n.
  - apply Forall_cons in Hs as [Hc Hs].
    destruct (utf8_encode_cp c) as [b1|] eqn:E1; [|done]. cbn in Henc.
    destruct (utf8_encode s) as [b2|] eqn:E2; [|done]. injection Henc as <-.
    destruct (utf8_encode_cp_Some c b1 E1) as [Hsur Hne].
    destruct b1 as [|b b1]; [done|]. destruct n as [|n]; [cbn in Hn; lia|].
    rewrite <- app_comm_cons. cbn [utf8_decode_strict_fuel].
    rewrite (utf8_step_encode c b b1 _ (conj Hc Hsur) E1). cbn.
    rewrite (IH b2 n Hs eq_refl); [done|]. rewrite length_app in Hn. cbn in Hn. lia.
Qed.

Lemma cps_bounded s : Forall (fun c => 0 <= c < 256) (cps s).
Proof.
  apply Forall_forall. intros c Hc. unfold cps in Hc.
  apply list_elem_of_fmap_1 in Hc as (a & -> & _). pose proof (nat_ascii_bounded a). lia.
Qed.

(** [s.encode().decode("utf-8", errors="replace")] on a Latin-1 string. *)
Lemma utf8_decode_py_encode s : utf8_decode_replace (py_encode_utf8 s) = cps s.
Proof.
  assert (Hr : Forall in_unicode_range (cps s)).
  { eapply Forall_impl; [apply cps_bounded | unfold in_unicode_range; cbn; lia]. }
  rewrite <- (app_nil_r (py_encode_utf8 s)).
  by rewrite (utf8_decode_encode_app (cps s) _ [] Hr (py_encode_utf8_spec s)), !app_nil_r.
Qed.

(** ** [get_logs] and [get_manifest] (lines 34-40) *)

Section Kubectl.
Local Open Scope string_scope.

(** What [subprocess.run] captures on the standard output of [kubectl]
    for an argument vector. *)
Context (kubectl_stdout : list string -> list Z).

Definition get_logs (pod_name namespace : string) : pystr :=
  utf8_decode_replace (kubectl_stdout ["kubectl"; "logs"; pod_name; "-n"; namespace]).

Definition get_manifest (pod_name namespace : string) : pystr :=
  utf8_decode_replace
    (kubectl_stdout ["kubectl"; "get"; "pod"; pod_name; "-n"; namespace; "-o"; "yaml"]).

End Kubectl.

(** ** Properties *)

Section Properties.
Local Open Scope string_scope.

(** C21: Refinement of the Unicode specification: on any bytes, a list of
    code points is a decoding by substitution of maximal subparts
    ([decodes]) exactly when it is what [bytes.decode("utf-8",
    errors="replace")] returns; so each well-formed sequence becomes its
    scalar value and each maximal ill-formed subpart one U+FFFD. *)
Theorem utf8_decode_maximal_subparts bs cs :
  Forall is_byte bs -> decodes bs cs <-> cs = utf8_decode_replace bs.
Proof.
  intros Hbs. split; [intros H; exact (decodes_functional bs cs H Hbs)|].
  intros ->. exact (decodes_utf8_decode_replace bs Hbs).
Qed.

(** Round trip: decoding the UTF-8 encoding [str.encode()] of any
    string gives the string back. *)
Theorem utf8_roundtrip s bs :
  Forall in_unicode_range s -> utf8_encode s = Some bs -> utf8_decode_replace bs = s.
Proof.
  intros Hs Hbs. rewrite <- (app_nil_r bs), (utf8_decode_encode_app s bs [] Hs Hbs). apply app_nil_r.
Qed.

(** The text [get_logs] returns holds only Unicode scalar values (no
    surrogate), at most one per byte [kubectl] wrote, so [.encode()] of
    it (as [hash_logs] does) never raises. *)
Theorem get_logs_scalars run pod_name namespace :
  Forall is_byte (run ["kubectl"; "logs"; pod_name; "-n"; namespace]) ->
  Forall is_scalar (get_logs run pod_name namespace) /\
  (length (get_logs run pod_name namespace) <=
     length (run ["kubectl"; "logs"; pod_name; "-n"; namespace]))%nat /\
  is_Some (utf8_encode (get_logs run pod_name namespace)).
Proof.
  intros Hb. unfold get_logs. pose proof (utf8_decode_scalars _ Hb) as Hs.
  split_and!; [done | apply utf8_decode_length | by apply utf8_encode_scalars].
Qed.

(** C27: The log texts the Latin-1 model of the rest of the development
    holds are exactly the decodings of their UTF-8 encodings: [get_logs]
    returns the code points of [s] iff [kubectl] wrote [s.encode()]. *)
Theorem get_logs_latin1 run pod_name namespace s :
  Forall is_byte (run ["kubectl"; "logs"; pod_name; "-n"; namespace]) ->
  get_logs run pod_name namespace = cps s <->
  run ["kubectl"; "logs"; pod_name; "-n"; namespace] = py_encode_utf8 s.
Proof.
  intros Hb. unfold get_logs. split.
  - intros Hd. assert (Hno : REPLACEMENT_CHARACTER ∉ utf8_decode_replace
                               (run ["kubectl"; "logs"; pod_name; "-n"; namespace])).
    { rewrite Hd. intros Hin. pose proof (proj1 (Forall_forall _ _) (cps_bounded s) _ Hin).
      unfold REPLACEMENT_CHARACTER in *. lia. }
    pose proof (utf8_decode_reencode _ Hb Hno) as He. rewrite Hd, py_encode_utf8_spec in He.
    by injection He.
  - intros ->. apply utf8_decode_py_encode.
Qed.

End Properties.

(** ** Concrete runs, checked against CPython 3.11 *)

Example utf8_decode_cpython_sample :
  utf8_decode_replace [0xE0; 0x80; 0xAF; 0xED; 0xA0; 0x80; 0xF0; 0x90; 0x80; 0xF4; 0x90;
                       0x61; 0x62; 0x63; 0xE2; 0x82] =
  [0xFFFD; 0xFFFD; 0xFFFD; 0xFFFD; 0xFFFD; 0xFFFD; 0xFFFD; 0xFFFD; 0xFFFD; 0x61; 0x62; 0x63; 0xFFFD].
Proof. vm_compute. reflexivity. Qed.

(** Bytes that differ only in invalid sequences decode to the same text. *)
Example get_logs_replacement_collision :
  utf8_decode_replace [0x65; 0x72; 0x72; 0xFF] = utf8_decode_replace [0x65; 0x72; 0x72; 0xC0].
Proof. vm_compute. reflexivity. Qed.

Definition sample_stdout : list string -> list Z := fun _ => [0x65; 0x72; 0x72; 0xFF; 0xE2; 0x82; 0xAC].

Lemma utf8_decode_maximal_subparts_witness :
  Forall is_byte [0x61; 0xE0; 0x80; 0xAF; 0xED; 0xA0; 0x80; 0xF0; 0x90; 0x80; 0xE2; 0x82] /\
  decodes [0x61; 0xE0; 0x80; 0xAF; 0xED; 0xA0; 0x80; 0xF0; 0x90; 0x80; 0xE2; 0x82]
          [0x61; 0xFFFD; 0xFFFD; 0xFFFD; 0xFFFD; 0xFFFD; 0xFFFD; 0xFFFD; 0xFFFD].
Proof.
  assert (Hb : Forall is_byte [0x61; 0xE0; 0x80; 0xAF; 0xED; 0xA0; 0x80; 0xF0; 0x90; 0x80; 0xE2; 0x82])
    by (repeat constructor; unfold is_byte; lia).
  split; [exact Hb|]. apply (utf8_decode_maximal_subparts _ _ Hb). vm_compute. reflexivity.
Defined.

Lemma utf8_roundtrip_witness :
  Forall in_unicode_range [0x48; 0xE9; 0x20AC; 0x1F600] /\
  utf8_encode [0x48; 0xE9; 0x20AC; 0x1F600] =
    Some [0x48; 0xC3; 0xA9; 0xE2; 0x82; 0xAC; 0xF0; 0x9F; 0x98; 0x80] /\
  utf8_decode_replace [0x48; 0xC3; 0xA9; 0xE2; 0x82; 0xAC; 0xF0; 0x9F; 0x98; 0x80] =
    [0x48; 0xE9; 0x20AC; 0x1F600].
Proof.
  assert (Hs : Forall in_unicode_range [0x48; 0xE9; 0x20AC; 0x1F600])
    by (repeat constructor; unfold in_unicode_range; lia).
  assert (He : utf8_encode [0x48; 0xE9; 0x20AC; 0x1F600] =
                 Some [0x48; 0xC3; 0xA9; 0xE2; 0x82; 0xAC; 0xF0; 0x9F; 0x98; 0x80])
    by (vm_compute; reflexivity).
  split; [exact Hs|]. split; [exact He|]. exact (utf8_roundtrip _ _ Hs He).
Defined.

Lemma get_logs_scalars_witness :
  Forall is_byte (sample_stdout ["kubectl"; "logs"; "web"; "-n"; "default"]%string) /\
  Forall is_scalar (get_logs sample_stdout "web" "default") /\
  (length (get_logs sample_stdout "web" "default") <=
     length (sample_stdout ["kubectl"; "logs"; "web"; "-n"; "default"]%string))%nat /\
  is_Some (utf8_encode (get_logs sample_stdout "web" "default")).
Proof.
  assert (Hb : Forall is_byte (sample_stdout ["kubectl"; "logs"; "web"; "-n"; "default"]%string))
    by (cbn; repeat constructor; unfold is_byte; lia).
  split; [exact Hb|]. exact (get_logs_scalars sample_stdout "web" "default" Hb).
Defined.

Definition cafe_stdout : list string -> list Z := fun _ => [0x63; 0x61; 0x66; 0xC3; 0xA9].
Definition cafe : string := "caf" +:+ String (ascii_of_nat 233) EmptyString.

Lemma get_logs_latin1_witness :
  Forall is_byte (cafe_stdout ["kubectl"; "logs"; "web"; "-n"; "default"]%string) /\
  get_logs cafe_stdout "web" "default" = cps cafe.
Proof.
  assert (Hb : Forall is_byte (cafe_stdout ["kubectl"; "logs"; "web"; "-n"; "default"]%string))
    by (cbn; repeat constructor; unfold is_byte; lia).
  split; [exact Hb|]. apply (get_logs_latin1 cafe_stdout "web" "default" cafe Hb).
  vm_compute. reflexivity.
Defined.
