(* ===== verification/Md5.v ===== *)
(** * Md5: the MD5 digest of [hashlib.md5(...).hexdigest()]

    [hash_logs] (src/eks.py, line 48) fingerprints a log excerpt with
    Python's [hashlib.md5(logs.encode()).hexdigest()].  This file models
    that library call after RFC 1321: bytes are [Z]s in [0, 256), words are
    [Z]s in [0, 2^32) with the wrap-around of 32-bit addition written out
    ([add32]), and the message is padded and processed in 64-byte blocks.
    The recursion over blocks is structural on the exact number of blocks
    of the padded message, so no fuel can run out.  The test vectors of
    RFC 1321 and of CPython are checked by computation; the lemmas state
    what the rest of the development relies on: the digest has 16 bytes
    and its hex form has 32 lower-case hexadecimal characters. *)

From Stdlib Require Import ZArith List String Ascii Bool Lia.
From S2P Require Import PyStr.
Import ListNotations.

Local Open Scope Z_scope.

(** ** 32-bit words *)

Definition mask32 (x : Z) : Z := Z.land x (Z.ones 32).
Definition add32 (x y : Z) : Z := mask32 (x + y).
Definition not32 (x : Z) : Z := Z.lxor x (Z.ones 32).
Definition rotl32 (x c : Z) : Z := mask32 (Z.lor (Z.shiftl x c) (Z.shiftr x (32 - c))).

(** ** Constants of RFC 1321 *)

Definition md5_K : list Z :=
  [0xd76aa478; 0xe8c7b756; 0x242070db; 0xc1bdceee; 0xf57c0faf; 0x4787c62a; 0xa8304613; 0xfd469501;
   0x698098d8; 0x8b44f7af; 0xffff5bb1; 0x895cd7be; 0x6b901122; 0xfd987193; 0xa679438e; 0x49b40821;
   0xf61e2562; 0xc040b340; 0x265e5a51; 0xe9b6c7aa; 0xd62f105d; 0x02441453; 0xd8a1e681; 0xe7d3fbc8;
   0x21e1cde6; 0xc33707d6; 0xf4d50d87; 0x455a14ed; 0xa9e3e905; 0xfcefa3f8; 0x676f02d9; 0x8d2a4c8a;
   0xfffa3942; 0x8771f681; 0x6d9d6122; 0xfde5380c; 0xa4beea44; 0x4bdecfa9; 0xf6bb4b60; 0xbebfbc70;
   0x289b7ec6; 0xeaa127fa; 0xd4ef3085; 0x04881d05; 0xd9d4d039; 0xe6db99e5; 0x1fa27cf8; 0xc4ac5665;
   0xf4292244; 0x432aff97; 0xab9423a7; 0xfc93a039; 0x655b59c3; 0x8f0ccc92; 0xffeff47d; 0x85845dd1;
   0x6fa87e4f; 0xfe2ce6e0; 0xa3014314; 0x4e0811a1; 0xf7537e82; 0xbd3af235; 0x2ad7d2bb; 0xeb86d391].

Definition md5_S : list Z :=
  [7; 12; 17; 22; 7; 12; 17; 22; 7; 12; 17; 22; 7; 12; 17; 22;
   5; 9; 14; 20; 5; 9; 14; 20; 5; 9; 14; 20; 5; 9; 14; 20;
   4; 11; 16; 23; 4; 11; 16; 23; 4; 11; 16; 23; 4; 11; 16; 23;
   6; 10; 15; 21; 6; 10; 15; 21; 6; 10; 15; 21; 6; 10; 15; 21].

(** ** The compression function *)

Record md5_state := MD5State { ma : Z; mb : Z; mc : Z; md : Z }.

Definition md5_init : md5_state := MD5State 0x67452301 0xefcdab89 0x98badcfe 0x10325476.

(** The round function of step [i] and the index of the message word it reads. *)
Definition round_fg (i : nat) (b c d : Z) : Z * nat :=
  if Nat.ltb i 16 then (Z.lor (Z.land b c) (Z.land (not32 b) d), i)
  else if Nat.ltb i 32 then (Z.lor (Z.land d b) (Z.land (not32 d) c), Nat.modulo (5 * i + 1) 16)
  else if Nat.ltb i 48 then (Z.lxor b (Z.lxor c d), Nat.modulo (3 * i + 5) 16)
  else (Z.lxor c (Z.lor b (not32 d)), Nat.modulo (7 * i) 16).

Definition md5_step (m : list Z) (st : md5_state) (i : nat) : md5_state :=
  let '(f, g) := round_fg i (mb st) (mc st) (md st) in
  let f' := add32 (add32 (add32 f (ma st)) (nth i md5_K 0)) (nth g m 0) in
  MD5State (md st) (add32 (mb st) (rotl32 f' (nth i md5_S 0))) (mb st) (mc st).

Definition md5_block (st : md5_state) (m : list Z) : md5_state :=
  let st' := fold_left (md5_step m) (seq 0 64) st in
  MD5State (add32 (ma st) (ma st')) (add32 (mb st) (mb st'))
           (add32 (mc st) (mc st')) (add32 (md st) (md st')).

(** ** Byte order and padding *)

(** Little-endian value of a list of bytes. *)
Definition le_value (bs : list Z) : Z := fold_right (fun b acc => b + 256 * acc) 0 bs.

Fixpoint le_words (n : nat) (bs : list Z) : list Z :=
  match n with
  | O => []
  | S n' => le_value (firstn 4 bs) :: le_words n' (skipn 4 bs)
  end.

Fixpoint le_bytes (n : nat) (x : Z) : list Z :=
  match n with
  | O => []
  | S n' => (x mod 256) :: le_bytes n' (x / 256)
  end.

Definition md5_pad (msg : list Z) : list Z :=
  let len := Z.of_nat (List.length msg) in
  (msg ++ [128] ++ repeat 0 (Z.to_nat ((119 - len mod 64) mod 64))
      ++ le_bytes 8 ((8 * len) mod 2 ^ 64))%list.

Fixpoint md5_blocks (n : nat) (st : md5_state) (bs : list Z) : md5_state :=
  match n with
  | O => st
  | S n' => md5_blocks n' (md5_block st (le_words 16 (firstn 64 bs))) (skipn 64 bs)
  end.

Definition md5_digest (st : md5_state) : list Z :=
  (le_bytes 4 (ma st) ++ le_bytes 4 (mb st) ++ le_bytes 4 (mc st) ++ le_bytes 4 (md st))%list.

(** [hashlib.md5(msg).digest()] *)
Definition md5 (msg : list Z) : list Z :=
  let p := md5_pad msg in
  md5_digest (md5_blocks (Nat.div (List.length p) 64) md5_init p).

(** ** [hexdigest()] *)

Definition hex_digits : string := "0123456789abcdef".

Definition hex_char (n : Z) : ascii := nth (Z.to_nat n) (list_ascii_of_string hex_digits) "0"%char.

Definition hex_byte (b : Z) : string :=
  String (hex_char (b / 16)) (String (hex_char (b mod 16)) EmptyString).

Definition hexdigest (bs : list Z) : string :=
  fold_right (fun b s => append (hex_byte b) s) EmptyString bs.

Definition md5_hexdigest (msg : list Z) : string := hexdigest (md5 msg).

(** ** Test vectors *)

Definition bytes_of_string (s : string) : list Z :=
  map (fun c => Z.of_nat (nat_of_ascii c)) (list_ascii_of_string s).

Example md5_empty : md5_hexdigest [] = "d41d8cd98f00b204e9800998ecf8427e"%string.
Proof. vm_compute. reflexivity. Qed.

Example md5_abc : md5_hexdigest (bytes_of_string "abc") = "900150983cd24fb0d6963f7d28e17f72"%string.
Proof. vm_compute. reflexivity. Qed.

(** 130 bytes: three blocks after padding. *)
Example md5_130 :
  md5_hexdigest (repeat 120 130) = "cfc92f41305ca00c9f9584bf67ae1b54"%string.
Proof. vm_compute. reflexivity. Qed.

(** ** Shape of the digest *)

Lemma le_bytes_length n x : List.length (le_bytes n x) = n.
Proof. revert x. induction n as [|n IH]; intros x; simpl; [reflexivity | now rewrite IH]. Qed.

Lemma le_bytes_range n x : Forall (fun b => 0 <= b < 256) (le_bytes n x).
Proof.
  revert x. induction n as [|n IH]; intros x; constructor; [|apply IH].
  apply Z.mod_pos_bound. lia.
Qed.

(** [digest()] has 16 bytes, each in [0, 256). *)
Lemma md5_length msg : List.length (md5 msg) = 16%nat.
Proof. unfold md5, md5_digest. rewrite !length_app, !le_bytes_length. reflexivity. Qed.

Lemma md5_range msg : Forall (fun b => 0 <= b < 256) (md5 msg).
Proof. unfold md5, md5_digest. rewrite !Forall_app. auto using le_bytes_range. Qed.

Definition is_hex_char (c : ascii) : bool :=
  existsb (Ascii.eqb c) (list_ascii_of_string hex_digits).

Lemma hex_char_hex n : is_hex_char (hex_char n) = true.
Proof.
  unfold hex_char, is_hex_char. apply existsb_exists.
  exists (nth (Z.to_nat n) (list_ascii_of_string hex_digits) "0"%char).
  split; [| apply Ascii.eqb_refl].
  destruct (Nat.lt_ge_cases (Z.to_nat n) 16) as [Hlt | Hge].
  - apply nth_In. exact Hlt.
  - rewrite nth_overflow by (simpl; lia). simpl. auto.
Qed.

Lemma string_length_append s t : String.length (append s t) = (String.length s + String.length t)%nat.
Proof. induction s as [|c s IH]; simpl; [reflexivity | now rewrite IH]. Qed.

(** [hexdigest()] doubles the length and writes only [0-9a-f]. *)
Lemma hexdigest_length bs : String.length (hexdigest bs) = (2 * List.length bs)%nat.
Proof.
  induction bs as [|b bs IH]; [reflexivity|]. change (hexdigest (b :: bs)) with (append (hex_byte b) (hexdigest bs)). rewrite string_length_append, IH.
  simpl. lia.
Qed.

Lemma hexdigest_hex bs : str_forall is_hex_char (hexdigest bs) = true.
Proof.
  induction bs as [|b bs IH]; [reflexivity|]. change (hexdigest (b :: bs)) with (append (hex_byte b) (hexdigest bs)). rewrite str_forall_app, IH.
  simpl. now rewrite !hex_char_hex.
Qed.

Lemma md5_hexdigest_length msg : String.length (md5_hexdigest msg) = 32%nat.
Proof. unfold md5_hexdigest. now rewrite hexdigest_length, md5_length. Qed.
