(* ===== verification/LogExcerpt.v ===== *)
(** * LogExcerpt: the log excerpt extractor and the log error test

    Models [extract_relevant_logs] (src/eks.py, lines 42-45) and the
    [has_error] test of [dashboard_data] (line 155).  The extractor splits
    the log with [splitlines], keeps the lines whose lowered text contains
    "error" or "exception", keeps the last 100 of them and joins them with
    newlines.  The theorems show that the excerpt re-splits into exactly
    those lines, that it is bounded, filtered and in log order, and that
    the whole-log test of line 155 agrees with the per-line filter, so
    that a log flagged by [has_error] always yields a non-blank excerpt. *)

From stdpp Require Import base list strings.
From Stdlib Require Import Ascii Lia.
From S2P Require Import Prelude PyStr.

Local Open Scope string_scope.

(** [filtered[-100:]] *)
Definition MAX_EXCERPT_LINES : nat := 100.

(** The comprehension's condition on line 44. *)
Definition is_relevant_line (line : string) : bool :=
  py_contains "error" (py_lower line) || py_contains "exception" (py_lower line).

(** [filtered] of line 44. *)
Definition relevant_lines (logs : string) : list string :=
  List.filter is_relevant_line (py_splitlines logs).

Definition extract_relevant_logs (logs : string) : string :=
  py_join nl (lastn MAX_EXCERPT_LINES (relevant_lines logs)).

(** [has_error] of line 155: the test runs on the whole lowered log. *)
Definition has_error (logs : string) : bool :=
  py_contains "error" (py_lower logs) || py_contains "exception" (py_lower logs).

(** ** Facts about relevant lines *)

Lemma relevant_line_nonempty l : is_relevant_line l = true -> l <> EmptyString.
Proof. by intros H ->. Qed.

Lemma relevant_lines_shape logs :
  Forall (fun l => no_boundary l = true /\ l <> EmptyString) (relevant_lines logs).
Proof.
  unfold relevant_lines. pose proof (splitlines_no_boundary logs) as Hnb.
  induction (py_splitlines logs) as [|l ls IH]; [constructor|].
  inversion Hnb; subst. simpl. destruct (is_relevant_line l) eqn:Hl; auto.
  constructor; auto using relevant_line_nonempty.
Qed.

Lemma lastn_relevant_shape n logs :
  Forall (fun l => no_boundary l = true /\ l <> EmptyString) (lastn n (relevant_lines logs)).
Proof. apply Forall_lastn, relevant_lines_shape. Qed.

Lemma relevant_lines_relevant logs :
  Forall (fun l => is_relevant_line l = true) (relevant_lines logs).
Proof.
  unfold relevant_lines. induction (py_splitlines logs) as [|l ls IH]; [constructor|].
  simpl. destruct (is_relevant_line l) eqn:Hl; auto.
Qed.

Lemma relevant_lines_sublist logs : relevant_lines logs `sublist_of` py_splitlines logs.
Proof.
  unfold relevant_lines. induction (py_splitlines logs) as [|l ls IH]; [constructor|].
  simpl. destruct (is_relevant_line l); by constructor.
Qed.

#[export] Hint Resolve relevant_lines_shape lastn_relevant_shape relevant_lines_relevant
  relevant_lines_sublist : eks.

(** The whole-log test equals the per-line test on some line. *)
Lemma has_error_existsb logs :
  has_error logs = existsb is_relevant_line (py_splitlines logs).
Proof.
  unfold has_error, is_relevant_line.
  rewrite !contains_lower_splitlines by done. apply existsb_orb.
Qed.

Lemma extract_empty_iff logs :
  extract_relevant_logs logs = EmptyString <-> relevant_lines logs = [].
Proof.
  unfold extract_relevant_logs. split.
  - intros H. apply py_join_empty in H; [|eapply Forall_impl; [apply lastn_relevant_shape | by intros ? []]].
    by apply lastn_nil_iff in H; [|unfold MAX_EXCERPT_LINES; lia].
  - intros ->. reflexivity.
Qed.

(** A relevant line is never blank. *)
Lemma relevant_line_not_blank l :
  is_relevant_line l = true -> str_forall py_isspace l = false.
Proof.
  intros Hl. apply not_true_iff_false. intros Hsp.
  rewrite <- str_forall_lower_isspace in Hsp.
  unfold is_relevant_line in Hl. apply orb_true_iff in Hl as [H|H];
    pose proof (contains_forall _ _ _ H Hsp) as Hw; discriminate Hw.
Qed.

(** ** Theorems *)

(** C13: Round trip of [extract_relevant_logs]: the excerpt text splits back
    into exactly [filtered[-100:]], the last (at most) 100 lines of the log
    whose lowered text contains "error" or "exception", in log order. *)
Theorem extract_relevant_logs_lines logs :
  py_splitlines (extract_relevant_logs logs) = lastn MAX_EXCERPT_LINES (relevant_lines logs).
Proof. apply splitlines_join, lastn_relevant_shape. Qed.

(** The excerpt has at most 100 lines, each of them matches the
    error/exception predicate, they appear in the same relative order as
    in the log, and they end the list of matching lines. *)
Theorem extract_relevant_logs_spec logs :
  let ex := py_splitlines (extract_relevant_logs logs) in
  length ex <= MAX_EXCERPT_LINES /\
  Forall (fun l => is_relevant_line l = true) ex /\
  ex `sublist_of` py_splitlines logs /\
  ex `suffix_of` relevant_lines logs.
Proof.
  cbv zeta. unfold extract_relevant_logs.
  rewrite (splitlines_join _ (lastn_relevant_shape MAX_EXCERPT_LINES logs)).
  split; [apply lastn_length_le|]. split; [auto with eks|].
  split; [| apply lastn_suffix].
  etransitivity; [apply lastn_sublist | apply relevant_lines_sublist].
Qed.

(** With at least 100 matching lines the excerpt is exactly the last
    100 of them: the matching lines are some dropped prefix followed by the
    100 excerpt lines. *)
Theorem extract_relevant_logs_tail logs :
  MAX_EXCERPT_LINES <= length (relevant_lines logs) ->
  length (py_splitlines (extract_relevant_logs logs)) = MAX_EXCERPT_LINES /\
  exists dropped,
    relevant_lines logs = (dropped ++ py_splitlines (extract_relevant_logs logs))%list.
Proof.
  intros Hlen. unfold extract_relevant_logs.
  rewrite (splitlines_join _ (lastn_relevant_shape MAX_EXCERPT_LINES logs)).
  split.
  - rewrite lastn_length. lia.
  - exists (take (length (relevant_lines logs) - MAX_EXCERPT_LINES) (relevant_lines logs)).
    symmetry. apply lastn_app_drop.
Qed.

(** C14: The whole-log test of line 155 agrees with the extractor: it holds
    exactly when the excerpt is non-empty. *)
Theorem has_error_iff_excerpt logs :
  has_error logs = true <-> extract_relevant_logs logs <> EmptyString.
Proof.
  rewrite has_error_existsb, extract_empty_iff. unfold relevant_lines.
  rewrite <- existsb_filter_nil. destruct (existsb _ _); intuition congruence.
Qed.

(** The guard [not trimmed_logs.strip()] of [analyze_logs] fails on a log
    that [has_error] flags. *)
Lemma excerpt_nonblank logs :
  has_error logs = true -> py_strip (extract_relevant_logs logs) <> EmptyString.
Proof.
  intros H Hblank%py_strip_empty.
  rewrite has_error_existsb in H. unfold relevant_lines in *.
  assert (Hne : relevant_lines logs <> []).
  { unfold relevant_lines. intros Hnil%existsb_filter_nil. congruence. }
  unfold extract_relevant_logs in Hblank.
  pose proof (relevant_lines_relevant logs) as Hrel.
  apply (Forall_lastn _ MAX_EXCERPT_LINES) in Hrel.
  destruct (lastn MAX_EXCERPT_LINES (relevant_lines logs)) as [|x rest] eqn:E.
  - apply lastn_nil_iff in E; [done | unfold MAX_EXCERPT_LINES; lia].
  - apply join_head_forall in Hblank. inversion Hrel; subst.
    by rewrite relevant_line_not_blank in Hblank.
Qed.

(** ** Concrete runs *)

(** Scenario 3 of the specification: 150 lines mentioning "Exception"
    interleaved with 50 clean lines. *)
Definition scenario3_log : string :=
  py_join nl (List.concat (replicate 50
    ["step 1 Exception raised"; "retry: Exception again"; "fatal EXCEPTION"; "all good"])).

Example scenario3_counts :
  length (py_splitlines scenario3_log) = 200 /\ length (relevant_lines scenario3_log) = 150.
Proof. vm_compute. split; reflexivity. Qed.

Lemma extract_relevant_logs_tail_witness :
  MAX_EXCERPT_LINES <= length (relevant_lines scenario3_log) /\
  length (py_splitlines (extract_relevant_logs scenario3_log)) = MAX_EXCERPT_LINES.
Proof.
  assert (H : MAX_EXCERPT_LINES <= length (relevant_lines scenario3_log)) by (vm_compute; lia).
  split; [exact H | apply (extract_relevant_logs_tail scenario3_log H)].
Defined.

Definition sample_log : string :=
  "starting" +:+ nl +:+ "Traceback: ValueError raised" +:+ nl +:+ "done".

Example sample_log_excerpt : extract_relevant_logs sample_log = "Traceback: ValueError raised".
Proof. reflexivity. Qed.

