(* ===== verification/Fingerprint.v ===== *)
(** * Fingerprint: the identity of an issue

    [dashboard_data] keys the suppression cache [sent_alerts] with one of
    two strings (src/eks.py):
    - a blocked pod (line 135): [issue_key = f"{name}:{reason}:{message}"];
    - a pod whose log shows errors (lines 160-161):
      [error_hash = hash_logs(extract_relevant_logs(logs))], where
      [hash_logs] (lines 47-48) is the MD5 hex digest of the UTF-8 bytes.
    The theorems show that the two key spaces never meet (a hex digest
    has no colon), that the blocked key is injective only while names and
    reasons hold no colon (and a concrete collision otherwise), and that
    the log key ignores the log lines that the extractor drops. *)

From stdpp Require Import base list strings.
From Stdlib Require Import Ascii ZArith Lia.
From S2P Require Import Prelude PyStr Md5 LogExcerpt.

Local Open Scope string_scope.

Definition issue_key (name reason message : string) : string :=
  name +:+ ":" +:+ reason +:+ ":" +:+ message.

Definition hash_logs (logs : string) : string := md5_hexdigest (py_encode_utf8 logs).

Definition log_issue_key (logs : string) : string := hash_logs (extract_relevant_logs logs).

Definition no_colon (s : string) : bool := str_forall (fun c => negb (Ascii.eqb c ":"%char)) s.

(** ** Helper lemmas *)

Lemma issue_key_not_hex n r m : str_forall is_hex_char (issue_key n r m) = false.
Proof.
  unfold issue_key. rewrite str_forall_app. cbn [str_forall].
  change (is_hex_char ":"%char) with false. by rewrite andb_false_r.
Qed.

(** Splitting at the first colon. *)
Lemma colon_app_inj x y s t :
  no_colon x = true -> no_colon y = true ->
  x +:+ ":" +:+ s = y +:+ ":" +:+ t -> x = y /\ s = t.
Proof.
  revert y. induction x as [|a x IH]; intros [|b y] Hx Hy H;
    unfold no_colon in *; cbn [str_forall] in Hx, Hy.
  - by injection H.
  - rewrite string_app_cons in H. injection H as <- _.
    by rewrite Ascii.eqb_refl in Hy.
  - rewrite string_app_cons in H. injection H as -> _.
    by rewrite Ascii.eqb_refl in Hx.
  - rewrite !string_app_cons in H. injection H as <- H.
    apply andb_prop in Hx as [_ Hx]. apply andb_prop in Hy as [_ Hy].
    destruct (IH y Hx Hy H) as [-> ->]. done.
Qed.

(** ** Theorems *)

(** [hash_logs] returns 32 lower-case hexadecimal characters, whatever
    the log text. *)
Theorem hash_logs_shape logs :
  String.length (hash_logs logs) = 32 /\ str_forall is_hex_char (hash_logs logs) = true.
Proof. split; [apply md5_hexdigest_length | apply hexdigest_hex]. Qed.

(** C15: The two kinds of key share the dict [sent_alerts] without ever
    meeting: a blocked pod's key always holds a colon, a log digest never
    does, so neither kind of issue can suppress the other. *)
Theorem issue_key_ne_hash_logs name reason message logs :
  issue_key name reason message <> hash_logs logs.
Proof.
  intros H. pose proof (hexdigest_hex (md5 (py_encode_utf8 logs))) as Hhex.
  change (hexdigest (md5 (py_encode_utf8 logs))) with (hash_logs logs) in Hhex.
  rewrite <- H, issue_key_not_hex in Hhex. discriminate.
Qed.

(** The blocked key is injective on names and reasons without a colon:
    equal keys come from the same (name, reason, message). *)
Lemma issue_key_injective n1 r1 m1 n2 r2 m2 :
  no_colon n1 = true -> no_colon r1 = true -> no_colon n2 = true -> no_colon r2 = true ->
  issue_key n1 r1 m1 = issue_key n2 r2 m2 -> n1 = n2 /\ r1 = r2 /\ m1 = m2.
Proof.
  unfold issue_key. intros Hn1 Hr1 Hn2 Hr2 H.
  destruct (colon_app_inj n1 n2 _ _ Hn1 Hn2 H) as [-> H'].
  by destruct (colon_app_inj r1 r2 m1 m2 Hr1 Hr2 H') as [-> ->].
Qed.

(** C33: The blocked key [f"{name}:{reason}:{message}"] identifies an
    issue exactly as far as colons allow: it is injective on names and
    reasons without a colon, and a colon in the pod name or in the
    waiting reason lets two different issues share one suppression
    entry. *)
Theorem issue_key_collision :
  (forall n1 r1 m1 n2 r2 m2,
     no_colon n1 = true -> no_colon r1 = true -> no_colon n2 = true -> no_colon r2 = true ->
     issue_key n1 r1 m1 = issue_key n2 r2 m2 -> n1 = n2 /\ r1 = r2 /\ m1 = m2) /\
  exists n1 r1 m1 n2 r2 m2,
    (n1, r1, m1) <> (n2, r2, m2) /\ issue_key n1 r1 m1 = issue_key n2 r2 m2.
Proof.
  split; [exact issue_key_injective|].
  exists "api", "Err:ImagePull", "rate limited", "api:Err", "ImagePull", "rate limited".
  split; [discriminate | reflexivity].
Qed.

(** C34: The log key ignores what the extractor drops: inserting a line that
    mentions neither "error" nor "exception" anywhere in a log leaves its
    fingerprint unchanged. *)
Theorem log_issue_key_clean_line pre clean post :
  Forall (fun l => no_boundary l = true /\ l <> EmptyString) (pre ++ clean :: post) ->
  is_relevant_line clean = false ->
  log_issue_key (py_join nl (pre ++ clean :: post)) = log_issue_key (py_join nl (pre ++ post)).
Proof.
  intros Hall Hclean. unfold log_issue_key, extract_relevant_logs, relevant_lines.
  rewrite !splitlines_join.
  - by rewrite !List.filter_app; cbn [List.filter]; rewrite Hclean.
  - apply Forall_app in Hall as [Hpre Hpost]. inversion Hpost. by apply Forall_app.
  - done.
Qed.

(** ** Concrete runs *)

Example issue_key_scenario2 :
  issue_key "web-1" "ImagePullBackOff" "rate limited" = "web-1:ImagePullBackOff:rate limited".
Proof. reflexivity. Qed.

Example hash_logs_sample :
  log_issue_key sample_log = "456bddd72eebfb15bef834bc08fad54b".
Proof. vm_compute. reflexivity. Qed.

Lemma issue_key_injective_witness :
  no_colon "web-1" = true /\ no_colon "ImagePullBackOff" = true /\
  ("web-1" = "web-1" /\ "ImagePullBackOff" = "ImagePullBackOff" /\ "rate limited" = "rate limited").
Proof.
  split; [reflexivity | split; [reflexivity |]].
  apply (issue_key_injective "web-1" "ImagePullBackOff" "rate limited"
                             "web-1" "ImagePullBackOff" "rate limited"); reflexivity.
Defined.

Lemma log_issue_key_clean_line_witness :
  is_relevant_line "all good" = false /\
  log_issue_key (py_join nl (["db ERROR: timeout"] ++ "all good" :: ["retrying"]))
  = log_issue_key (py_join nl (["db ERROR: timeout"] ++ ["retrying"])).
Proof.
  split; [reflexivity|].
  apply log_issue_key_clean_line; [| reflexivity].
  repeat constructor; discriminate.
Defined.
