(* ===== verification/Suppression.v ===== *)
(** * Suppression: the TTL alert-suppression cache

    The global dict [sent_alerts] (src/eks.py, line 10) maps an issue key
    to the [time.time()] of the last alert sent for it.
    [should_send_alert] (lines 95-99) allows an alert when the key is
    absent (or, through [if not last_sent], maps to 0) or when more than
    [ALERT_TTL_SECONDS] (line 14) have passed; [dashboard_data] records an
    alert with [sent_alerts[key] = time.time()] (lines 140 and 165).
    Timestamps are modelled as integers ([Z]); [time.time()] is positive.

    - [AlertCache] is the interface the dispatcher relies on and
      [AlertCacheLaws] its contract, stated as the TTL window over the last
      alert time.
    - [gmap_cache] is the code's dict.  It meets the contract on tables
      whose timestamps are positive, an invariant every record preserves.
    - [history_cache] is the abstract specification: the list of alerts
      sent, newest first.
    - [cache_refinement] shows that the dict answers every query as the
      history of the same alerts does. *)

From stdpp Require Import base list strings gmap.
From Stdlib Require Import ZArith Lia.
From S2P Require Import Prelude.

Local Open Scope Z_scope.

Definition ALERT_TTL_SECONDS : Z := 3600.

(** ** The code: a dict from keys to timestamps *)

Definition should_send_alert_at (sent_alerts : gmap string Z) (key : string) (now : Z) : bool :=
  match sent_alerts !! key with
  | None => true
  | Some last_sent =>
      if Z.eqb last_sent 0 then true else Z.gtb (now - last_sent) ALERT_TTL_SECONDS
  end.

Definition record_alert (sent_alerts : gmap string Z) (key : string) (now : Z) : gmap string Z :=
  <[key := now]> sent_alerts.

(** Every recorded timestamp is a positive [time.time()]. *)
Definition timestamps_positive (sent_alerts : gmap string Z) : Prop :=
  map_Forall (fun _ t => 0 < t) sent_alerts.

(** ** The interface and its contract *)

Class AlertCache (C : Type) := {
  cache_last : C -> string -> option Z;
  cache_should : C -> string -> Z -> bool;
  cache_record : C -> string -> Z -> C
}.

(** The TTL window: alert iff never alerted or the last alert is older than the TTL. *)
Definition ttl_allows (last : option Z) (now : Z) : bool :=
  match last with
  | None => true
  | Some t => Z.gtb (now - t) ALERT_TTL_SECONDS
  end.

Class AlertCacheLaws (C : Type) `{AlertCache C} (wf : C -> Prop) := {
  cache_should_spec c k now : wf c -> cache_should c k now = ttl_allows (cache_last c k) now;
  cache_record_last c k t : cache_last (cache_record c k t) k = Some t;
  cache_record_other c k k' t : k <> k' -> cache_last (cache_record c k t) k' = cache_last c k';
  cache_record_wf c k t : wf c -> 0 < t -> wf (cache_record c k t)
}.

#[export] Instance gmap_cache : AlertCache (gmap string Z) := {
  cache_last m k := m !! k;
  cache_should := should_send_alert_at;
  cache_record := record_alert
}.

(** The abstract model: the alerts sent, newest first. *)
Definition alert_history : Type := list (string * Z).

Fixpoint history_last (h : alert_history) (k : string) : option Z :=
  match h with
  | [] => None
  | (k', t) :: h' => if String.eqb k k' then Some t else history_last h' k
  end.

#[export] Instance history_cache : AlertCache alert_history := {
  cache_last := history_last;
  cache_should h k now := ttl_allows (history_last h k) now;
  cache_record h k t := (k, t) :: h
}.

(** ** Both caches meet the contract *)

#[export] Instance gmap_cache_laws : AlertCacheLaws (gmap string Z) timestamps_positive.
Proof.
  split; cbn.
  - intros m k now Hpos. unfold should_send_alert_at, ttl_allows.
    destruct (m !! k) as [t|] eqn:E; [|done].
    pose proof (map_Forall_lookup_1 _ _ _ _ Hpos E) as Ht. cbn in Ht.
    destruct (Z.eqb_spec t 0); [lia | done].
  - intros. apply lookup_insert_eq.
  - intros. by apply lookup_insert_ne.
  - intros m k t Hm Ht. by apply map_Forall_insert_2.
Qed.

#[export] Instance history_cache_laws : AlertCacheLaws alert_history (fun _ => True).
Proof.
  split; cbn; try done.
  - intros. by rewrite String.eqb_refl.
  - intros h k k' t Hne. destruct (String.eqb_spec k' k); congruence.
Qed.

(** ** Replaying alerts through any cache *)

Definition replay {C} `{AlertCache C} (c : C) (alerts : list (string * Z)) : C :=
  fold_left (fun c a => cache_record c a.1 a.2) alerts c.

Section TwoCaches.
Context {C1 : Type} `{AC1 : AlertCache C1} {wf1 : C1 -> Prop} `{!AlertCacheLaws C1 wf1}.
Context {C2 : Type} `{AC2 : AlertCache C2} {wf2 : C2 -> Prop} `{!AlertCacheLaws C2 wf2}.

(** Two caches that agree on every last-alert time. *)
Definition same_last (c1 : C1) (c2 : C2) : Prop := forall k, cache_last c1 k = cache_last c2 k.

Lemma same_last_record c1 c2 k t :
  same_last c1 c2 -> same_last (cache_record c1 k t) (cache_record c2 k t).
Proof.
  intros Hs k'. destruct (decide (k = k')) as [<-|Hne].
  - by rewrite !cache_record_last.
  - by rewrite !cache_record_other.
Qed.

Lemma same_last_should c1 c2 k now :
  wf1 c1 -> wf2 c2 -> same_last c1 c2 -> cache_should c1 k now = cache_should c2 k now.
Proof. intros H1 H2 Hs. by rewrite !cache_should_spec, Hs. Qed.

Lemma replay_same_last c1 c2 alerts :
  wf1 c1 -> wf2 c2 -> same_last c1 c2 -> Forall (fun a => 0 < a.2) alerts ->
  wf1 (replay c1 alerts) /\ wf2 (replay c2 alerts) /\ same_last (replay c1 alerts) (replay c2 alerts).
Proof.
  revert c1 c2. induction alerts as [|[k t] alerts IH]; intros c1 c2 H1 H2 Hs Hall; [done|].
  inversion Hall as [|? ? Ht Hrest]; subst. cbn in Ht |- *.
  apply IH; [apply cache_record_wf; auto | apply cache_record_wf; auto
            | apply same_last_record; auto | auto].
Qed.
End TwoCaches.

Lemma timestamps_positive_empty : timestamps_positive ∅.
Proof. apply map_Forall_empty. Qed.

Lemma record_alert_positive m k t :
  timestamps_positive m -> 0 < t -> timestamps_positive (record_alert m k t).
Proof. intros Hm Ht. by apply map_Forall_insert_2. Qed.

Lemma record_alert_lookup_ne m k k' t : k <> k' -> record_alert m k t !! k' = m !! k'.
Proof. apply lookup_insert_ne. Qed.

(** Entries are only ever added or overwritten, never removed. *)
Lemma record_alert_dom m k t : dom m ⊆ dom (record_alert m k t).
Proof. unfold record_alert. rewrite dom_insert. set_solver. Qed.

#[export] Hint Resolve timestamps_positive_empty record_alert_positive record_alert_dom : eks.

Lemma should_send_record_other m k k' t now :
  k <> k' -> should_send_alert_at (record_alert m k t) k' now = should_send_alert_at m k' now.
Proof. intros Hne. unfold should_send_alert_at. by rewrite record_alert_lookup_ne. Qed.

(** ** Theorems *)

(** C4: The suppression window of [should_send_alert]: right after an alert
    for [key] is recorded at time [t] (a positive [time.time()]), a new alert
    for [key] is allowed exactly when more than [ALERT_TTL_SECONDS] have
    passed, i.e. [now > t + 3600]; at [now = t + 3600] it is still refused. *)
Theorem should_send_after_record m key t now :
  0 < t ->
  should_send_alert_at (record_alert m key t) key now = true <-> t + ALERT_TTL_SECONDS < now.
Proof.
  intros Ht. unfold should_send_alert_at, record_alert. rewrite lookup_insert_eq.
  destruct (Z.eqb_spec t 0); [lia|]. rewrite Z.gtb_ltb, Z.ltb_lt. lia.
Qed.

(** C16: Refinement of the abstract suppression specification: after any
    sequence of alerts recorded at positive times into the initially empty
    dict, [should_send_alert] and the dict's last-alert times agree with the
    history of those alerts, i.e. with the TTL rule over the newest alert. *)
Theorem cache_refinement (alerts : list (string * Z)) key now :
  Forall (fun a => 0 < a.2) alerts ->
  should_send_alert_at (replay (∅ : gmap string Z) alerts) key now
    = ttl_allows (history_last (replay ([] : alert_history) alerts) key) now /\
  replay (∅ : gmap string Z) alerts !! key = history_last (replay ([] : alert_history) alerts) key.
Proof.
  intros Hall.
  destruct (replay_same_last (wf1 := timestamps_positive) (wf2 := fun _ => True)
              (∅ : gmap string Z) ([] : alert_history) alerts)
    as (H1 & H2 & Hs); [apply timestamps_positive_empty | done | by intros k | done |].
  split; [| apply Hs].
  exact (same_last_should (wf1 := timestamps_positive) (wf2 := fun _ => True) _ _ key now H1 H2 Hs).
Qed.

(** ** Concrete runs *)

Example should_send_boundary :
  should_send_alert_at (record_alert ∅ "k" 1000) "k" (1000 + 3600) = false /\
  should_send_alert_at (record_alert ∅ "k" 1000) "k" (1000 + 3601) = true.
Proof. split; reflexivity. Qed.

(** A zero timestamp reads as "never alerted" ([if not last_sent]). *)
Example should_send_zero_timestamp : should_send_alert_at (record_alert ∅ "k" 0) "k" 5 = true.
Proof. reflexivity. Qed.

Lemma should_send_after_record_witness :
  0 < 1000 /\ (should_send_alert_at (record_alert ∅ "web-1::" 1000) "web-1::" 4601 = true
               <-> 1000 + ALERT_TTL_SECONDS < 4601).
Proof. split; [lia | apply should_send_after_record; lia]. Defined.

Lemma cache_refinement_witness :
  Forall (fun a => 0 < a.2) [("a", 5); ("b", 7); ("a", 4000)] /\
  (should_send_alert_at (replay (∅ : gmap string Z) [("a", 5); ("b", 7); ("a", 4000)]) "a" 4100
    = ttl_allows (history_last (replay ([] : alert_history) [("a", 5); ("b", 7); ("a", 4000)]) "a") 4100 /\
   replay (∅ : gmap string Z) [("a", 5); ("b", 7); ("a", 4000)] !! "a"
    = history_last (replay ([] : alert_history) [("a", 5); ("b", 7); ("a", 4000)]) "a").
Proof.
  assert (H : Forall (fun a => 0 < a.2) [("a", 5); ("b", 7); ("a", 4000)])
    by (repeat constructor; cbn; lia).
  split; [exact H | apply cache_refinement; exact H].
Defined.
