(* ===== verification/Pod.v ===== *)
(** * Pod: the pod record and the health classification of [dashboard_data]

    A pod is the JSON object [kubectl get pods -o json] returns; the model
    keeps the fields [dashboard_data] (src/eks.py, lines 116-132) reads:
    [metadata.name], [status.phase] and, for each entry of
    [status.containerStatuses], [restartCount] and [state.waiting] (a JSON
    object, kept as an association list so that an empty object is falsy
    as in Python).
    - [restarts] is line 120, [waiting_reason] the loop of lines 123-130,
      [is_blocked] the condition of line 132.
    - [classify] is the three-way branch of lines 132-177: blocked, error in
      logs (line 155), healthy.
    The theorems show that restart counts never influence the verdict,
    that a running/succeeded/failed pod without a waiting reason is never
    blocked, that any other phase is blocked even without a reason, and
    that only the first waiting container is consulted. *)

From stdpp Require Import base list strings.
From Stdlib Require Import ZArith Lia.
From S2P Require Import Prelude PyStr LogExcerpt.

Local Open Scope string_scope.

(** A JSON object with string values, such as [state.waiting]. *)
Abbreviation json_object := (list (string * string)).

Record ContainerStatus := MkContainerStatus {
  restartCount : option Z;
  waiting : option json_object
}.

Record Pod := MkPod {
  pod_name : string;
  pod_phase : string;
  containerStatuses : list ContainerStatus
}.

(** [d.get(key, default)] on a JSON object. *)
Fixpoint dict_get (d : json_object) (key default : string) : string :=
  match d with
  | [] => default
  | (k, v) :: d' => if String.eqb k key then v else dict_get d' key default
  end.

(** [sum(int(c.get("restartCount", 0)) for c in container_statuses)] *)
Definition restarts (pod : Pod) : Z :=
  foldr (fun c acc => (default 0%Z (restartCount c) + acc)%Z) 0%Z (containerStatuses pod).

(** The loop of lines 123-130: the reason and message of the first
    container whose [waiting] object is present and non-empty. *)
Fixpoint waiting_reason (statuses : list ContainerStatus) : string * string :=
  match statuses with
  | [] => ("", "")
  | c :: cs =>
      match waiting c with
      | Some ((_ :: _) as w) => (dict_get w "reason" "", dict_get w "message" "")
      | _ => waiting_reason cs
      end
  end.

Definition settled_phases : list string := ["Running"; "Succeeded"; "Failed"].

(** [status not in ["Running", "Succeeded", "Failed"] or reason] *)
Definition is_blocked (status reason : string) : bool :=
  negb (existsb (String.eqb status) settled_phases) || negb (String.eqb reason "").

Inductive verdict :=
| Blocked (reason message : string)
| ErrorInLogs (excerpt : string)
| Healthy.

(** The branch taken for [pod]; [logs] is what [get_logs] would return,
    read only in the second branch. *)
Definition classify (pod : Pod) (logs : string) : verdict :=
  let '(reason, message) := waiting_reason (containerStatuses pod) in
  if is_blocked (pod_phase pod) reason then Blocked reason message
  else if has_error logs then ErrorInLogs (extract_relevant_logs logs)
  else Healthy.

(** ** Helper lemmas *)

Lemma existsb_eqb_elem (s : string) (l : list string) : existsb (String.eqb s) l = true <-> s ∈ l.
Proof.
  induction l as [|x l IH]; cbn; [rewrite elem_of_nil; split; done|].
  rewrite orb_true_iff, elem_of_cons, <- IH, String.eqb_eq. tauto.
Qed.

(** Replace every container's restart count. *)
Definition set_restart_counts (f : ContainerStatus -> option Z) (pod : Pod) : Pod :=
  MkPod (pod_name pod) (pod_phase pod)
        (map (fun c => MkContainerStatus (f c) (waiting c)) (containerStatuses pod)).

Lemma waiting_reason_restarts f cs :
  waiting_reason (map (fun c => MkContainerStatus (f c) (waiting c)) cs) = waiting_reason cs.
Proof. induction cs as [|c cs IH]; [done|]. cbn. by destruct (waiting c) as [[|]|]. Qed.

Lemma waiting_reason_idle cs :
  Forall (fun c => waiting c = None \/ waiting c = Some []) cs -> waiting_reason cs = ("", "").
Proof.
  induction cs as [|c cs IH]; intros Hall; [done|]. inversion Hall as [|? ? Hc Hcs]; subst.
  cbn. by destruct Hc as [-> | ->]; apply IH.
Qed.

(** Containers that are not waiting are skipped by the loop. *)
Lemma waiting_reason_app_idle idle cs :
  Forall (fun c => waiting c = None \/ waiting c = Some []) idle ->
  waiting_reason (idle ++ cs) = waiting_reason cs.
Proof. induction 1 as [|c idle Hc _ IH]; [done|]. cbn. by destruct Hc as [-> | ->]. Qed.

Lemma classify_unfold pod logs :
  classify pod logs =
    if is_blocked (pod_phase pod) (waiting_reason (containerStatuses pod)).1
    then Blocked (waiting_reason (containerStatuses pod)).1 (waiting_reason (containerStatuses pod)).2
    else if has_error logs then ErrorInLogs (extract_relevant_logs logs) else Healthy.
Proof. unfold classify. by destruct (waiting_reason _). Qed.

(** ** Theorems *)

(** Restart counts are display-only: changing the restart count of any
    container never changes the verdict (the silent-restart blind spot of
    the specification, section 9). *)
Theorem classify_ignores_restarts f pod logs :
  classify (set_restart_counts f pod) logs = classify pod logs.
Proof.
  rewrite !classify_unfold. cbn [set_restart_counts pod_phase containerStatuses].
  by rewrite waiting_reason_restarts.
Qed.

(** A pod in phase Running, Succeeded or Failed none of whose containers
    is waiting is never classified as blocked: its logs decide. *)
Theorem settled_pod_not_blocked pod logs :
  pod_phase pod ∈ settled_phases ->
  Forall (fun c => waiting c = None \/ waiting c = Some []) (containerStatuses pod) ->
  classify pod logs = if has_error logs then ErrorInLogs (extract_relevant_logs logs) else Healthy.
Proof.
  intros Hphase Hidle. rewrite classify_unfold, waiting_reason_idle by done.
  unfold is_blocked. apply existsb_eqb_elem in Hphase. by rewrite Hphase.
Qed.

(** C35: Any other phase (Pending, Unknown, ...) is classified as blocked,
    whatever the logs, even when no container reports a waiting reason:
    the code has no verdict for an ambiguous state that is never alerted. *)
Theorem unsettled_pod_blocked pod logs :
  pod_phase pod ∉ settled_phases ->
  classify pod logs = Blocked (waiting_reason (containerStatuses pod)).1
                              (waiting_reason (containerStatuses pod)).2.
Proof.
  intros Hphase. rewrite classify_unfold. unfold is_blocked.
  destruct (existsb (String.eqb (pod_phase pod)) settled_phases) eqn:E; [|done].
  by apply existsb_eqb_elem in E.
Qed.

(** A running pod whose first waiting container has a message but no
    reason, and whose second waiting container is in CrashLoopBackOff. *)
Definition crashloop_pod : Pod :=
  MkPod "worker-7" "Running"
    [MkContainerStatus (Some 3%Z) (Some [("message", "back-off pulling image")]);
     MkContainerStatus (Some 12%Z) (Some [("reason", "CrashLoopBackOff"); ("message", "restarting")])].

(** C36: Only the first container with a non-empty waiting state is
    consulted, and a waiting state without a reason does not block: for a
    pod in phase Running, Succeeded or Failed whose containers before [c]
    are not waiting, and whose container [c] is waiting with no reason
    (or an empty one), the verdict is decided by the logs alone, whatever
    the later containers report (a CrashLoopBackOff included). *)
Theorem later_waiting_reason_ignored pod logs idle c rest w :
  pod_phase pod ∈ settled_phases ->
  containerStatuses pod = (idle ++ c :: rest)%list ->
  Forall (fun c => waiting c = None \/ waiting c = Some []) idle ->
  waiting c = Some w -> w <> [] -> dict_get w "reason" "" = "" ->
  classify pod logs = if has_error logs then ErrorInLogs (extract_relevant_logs logs) else Healthy.
Proof.
  intros Hphase Hcs Hidle Hc Hw Hr. rewrite classify_unfold, Hcs, waiting_reason_app_idle by done.
  cbn [waiting_reason]. rewrite Hc. destruct w as [|kv w]; [done|]. cbn [fst]. rewrite Hr.
  unfold is_blocked. apply existsb_eqb_elem in Hphase. by rewrite Hphase.
Qed.

(** ** Concrete runs *)

(** Scenario 1 of the specification: running, no waiting reason, clean logs. *)
Example classify_scenario1 :
  classify (MkPod "api-0" "Running" [MkContainerStatus (Some 4%Z) None]) "listening on :8080"
  = Healthy.
Proof. reflexivity. Qed.

(** Scenario 2 of the specification. *)
Definition scenario2_pod : Pod :=
  MkPod "web-1" "Pending"
    [MkContainerStatus (Some 0%Z) (Some [("reason", "ImagePullBackOff"); ("message", "rate limited")])].

Lemma settled_pod_not_blocked_witness :
  "Succeeded" ∈ settled_phases /\
  classify (MkPod "job-1" "Succeeded" [MkContainerStatus None None]) "exit 0"
  = if has_error "exit 0" then ErrorInLogs (extract_relevant_logs "exit 0") else Healthy.
Proof.
  assert (H : "Succeeded" ∈ settled_phases) by (apply existsb_eqb_elem; reflexivity).
  split; [exact H|].
  apply settled_pod_not_blocked; [exact H | repeat constructor; left; reflexivity].
Defined.

Lemma unsettled_pod_blocked_witness :
  ("Unknown" ∉ settled_phases) /\
  classify (MkPod "db-0" "Unknown" []) "" = Blocked "" "".
Proof.
  assert (H : "Unknown" ∉ settled_phases) by (intros Hin%existsb_eqb_elem; discriminate).
  split; [exact H | apply (unsettled_pod_blocked (MkPod "db-0" "Unknown" [])); exact H].
Defined.
Example classify_scenario2 :
  classify scenario2_pod "" = Blocked "ImagePullBackOff" "rate limited".
Proof. reflexivity. Qed.

Lemma later_waiting_reason_ignored_witness :
  classify crashloop_pod "all good" = Healthy.
Proof.
  assert (Hw : [("message", "back-off pulling image")] <> @nil (string * string)) by discriminate.
  exact (later_waiting_reason_ignored crashloop_pod "all good" []
           (MkContainerStatus (Some 3%Z) (Some [("message", "back-off pulling image")]))
           [MkContainerStatus (Some 12%Z) (Some [("reason", "CrashLoopBackOff"); ("message", "restarting")])]
           [("message", "back-off pulling image")]
           (proj1 (existsb_eqb_elem "Running" settled_phases) eq_refl) eq_refl (List.Forall_nil _) eq_refl Hw eq_refl).
Defined.
