(* ===== verification/Dispatcher.v ===== *)
(** * Dispatcher: one pod of [dashboard_data], with its side effects

    The body of the loop [for pod in pods] of [dashboard_data]
    (src/eks.py, lines 116-186) and the functions it calls:
    [should_send_alert] (95-99), [analyze_logs] (50-66),
    [analyze_container_issue] (68-80) and [send_email] (82-93).

    The process state [World] holds the global dict [sent_alerts], the
    number of [time.time()] readings taken, the prompts sent to the Azure
    OpenAI client, the SMTP attempts and the mails delivered.  The outside
    world is an [Env] of oracles: the i-th clock reading, the answer to the
    i-th chat completion ([None] when the client raises), whether the i-th
    SMTP session succeeds, and what [kubectl] prints.  Python exceptions
    are values of [py_exc], raised in [PyM]: a raise keeps the mutations
    made before it, as in Python.  The report is kept as data: a [PodRow]
    per pod and a [Diagnostic] per unhealthy pod.

    The alert-or-suppress step is written once, [alert_or_suppress],
    since lines 137-142 and 162-167 are the same code on the two keys. *)

From stdpp Require Import base list strings gmap.
From Stdlib Require Import ZArith Lia.
From S2P Require Import Prelude PyStr Md5 LogExcerpt Fingerprint Suppression Pod.

Local Open Scope string_scope.
Local Open Scope pym_scope.

Inductive py_exc :=
| InferenceError            (** [client.chat.completions.create] raised *)
| SMTPError                 (** [smtplib] raised *)
| KeyError (key : string)   (** [sent_alerts[key]] on a missing key *)
| JSONDecodeError           (** [json.loads] of empty [kubectl] output *)
| TypeError (msg : string)  (** a subscript, [int], [len] or [for] on a value of the wrong type *)
| AttributeError (msg : string) (** [.get] on a value that is not a dict *)
| ValueError (msg : string)     (** [int] of a string that is not an integer *)
| FileNotFoundError (filename : string) (** [open] of a missing file *)
| UnicodeDecodeError.           (** [read] of a text file that is not UTF-8 *)

Record World := MkWorld {
  sent_alerts : gmap string Z;
  clock_reads : nat;
  ai_requests : list string;
  smtp_attempts : nat;
  outbox : list (string * string)
}.

Record Env := MkEnv {
  env_clock : nat -> Z;
  env_ai : nat -> string -> option string;
  env_smtp : nat -> bool;
  env_logs : string -> string -> string;
  env_manifest : string -> string -> string;
  env_pods : string -> option (list Pod);
  env_namespaces : option (list string);
  env_strftime : Z -> string;
  env_default_namespace : string
}.

Abbreviation M := (PyM World py_exc).

(** ** Updates of the world *)

Definition tick (w : World) : World :=
  MkWorld (sent_alerts w) (S (clock_reads w)) (ai_requests w) (smtp_attempts w) (outbox w).

Definition log_request (context : string) (w : World) : World :=
  MkWorld (sent_alerts w) (clock_reads w) (ai_requests w ++ [context]) (smtp_attempts w) (outbox w).

Definition smtp_attempted (w : World) : World :=
  MkWorld (sent_alerts w) (clock_reads w) (ai_requests w) (S (smtp_attempts w)) (outbox w).

Definition deliver (subject body : string) (w : World) : World :=
  MkWorld (sent_alerts w) (clock_reads w) (ai_requests w) (S (smtp_attempts w))
          (outbox w ++ [(subject, body)]).

Definition set_alert (key : string) (now : Z) (w : World) : World :=
  MkWorld (record_alert (sent_alerts w) key now) (clock_reads w) (ai_requests w)
          (smtp_attempts w) (outbox w).

Inductive status_icon := IconWaiting | IconError | IconOK.

Record PodRow := MkRow {
  row_name : string;
  row_color : string;
  row_icon : status_icon;
  row_status : string;
  row_restarts : Z;
  row_feedback : string
}.

Inductive Diagnostic :=
| ContainerDiag (name reason message last_alert feedback : string)
| LogDiag (name last_alert trimmed_logs : string).

Section Dispatcher.
Context (env : Env).

Definition time_time : M Z :=
  w <- get ;; put (tick w) ;;; ret (env_clock env (clock_reads w)).

Definition should_send_alert (key : string) : M bool :=
  w <- get ;;
  match sent_alerts w !! key with
  | None => ret true
  | Some last_sent =>
      if Z.eqb last_sent 0 then ret true
      else now <- time_time ;; ret (Z.gtb (now - last_sent) ALERT_TTL_SECONDS)
  end.

(** [client.chat.completions.create(...).choices[0].message.content] *)
Definition chat_completion (context : string) : M string :=
  w <- get ;;
  put (log_request context w) ;;;
  match env_ai env (length (ai_requests w)) context with
  | Some content => ret content
  | None => raise InferenceError
  end.

Definition analyze_logs (logs manifest : string) : M string :=
  let trimmed_logs := extract_relevant_logs logs in
  if String.eqb (py_strip trimmed_logs) "" then
    ret "No critical errors or exceptions found in logs."
  else
    let context := "Analyze these logs and suggest fixes:" +:+ nl +:+ trimmed_logs in
    let context :=
      if String.eqb manifest "" then context
      else context +:+ nl +:+ nl +:+ "Here is the full pod manifest:" +:+ nl +:+ manifest in
    chat_completion context.

Definition analyze_container_issue (reason message manifest : string) : M string :=
  let context := "Pod is failing with reason: " +:+ reason +:+ nl +:+ "Message: " +:+ message in
  let context :=
    if String.eqb manifest "" then context
    else context +:+ nl +:+ nl +:+ "Pod manifest:" +:+ nl +:+ manifest in
  chat_completion context.

Definition send_email (subject body : string) : M unit :=
  w <- get ;;
  if env_smtp env (smtp_attempts w) then put (deliver subject body w)
  else put (smtp_attempted w) ;;; raise SMTPError.

(** [sent_alerts[key]] *)
Definition alert_time (key : string) : M Z :=
  w <- get ;;
  match sent_alerts w !! key with
  | Some t => ret t
  | None => raise (KeyError key)
  end.

(** [sent_alerts[key] = time.time()] *)
Definition record_sent (key : string) : M unit :=
  now <- time_time ;; modify (set_alert key now).

(** Lines 137-142 (and 162-167): diagnose, mail and record, or report
    the earlier alert. *)
Definition alert_or_suppress (key name : string) (diagnose : M string) : M string :=
  send <- should_send_alert key ;;
  if send then
    ai_feedback <- diagnose ;;
    send_email ("Issue in pod " +:+ name) ai_feedback ;;;
    record_sent key ;;;
    ret ai_feedback
  else
    t <- alert_time key ;;
    ret ("Issue previously reported. Last alert sent: " +:+ env_strftime env t).

(** Lines 121-186, once the fields of lines 117-130 are read: [blocked]
    is the condition of line 132. *)
Definition pod_body (namespace name status : string) (restarts : Z) (blocked : bool)
           (reason message : string) : M (PodRow * option Diagnostic) :=
  let manifest := env_manifest env name namespace in
  if blocked then
    let key := issue_key name reason message in
    ai_feedback <- alert_or_suppress key name (analyze_container_issue reason message manifest) ;;
    last <- alert_time key ;;
    ret (MkRow name "#fff3cd" IconWaiting status restarts ai_feedback,
         Some (ContainerDiag name reason message (env_strftime env last) ai_feedback))
  else
    let logs := env_logs env name namespace in
    if has_error logs then
      let trimmed_logs := extract_relevant_logs logs in
      let error_hash := hash_logs trimmed_logs in
      ai_feedback <- alert_or_suppress error_hash name (analyze_logs logs manifest) ;;
      last <- alert_time error_hash ;;
      ret (MkRow name "#f8d7da" IconError status restarts ai_feedback,
           Some (LogDiag name (env_strftime env last) trimmed_logs))
    else
      ret (MkRow name "#d4edda" IconOK status restarts "No critical issues found.", None).

Definition process_pod (namespace : string) (pod : Pod) : M (PodRow * option Diagnostic) :=
  let '(reason, message) := waiting_reason (containerStatuses pod) in
  pod_body namespace (pod_name pod) (pod_phase pod) (restarts pod)
           (is_blocked (pod_phase pod) reason) reason message.

(** The suppression key [process_pod] uses for [pod], if any. *)
Definition pod_issue_key (namespace : string) (pod : Pod) : option string :=
  let '(reason, message) := waiting_reason (containerStatuses pod) in
  if is_blocked (pod_phase pod) reason then Some (issue_key (pod_name pod) reason message)
  else
    let logs := env_logs env (pod_name pod) namespace in
    if has_error logs then Some (log_issue_key logs) else None.
End Dispatcher.

(** The key follows the verdict of [Pod.classify]. *)
Lemma pod_issue_key_classify env ns pod :
  pod_issue_key env ns pod =
    match classify pod (env_logs env (pod_name pod) ns) with
    | Blocked reason message => Some (issue_key (pod_name pod) reason message)
    | ErrorInLogs excerpt => Some (hash_logs excerpt)
    | Healthy => None
    end.
Proof.
  unfold pod_issue_key, classify, log_issue_key.
  destruct (waiting_reason (containerStatuses pod)) as [reason message].
  destruct (is_blocked (pod_phase pod) reason); [done|].
  by destruct (has_error (env_logs env (pod_name pod) ns)).
Qed.

(** ** One run of each operation *)

Section Runs.
Context (env : Env).

(** The world after [should_send_alert key]: the clock is read only for a
    key that maps to a non-zero time. *)
Definition check_tick (key : string) (w : World) : World :=
  match sent_alerts w !! key with
  | Some t => if Z.eqb t 0 then w else tick w
  | None => w
  end.

Lemma should_send_alert_run key w :
  should_send_alert env key w =
    (Ok (should_send_alert_at (sent_alerts w) key (env_clock env (clock_reads w))),
     check_tick key w).
Proof.
  unfold should_send_alert, should_send_alert_at, check_tick, bind, get.
  destruct (sent_alerts w !! key) as [t|]; [|done]. by destruct (Z.eqb t 0).
Qed.

Lemma check_tick_alerts key w : sent_alerts (check_tick key w) = sent_alerts w.
Proof. unfold check_tick. by repeat case_match. Qed.

Lemma check_tick_outbox key w : outbox (check_tick key w) = outbox w.
Proof. unfold check_tick. by repeat case_match. Qed.

(** What a diagnosis may touch: only the list of prompts, and it may
    raise only [InferenceError]. *)
Definition diag_frame (d : M string) : Prop :=
  forall w, sent_alerts (d w).2 = sent_alerts w /\ clock_reads (d w).2 = clock_reads w /\
            smtp_attempts (d w).2 = smtp_attempts w /\ outbox (d w).2 = outbox w /\
            forall e, (d w).1 = Exc e -> e = InferenceError.

Lemma chat_completion_frame context : diag_frame (chat_completion env context).
Proof.
  intros w. unfold chat_completion, bind, get, put, ret, raise. cbn.
  repeat split; case_match; cbn; try reflexivity; intros e He; congruence.
Qed.

Lemma ret_frame s : diag_frame (ret s).
Proof. intros w. repeat split. discriminate. Qed.

Lemma analyze_logs_frame logs manifest : diag_frame (analyze_logs env logs manifest).
Proof.
  unfold analyze_logs. case_match; [apply ret_frame | apply chat_completion_frame].
Qed.

Lemma analyze_container_issue_frame reason message manifest :
  diag_frame (analyze_container_issue env reason message manifest).
Proof. apply chat_completion_frame. Qed.

Lemma alert_or_suppress_run key name d w :
  alert_or_suppress env key name d w =
    if should_send_alert_at (sent_alerts w) key (env_clock env (clock_reads w)) then
      match d (check_tick key w) with
      | (Ok fb, w2) =>
          if env_smtp env (smtp_attempts w2)
          then (Ok fb, set_alert key (env_clock env (clock_reads w2))
                                 (tick (deliver ("Issue in pod " +:+ name) fb w2)))
          else (Exc SMTPError, smtp_attempted w2)
      | (Exc e, w2) => (Exc e, w2)
      end
    else
      match sent_alerts w !! key with
      | Some t => (Ok ("Issue previously reported. Last alert sent: " +:+ env_strftime env t),
                   check_tick key w)
      | None => (Exc (KeyError key), check_tick key w)
      end.
Proof.
  unfold alert_or_suppress. unfold bind at 1. rewrite should_send_alert_run. cbn beta iota.
  destruct (should_send_alert_at _ _ _).
  - unfold bind at 1. destruct (d (check_tick key w)) as [[fb|e] w2]; [|done].
    unfold send_email, bind, get, put. cbn. by destruct (env_smtp env (smtp_attempts w2)).
  - unfold alert_time, bind, get. rewrite check_tick_alerts.
    destruct (sent_alerts w !! key); reflexivity.
Qed.
End Runs.

#[export] Hint Resolve analyze_logs_frame analyze_container_issue_frame : eks.

(** ** The alert-or-suppress step *)

Section AlertStep.
Context (env : Env).

Lemma alert_or_suppress_effects key name d w :
  diag_frame d ->
  let '(r, w') := alert_or_suppress env key name d w in
  (forall k, r <> Exc (KeyError k)) /\
  (forall v, r = Ok v -> is_Some (sent_alerts w' !! key)) /\
  ((sent_alerts w' = sent_alerts w /\ outbox w' = outbox w) \/
   (exists i fb, r = Ok fb /\ sent_alerts w' = <[key := env_clock env i]> (sent_alerts w) /\
                 outbox w' = (outbox w ++ [("Issue in pod " +:+ name, fb)])%list)).
Proof.
  intros Hd. rewrite alert_or_suppress_run.
  destruct (should_send_alert_at _ key _) eqn:Hs.
  - specialize (Hd (check_tick key w)).
    destruct (d (check_tick key w)) as [[fb|e] w2]; cbn in Hd;
      destruct Hd as (Ha & _ & _ & Ho & He);
      rewrite check_tick_alerts in Ha; rewrite check_tick_outbox in Ho.
    + destruct (env_smtp env (smtp_attempts w2)); cbn; unfold record_alert.
      * split; [congruence|]. split; [intros; rewrite lookup_insert_eq; eauto|].
        right. rewrite Ha, Ho. eauto.
      * split; [congruence|]. split; [discriminate|]. by left.
    + split; [intros k Hk; injection Hk as ->; by specialize (He _ eq_refl)|].
      split; [discriminate|]. by left.
  - destruct (sent_alerts w !! key) eqn:E.
    + split; [congruence|]. rewrite check_tick_alerts, check_tick_outbox, E. eauto.
    + unfold should_send_alert_at in Hs. by rewrite E in Hs.
Qed.

Lemma alert_or_suppress_suppressed key name d w t :
  sent_alerts w !! key = Some t -> (0 < t)%Z ->
  (env_clock env (clock_reads w) - t <= ALERT_TTL_SECONDS)%Z ->
  alert_or_suppress env key name d w =
    (Ok ("Issue previously reported. Last alert sent: " +:+ env_strftime env t), tick w).
Proof.
  intros E Ht Hnow. rewrite alert_or_suppress_run.
  unfold should_send_alert_at, check_tick. rewrite E.
  destruct (Z.eqb_spec t 0); [lia|].
  replace (Z.gtb _ _) with false by (symmetry; rewrite Z.gtb_ltb; apply Z.ltb_ge; lia).
  reflexivity.
Qed.

(** [fb <- alert_or_suppress ...; last <- sent_alerts[key]; row] *)
Definition alert_then_report {A} (key name : string) (d : M string) (mk : string -> Z -> A) : M A :=
  ai_feedback <- alert_or_suppress env key name d ;;
  last <- alert_time key ;;
  ret (mk ai_feedback last).

Lemma alert_then_report_suppressed {A} key name d (mk : string -> Z -> A) w t :
  sent_alerts w !! key = Some t -> (0 < t)%Z ->
  (env_clock env (clock_reads w) - t <= ALERT_TTL_SECONDS)%Z ->
  exists v, alert_then_report key name d mk w = (Ok v, tick w).
Proof.
  intros E Ht Hnow. unfold alert_then_report, bind at 1.
  rewrite (alert_or_suppress_suppressed key name d w t E Ht Hnow).
  unfold alert_time, bind, get. cbn. rewrite E. eauto.
Qed.

Lemma alert_then_report_effects {A} key name d (mk : string -> Z -> A) w :
  diag_frame d ->
  let '(r, w') := alert_then_report key name d mk w in
  (forall k, r <> Exc (KeyError k)) /\
  ((sent_alerts w' = sent_alerts w /\ outbox w' = outbox w) \/
   (exists i fb, sent_alerts w' = <[key := env_clock env i]> (sent_alerts w) /\
                 outbox w' = (outbox w ++ [("Issue in pod " +:+ name, fb)])%list)).
Proof.
  intros Hd. pose proof (alert_or_suppress_effects key name d w Hd) as Hs.
  unfold alert_then_report, bind at 1.
  destruct (alert_or_suppress env key name d w) as [[fb|e] w1]; cbn.
  - destruct Hs as (_ & Hsome & Hch). destruct (Hsome fb eq_refl) as [t Ht].
    unfold alert_time, bind, get. rewrite Ht. cbn.
    split; [congruence|]. destruct Hch as [?|(i & fb' & _ & ? & ?)]; [by left | right; eauto].
  - destruct Hs as (Hk & _ & Hch). split; [intros k Hek; injection Hek as ->; by apply (Hk k)|].
    destruct Hch as [?|(i & fb' & ? & _)]; [by left | discriminate].
Qed.
End AlertStep.

(** ** The three branches of a pod *)

Section Branches.
Context (env : Env).

Definition healthy_row (pod : Pod) : PodRow :=
  MkRow (pod_name pod) "#d4edda" IconOK (pod_phase pod) (restarts pod) "No critical issues found.".

Lemma process_pod_cases ns pod :
  (pod_issue_key env ns pod = None /\ process_pod env ns pod = ret (healthy_row pod, None)) \/
  (exists key ctx mk, pod_issue_key env ns pod = Some key /\
     (forall fb t, row_name (mk fb t).1 = pod_name pod /\ is_Some (mk fb t).2) /\
     process_pod env ns pod = alert_then_report env key (pod_name pod) (chat_completion env ctx) mk).
Proof.
  unfold process_pod, pod_body, pod_issue_key.
  destruct (waiting_reason (containerStatuses pod)) as [reason message].
  destruct (is_blocked (pod_phase pod) reason).
  - right. do 3 eexists. split; [reflexivity|]. split; [|reflexivity].
    intros fb t. cbn. eauto.
  - destruct (has_error (env_logs env (pod_name pod) ns)) eqn:Herr; [right | by left].
    do 3 eexists. split; [reflexivity|]. split; cycle 1.
    + unfold alert_then_report, analyze_logs.
      destruct (String.eqb_spec (py_strip (extract_relevant_logs (env_logs env (pod_name pod) ns))) "")
        as [Hblank|_]; [by apply excerpt_nonblank in Herr|].
      reflexivity.
    + intros fb t. cbn. eauto.
Qed.
End Branches.

(** ** Theorems about one pod *)

Section PodTheorems.
Context (env : Env).

Lemma chat_completion_run ctx w :
  chat_completion env ctx w =
    (match env_ai env (length (ai_requests w)) ctx with
     | Some c => Ok c
     | None => Exc InferenceError
     end, log_request ctx w).
Proof. unfold chat_completion, bind, get, put. cbn. by case_match. Qed.

Lemma check_tick_absent key w : sent_alerts w !! key = None -> check_tick key w = w.
Proof. unfold check_tick. by intros ->. Qed.

(** A new issue whose diagnosis is [fb] and whose mail goes out. *)
Lemma alert_then_report_new {A} key name ctx (mk : string -> Z -> A) w fb :
  sent_alerts w !! key = None ->
  env_ai env (length (ai_requests w)) ctx = Some fb ->
  env_smtp env (smtp_attempts w) = true ->
  alert_then_report env key name (chat_completion env ctx) mk w =
    (Ok (mk fb (env_clock env (clock_reads w))),
     MkWorld (<[key := env_clock env (clock_reads w)]> (sent_alerts w)) (S (clock_reads w))
             (ai_requests w ++ [ctx]) (S (smtp_attempts w))
             (outbox w ++ [("Issue in pod " +:+ name, fb)])).
Proof.
  intros Hnew Hai Hsmtp. unfold alert_then_report, bind at 1.
  rewrite alert_or_suppress_run, check_tick_absent by done.
  unfold should_send_alert_at. rewrite Hnew, chat_completion_run, Hai. cbn.
  rewrite Hsmtp. unfold alert_time, bind, get. cbn. unfold record_alert.
  by rewrite lookup_insert_eq.
Qed.

(** A new issue whose diagnosis or mail fails. *)
Lemma alert_then_report_fail {A} key name ctx (mk : string -> Z -> A) w :
  sent_alerts w !! key = None ->
  (env_ai env (length (ai_requests w)) ctx = None \/ env_smtp env (smtp_attempts w) = false) ->
  exists e, alert_then_report env key name (chat_completion env ctx) mk w =
              (Exc e, match env_ai env (length (ai_requests w)) ctx with
                      | Some _ => smtp_attempted (log_request ctx w)
                      | None => log_request ctx w
                      end).
Proof.
  intros Hnew Hfail. unfold alert_then_report, bind at 1.
  rewrite alert_or_suppress_run, check_tick_absent by done.
  unfold should_send_alert_at. rewrite Hnew, chat_completion_run.
  destruct (env_ai env (length (ai_requests w)) ctx) as [fb|]; cbn; [|eauto].
  destruct Hfail as [Hai|Hsmtp]; [discriminate|]. rewrite Hsmtp. eauto.
Qed.
End PodTheorems.

Section PodClaims.
Context (env : Env).

(** C17: The reads [sent_alerts[key]] of lines 142, 149, 167 and 172 never
    fail: whatever the world, processing a pod never raises [KeyError]. *)
Theorem process_pod_no_key_error ns pod w k :
  (process_pod env ns pod w).1 <> Exc (KeyError k).
Proof.
  destruct (process_pod_cases env ns pod) as [[_ ->] | (key & ctx & mk & _ & _ & ->)]; [done|].
  pose proof (alert_then_report_effects env key (pod_name pod) _ mk w
                (chat_completion_frame env ctx)) as H.
  destruct (alert_then_report _ _ _ _ _ w) as [r w']. apply H.
Qed.

(** C1: Suppression: when the pod's issue key was alerted at a positive
    time [t] and the clock still reads at most [t + 3600], processing the
    pod succeeds, asks the inference service nothing, sends no mail and
    leaves [sent_alerts] as it was; only the clock has been read. *)
Theorem process_pod_suppressed ns pod w key t :
  pod_issue_key env ns pod = Some key -> sent_alerts w !! key = Some t -> (0 < t)%Z ->
  (env_clock env (clock_reads w) - t <= ALERT_TTL_SECONDS)%Z ->
  exists v, process_pod env ns pod w = (Ok v, tick w).
Proof.
  intros Hkey E Ht Hnow.
  destruct (process_pod_cases env ns pod) as [[Hn _] | (key' & ctx & mk & Hk & _ & ->)];
    [congruence|]. rewrite Hkey in Hk. injection Hk as <-.
  unfold alert_then_report, bind at 1.
  rewrite (alert_or_suppress_suppressed env key _ _ w t E Ht Hnow).
  unfold alert_time, bind, get. cbn. rewrite E. eauto.
Qed.

(** C2: A new issue whose diagnosis and mail succeed: exactly one prompt
    is sent, exactly one mail goes out whose body is the diagnosis, and
    only then is the issue key recorded, at the clock reading taken after
    the mail. *)
Theorem process_pod_first_alert ns pod w key fb :
  pod_issue_key env ns pod = Some key -> sent_alerts w !! key = None ->
  (forall ctx, env_ai env (length (ai_requests w)) ctx = Some fb) ->
  env_smtp env (smtp_attempts w) = true ->
  exists v ctx, process_pod env ns pod w =
    (Ok v, MkWorld (<[key := env_clock env (clock_reads w)]> (sent_alerts w)) (S (clock_reads w))
                   (ai_requests w ++ [ctx]) (S (smtp_attempts w))
                   (outbox w ++ [("Issue in pod " +:+ pod_name pod, fb)])).
Proof.
  intros Hkey Hnew Hai Hsmtp.
  destruct (process_pod_cases env ns pod) as [[Hn _] | (key' & ctx & mk & Hk & _ & ->)];
    [congruence|]. rewrite Hkey in Hk. injection Hk as <-.
  rewrite (alert_then_report_new env key _ ctx mk w fb) by auto. eauto.
Qed.

(** C3: A new issue whose diagnosis or mail fails: processing raises,
    no suppression entry is created and no mail is recorded as sent, so
    the issue is retried by the next request. *)
Theorem process_pod_failure_not_recorded ns pod w key :
  pod_issue_key env ns pod = Some key -> sent_alerts w !! key = None ->
  ((forall ctx, env_ai env (length (ai_requests w)) ctx = None) \/
   env_smtp env (smtp_attempts w) = false) ->
  exists e, (process_pod env ns pod w).1 = Exc e /\
            sent_alerts (process_pod env ns pod w).2 = sent_alerts w /\
            outbox (process_pod env ns pod w).2 = outbox w.
Proof.
  intros Hkey Hnew Hfail.
  destruct (process_pod_cases env ns pod) as [[Hn _] | (key' & ctx & mk & Hk & _ & ->)];
    [congruence|]. rewrite Hkey in Hk. injection Hk as <-.
  destruct (alert_then_report_fail env key (pod_name pod) ctx mk w) as [e ->]; [done | |].
  - destruct Hfail as [Hai|Hs]; [left; apply Hai | by right].
  - exists e. cbn. by case_match.
Qed.

(** A pod with no issue key (healthy) is reported as healthy and
    leaves the world untouched: no clock reading, prompt or mail. *)
Theorem process_pod_healthy ns pod w :
  pod_issue_key env ns pod = None -> process_pod env ns pod w = (Ok (healthy_row pod, None), w).
Proof.
  intros Hn. destruct (process_pod_cases env ns pod) as [[_ ->] | (key & ctx & mk & Hk & _ & _)];
    [done | congruence].
Qed.

(** C5: Ordering of side effects: whatever the oracles answer, processing
    a pod either leaves [sent_alerts] and the outbox unchanged, or records
    its issue key at a clock reading and sends exactly one mail about
    this pod. *)
Theorem process_pod_alert_iff_mail ns pod w :
  let w' := (process_pod env ns pod w).2 in
  (sent_alerts w' = sent_alerts w /\ outbox w' = outbox w) \/
  (exists key i body, pod_issue_key env ns pod = Some key /\
     sent_alerts w' = <[key := env_clock env i]> (sent_alerts w) /\
     outbox w' = (outbox w ++ [("Issue in pod " +:+ pod_name pod, body)])%list).
Proof.
  destruct (process_pod_cases env ns pod) as [[_ ->] | (key & ctx & mk & Hk & _ & ->)]; [by left|].
  pose proof (alert_then_report_effects env key (pod_name pod) _ mk w
                (chat_completion_frame env ctx)) as H.
  cbv zeta. destruct (alert_then_report _ _ _ _ _ w) as [r w'].
  destruct H as [_ [?|(i & fb & ? & ?)]]; [by left | right; eauto 10].
Qed.
End PodClaims.

(** ** Concrete runs *)

(** A clock that advances ten seconds per reading, an inference service
    that always answers, and a mail server that always accepts. *)
Definition demo_env : Env :=
  MkEnv (fun i => (1000 + 10 * Z.of_nat i)%Z) (fun _ _ => Some "Check the registry credentials.")
        (fun _ => true) (fun _ _ => "listening on :8080") (fun _ _ => "")
        (fun _ => None) None (fun _ => "2026-01-01 00:16:40") "default".

(** The same world, with an inference service that always fails. *)
Definition failing_env : Env :=
  MkEnv (env_clock demo_env) (fun _ _ => None) (env_smtp demo_env) (env_logs demo_env)
        (env_manifest demo_env) (env_pods demo_env) (env_namespaces demo_env)
        (env_strftime demo_env) (env_default_namespace demo_env).

Definition empty_world : World := MkWorld ∅ 0 [] 0 [].

Definition scenario2_key : string := "web-1:ImagePullBackOff:rate limited".

(** The world after the first alert of scenario 2, sent at time 1000. *)
Definition alerted_world : World :=
  MkWorld {[scenario2_key := 1000%Z]} 1
          ["Pod is failing with reason: ImagePullBackOff" +:+ nl +:+ "Message: rate limited"] 1
          [("Issue in pod web-1", "Check the registry credentials.")].

Example scenario2_first_pass :
  (process_pod demo_env "default" scenario2_pod empty_world).2 = alerted_world.
Proof. vm_compute. reflexivity. Qed.

Lemma process_pod_first_alert_witness :
  pod_issue_key demo_env "default" scenario2_pod = Some scenario2_key /\
  exists v ctx, process_pod demo_env "default" scenario2_pod empty_world =
    (Ok v, MkWorld (<[scenario2_key := env_clock demo_env (clock_reads empty_world)]>
                      (sent_alerts empty_world)) (S (clock_reads empty_world))
                   (ai_requests empty_world ++ [ctx]) (S (smtp_attempts empty_world))
                   (outbox empty_world ++ [("Issue in pod " +:+ pod_name scenario2_pod,
                                            "Check the registry credentials.")])).
Proof.
  split; [reflexivity|].
  apply process_pod_first_alert; [reflexivity | reflexivity | intros; reflexivity | reflexivity].
Defined.

(** Scenario 2, ten seconds later: suppressed. *)
Lemma process_pod_suppressed_witness :
  pod_issue_key demo_env "default" scenario2_pod = Some scenario2_key /\
  exists v, process_pod demo_env "default" scenario2_pod alerted_world = (Ok v, tick alerted_world).
Proof.
  split; [reflexivity|].
  apply (process_pod_suppressed demo_env "default" scenario2_pod alerted_world scenario2_key 1000%Z);
    [reflexivity | reflexivity | lia | vm_compute; discriminate].
Defined.

(** Scenario 4: the inference service fails on a new issue. *)
Lemma process_pod_failure_not_recorded_witness :
  pod_issue_key failing_env "default" scenario2_pod = Some scenario2_key /\
  exists e, (process_pod failing_env "default" scenario2_pod empty_world).1 = Exc e /\
            sent_alerts (process_pod failing_env "default" scenario2_pod empty_world).2
              = sent_alerts empty_world /\
            outbox (process_pod failing_env "default" scenario2_pod empty_world).2
              = outbox empty_world.
Proof.
  split; [reflexivity|].
  apply process_pod_failure_not_recorded with (key := scenario2_key);
    [reflexivity | reflexivity | left; intros; reflexivity].
Defined.

Definition healthy_pod : Pod := MkPod "api-0" "Running" [MkContainerStatus (Some 4%Z) None].

Lemma process_pod_healthy_witness :
  pod_issue_key demo_env "default" healthy_pod = None /\
  process_pod demo_env "default" healthy_pod empty_world
    = (Ok (healthy_row healthy_pod, None), empty_world).
Proof. split; [reflexivity | apply process_pod_healthy; reflexivity]. Defined.
