(* ===== verification/Scan.v ===== *)
(** * Scan: the [dashboard_data] request, [/health] and [/namespaces]

    [dashboard_data] (src/eks.py, lines 109-204) reads the namespace from
    the request (or [DEFAULT_NAMESPACE], line 13), lists the pods with
    [get_pods] (lines 27-32, which turns a failing [kubectl] into an empty
    list) and runs the body of [Dispatcher.process_pod] on each pod in
    order, accumulating one table row per pod and one diagnostic per
    unhealthy pod.  The HTML text they become is
    rendered in [Html].  [health] (lines 206-213) counts
    namespaces and pods under a [try]/[except]; [list_namespaces]
    (lines 105-107) has no [try] around [get_namespaces] (lines 22-25).

    The theorems show that rows follow the pod list, that an unavailable
    pod list degrades to an empty report, that suppression entries are
    never removed, that re-scanning within the TTL sends nothing, and that
    a failing diagnosis aborts the whole request (contrary to the
    specification's per-workload containment). *)

From stdpp Require Import base list strings gmap.
From Stdlib Require Import ZArith Lia.
From S2P Require Import Prelude PyStr LogExcerpt Fingerprint Suppression Pod Dispatcher.

Local Open Scope string_scope.
Local Open Scope pym_scope.

Record Report := MkReport {
  pod_rows : list PodRow;
  diagnostics : list Diagnostic
}.

Inductive health_body :=
| HealthOK (namespaces pods : nat)
| HealthERROR (e : py_exc).   (** the exception caught by line 212 *)

Section Scan.
Context (env : Env).

Definition get_pods (namespace : string) : list Pod := default [] (env_pods env namespace).

Definition get_namespaces : M (list string) :=
  match env_namespaces env with
  | Some names => ret names
  | None => raise JSONDecodeError
  end.

(** [request.args.get("namespace") or DEFAULT_NAMESPACE] *)
Definition request_namespace (arg : option string) : string :=
  match arg with
  | Some ns => if String.eqb ns "" then env_default_namespace env else ns
  | None => env_default_namespace env
  end.

(** One iteration of [for pod in pods]: [pod_rows += ...; diagnostics += ...]. *)
Definition scan_pod (namespace : string) (acc : list PodRow * list Diagnostic) (pod : Pod)
  : M (list PodRow * list Diagnostic) :=
  p <- process_pod env namespace pod ;;
  ret ((acc.1 ++ [p.1])%list, (acc.2 ++ option_list p.2)%list).

Definition dashboard_data (namespace_arg : option string) : M Report :=
  let namespace := request_namespace namespace_arg in
  let pods := get_pods namespace in
  acc <- py_for pods ([], []) (scan_pod namespace) ;;
  ret (MkReport acc.1 acc.2).

Definition list_namespaces : M (list string) := get_namespaces.

(** The body and the status code of [/health]. *)
Definition health : M (health_body * nat) :=
  catch (namespaces <- get_namespaces ;;
         let pod_count := sum_list (map (fun ns => length (get_pods ns)) namespaces) in
         ret (HealthOK (length namespaces) pod_count, 200))
        (fun e => ret (HealthERROR e, 500)).
End Scan.

(** [DEFAULT_NAMESPACE = os.getenv("KUBERNETES_NAMESPACE", "default")]
    (line 13), read from the process environment [getenv] at import time;
    [env_default_namespace] holds its value. *)
Definition DEFAULT_NAMESPACE (getenv : string -> option string) : string :=
  default "default" (getenv "KUBERNETES_NAMESPACE").

(** [sent_alerts.clear()] before [app.run] (line 216): suppression is
    process-local and starts empty; what the outside world has seen stays. *)
Definition startup (w : World) : World :=
  MkWorld ∅ (clock_reads w) (ai_requests w) (smtp_attempts w) (outbox w).

(** ** Facts about one iteration *)

Section ScanLemmas.
Context (env : Env).

Lemma alert_then_report_ok {A} key name d (mk : string -> Z -> A) w v w' :
  alert_then_report env key name d mk w = (Ok v, w') ->
  (exists fb t, v = mk fb t) /\ is_Some (sent_alerts w' !! key).
Proof.
  unfold alert_then_report, bind at 1.
  destruct (alert_or_suppress env key name d w) as [[fb|e] w1]; [|discriminate].
  unfold alert_time, bind, get. destruct (sent_alerts w1 !! key) eqn:E; [|discriminate].
  intros [= <- <-]. eauto.
Qed.

Lemma process_pod_ok ns pod w v w' :
  process_pod env ns pod w = (Ok v, w') ->
  row_name v.1 = pod_name pod /\ (is_Some v.2 <-> is_Some (pod_issue_key env ns pod)) /\
  forall key, pod_issue_key env ns pod = Some key -> is_Some (sent_alerts w' !! key).
Proof.
  destruct (process_pod_cases env ns pod) as [[Hn ->] | (key & ctx & mk & Hk & Hmk & ->)].
  - intros [= <- <-]. rewrite Hn. cbn. split; [done|]. split; [split; by intros []|congruence].
  - intros (( fb & t & ->) & Hsome)%alert_then_report_ok.
    destruct (Hmk fb t) as [Hname Hdiag]. rewrite Hk.
    split; [done|]. split; [split; eauto|]. by intros ? [= <-].
Qed.

Lemma scan_pod_state ns acc pod w :
  (scan_pod env ns acc pod w).2 = (process_pod env ns pod w).2.
Proof. unfold scan_pod, bind. by destruct (process_pod env ns pod w) as [[] ?]. Qed.

(** [sent_alerts] after a pod: unchanged, or one key set to a clock reading. *)
Lemma process_pod_alerts ns pod w :
  sent_alerts (process_pod env ns pod w).2 = sent_alerts w \/
  exists key i, sent_alerts (process_pod env ns pod w).2 = <[key := env_clock env i]> (sent_alerts w).
Proof.
  destruct (process_pod_cases env ns pod) as [[_ ->] | (key & ctx & mk & _ & _ & ->)]; [by left|].
  pose proof (alert_then_report_effects env key (pod_name pod) _ mk w
                (chat_completion_frame env ctx)) as H.
  destruct (alert_then_report _ _ _ _ _ w) as [r w']. cbn [snd].
  destruct H as [_ [[-> _] | (i & fb & -> & _)]]; [by left | right; eauto].
Qed.

Lemma process_pod_dom ns pod w :
  dom (sent_alerts w) ⊆ dom (sent_alerts (process_pod env ns pod w).2).
Proof.
  destruct (process_pod_alerts ns pod w) as [-> | (key & i & ->)]; [done|].
  rewrite dom_insert. set_solver.
Qed.

Lemma process_pod_positive ns pod w :
  (forall i, (0 < env_clock env i)%Z) -> timestamps_positive (sent_alerts w) ->
  timestamps_positive (sent_alerts (process_pod env ns pod w).2).
Proof.
  intros Hclock Hpos.
  destruct (process_pod_alerts ns pod w) as [-> | (key & i & ->)]; [done|].
  by apply map_Forall_insert_2.
Qed.

Lemma scan_loop_dom ns pods acc w :
  dom (sent_alerts w) ⊆ dom (sent_alerts (py_for pods acc (scan_pod env ns) w).2).
Proof.
  apply (py_for_preserves (fun s => dom (sent_alerts w) ⊆ dom (sent_alerts s))); [|done].
  intros acc' pod s0 H0. rewrite scan_pod_state. etransitivity; [exact H0 | apply process_pod_dom].
Qed.

Lemma scan_loop_positive ns pods acc w :
  (forall i, (0 < env_clock env i)%Z) -> timestamps_positive (sent_alerts w) ->
  timestamps_positive (sent_alerts (py_for pods acc (scan_pod env ns) w).2).
Proof.
  intros Hclock. apply (py_for_preserves (fun s => timestamps_positive (sent_alerts s))).
  intros acc' pod s0 H0. rewrite scan_pod_state. by apply process_pod_positive.
Qed.

Lemma dom_is_Some (m m' : gmap string Z) k :
  dom m ⊆ dom m' -> is_Some (m !! k) -> is_Some (m' !! k).
Proof. rewrite <- !elem_of_dom. set_solver. Qed.
End ScanLemmas.

(** ** The loop over the pods *)

Section ScanLoop.
Context (env : Env).

(** Pods that get a diagnostic entry. *)
Definition is_unhealthy (ns : string) (pod : Pod) : bool :=
  match pod_issue_key env ns pod with Some _ => true | None => false end.

Lemma scan_pod_run ns acc pod w :
  scan_pod env ns acc pod w =
    match process_pod env ns pod w with
    | (Ok v, w1) => (Ok ((acc.1 ++ [v.1])%list, (acc.2 ++ option_list v.2)%list), w1)
    | (Exc e, w1) => (Exc e, w1)
    end.
Proof. unfold scan_pod, bind. by destruct (process_pod env ns pod w) as [[] ?]. Qed.

Lemma option_list_length {A} (o : option A) :
  length (option_list o) = match o with Some _ => 1 | None => 0 end.
Proof. by destruct o. Qed.

Lemma scan_loop_ok ns pods acc w acc' w' :
  py_for pods acc (scan_pod env ns) w = (Ok acc', w') ->
  map row_name acc'.1 = (map row_name acc.1 ++ map pod_name pods)%list /\
  length acc'.2 = length acc.2 + length (List.filter (is_unhealthy ns) pods) /\
  forall pod key, pod ∈ pods -> pod_issue_key env ns pod = Some key ->
                  is_Some (sent_alerts w' !! key).
Proof.
  revert acc w. induction pods as [|pod pods IH]; intros acc w.
  - intros [= <- <-]. cbn. rewrite app_nil_r. split; [done|]. split; [lia|].
    intros ? ? Hin%elem_of_nil. done.
  - cbn [py_for]. unfold bind at 1. rewrite scan_pod_run.
    destruct (process_pod env ns pod w) as [[v|e] w1] eqn:Hp; [|discriminate].
    intros Hrest. pose proof (scan_loop_dom env ns pods ((acc.1 ++ [v.1])%list, (acc.2 ++ option_list v.2)%list) w1) as Hdom. rewrite Hrest in Hdom.
    apply (process_pod_ok env) in Hp as (Hname & Hdiag & Hkey).
    destruct (IH _ _ Hrest) as (Hrows & Hlen & Hkeys). split; [|split].
    + rewrite Hrows. cbn. rewrite map_app, <- app_assoc. cbn. by rewrite Hname.
    + rewrite Hlen. cbn. rewrite length_app, option_list_length. unfold is_unhealthy.
      destruct v.2, (pod_issue_key env ns pod); cbn; try lia;
        destruct Hdiag as [H1 H2]; [by destruct H1 | by destruct H2].
    + intros p key [<- | Hin]%elem_of_cons Hk; [|eauto].
      by eapply dom_is_Some; [exact Hdom | apply Hkey].
Qed.

(** The world after [n] more clock readings. *)
Definition ticks (n : nat) (w : World) : World :=
  MkWorld (sent_alerts w) (n + clock_reads w) (ai_requests w) (smtp_attempts w) (outbox w).

Lemma ticks_tick n w : ticks n (tick w) = ticks (S n) w.
Proof. unfold ticks, tick. cbn. f_equal. lia. Qed.

(** Every pod's key is recorded at a positive time that no later clock
    reading exceeds by more than the TTL. *)
Definition keys_fresh (ns : string) (pods : list Pod) (w : World) : Prop :=
  forall pod key, pod ∈ pods -> pod_issue_key env ns pod = Some key ->
    exists t, sent_alerts w !! key = Some t /\ (0 < t)%Z /\
      forall i, clock_reads w <= i -> (env_clock env i - t <= ALERT_TTL_SECONDS)%Z.

Lemma keys_fresh_tick ns pods w : keys_fresh ns pods w -> keys_fresh ns pods (tick w).
Proof.
  intros H pod key Hin Hk. destruct (H pod key Hin Hk) as (t & Ht & Hpos & Hle).
  exists t. split; [done|]. split; [done|]. intros i Hi. apply Hle. cbn in Hi. lia.
Qed.

Lemma scan_loop_suppressed ns pods acc w :
  keys_fresh ns pods w ->
  exists acc' n, py_for pods acc (scan_pod env ns) w = (Ok acc', ticks n w).
Proof.
  revert acc w. induction pods as [|pod pods IH]; intros acc w Hfresh.
  - exists acc, 0. cbn. by destruct w.
  - cbn [py_for]. unfold bind at 1. rewrite scan_pod_run.
    assert (Hfresh' : keys_fresh ns pods w)
      by (intros p k Hin; apply Hfresh; by apply elem_of_cons; right).
    destruct (pod_issue_key env ns pod) as [key|] eqn:Hk.
    + destruct (Hfresh pod key ltac:(by apply elem_of_cons; left) Hk) as (t & Ht & Hpos & Hle).
      destruct (process_pod_cases env ns pod) as [[Hn _] | (key' & ctx & mk & Hk' & _ & ->)];
        [congruence|]. rewrite Hk in Hk'. injection Hk' as <-.
      destruct (alert_then_report_suppressed env key (pod_name pod) (chat_completion env ctx) mk w t
                  Ht Hpos (Hle _ (le_n _))) as [v ->].
      destruct (IH ((acc.1 ++ [v.1])%list, (acc.2 ++ option_list v.2)%list) (tick w))
        as (acc' & n & ->); [by apply keys_fresh_tick|].
      exists acc', (S n). by rewrite ticks_tick.
    + destruct (process_pod_cases env ns pod) as [[_ ->] | (key' & ctx & mk & Hk' & _ & _)];
        [|congruence]. unfold ret. cbv iota beta.
      match goal with |- context [py_for pods ?a _ w] =>
        destruct (IH a w) as (acc' & n & ->); [exact Hfresh'|] end.
      eauto.
Qed.
End ScanLoop.

(** ** Theorems about a request *)

Section ScanClaims.
Context (env : Env).

Lemma dashboard_data_run arg w :
  dashboard_data env arg w =
    match py_for (get_pods env (request_namespace env arg)) ([], [])
                 (scan_pod env (request_namespace env arg)) w with
    | (Ok acc, w') => (Ok (MkReport acc.1 acc.2), w')
    | (Exc e, w') => (Exc e, w')
    end.
Proof. unfold dashboard_data, bind. by destruct (py_for _ _ _ w) as [[] ?]. Qed.

(** A completed request reports one row per pod, in the order
    [kubectl] listed the pods, and one diagnostic per unhealthy pod. *)
Theorem dashboard_rows_follow_pods arg w r w' :
  dashboard_data env arg w = (Ok r, w') ->
  let pods := get_pods env (request_namespace env arg) in
  map row_name (pod_rows r) = map pod_name pods /\
  length (diagnostics r) = length (List.filter (is_unhealthy env (request_namespace env arg)) pods).
Proof.
  rewrite dashboard_data_run.
  destruct (py_for _ _ _ w) as [[acc|e] w1] eqn:E; [|discriminate].
  intros [= <- <-]. apply scan_loop_ok in E as (Hrows & Hlen & _). cbn in Hrows, Hlen |- *.
  split; [exact Hrows | lia].
Qed.

(** When listing the pods of the namespace fails, the request still
    succeeds, with an empty report and no side effect. *)
Theorem dashboard_pods_unavailable arg w :
  env_pods env (request_namespace env arg) = None ->
  dashboard_data env arg w = (Ok (MkReport [] []), w).
Proof. intros Hnone. rewrite dashboard_data_run. unfold get_pods. by rewrite Hnone. Qed.

(** C37: Suppression entries are never removed: every key of [sent_alerts]
    before a request is still there after it, whether the request
    succeeds or raises. *)
Theorem dashboard_alerts_never_removed arg w :
  dom (sent_alerts w) ⊆ dom (sent_alerts (dashboard_data env arg w).2).
Proof.
  rewrite dashboard_data_run. pose proof (scan_loop_dom env (request_namespace env arg)
    (get_pods env (request_namespace env arg)) ([], []) w) as H.
  by destruct (py_for _ _ _ w) as [[] ?].
Qed.

(** C6: Idempotence of a re-scan within the TTL: after a completed request,
    with a clock that only reads positive times, a second identical request
    whose clock readings stay within [ALERT_TTL_SECONDS] of every recorded
    alert completes, sends no prompt and no mail and changes no entry of
    [sent_alerts]; only the clock is read. *)
Theorem rescan_within_ttl arg w r w1 :
  dashboard_data env arg w = (Ok r, w1) ->
  timestamps_positive (sent_alerts w) -> (forall i, (0 < env_clock env i)%Z) ->
  (forall i k t, clock_reads w1 <= i -> sent_alerts w1 !! k = Some t ->
                 (env_clock env i - t <= ALERT_TTL_SECONDS)%Z) ->
  exists r2 n, dashboard_data env arg w1 = (Ok r2, ticks n w1).
Proof.
  intros Hrun Hpos Hclock Hwithin. rewrite dashboard_data_run in Hrun |- *.
  set (ns := request_namespace env arg) in *.
  pose proof (scan_loop_positive env ns (get_pods env ns) ([], []) w Hclock Hpos) as Hpos1.
  destruct (py_for _ _ _ w) as [[acc|e] w1'] eqn:E; [|discriminate].
  injection Hrun as _ <-. cbn in Hpos1.
  destruct (scan_loop_ok env ns _ _ _ _ _ E) as (_ & _ & Hkeys).
  destruct (scan_loop_suppressed env ns (get_pods env ns) ([], []) w1') as (acc2 & n & ->); [|eauto].
  intros pod key Hin Hk. destruct (Hkeys pod key Hin Hk) as [t Ht].
  exists t. split; [done|]. split; [exact (map_Forall_lookup_1 _ _ _ _ Hpos1 Ht)|].
  intros i Hi. by apply (Hwithin i key t).
Qed.

(** C18: A pod whose processing raises (the inference service or the mail
    server failed) aborts the whole request: no report is produced for any
    pod, although the alerts already sent for earlier pods stay recorded. *)
Theorem dashboard_aborts_on_pod_failure arg w pre pod post acc1 w1 e w2 :
  get_pods env (request_namespace env arg) = (pre ++ pod :: post)%list ->
  py_for pre ([], []) (scan_pod env (request_namespace env arg)) w = (Ok acc1, w1) ->
  process_pod env (request_namespace env arg) pod w1 = (Exc e, w2) ->
  dashboard_data env arg w = (Exc e, w2) /\ dom (sent_alerts w1) ⊆ dom (sent_alerts w2).
Proof.
  intros Hpods Hpre Hpod. rewrite dashboard_data_run, Hpods.
  rewrite (py_for_app_exc pre post pod _ acc1 _ w w1 e w2 Hpre); [split; [done|]|].
  - pose proof (process_pod_dom env (request_namespace env arg) pod w1) as H.
    by rewrite Hpod in H.
  - rewrite scan_pod_run. by rewrite Hpod.
Qed.
End ScanClaims.

(** ** Concrete runs *)

Definition log_pod : Pod := MkPod "worker-3" "Running" [MkContainerStatus (Some 1%Z) None].

(** A namespace with a blocked pod, a healthy pod and a pod whose log shows
    an error; the clock reads 1000, 1010, ... and stops at 1100. *)
Definition scan_env : Env :=
  MkEnv (fun i => (1000 + 10 * Z.of_nat (Nat.min i 10))%Z) (env_ai demo_env) (env_smtp demo_env)
        (fun name _ => if String.eqb name "worker-3" then sample_log else "listening on :8080")
        (env_manifest demo_env)
        (fun ns => if String.eqb ns "default" then Some [scenario2_pod; healthy_pod; log_pod] else None)
        (Some ["default"; "kube-system"]) (env_strftime demo_env) (DEFAULT_NAMESPACE (fun _ => None)).

Definition log_key : string := "456bddd72eebfb15bef834bc08fad54b".

Definition scan_report : Report :=
  MkReport
    [MkRow "web-1" "#fff3cd" IconWaiting "Pending" 0 "Check the registry credentials.";
     MkRow "api-0" "#d4edda" IconOK "Running" 4 "No critical issues found.";
     MkRow "worker-3" "#f8d7da" IconError "Running" 1 "Check the registry credentials."]
    [ContainerDiag "web-1" "ImagePullBackOff" "rate limited" "2026-01-01 00:16:40"
                   "Check the registry credentials.";
     LogDiag "worker-3" "2026-01-01 00:16:40" "Traceback: ValueError raised"].

Definition scan_world : World :=
  MkWorld (<[log_key := 1010%Z]> (<[scenario2_key := 1000%Z]> ∅)) 2
    ["Pod is failing with reason: ImagePullBackOff" +:+ nl +:+ "Message: rate limited";
     "Analyze these logs and suggest fixes:" +:+ nl +:+ "Traceback: ValueError raised"] 2
    [("Issue in pod web-1", "Check the registry credentials.");
     ("Issue in pod worker-3", "Check the registry credentials.")].

Example scan_first_request :
  dashboard_data scan_env None empty_world = (Ok scan_report, scan_world).
Proof. vm_compute. reflexivity. Qed.

(** After a restart the first request mails both issues again. *)
Example scan_after_restart :
  length (outbox (dashboard_data scan_env None (startup scan_world)).2) = 4.
Proof. vm_compute. reflexivity. Qed.

Example health_scan_env : health scan_env empty_world = (Ok (HealthOK 2 3, 200), empty_world).
Proof. vm_compute. reflexivity. Qed.

(** [/health] turns a failing [kubectl] into status 500; [/namespaces] raises. *)
Example health_kubectl_down :
  health demo_env empty_world = (Ok (HealthERROR JSONDecodeError, 500), empty_world) /\
  list_namespaces demo_env empty_world = (Exc JSONDecodeError, empty_world).
Proof. split; reflexivity. Qed.

Lemma dashboard_rows_follow_pods_witness :
  dashboard_data scan_env None empty_world = (Ok scan_report, scan_world) /\
  map row_name (pod_rows scan_report) = map pod_name (get_pods scan_env (request_namespace scan_env None)) /\
  length (diagnostics scan_report) =
    length (List.filter (is_unhealthy scan_env (request_namespace scan_env None))
                        (get_pods scan_env (request_namespace scan_env None))).
Proof.
  assert (H : dashboard_data scan_env None empty_world = (Ok scan_report, scan_world))
    by (vm_compute; reflexivity).
  split; [exact H | apply (dashboard_rows_follow_pods scan_env None empty_world _ _ H)].
Defined.

Lemma dashboard_pods_unavailable_witness :
  env_pods scan_env (request_namespace scan_env (Some "staging")) = None /\
  dashboard_data scan_env (Some "staging") scan_world = (Ok (MkReport [] []), scan_world).
Proof. split; [reflexivity | apply dashboard_pods_unavailable; reflexivity]. Defined.

Lemma scan_world_recent : map_Forall (fun _ t => (1000 <= t)%Z) (sent_alerts scan_world).
Proof. cbn. repeat apply map_Forall_insert_2; try lia. apply map_Forall_empty. Qed.

Lemma rescan_within_ttl_witness :
  dashboard_data scan_env None empty_world = (Ok scan_report, scan_world) /\
  exists r2 n, dashboard_data scan_env None scan_world = (Ok r2, ticks n scan_world).
Proof.
  assert (H : dashboard_data scan_env None empty_world = (Ok scan_report, scan_world))
    by (vm_compute; reflexivity).
  split; [exact H|].
  apply (rescan_within_ttl scan_env None empty_world scan_report scan_world H).
  - apply map_Forall_empty.
  - intros i. cbn. lia.
  - intros i k t _ Hk. pose proof (map_Forall_lookup_1 _ _ _ _ scan_world_recent Hk) as Ht.
    cbv beta in Ht. cbn [env_clock scan_env]. unfold ALERT_TTL_SECONDS. pose proof (Nat.le_min_r i 10). lia.
Defined.

(** The inference service answers the first request and fails afterwards. *)
Definition abort_env : Env :=
  MkEnv (env_clock scan_env) (fun i _ => if Nat.eqb i 0 then Some "Check the registry credentials." else None)
        (env_smtp scan_env) (env_logs scan_env) (env_manifest scan_env)
        (fun _ => Some [scenario2_pod; log_pod]) (env_namespaces scan_env)
        (env_strftime scan_env) "default".

Definition abort_world : World :=
  MkWorld (<[scenario2_key := 1000%Z]> ∅) 1
    ["Pod is failing with reason: ImagePullBackOff" +:+ nl +:+ "Message: rate limited"] 1
    [("Issue in pod web-1", "Check the registry credentials.")].

Lemma dashboard_aborts_on_pod_failure_witness :
  get_pods abort_env (request_namespace abort_env None) = ([scenario2_pod] ++ log_pod :: [])%list /\
  dashboard_data abort_env None empty_world =
    (Exc InferenceError,
     log_request ("Analyze these logs and suggest fixes:" +:+ nl +:+ "Traceback: ValueError raised")
                 abort_world) /\
  dom (sent_alerts abort_world)
    ⊆ dom (sent_alerts (log_request ("Analyze these logs and suggest fixes:" +:+ nl +:+
                                     "Traceback: ValueError raised") abort_world)).
Proof.
  assert (Hp : get_pods abort_env (request_namespace abort_env None) = ([scenario2_pod] ++ log_pod :: [])%list)
    by reflexivity.
  split; [exact Hp|].
  apply (dashboard_aborts_on_pod_failure abort_env None empty_world [scenario2_pod] log_pod []
           ([MkRow "web-1" "#fff3cd" IconWaiting "Pending" 0 "Check the registry credentials."],
            [ContainerDiag "web-1" "ImagePullBackOff" "rate limited" "2026-01-01 00:16:40"
                           "Check the registry credentials."])
           abort_world InferenceError); [exact Hp | vm_compute; reflexivity | vm_compute; reflexivity].
Defined.
