(* ===== verification/Concurrency.v ===== *)
(** * Concurrency: requests racing on [sent_alerts]

    [app.run(debug=True)] (src/eks.py, line 217) serves requests on
    threads, so two requests for the dashboard may process the same pod
    at once.  The alert step of lines 137-149 is a check
    ([should_send_alert]), a diagnosis, a mail and a write
    ([sent_alerts[key] = time.time()]), or the read of line 142 when the
    check says no, and then the read [sent_alerts[key]] of line 149 for
    the diagnostics; there is no lock around them.

    A [thread] is a request at a program point of that step; [exec_action]
    runs the next action of a thread with the operations of [Dispatcher],
    and [step] lets any unfinished thread move.  The write of line 140 is
    two actions, as CPython runs it: the call [time.time()], after which
    another thread may run, then the store into the dict; each read of
    the dict is an action of its own; the check, the diagnosis and the
    mail are each one action (taking them as atomic only removes
    interleavings).  [run_solo] runs one thread alone.

    The theorems show that a thread alone computes exactly
    [alert_then_report] (a refinement of the sequential code by the
    small-step model), that every thread finishes within six actions,
    that every interleaving of any number of requests terminates (the
    measure [weight] counts the actions left) and can only stop once all
    requests have finished, that no interleaving raises [KeyError] (an
    invariant of every reachable state, by induction on the steps), and
    that two interleaved requests can both mail the same issue, whereas
    the specification (section 5) requires one notification, while under
    a lock they mail once. *)

From stdpp Require Import base list strings gmap relations.
From Stdlib Require Import ZArith Lia.
From S2P Require Import Prelude PyStr Fingerprint Suppression Pod Dispatcher.

Local Open Scope string_scope.
Local Open Scope pym_scope.

Inductive pc :=
| AtCheck                         (** before [should_send_alert(key)] *)
| AtDiagnose                      (** the check returned [True] *)
| AtSuppressed                    (** the check returned [False]: line 142 reads [sent_alerts[key]] *)
| AtSend (feedback : string)      (** the diagnosis returned [feedback] *)
| AtRecord (feedback : string)    (** the mail went out *)
| AtStore (feedback : string) (now : Z) (** [time.time()] returned [now] *)
| AtReport (feedback : string)    (** line 149 reads [sent_alerts[key]] for the diagnostics *)
| Finished (r : outcome py_exc (string * Z)).

Record thread := MkThread {
  th_key : string;
  th_name : string;
  th_ctx : string;
  th_pc : pc
}.

Definition with_pc (t : thread) (p : pc) : thread := MkThread (th_key t) (th_name t) (th_ctx t) p.

Definition is_finished (p : pc) : bool := if p is Finished _ then true else false.

Section Threads.
Context (env : Env).

(** The next action of a thread, as the code runs it.  A finished
    request holds the feedback of its row and the time its diagnostics
    show. *)
Definition action (t : thread) : M pc :=
  match th_pc t with
  | AtCheck =>
      send <- should_send_alert env (th_key t) ;;
      ret (if send then AtDiagnose else AtSuppressed)
  | AtDiagnose => fb <- chat_completion env (th_ctx t) ;; ret (AtSend fb)
  | AtSuppressed =>
      last <- alert_time (th_key t) ;;
      ret (AtReport ("Issue previously reported. Last alert sent: " +:+ env_strftime env last))
  | AtSend fb => send_email env ("Issue in pod " +:+ th_name t) fb ;;; ret (AtRecord fb)
  | AtRecord fb => now <- time_time env ;; ret (AtStore fb now)
  | AtStore fb now => modify (set_alert (th_key t) now) ;;; ret (AtReport fb)
  | AtReport fb => last <- alert_time (th_key t) ;; ret (Finished (Ok (fb, last)))
  | Finished r => ret (Finished r)
  end.

(** A raise ends the thread with that exception. *)
Definition exec_action (t : thread) (w : World) : thread * World :=
  match action t w with
  | (Ok p, w') => (with_pc t p, w')
  | (Exc e, w') => (with_pc t (Finished (Exc e)), w')
  end.

Inductive step : World * list thread -> World * list thread -> Prop :=
| step_thread w ts i t :
    ts !! i = Some t -> is_finished (th_pc t) = false ->
    step (w, ts) ((exec_action t w).2, <[i := (exec_action t w).1]> ts).

(** One thread alone, for at most [n] actions. *)
Fixpoint run_solo (n : nat) (t : thread) (w : World) : thread * World :=
  match n with
  | O => (t, w)
  | S n' => if is_finished (th_pc t) then (t, w)
            else let '(t', w') := exec_action t w in run_solo n' t' w'
  end.
End Threads.

(** ** A thread alone runs the sequential code *)

Section Solo.
Context (env : Env).

(** The row and the diagnostics of lines 137-149 for one issue: the
    feedback and the time [sent_alerts[key]] holds after the alert step. *)
Definition alert_report (key name ctx : string) : M (string * Z) :=
  alert_then_report env key name (chat_completion env ctx) pair.

Lemma alert_then_report_run {A} key name d (mk : string -> Z -> A) w :
  alert_then_report env key name d mk w =
    match alert_or_suppress env key name d w with
    | (Ok fb, w1) => match sent_alerts w1 !! key with
                     | Some t => (Ok (mk fb t), w1)
                     | None => (Exc (KeyError key), w1)
                     end
    | (Exc e, w1) => (Exc e, w1)
    end.
Proof.
  unfold alert_then_report, bind at 1. destruct (alert_or_suppress _ _ _ _ _) as [[fb|e] w1]; [|done].
  unfold alert_time, bind, get. by destruct (sent_alerts w1 !! key).
Qed.

(** The report reads only: the world after the alert step is the one
    [alert_or_suppress] leaves. *)
Lemma alert_then_report_world {A} key name d (mk : string -> Z -> A) w :
  (alert_then_report env key name d mk w).2 = (alert_or_suppress env key name d w).2.
Proof. rewrite alert_then_report_run. destruct (alert_or_suppress _ _ _ _ _) as [[] ?]; [case_match|]; done. Qed.

Lemma exec_check key name ctx w :
  exec_action env (MkThread key name ctx AtCheck) w =
    (MkThread key name ctx
       (if should_send_alert_at (sent_alerts w) key (env_clock env (clock_reads w))
        then AtDiagnose else AtSuppressed), check_tick key w).
Proof.
  unfold exec_action, action. cbn [th_pc th_key]. unfold bind at 1.
  by rewrite should_send_alert_run.
Qed.

(** Refinement of the sequential code by the small-step model: a request
    running alone finishes its alert step and the read of its diagnostics
    within six actions, with exactly the outcome and the world that lines
    137-149 compute sequentially ([alert_or_suppress], then
    [sent_alerts[key]]). *)
Lemma run_solo_check key name ctx w :
  let '(t', w') := run_solo env 6 (MkThread key name ctx AtCheck) w in
  th_pc t' = Finished (alert_report key name ctx w).1 /\ w' = (alert_report key name ctx w).2.
Proof.
  unfold alert_report. rewrite alert_then_report_run, alert_or_suppress_run.
  cbn [run_solo is_finished th_pc]. rewrite exec_check.
  destruct (should_send_alert_at _ _ _).
  - unfold exec_action at 1, action. cbn [th_pc th_ctx]. unfold bind at 1.
    rewrite chat_completion_run.
    destruct (env_ai env (length (ai_requests (check_tick key w))) ctx) as [fb|]; [|done].
    cbn. unfold exec_action at 1, action. cbn [th_pc th_name]. unfold bind at 1.
    unfold send_email, bind, get, put. cbn.
    destruct (env_smtp env (smtp_attempts (check_tick key w))); [|done].
    unfold exec_action, action, alert_time, bind, get, ret. cbn. unfold record_alert. rewrite !lookup_insert_eq. done.
  - unfold exec_action, action, alert_time, bind, get, ret. cbn.
    rewrite !check_tick_alerts. destruct (sent_alerts w !! key) eqn:E; cbn; rewrite ?check_tick_alerts, ?E; done.
Qed.

End Solo.

(** ** Every interleaving terminates *)

(** The actions a thread has left at most. *)
Definition pc_weight (p : pc) : nat :=
  match p with
  | AtCheck => 6
  | AtDiagnose => 5
  | AtSend _ => 4
  | AtRecord _ => 3
  | AtStore _ _ | AtSuppressed => 2
  | AtReport _ => 1
  | Finished _ => 0
  end.

Definition weight (s : World * list thread) : nat := sum_list (map (fun t => pc_weight (th_pc t)) s.2).

Section Termination.
Context (env : Env).

Lemma exec_action_weight t w :
  is_finished (th_pc t) = false -> pc_weight (th_pc (exec_action env t w).1) < pc_weight (th_pc t).
Proof.
  unfold exec_action, action, bind, ret, raise, get, put, modify.
  destruct t as [k n c []]; cbn; intros Hf; try discriminate;
    repeat (case_match; cbn in *; simplify_eq); cbn; lia.
Qed.

Lemma weight_insert ts i t t' :
  ts !! i = Some t -> pc_weight (th_pc t') < pc_weight (th_pc t) ->
  sum_list (map (fun t => pc_weight (th_pc t)) (<[i := t']> ts))
    < sum_list (map (fun t => pc_weight (th_pc t)) ts).
Proof.
  revert i. induction ts as [|x ts IH]; intros [|i] Hi Hlt; cbn in *; simplify_eq; [lia|].
  apply Nat.add_lt_mono_l. exact (IH i Hi Hlt).
Qed.

Lemma step_weight s s' : step env s s' -> weight s' < weight s.
Proof. intros [w ts i t Hi Hf]. unfold weight. cbn. apply (weight_insert ts i t); [exact Hi | by apply exec_action_weight]. Qed.

Lemma nsteps_weight n s s' : nsteps (step env) n s s' -> n + weight s' <= weight s.
Proof. induction 1 as [|n s1 s2 s3 H _ IH]; [lia|]. pose proof (step_weight _ _ H). lia. Qed.

Lemma weight_bound ts :
  sum_list (map (fun t => pc_weight (th_pc t)) ts) <= 6 * length ts.
Proof. induction ts as [|t ts IH]; cbn; [lia|]. destruct (th_pc t); cbn; lia. Qed.

Lemma step_sn s : sn (step env) s.
Proof.
  remember (weight s) as n eqn:Hn. revert s Hn.
  induction (lt_wf n) as [n _ IH]. intros s ->.
  constructor. intros s' Hs. eapply IH; [apply step_weight, Hs | reflexivity].
Qed.

(** A state where no thread can move has only finished threads. *)
Lemma nf_finished s : nf (step env) s -> Forall (fun t => is_finished (th_pc t) = true) s.2.
Proof.
  destruct s as [w ts]. intros Hnf. apply Forall_lookup. intros i t Hi.
  destruct (is_finished (th_pc t)) eqn:Hf; [done|].
  exfalso. apply Hnf. eexists. by apply step_thread.
Qed.

Lemma reach_finished s :
  exists s', rtc (step env) s s' /\ Forall (fun t => is_finished (th_pc t) = true) s'.2.
Proof.
  induction (step_sn s) as [s _ IH].
  destruct (decide (Forall (fun t => is_finished (th_pc t) = true) s.2)) as [Hall|Hnot].
  - exists s. split; [apply rtc_refl | exact Hall].
  - apply not_Forall_Exists in Hnot; [|intros ?; apply _].
    apply Exists_exists in Hnot as (t & Hin & Hf%not_true_is_false).
    apply list_elem_of_lookup_1 in Hin as [i Hi]. destruct s as [w ts].
    destruct (IH _ (step_thread env w ts i t Hi Hf)) as (s' & Hrtc & Hall).
    exists s'. split; [eapply rtc_l; [exact (step_thread env w ts i t Hi Hf) | exact Hrtc] | exact Hall].
Qed.
End Termination.

Section TerminationClaims.
Context (env : Env).

(** Termination of the request threads: from any state, every
    interleaving of the racing requests is finite, and a run from a
    state with [k] threads takes at most [6 k] actions (check, diagnosis,
    mail, clock reading, store, report). *)
Theorem interleavings_terminate s :
  sn (step env) s /\ forall n s', nsteps (step env) n s s' -> n <= 6 * length s.2.
Proof.
  split; [apply step_sn|]. intros n s' H%nsteps_weight.
  pose proof (weight_bound s.2). unfold weight in *. lia.
Qed.

(** Every request runs to completion: from any state a state where
    all requests have finished (with a result or an exception) is
    reachable, and a run can only stop there, so no interleaving leaves a
    request stuck between its check, its mail and its write. *)
Theorem requests_run_to_completion s :
  (exists s', rtc (step env) s s' /\ Forall (fun t => is_finished (th_pc t) = true) s'.2) /\
  (forall s', rtc (step env) s s' -> nf (step env) s' ->
              Forall (fun t => is_finished (th_pc t) = true) s'.2).
Proof. split; [apply reach_finished | intros s' _; apply nf_finished]. Qed.
End TerminationClaims.

(** ** No interleaving raises [KeyError] *)

Section KeyErrors.
Context (env : Env).

(** A request about to read [sent_alerts[key]] (line 142 or 149) finds
    its key there. *)
Definition key_ready (w : World) (t : thread) : Prop :=
  match th_pc t with
  | AtSuppressed | AtReport _ => is_Some (sent_alerts w !! th_key t)
  | _ => True
  end.

Definition no_key_error (t : thread) : Prop := forall k, th_pc t <> Finished (Exc (KeyError k)).

Definition key_safe (s : World * list thread) : Prop :=
  Forall (fun t => key_ready s.1 t /\ no_key_error t) s.2.

(** Runs an action of a thread to the end, on every branch. *)
Ltac run_action :=
  unfold exec_action, action, should_send_alert, chat_completion, send_email, time_time, alert_time,
    bind, get, put, ret, raise, modify, set_alert, record_alert;
  repeat (case_match; simplify_eq/=).

(** No action removes a key of [sent_alerts]. *)
Lemma exec_action_keys t w k :
  is_Some (sent_alerts w !! k) -> is_Some (sent_alerts (exec_action env t w).2 !! k).
Proof.
  intros Hk. destruct t as [k' n c []]; run_action; try done.
  rewrite lookup_insert_is_Some'. by right.
Qed.

Lemma exec_action_safe t w :
  key_ready w t -> no_key_error t ->
  key_ready (exec_action env t w).2 (exec_action env t w).1 /\ no_key_error (exec_action env t w).1.
Proof.
  unfold key_ready, no_key_error. intros Hr Hn.
  destruct t as [k n c []]; cbn [th_pc th_key] in Hr, Hn;
    repeat match goal with H : is_Some _ |- _ => destruct H end;
    run_action; split; cbn [th_pc th_key]; try done; try congruence;
    rewrite ?lookup_insert_is_Some'; eauto.
Qed.

Lemma step_key_safe s s' : step env s s' -> key_safe s -> key_safe s'.
Proof.
  intros [w ts i t Hi Hf] Hs. unfold key_safe in *. cbn [fst snd] in *.
  pose proof (proj1 (Forall_lookup _ _) Hs i t Hi) as [Hr Hn].
  apply Forall_insert; [|by apply exec_action_safe].
  eapply Forall_impl; [exact Hs|]. intros t' [Hr' Hn']. split; [|done].
  unfold key_ready in *. case_match; auto using exec_action_keys.
Qed.

Lemma rtc_key_safe s s' : rtc (step env) s s' -> key_safe s -> key_safe s'.
Proof. induction 1; eauto using step_key_safe. Qed.

(** C11: No interleaving raises [KeyError]: when any number of requests
    start their alert step, in every state some interleaving reaches,
    each request about to read [sent_alerts[key]] (line 142 or 149)
    finds its key, and no request has ended with [KeyError]: no request
    removes a key, and a request reads only a key its check found or its
    store wrote. *)
Theorem concurrent_no_key_error w ts s :
  Forall (fun t => th_pc t = AtCheck) ts -> rtc (step env) (w, ts) s ->
  Forall (fun t => key_ready s.1 t /\ forall k, th_pc t <> Finished (Exc (KeyError k))) s.2.
Proof.
  intros Hts Hrtc. apply (rtc_key_safe _ _ Hrtc).
  eapply Forall_impl; [exact Hts|]. intros t Ht. unfold key_ready, no_key_error. by rewrite Ht.
Qed.
End KeyErrors.

(** ** Racing requests *)

(** Mails about pod [name] in the outbox. *)
Definition mails_about (name : string) (w : World) : nat :=
  length (List.filter (fun m => String.eqb m.1 ("Issue in pod " +:+ name)) (outbox w)).

Definition scenario2_ctx : string :=
  "Pod is failing with reason: ImagePullBackOff" +:+ nl +:+ "Message: rate limited".

(** The clock reads 1000, 1010, ... and stops at 1100, within one TTL. *)
Definition race_env : Env :=
  MkEnv (fun i => (1000 + 10 * Z.of_nat (Nat.min i 10))%Z) (env_ai demo_env) (env_smtp demo_env)
        (env_logs demo_env) (env_manifest demo_env) (env_pods demo_env)
        (env_namespaces demo_env) (env_strftime demo_env) (env_default_namespace demo_env).

(** Two requests reach the blocked pod of scenario 2 at the same time. *)
Definition racing_threads : list thread :=
  [MkThread scenario2_key "web-1" scenario2_ctx AtCheck;
   MkThread scenario2_key "web-1" scenario2_ctx AtCheck].

Ltac schedule i :=
  eapply rtc_l; [eapply (step_thread _ _ _ i); reflexivity |].

(** C8: Two concurrent requests for the same new issue can both pass the
    check of [should_send_alert] before either records the alert, and then
    both diagnose and both mail it: a reachable state has two mails about
    the pod, where the specification allows one. *)
Theorem concurrent_double_alert :
  exists s, rtc (step race_env) (empty_world, racing_threads) s /\
            mails_about "web-1" s.1 = 2 /\
            Forall (fun t => is_finished (th_pc t) = true) s.2.
Proof.
  eexists. split.
  - schedule 0. schedule 1. schedule 0. schedule 0. schedule 0. schedule 0. schedule 0.
    schedule 1. schedule 1. schedule 1. schedule 1. schedule 1. apply rtc_refl.
  - vm_compute. split; [reflexivity | repeat constructor].
Qed.

(** C9: The write of line 140 is not atomic either: two requests for the
    same new issue can both mail it and then leave in [sent_alerts] the
    older of their two clock readings.  When the first request reads the
    clock (1000), then the second reads it (1010) and stores, the first
    store comes last: the dict keeps 1000, although the last mail went
    out after 1010, and the diagnostics of both requests (line 149) show
    1000; the next alert is then allowed ten seconds early. *)
Theorem concurrent_stale_timestamp :
  exists s, rtc (step race_env) (empty_world, racing_threads) s /\
            Forall (fun t => exists fb, th_pc t = Finished (Ok (fb, 1000%Z))) s.2 /\
            mails_about "web-1" s.1 = 2 /\ clock_reads s.1 = 2 /\
            sent_alerts s.1 !! scenario2_key = Some 1000%Z.
Proof.
  eexists. split.
  - schedule 0. schedule 1. schedule 0. schedule 0. schedule 1. schedule 1.
    schedule 0. schedule 1. schedule 1. schedule 0. schedule 1. schedule 0. apply rtc_refl.
  - vm_compute. split_and!; [do 2 (constructor; [eexists; reflexivity|]); constructor | reflexivity..].
Qed.

(** ** The same requests under a lock *)

Section Locked.
Context (env : Env).

(** With one lock around lines 137-140, a request runs its alert step at once. *)
Inductive locked_step : World * list thread -> World * list thread -> Prop :=
| locked_thread w ts i t :
    ts !! i = Some t -> th_pc t = AtCheck ->
    locked_step (w, ts) ((run_solo env 6 t w).2, <[i := (run_solo env 6 t w).1]> ts).

Hypothesis clock_pos : forall i, (0 < env_clock env i)%Z.
Hypothesis clock_window : forall i j, (env_clock env j - env_clock env i <= ALERT_TTL_SECONDS)%Z.

Context (key name : string).

Definition single_alert_inv (w : World) : Prop :=
  (mails_about name w = 0 /\ sent_alerts w !! key = None) \/
  (mails_about name w = 1 /\ exists i, sent_alerts w !! key = Some (env_clock env i)).

Definition same_issue (t : thread) : Prop := th_key t = key /\ th_name t = name.

Lemma mails_about_snoc w0 fb :
  length (List.filter (fun m => String.eqb m.1 ("Issue in pod " +:+ name))
                      (outbox w0 ++ [("Issue in pod " +:+ name, fb)])%list)
  = S (mails_about name w0).
Proof.
  unfold mails_about. rewrite List.filter_app, length_app. cbn.
  rewrite String.eqb_refl. cbn. lia.
Qed.

Lemma alert_step_inv ctx w :
  single_alert_inv w -> single_alert_inv (alert_or_suppress env key name (chat_completion env ctx) w).2.
Proof.
  intros [[H0 Hn] | [H1 (i & Hi)]].
  - pose proof (alert_or_suppress_effects env key name _ w (chat_completion_frame env ctx)) as E.
    destruct (alert_or_suppress env key name _ w) as [r w'].
    destruct E as (_ & _ & [[Ha Ho] | (j & fb & _ & Ha & Ho)]); cbn.
    + left. unfold mails_about. rewrite Ho, Ha. by split.
    + right. unfold mails_about at 1. rewrite Ho, mails_about_snoc, H0.
      split; [done|]. exists j. rewrite Ha. apply lookup_insert_eq.
  - rewrite (alert_or_suppress_suppressed env key name _ w (env_clock env i) Hi
               (clock_pos i) (clock_window _ _)).
    right. by split; [|exists i].
Qed.

Lemma exec_action_issue t w : same_issue t -> same_issue (exec_action env t w).1.
Proof. unfold exec_action. by destruct (action env t w) as [[] ?]. Qed.

Lemma run_solo_issue n t w : same_issue t -> same_issue (run_solo env n t w).1.
Proof.
  revert t w. induction n as [|n IH]; intros t w Ht; [done|]. cbn.
  destruct (is_finished (th_pc t)); [done|].
  pose proof (exec_action_issue t w Ht) as Ht'.
  destruct (exec_action env t w) as [t' w']. by apply IH.
Qed.

Lemma locked_inv s s' :
  rtc locked_step s s' -> single_alert_inv s.1 -> Forall same_issue s.2 ->
  single_alert_inv s'.1 /\ Forall same_issue s'.2.
Proof.
  induction 1 as [s|s s1 s' Hstep _ IH]; [done|]. intros Hinv Hall.
  destruct Hstep as [w ts i [k nm ctx p] Hi Hpc]. cbn [th_pc] in Hpc. subst p.
  cbn [fst snd] in *. apply IH.
  - pose proof (run_solo_check env k nm ctx w) as Hrun.
    pose proof (proj1 (Forall_lookup _ _) Hall i _ Hi) as [Hk Hn]. cbn in Hk, Hn. subst k nm.
    destruct (run_solo env 6 _ w) as [t' w']. destruct Hrun as [_ ->].
    unfold alert_report. rewrite alert_then_report_world. by apply alert_step_inv.
  - apply Forall_insert; [done|]. apply run_solo_issue.
    exact (proj1 (Forall_lookup _ _) Hall i _ Hi).
Qed.

(** C10: Under a lock around the alert step (the specification's mutex),
    and while every clock reading stays within one TTL of the others, any
    number of requests for the same new issue send at most one mail. *)
Theorem locked_single_alert w ts s :
  rtc locked_step (w, ts) s -> mails_about name w = 0 -> sent_alerts w !! key = None ->
  Forall same_issue ts -> mails_about name s.1 <= 1.
Proof.
  intros Hrtc H0 Hn Hall.
  destruct (locked_inv _ _ Hrtc) as [[[-> _] | [-> _]] _]; [by left | done | lia | lia].
Qed.
End Locked.

(** ** Concrete runs *)

Definition racing_thread : thread := MkThread scenario2_key "web-1" scenario2_ctx AtCheck.

(** Both requests of [racing_threads], one after the other under the lock. *)
Definition locked_first : World * list thread :=
  ((run_solo race_env 6 racing_thread empty_world).2,
   <[0 := (run_solo race_env 6 racing_thread empty_world).1]> racing_threads).

Definition locked_second : World * list thread :=
  ((run_solo race_env 6 racing_thread locked_first.1).2,
   <[1 := (run_solo race_env 6 racing_thread locked_first.1).1]> locked_first.2).

Example locked_second_mails : mails_about "web-1" locked_second.1 = 1.
Proof. vm_compute. reflexivity. Qed.

Lemma race_env_clock_pos : forall i, (0 < env_clock race_env i)%Z.
Proof. intros i. cbn. lia. Qed.

Lemma race_env_clock_window :
  forall i j, (env_clock race_env j - env_clock race_env i <= ALERT_TTL_SECONDS)%Z.
Proof.
  intros i j. cbn [env_clock race_env]. unfold ALERT_TTL_SECONDS.
  pose proof (Nat.le_min_r i 10). pose proof (Nat.le_min_r j 10). lia.
Qed.

Lemma locked_single_alert_witness :
  rtc (locked_step race_env) (empty_world, racing_threads) locked_second /\
  mails_about "web-1" locked_second.1 <= 1.
Proof.
  assert (H : rtc (locked_step race_env) (empty_world, racing_threads) locked_second).
  { eapply rtc_l; [apply (locked_thread _ _ _ 0 racing_thread); reflexivity|].
    eapply rtc_l; [apply (locked_thread _ _ _ 1 racing_thread); reflexivity|].
    apply rtc_refl. }
  split; [exact H|].
  apply (locked_single_alert race_env race_env_clock_pos race_env_clock_window
           scenario2_key "web-1" empty_world racing_threads locked_second H);
    [reflexivity | reflexivity | repeat constructor].
Defined.

Lemma concurrent_no_key_error_witness :
  exists s, rtc (step race_env) (empty_world, racing_threads) s /\ mails_about "web-1" s.1 = 2 /\
    Forall (fun t => key_ready s.1 t /\ forall k, th_pc t <> Finished (Exc (KeyError k))) s.2.
Proof.
  assert (H : exists s, rtc (step race_env) (empty_world, racing_threads) s /\ mails_about "web-1" s.1 = 2).
  { eexists. split.
    - schedule 0. schedule 1. schedule 0. schedule 0. schedule 0. schedule 0. schedule 0.
      schedule 1. schedule 1. schedule 1. schedule 1. schedule 1. apply rtc_refl.
    - vm_compute. reflexivity. }
  destruct H as (s & Hs & Hm). exists s. split_and!; [exact Hs | exact Hm |].
  exact (concurrent_no_key_error race_env empty_world racing_threads s ltac:(repeat constructor) Hs).
Defined.
