(* ===== verification/Html.v ===== *)
(** * Html: the page [dashboard_data] returns

    [dashboard_data] (src/eks.py, lines 109-204) builds two strings while
    it walks the pods: [pod_rows] gets one [<tr>] block per pod
    (lines 179-186) and [diagnostics] one [<div>] block per unhealthy pod
    (lines 144-152 for a blocked pod, 169-175 for a pod with errors in its
    log); the page (lines 188-204) puts them in a fixed frame and shows
    a placeholder paragraph when [diagnostics] is empty.

    A Python [str] is a sequence of code points, here [Utf8.pystr] (a list
    of [Z]): the values the page interpolates are the Latin-1 strings of the
    rest of the development, taken code point by code point ([cps]), and
    the three status icons are the code points U+23F3, U+274C and U+2705.
    The literal parts are the f-strings' text, with their newlines and
    indentation; [dq] is the double quote, which Rocq's string syntax
    would otherwise escape.

    The theorems show that the placeholder is shown exactly when no pod of
    the namespace is unhealthy, and that the log excerpt of every pod with
    errors in its log reaches the page verbatim, with no HTML escaping. *)

From stdpp Require Import base list sets strings pretty.
From Stdlib Require Import ZArith Lia Ascii.
From S2P Require Import Prelude PyStr Utf8 LogExcerpt Pod Dispatcher Scan.

Local Open Scope string_scope.
Local Open Scope pym_scope.

Definition dq : string := String (ascii_of_nat 34) EmptyString.

(** [status_icon] of lines 134 and 157. *)
Definition status_icon_text (i : status_icon) : pystr :=
  match i with
  | IconWaiting => [0x23F3%Z]
  | IconError => [0x274C%Z]
  | IconOK => [0x2705%Z]
  end.

(** [str(restarts)] *)
Definition py_str_int (n : Z) : string := pretty n.

(** The block appended to [pod_rows] by lines 179-186. *)
Definition row_html (r : PodRow) : pystr :=
  cps ("
        <tr style=" +:+ dq +:+ "background-color:" +:+ row_color r +:+ ";" +:+ dq +:+ ">
            <td>" +:+ row_name r +:+ "</td>
            <td>") ++ status_icon_text (row_icon r) ++ cps (" " +:+ row_status r +:+ "</td>
            <td>" +:+ py_str_int (row_restarts r) +:+ "</td>
            <td>" +:+ row_feedback r +:+ "</td>
        </tr>
        ").

(** The blocks appended to [diagnostics] by lines 144-152 and 169-175. *)
Definition diagnostic_html (d : Diagnostic) : pystr :=
  match d with
  | ContainerDiag name reason message last_alert ai_feedback => cps ("
            <div style=" +:+ dq +:+ "margin-bottom:20px;" +:+ dq +:+ ">
                <strong>" +:+ name +:+ "</strong><br>
                <em>Container Issue:</em> " +:+ reason +:+ "<br>
                <em>Message:</em> " +:+ message +:+ "<br>
                <em>Last alert sent:</em> " +:+ last_alert +:+ "<br>
                <pre style=" +:+ dq +:+ "background:#f8f8f8; padding:10px; border:1px solid #ccc;" +:+ dq +:+ ">" +:+ ai_feedback +:+ "</pre>
            </div>
            ")
  | LogDiag name last_alert trimmed_logs => cps ("
                <div style=" +:+ dq +:+ "margin-bottom:20px;" +:+ dq +:+ ">
                    <strong>" +:+ name +:+ "</strong><br>
                    <em>Last alert sent:</em> " +:+ last_alert +:+ "<br>
                    <pre style=" +:+ dq +:+ "background:#f8f8f8; padding:10px; border:1px solid #ccc;" +:+ dq +:+ ">" +:+ trimmed_logs +:+ "</pre>
                </div>
                ")
  end.

Definition no_errors_html : pystr := cps "<p>No errors detected in any pods.</p>".

(** The f-string of lines 188-204, around the two accumulated strings. *)
Definition page_layout (pod_rows diagnostics : pystr) : pystr :=
  cps ("
    <div id=" +:+ dq +:+ "pod-status" +:+ dq +:+ ">
        <table border=" +:+ dq +:+ "1" +:+ dq +:+ " cellpadding=" +:+ dq +:+ "6" +:+ dq +:+ " cellspacing=" +:+ dq +:+ "0" +:+ dq +:+ " style=" +:+ dq +:+ "width:100%; border-collapse:collapse;" +:+ dq +:+ ">
            <tr style=" +:+ dq +:+ "background-color:#e2e3e5;" +:+ dq +:+ ">
                <th>Pod Name</th><th>Status</th><th>Restarts</th><th>AI Feedback</th>
            </tr>
            ") ++ pod_rows ++ cps ("
        </table>
    </div>

    <hr>

    <div id=" +:+ dq +:+ "ai-diagnostics" +:+ dq +:+ ">
        <h2>AI Error Diagnostics</h2>
        ") ++ diagnostics ++ cps "
    </div>
    ".

(** The returned page: [pod_rows] and [diagnostics] are the blocks in the
    order the loop appended them; [diagnostics if diagnostics else ...]
    tests the accumulated string for emptiness. *)
Definition render_page (r : Report) : pystr :=
  let pod_rows := List.concat (map row_html (pod_rows r)) in
  let diagnostics := List.concat (map diagnostic_html (diagnostics r)) in
  page_layout pod_rows (if diagnostics is [] then no_errors_html else diagnostics).

(** The whole handler of lines 109-204. *)
Definition dashboard_page (env : Env) (namespace_arg : option string) : M pystr :=
  r <- dashboard_data env namespace_arg ;; ret (render_page r).

(** ** Occurrences in a [str] *)

Local Open Scope list_scope.

(** [x in s] for a [str] of code points. *)
Definition infix_of (x l : pystr) : Prop := exists a b, l = a ++ x ++ b.

Lemma infix_of_head x l : infix_of x (x ++ l).
Proof. by exists [], l. Qed.

Lemma infix_of_app_l x p l : infix_of x l -> infix_of x (p ++ l).
Proof. intros (a & b & ->). exists (p ++ a), b. by rewrite app_assoc. Qed.

Lemma infix_of_app_r x l s : infix_of x l -> infix_of x (l ++ s).
Proof. intros (a & b & ->). exists a, (b ++ s). by rewrite <- !app_assoc. Qed.

Lemma infix_of_trans x y l : infix_of x y -> infix_of y l -> infix_of x l.
Proof.
  intros (a & b & ->) (c & d & ->). exists (c ++ a), (b ++ d).
  by rewrite <- !app_assoc.
Qed.

Lemma infix_of_concat x ls : x ∈ ls -> infix_of x (List.concat ls).
Proof.
  induction ls as [|y ls IH]; [by intros ?%elem_of_nil|].
  cbn. intros [-> | Hin]%elem_of_cons; [apply infix_of_head | by apply infix_of_app_l, IH].
Qed.

#[export] Hint Resolve infix_of_head infix_of_app_l infix_of_concat : eks.

(** Find a piece in a right-nested concatenation. *)
Ltac find_infix :=
  repeat (apply infix_of_head || apply infix_of_app_l).

(** ** The interpolation of [str] values *)

Lemma cps_app s t : cps (s +:+ t) = cps s ++ cps t.
Proof.
  unfold cps. induction s as [|c s IH]; [done|].
  rewrite string_app_cons. cbn [String.list_ascii_of_string map app]. f_equal. exact IH.
Qed.

#[export] Hint Rewrite cps_app : eks_rw.

Lemma diagnostic_html_head d : exists rest, diagnostic_html d = 10%Z :: rest.
Proof. destruct d; cbn; eauto. Qed.

Lemma concat_diagnostics_nil ds : List.concat (map diagnostic_html ds) = [] <-> ds = [].
Proof.
  split; [|by intros ->]. destruct ds as [|d ds]; [done|].
  cbn. destruct (diagnostic_html_head d) as [rest ->]. discriminate.
Qed.

Lemma concat_diagnostics_not_placeholder ds :
  ds <> [] -> List.concat (map diagnostic_html ds) <> no_errors_html.
Proof.
  destruct ds as [|d ds]; [done|]. intros _.
  cbn. destruct (diagnostic_html_head d) as [rest ->]. discriminate.
Qed.

Lemma page_layout_inj rows d1 d2 : page_layout rows d1 = page_layout rows d2 -> d1 = d2.
Proof. unfold page_layout. by intros H%app_inv_head%app_inv_head%app_inv_head%app_inv_tail. Qed.

Lemma log_diag_shows_excerpt name last ex : infix_of (cps ex) (diagnostic_html (LogDiag name last ex)).
Proof. cbn [diagnostic_html]. rewrite !cps_app. find_infix. Qed.

(** A diagnostic block of the report is part of the page. *)
Lemma render_page_diagnostic r d : d ∈ diagnostics r -> infix_of (diagnostic_html d) (render_page r).
Proof.
  intros Hin. unfold render_page, page_layout.
  assert (Hne : List.concat (map diagnostic_html (diagnostics r)) <> []).
  { rewrite concat_diagnostics_nil. by intros Hnil; rewrite Hnil in Hin; apply elem_of_nil in Hin. }
  destruct (List.concat (map diagnostic_html (diagnostics r))) as [|c cs] eqn:E; [done|].
  rewrite <- E. do 3 apply infix_of_app_l.
  apply infix_of_app_r, infix_of_concat, (list_elem_of_fmap_2 diagnostic_html), Hin.
Qed.

(** ** The diagnostics a request collects *)

Section Collected.
Context (env : Env).

Lemma process_pod_log_diag ns pod w v w' ex :
  classify pod (env_logs env (pod_name pod) ns) = ErrorInLogs ex ->
  process_pod env ns pod w = (Ok v, w') ->
  exists last, v.2 = Some (LogDiag (pod_name pod) last ex).
Proof.
  unfold process_pod, pod_body, classify.
  destruct (waiting_reason (containerStatuses pod)) as [reason message].
  destruct (is_blocked (pod_phase pod) reason); [discriminate|].
  destruct (has_error _); [|discriminate]. intros [= <-].
  unfold bind at 1. destruct (alert_or_suppress _ _ _ _ w) as [[fb|e] w1]; [|discriminate].
  unfold alert_time, bind, get, ret, raise. cbn.
  destruct (sent_alerts w1 !! _) eqn:E; [|discriminate]. intros [= <- _]. cbn. eauto.
Qed.

Lemma scan_loop_keeps ns pods acc w acc' w' d :
  py_for pods acc (scan_pod env ns) w = (Ok acc', w') -> d ∈ acc.2 -> d ∈ acc'.2.
Proof.
  revert acc w. induction pods as [|pod pods IH]; intros acc w; cbn [py_for].
  - by intros [= <- _].
  - unfold bind at 1. rewrite scan_pod_run.
    destruct (process_pod env ns pod w) as [[v|e] w1]; [|discriminate].
    intros Hrest Hd. apply (IH _ _ Hrest). cbn. set_solver.
Qed.

(** Every pod whose processing always yields a diagnostic satisfying [P]
    has one in the report. *)
Lemma scan_loop_diag (P : Diagnostic -> Prop) ns pods acc w acc' w' pod :
  py_for pods acc (scan_pod env ns) w = (Ok acc', w') -> pod ∈ pods ->
  (forall w0 v w1, process_pod env ns pod w0 = (Ok v, w1) -> exists d, v.2 = Some d /\ P d) ->
  exists d, d ∈ acc'.2 /\ P d.
Proof.
  revert acc w. induction pods as [|p pods IH]; intros acc w Hrun Hin HP;
    [by apply elem_of_nil in Hin|].
  cbn [py_for] in Hrun. unfold bind at 1 in Hrun. rewrite scan_pod_run in Hrun.
  destruct (process_pod env ns p w) as [[v|e] w1] eqn:Hp; [|discriminate].
  apply elem_of_cons in Hin as [-> | Hin]; [|by eapply IH].
  destruct (HP _ _ _ Hp) as (d & Hd & HPd). exists d. split; [|done].
  eapply scan_loop_keeps; [exact Hrun|]. cbn. rewrite Hd. set_solver.
Qed.

Lemma filter_nil_Forall {A} (f : A -> bool) (l : list A) :
  List.filter f l = [] <-> Forall (fun x => f x = false) l.
Proof.
  induction l as [|x l IH]; cbn; [split; by constructor|].
  rewrite Forall_cons. destruct (f x); [split; [discriminate | by intros []]|].
  rewrite IH. tauto.
Qed.

Lemma dashboard_page_run arg w :
  dashboard_page env arg w =
    match dashboard_data env arg w with
    | (Ok r, w') => (Ok (render_page r), w')
    | (Exc e, w') => (Exc e, w')
    end.
Proof. unfold dashboard_page, bind. by destruct (dashboard_data env arg w) as [[] ?]. Qed.
End Collected.

(** ** Theorems *)

Section PageClaims.
Context (env : Env).

(** The placeholder [<p>No errors detected in any pods.</p>] is
    shown exactly when no pod of the namespace is unhealthy: for a
    completed request, the page is the frame around the rows and the
    placeholder iff every pod [kubectl] listed is healthy. *)
Theorem dashboard_page_placeholder arg w r w' :
  dashboard_data env arg w = (Ok r, w') ->
  let ns := request_namespace env arg in
  render_page r = page_layout (List.concat (map row_html (pod_rows r))) no_errors_html <->
  Forall (fun pod => is_unhealthy env ns pod = false) (get_pods env ns).
Proof.
  rewrite dashboard_data_run. destruct (py_for _ _ _ w) as [[acc|e] w1] eqn:E; [|discriminate].
  intros [= <- <-]. apply scan_loop_ok in E as (_ & Hlen & _). cbn in Hlen. cbv zeta.
  rewrite <- filter_nil_Forall, <- length_zero_iff_nil, <- Hlen, length_zero_iff_nil.
  unfold render_page. cbn [pod_rows diagnostics]. split.
  - intros Hpage%page_layout_inj. destruct acc.2 as [|d ds] eqn:Eds; [done|].
    exfalso. apply (concat_diagnostics_not_placeholder (d :: ds)); [done|].
    destruct (List.concat _) eqn:Ec; [by apply concat_diagnostics_nil in Ec | exact Hpage].
  - intros ->. reflexivity.
Qed.

(** C12: No HTML escaping (lines 169-175): for a completed request, the
    log excerpt of every listed pod with errors in its log appears in the
    page verbatim, so markup in a container's log reaches the browser. *)
Theorem dashboard_page_shows_log_excerpt arg w page w' pod ex :
  dashboard_page env arg w = (Ok page, w') ->
  pod ∈ get_pods env (request_namespace env arg) ->
  classify pod (env_logs env (pod_name pod) (request_namespace env arg)) = ErrorInLogs ex ->
  infix_of (cps ex) page.
Proof.
  rewrite dashboard_page_run, dashboard_data_run.
  destruct (py_for _ _ _ w) as [[acc|e] w1] eqn:E; [|discriminate].
  intros [= <- _] Hin Hcl.
  destruct (scan_loop_diag env (fun d => infix_of (cps ex) (diagnostic_html d)) _ _ _ _ _ _ pod E Hin)
    as (d & Hd & Hex).
  { intros w0 v w2 Hp. destruct (process_pod_log_diag env _ pod w0 v w2 ex Hcl Hp) as [last ->].
    eexists. split; [done | apply log_diag_shows_excerpt]. }
  eapply infix_of_trans; [exact Hex | by apply render_page_diagnostic].
Qed.
End PageClaims.

(** ** Concrete runs *)

(** A namespace whose only pod is healthy. *)
Definition calm_env : Env :=
  MkEnv (env_clock scan_env) (env_ai scan_env) (env_smtp scan_env) (env_logs scan_env)
        (env_manifest scan_env) (fun _ => Some [healthy_pod]) (env_namespaces scan_env)
        (env_strftime scan_env) "default".

Definition calm_report : Report :=
  MkReport [MkRow "api-0" "#d4edda" IconOK "Running" 4 "No critical issues found."] [].

Lemma dashboard_page_placeholder_witness :
  dashboard_data calm_env None empty_world = (Ok calm_report, empty_world) /\
  render_page calm_report
    = page_layout (List.concat (map row_html (pod_rows calm_report))) no_errors_html.
Proof.
  assert (H : dashboard_data calm_env None empty_world = (Ok calm_report, empty_world))
    by (vm_compute; reflexivity).
  split; [exact H|]. apply (dashboard_page_placeholder calm_env None empty_world _ _ H).
  change (get_pods calm_env (request_namespace calm_env None)) with [healthy_pod].
  constructor; [vm_compute; reflexivity | constructor].
Defined.

(** A container whose log line carries a script element. *)
Definition script_log : string := "<script>alert(1)</script> request error".

Definition script_env : Env :=
  MkEnv (env_clock scan_env) (env_ai scan_env) (env_smtp scan_env) (fun _ _ => script_log)
        (env_manifest scan_env) (fun _ => Some [log_pod]) (env_namespaces scan_env)
        (env_strftime scan_env) "default".

Definition script_report : Report :=
  MkReport [MkRow "worker-3" "#f8d7da" IconError "Running" 1 "Check the registry credentials."]
           [LogDiag "worker-3" "2026-01-01 00:16:40" script_log].

Lemma dashboard_page_shows_log_excerpt_witness :
  classify log_pod (env_logs script_env (pod_name log_pod) (request_namespace script_env None))
    = ErrorInLogs script_log /\
  dashboard_page script_env None empty_world
    = (Ok (render_page script_report), (dashboard_page script_env None empty_world).2) /\
  infix_of (cps script_log) (render_page script_report).
Proof.
  assert (Hcl : classify log_pod (env_logs script_env (pod_name log_pod)
                  (request_namespace script_env None)) = ErrorInLogs script_log)
    by (vm_compute; reflexivity).
  assert (E : dashboard_page script_env None empty_world
                = (Ok (render_page script_report), (dashboard_page script_env None empty_world).2))
    by (vm_compute; reflexivity).
  split; [exact Hcl|]. split; [exact E|].
  apply (dashboard_page_shows_log_excerpt script_env None empty_world _ _ log_pod script_log E);
    [vm_compute; left | exact Hcl].
Defined.
