(* ===== verification/Index.v ===== *)
(** * Index: the page [/eks_dashboard/] serves

    [index] (src/eks.py, lines 101-103) answers
    [open("dashboard.html").read()]: the file is opened in text mode with
    the locale's encoding (UTF-8, the default of the container images
    Flask runs in) and the default [strict] errors and universal newlines,
    and read whole.  CPython 3.11 does it in three steps:
    - [open] raises [FileNotFoundError] when there is no such file
      ([read_file] answers [None]);
    - [read] decodes all the bytes at once with [Utf8.utf8_decode_strict],
      raising [UnicodeDecodeError] at the first invalid sequence;
    - the [IncrementalNewlineDecoder] of Modules/_io/textio.c, with
      [translate] on, turns each ["\r\n"] and each lone ["\r"] into
      ["\n"] ([translate_newlines]).
    An exception is not caught: Flask answers 500.  The state of the
    dashboard is not touched.

    The theorem: a file holding the UTF-8 encoding of a text is served as
    that text with its line ends normalised (verbatim when it has no
    carriage return), and a file that is not the encoding of any text
    raises [UnicodeDecodeError]. *)

From stdpp Require Import base list strings.
From Stdlib Require Import ZArith Lia.
From S2P Require Import Prelude Utf8 Dispatcher.

Local Open Scope Z_scope.
Local Open Scope pym_scope.

(** ** Universal newlines *)

(** The translation of [_PyIncrementalNewlineDecoder_decode] on the whole
    text: [after_cr] holds when the previous code point was a ["\r"], so
    that the ["\n"] of a ["\r\n"] is dropped. *)
Fixpoint translate_newlines_from (after_cr : bool) (s : pystr) : pystr :=
  match s with
  | [] => []
  | c :: r =>
      if c =? 13 then 10 :: translate_newlines_from true r
      else if after_cr && (c =? 10) then translate_newlines_from false r
      else c :: translate_newlines_from false r
  end.

Definition translate_newlines (s : pystr) : pystr := translate_newlines_from false s.

(** ** The handler *)

Section Index.
(** The bytes of a file of the working directory, [None] when it does
    not exist. *)
Context (read_file : string -> option (list Z)).

(** [open(path).read()] *)
Definition open_read (path : string) : M pystr :=
  match read_file path with
  | None => raise (FileNotFoundError path)
  | Some bs =>
      match utf8_decode_strict bs with
      | None => raise UnicodeDecodeError
      | Some cs => ret (translate_newlines cs)
      end
  end.

(** Lines 101-103. *)
Definition index : M pystr := open_read "dashboard.html".

End Index.

(** ** Lemmas *)

Lemma translate_newlines_no_cr b s : 13 ∉ translate_newlines_from b s.
Proof.
  revert b. induction s as [|c s IH]; intros b; [apply not_elem_of_nil|]. cbn [translate_newlines_from].
  destruct (Z.eqb_spec c 13); [rewrite elem_of_cons; intros [? | ?]; [lia | by apply (IH true)]|].
  destruct (b && (c =? 10)); [apply IH|]. rewrite elem_of_cons. intros [? | ?]; [lia | by apply (IH false)].
Qed.

Lemma translate_newlines_id s : 13 ∉ s -> translate_newlines s = s.
Proof.
  unfold translate_newlines. induction s as [|c s IH]; intros Hs; [done|].
  rewrite elem_of_cons in Hs. cbn [translate_newlines_from]. destruct (Z.eqb_spec c 13); [exfalso; apply Hs; left; lia|]. cbn [andb].
  f_equal. apply IH. tauto.
Qed.

(** [s.replace("\r\n", "\n").replace("\r", "\n")], the two passes the
    decoder does in one. *)
Fixpoint replace_crlf (s : pystr) : pystr :=
  match s with
  | [] => []
  | c :: r =>
      if c =? 13 then
        match r with
        | d :: r' => if d =? 10 then 10 :: replace_crlf r' else c :: replace_crlf r
        | [] => [c]
        end
      else c :: replace_crlf r
  end.

Definition replace_cr (s : pystr) : pystr := map (fun c => if c =? 13 then 10 else c) s.

Lemma translate_newlines_from_true c r :
  translate_newlines_from true (c :: r) =
    if c =? 10 then translate_newlines_from false r else translate_newlines_from false (c :: r).
Proof. cbn. destruct (Z.eqb_spec c 13), (Z.eqb_spec c 10); subst; done. Qed.

Lemma translate_newlines_replace s : translate_newlines s = replace_cr (replace_crlf s).
Proof.
  unfold translate_newlines. remember (length s) as n eqn:Hn. revert s Hn.
  induction n as [n IH] using lt_wf_ind. intros [|c r] ->; [done|].
  cbn [translate_newlines_from replace_crlf]. destruct (Z.eqb_spec c 13) as [->|Hc].
  - destruct r as [|d r']; [done|]. rewrite translate_newlines_from_true.
    destruct (Z.eqb_spec d 10) as [->|Hd]; cbn [replace_cr map Z.eqb]; f_equal.
    + apply (IH (length r')); [cbn; lia | done].
    + apply (IH (length (d :: r'))); [cbn; lia | done].
  - cbn [replace_cr map]. rewrite (proj2 (Z.eqb_neq c 13) Hc). f_equal.
    apply (IH (length r)); [cbn; lia | done].
Qed.

(** ** Properties *)

Section Properties.

(** C28: [/eks_dashboard/] serves the text of [dashboard.html]: when the
    file holds the UTF-8 encoding of a text [s], the handler answers
    [s.replace("\r\n", "\n").replace("\r", "\n")] (so a text without
    a carriage return is served verbatim); when the bytes are the
    encoding of no text, it raises [UnicodeDecodeError]; the state is
    unchanged either way. *)
Theorem index_serves_file read_file bs w :
  read_file "dashboard.html" = Some bs -> Forall is_byte bs ->
  (forall s, Forall in_unicode_range s -> utf8_encode s = Some bs ->
     index read_file w = (Ok (replace_cr (replace_crlf s)), w) /\
     (13 ∉ s -> index read_file w = (Ok s, w))) /\
  ((forall s, Forall in_unicode_range s -> utf8_encode s <> Some bs) ->
     index read_file w = (Exc UnicodeDecodeError, w)).
Proof.
  intros Hf Hbs. unfold index, open_read, utf8_decode_strict. rewrite Hf. split.
  - intros s Hs Henc. rewrite (utf8_decode_strict_encode s bs (length bs) Hs Henc) by lia.
    split; [by rewrite translate_newlines_replace | intros Hcr; by rewrite translate_newlines_id].
  - intros Hno. destruct (utf8_decode_strict_fuel _ bs) as [cs|] eqn:E; [|reflexivity].
    destruct (utf8_decode_strict_sound _ _ _ Hbs E) as [Hsc Henc]. exfalso. apply (Hno cs); [|done].
    eapply Forall_impl; [exact Hsc|]. by intros c [? _].
Qed.

End Properties.

(** ** Concrete runs *)

(** [b"<p>caf\xc3\xa9</p>\r\n"] *)
Definition demo_bytes : list Z := [60; 112; 62; 99; 97; 102; 0xC3; 0xA9; 60; 47; 112; 62; 13; 10].

Definition demo_files (path : string) : option (list Z) :=
  if String.eqb path "dashboard.html" then Some demo_bytes else None.

Example index_demo :
  index demo_files empty_world = (Ok [60; 112; 62; 99; 97; 102; 0xE9; 60; 47; 112; 62; 10], empty_world).
Proof. reflexivity. Qed.

Example index_missing_file :
  index (fun _ => None) empty_world = (Exc (FileNotFoundError "dashboard.html"), empty_world).
Proof. reflexivity. Qed.

(** A Latin-1 file is not UTF-8: [b"caf\xe9"] raises. *)
Example index_latin1_file :
  index (fun _ => Some [99; 97; 102; 0xE9]) empty_world = (Exc UnicodeDecodeError, empty_world).
Proof. reflexivity. Qed.

Lemma index_serves_file_witness :
  demo_files "dashboard.html" = Some demo_bytes /\ Forall is_byte demo_bytes /\
  index demo_files empty_world =
    (Ok (replace_cr (replace_crlf [60; 112; 62; 99; 97; 102; 0xE9; 60; 47; 112; 62; 13; 10])), empty_world).
Proof.
  assert (H1 : demo_files "dashboard.html" = Some demo_bytes) by reflexivity.
  assert (H2 : Forall is_byte demo_bytes) by (repeat constructor; unfold is_byte; lia).
  assert (H3 : Forall in_unicode_range [60; 112; 62; 99; 97; 102; 0xE9; 60; 47; 112; 62; 13; 10])
    by (repeat constructor; unfold in_unicode_range; lia).
  split_and!; [exact H1 | exact H2|].
  exact (proj1 (proj1 (index_serves_file demo_files demo_bytes empty_world H1 H2) _ H3 eq_refl)).
Defined.
