(* ===== verification/Realert.v ===== *)
(** * Realert: a persisting issue is mailed again once its TTL has passed

    Every request to [/eks_dashboard/data] runs the body of the pod loop
    (src/eks.py, lines 116-186) on the same pod; [requests n] runs it [n]
    times in a row on the shared [sent_alerts] (a raise ends a request,
    not the server, so the next request starts from the world the raise
    left).  Suppression (lines 95-99 and 137-142) holds an alert back
    only while the clock stays within [ALERT_TTL_SECONDS] of the recorded
    time.

    The liveness theorem: with a clock that advances at least one second
    per reading, an inference service that answers and a mail server that
    accepts, a pod whose issue persists is mailed again within 3602
    requests, whatever the world, as long as no recorded time lies in the
    future.  A suppressed request reads the clock once and changes nothing
    else, which is what makes the clock reach the end of the TTL. *)

From stdpp Require Import base list strings gmap.
From Stdlib Require Import ZArith Lia.
From S2P Require Import Prelude PyStr Fingerprint Suppression Pod Dispatcher.

Local Open Scope string_scope.
Local Open Scope pym_scope.
Local Open Scope list_scope.

(** [n] requests in a row, each processing [pod] of namespace [ns]. *)
Fixpoint requests (env : Env) (ns : string) (pod : Pod) (n : nat) (w : World) : World :=
  match n with
  | O => w
  | S n' => requests env ns pod n' (process_pod env ns pod w).2
  end.

Section Realert.
Context (env : Env) (ns : string) (pod : Pod) (key : string).
Hypothesis Hkey : pod_issue_key env ns pod = Some key.
Hypothesis ai_answers : forall i ctx, is_Some (env_ai env i ctx).
Hypothesis smtp_accepts : forall i, env_smtp env i = true.

Lemma alert_time_set k now w : alert_time k (set_alert k now w) = ret now (set_alert k now w).
Proof. unfold alert_time, bind, get, set_alert, record_alert. cbn. by rewrite lookup_insert_eq. Qed.

(** A request that decides to alert delivers one mail about the pod. *)
Lemma process_pod_send w :
  should_send_alert_at (sent_alerts w) key (env_clock env (clock_reads w)) = true ->
  exists fb, outbox (process_pod env ns pod w).2 = outbox w ++ [("Issue in pod " +:+ pod_name pod, fb)].
Proof.
  intros Hs.
  destruct (process_pod_cases env ns pod) as [[Hn _] | (key' & ctx & mk & Hk & _ & ->)];
    [congruence|]. rewrite Hkey in Hk. injection Hk as <-.
  unfold alert_then_report, bind at 1. rewrite alert_or_suppress_run, Hs, chat_completion_run.
  destruct (ai_answers (length (ai_requests (check_tick key w))) ctx) as [fb Hfb]. rewrite Hfb.
  cbn. rewrite smtp_accepts. cbn. unfold bind at 1. rewrite alert_time_set. cbn.
  rewrite check_tick_outbox. eauto.
Qed.

(** A request that holds the alert back only reads the clock. *)
Lemma process_pod_hold w :
  should_send_alert_at (sent_alerts w) key (env_clock env (clock_reads w)) = false ->
  (process_pod env ns pod w).2 = tick w.
Proof.
  intros Hs.
  destruct (process_pod_cases env ns pod) as [[Hn _] | (key' & ctx & mk & Hk & _ & ->)];
    [congruence|]. rewrite Hkey in Hk. injection Hk as <-.
  unfold should_send_alert_at in Hs.
  destruct (sent_alerts w !! key) as [t|] eqn:E; [|discriminate].
  destruct (Z.eqb_spec t 0) as [|Ht]; [discriminate|].
  unfold alert_then_report, bind at 1. rewrite alert_or_suppress_run.
  unfold should_send_alert_at. rewrite E. destruct (Z.eqb_spec t 0); [done|]. rewrite Hs.
  unfold check_tick. rewrite E. destruct (Z.eqb_spec t 0); [done|].
  unfold alert_time, bind, get. cbn. by rewrite E.
Qed.

(** Mails are only ever appended. *)
Lemma process_pod_outbox_prefix w : outbox w `prefix_of` outbox (process_pod env ns pod w).2.
Proof.
  destruct (process_pod_cases env ns pod) as [[_ ->] | (key' & ctx & mk & _ & _ & ->)]; [done|].
  pose proof (alert_then_report_effects env key' (pod_name pod) _ mk w
                (chat_completion_frame env ctx)) as H.
  destruct (alert_then_report _ _ _ _ _ w) as [r w']. cbn [snd].
  destruct H as [_ [[_ ->] | (i & fb & _ & ->)]]; [done | by eexists].
Qed.

Lemma requests_outbox_prefix n w : outbox w `prefix_of` outbox (requests env ns pod n w).
Proof.
  revert w. induction n as [|n IH]; intros w; [done|].
  cbn. etransitivity; [apply process_pod_outbox_prefix | apply IH].
Qed.

Hypothesis clock_advances : forall i, (env_clock env i < env_clock env (S i))%Z.

(** While the alert is held back, each request brings the end of the
    TTL one second closer. *)
Lemma realert_aux n w :
  (forall t, sent_alerts w !! key = Some t ->
             (t + ALERT_TTL_SECONDS - env_clock env (clock_reads w) < Z.of_nat n)%Z) ->
  exists k fb, k <= n /\
    (outbox w ++ [("Issue in pod " +:+ pod_name pod, fb)]) `prefix_of` outbox (requests env ns pod (S k) w).
Proof.
  revert w. induction n as [|n IH]; intros w Hlate;
    destruct (should_send_alert_at (sent_alerts w) key (env_clock env (clock_reads w))) eqn:Hs.
  1, 3: destruct (process_pod_send w Hs) as [fb Hfb]; exists 0, fb; split; [lia|];
        cbn; rewrite <- Hfb; reflexivity.
  - unfold should_send_alert_at in Hs. destruct (sent_alerts w !! key) as [t|] eqn:E; [|done].
    specialize (Hlate t eq_refl). destruct (Z.eqb t 0); [done|].
    rewrite Z.gtb_ltb in Hs. apply Z.ltb_ge in Hs. unfold ALERT_TTL_SECONDS in *. lia.
  - destruct (IH (tick w)) as (k & fb & Hk & Hpre).
    + intros t Ht. cbn in Ht |- *. specialize (Hlate t Ht).
      pose proof (clock_advances (clock_reads w)). lia.
    + exists (S k), fb. split; [lia|].
      change (requests env ns pod (S (S k)) w) with (requests env ns pod (S k) (process_pod env ns pod w).2).
      rewrite (process_pod_hold w Hs). exact Hpre.
Qed.
End Realert.

Section RealertClaim.
Context (env : Env) (ns : string) (pod : Pod) (key : string).
Hypothesis Hkey : pod_issue_key env ns pod = Some key.
Hypothesis ai_answers : forall i ctx, is_Some (env_ai env i ctx).
Hypothesis smtp_accepts : forall i, env_smtp env i = true.
Hypothesis clock_advances : forall i, (env_clock env i < env_clock env (S i))%Z.

(** C7: Liveness of alerting: with a clock that advances at least one
    second per reading, an inference service that answers and a mail
    server that accepts, a pod whose issue persists gets a new mail within
    3602 requests, from any world whose recorded times are not in the
    future: suppression only postpones an alert, by at most the TTL. *)
Theorem persistent_issue_realerted w :
  (forall t, sent_alerts w !! key = Some t -> (t <= env_clock env (clock_reads w))%Z) ->
  exists n fb, n <= 3602 /\
    (outbox w ++ [("Issue in pod " +:+ pod_name pod, fb)]) `prefix_of` outbox (requests env ns pod n w).
Proof.
  intros Hpast.
  destruct (realert_aux env ns pod key Hkey ai_answers smtp_accepts clock_advances 3601 w)
    as (k & fb & Hk & Hpre).
  - intros t Ht. specialize (Hpast t Ht). unfold ALERT_TTL_SECONDS. lia.
  - exists (S k), fb. split; [lia | exact Hpre].
Qed.
End RealertClaim.

(** ** Concrete runs *)

(** Scenario 2 with a clock advancing ten seconds per reading: the alert
    sent at 1000 holds back the next 360 requests (clock 1010 to 4600)
    and the 361st, at 4610, mails again. *)
Example scenario2_realert_boundary :
  length (outbox (requests demo_env "default" scenario2_pod 360 alerted_world)) = 1 /\
  length (outbox (requests demo_env "default" scenario2_pod 361 alerted_world)) = 2.
Proof. vm_compute. split; reflexivity. Qed.

Lemma persistent_issue_realerted_witness :
  pod_issue_key demo_env "default" scenario2_pod = Some scenario2_key /\
  (forall i ctx, is_Some (env_ai demo_env i ctx)) /\ (forall i, env_smtp demo_env i = true) /\
  (forall i, (env_clock demo_env i < env_clock demo_env (S i))%Z) /\
  exists n fb, n <= 3602 /\
    (outbox alerted_world ++ [("Issue in pod " +:+ pod_name scenario2_pod, fb)])
      `prefix_of` outbox (requests demo_env "default" scenario2_pod n alerted_world).
Proof.
  assert (Hk : pod_issue_key demo_env "default" scenario2_pod = Some scenario2_key) by reflexivity.
  assert (Hai : forall i ctx, is_Some (env_ai demo_env i ctx)) by (intros; cbn; eauto).
  assert (Hsmtp : forall i, env_smtp demo_env i = true) by reflexivity.
  assert (Hclock : forall i, (env_clock demo_env i < env_clock demo_env (S i))%Z) by (intros; cbn; lia).
  split; [exact Hk|]. split; [exact Hai|]. split; [exact Hsmtp|]. split; [exact Hclock|].
  apply (persistent_issue_realerted demo_env "default" scenario2_pod scenario2_key Hk Hai Hsmtp Hclock).
  intros t Ht. vm_compute in Ht. injection Ht as <-. vm_compute. discriminate.
Defined.
