(* ===== verification/Json.v ===== *)
(** * Json: the Python values [json.loads] returns, and the pod loop on them

    [get_pods] (src/eks.py, lines 27-32) returns [json.loads(...)["items"]]:
    Python values, not typed records.  The body of the pod loop reads them
    with subscripts and [.get] (lines 117-130), converts restart counts
    with [int] (line 120), passes the name to [kubectl] (line 121) and
    formats the phase, reason and message with f-strings.  Each of these
    raises on a value of the wrong shape: a subscript raises [KeyError] on
    a missing key and [TypeError] on a value that is not a dict, [.get]
    raises [AttributeError] on a value that is not a dict, [int] raises
    [TypeError] or [ValueError], a [for] loop raises [TypeError] on a value
    that is not iterable, and [subprocess] raises [TypeError] on an
    argument that is not a [str].  Each exception carries the message
    CPython 3.11 gives it, which [/health] reports as [str(e)]
    ([JsonText.py_exc_str]).

    [pyval] is a value [json.loads] builds from [kubectl]'s output: [None],
    a bool, an integer, a [str] (Latin-1 code points, as elsewhere), a
    list, or a dict with [str] keys (an association list without
    duplicate keys; JSON numbers with a fraction or exponent are not
    modelled); [JsonText.json_loads] reads it from the text.  [py_str] is Python's [str] of such a value, with [repr] of
    strings inside lists and dicts; [py_truthy] is its truth value.
    [process_pod_py] is the loop body on a [pyval] pod: it reads the
    fields in the code's order and hands them to [Dispatcher.pod_body].

    The theorems show that on the JSON of a typed [Pod] the loop body is
    exactly [Dispatcher.process_pod], so every theorem about the typed
    model holds of the code on well-formed [kubectl] output, and that a
    malformed pod raises before any side effect. *)

From stdpp Require Import base list strings pretty.
From Stdlib Require Import ZArith Lia Ascii.
From S2P Require Import Prelude PyStr Md5 LogExcerpt Suppression Pod Dispatcher Scan.

Local Open Scope string_scope.
Local Open Scope pym_scope.

#[warnings="-register-all"]
Inductive pyval :=
| PNone
| PBool (b : bool)
| PInt (z : Z)
| PStr (s : string)
| PList (l : list pyval)
| PDict (d : list (string * pyval)).

Fixpoint dict_lookup (d : list (string * pyval)) (k : string) : option pyval :=
  match d with
  | [] => None
  | (k', v) :: d' => if String.eqb k' k then Some v else dict_lookup d' k
  end.

(** ** Python's operations on these values *)

(** [type(v).__name__], which the messages of [TypeError] and
    [AttributeError] name. *)
Definition py_type_name (v : pyval) : string :=
  match v with
  | PNone => "NoneType"
  | PBool _ => "bool"
  | PInt _ => "int"
  | PStr _ => "str"
  | PList _ => "list"
  | PDict _ => "dict"
  end.

Definition sq : string := String (ascii_of_nat 39) EmptyString.

(** [v[k]] with a [str] key. *)
Definition py_subscript (v : pyval) (k : string) : M pyval :=
  match v with
  | PDict d => match dict_lookup d k with Some x => ret x | None => raise (KeyError k) end
  | PStr _ => raise (TypeError ("string indices must be integers, not " +:+ sq +:+ "str" +:+ sq))
  | PList _ => raise (TypeError "list indices must be integers or slices, not str")
  | _ => raise (TypeError (sq +:+ py_type_name v +:+ sq +:+ " object is not subscriptable"))
  end.

(** [v.get(k, default)] *)
Definition py_get (v : pyval) (k : string) (default : pyval) : M pyval :=
  match v with
  | PDict d => ret (from_option id default (dict_lookup d k))
  | _ => raise (AttributeError (sq +:+ py_type_name v +:+ sq +:+ " object has no attribute " +:+
                                sq +:+ "get" +:+ sq))
  end.

(** [bool(v)] *)
Definition py_truthy (v : pyval) : bool :=
  match v with
  | PNone => false
  | PBool b => b
  | PInt z => negb (Z.eqb z 0)
  | PStr s => negb (String.eqb s "")
  | PList l => if l is [] then false else true
  | PDict d => if d is [] then false else true
  end.

(** The items [for x in v] visits: a dict's keys, a string's characters. *)
Definition py_iter (v : pyval) : M (list pyval) :=
  match v with
  | PList l => ret l
  | PDict d => ret (map (fun kv => PStr kv.1) d)
  | PStr s => ret (map (fun c => PStr (String c EmptyString)) (String.list_ascii_of_string s))
  | _ => raise (TypeError (sq +:+ py_type_name v +:+ sq +:+ " object is not iterable"))
  end.

Definition is_digit (c : ascii) : bool := bool_decide (48 <= nat_of_ascii c <= 57)%nat.

(** The digits of [int(s)] after the sign: decimal digits, single
    underscores between them (PEP 515); the value and the digit count. *)
Fixpoint parse_digits (s : string) (acc : Z) (n : nat) (after_digit : bool) : option (Z * nat) :=
  match s with
  | EmptyString => if after_digit then Some (acc, n) else None
  | String c s' =>
      if is_digit c then parse_digits s' (10 * acc + Z.of_nat (nat_of_ascii c - 48))%Z (S n) true
      else if Ascii.eqb c "_"%char && after_digit then parse_digits s' acc n false
      else None
  end.

(** [sys.get_int_max_str_digits()] of CPython 3.11 and later. *)
Definition MAX_STR_DIGITS : nat := 4300.

(** The whitespace [int] skips: ASCII whitespace, and the non-ASCII
    characters [str.isspace] accepts; U+001C to U+001F are not skipped. *)
Definition int_space (c : ascii) : bool :=
  bool_decide (nat_of_ascii c ∈ [9; 10; 11; 12; 13; 32; 133; 160]).

Fixpoint strip_left_by (f : ascii -> bool) (s : string) : string :=
  match s with
  | EmptyString => EmptyString
  | String c s' => if f c then strip_left_by f s' else s
  end.

Fixpoint strip_right_by (f : ascii -> bool) (s : string) : string :=
  match s with
  | EmptyString => EmptyString
  | String c s' =>
      match strip_right_by f s' with
      | EmptyString => if f c then EmptyString else String c EmptyString
      | r => String c r
      end
  end.

(** [int(s)] for a [str]: surrounding whitespace, an optional sign, the
    digits; [None] where Python raises [ValueError]. *)
Definition int_sign_body (s : string) : Z * string :=
  let t := strip_right_by int_space (strip_left_by int_space s) in
  match t with
  | String c r =>
      if Ascii.eqb c "-"%char then ((-1)%Z, r)
      else if Ascii.eqb c "+"%char then (1%Z, r) else (1%Z, t)
  | EmptyString => (1%Z, t)
  end.

Definition py_int_of_str (s : string) : option Z :=
  let '(sign, body) := int_sign_body s in
  match parse_digits body 0 0 false with
  | Some (v, n) => if Nat.leb n MAX_STR_DIGITS then Some (sign * v)%Z else None
  | None => None
  end.

(** [str.isprintable] on Latin-1: not the controls, U+00A0 or U+00AD. *)
Definition py_printable (n : nat) : bool :=
  (Nat.leb 32 n && Nat.leb n 126) || (Nat.leb 161 n && Nat.leb n 255 && negb (Nat.eqb n 173)).

Definition dq_char : ascii := ascii_of_nat 34.
Definition sq_char : ascii := ascii_of_nat 39.
Definition bs_char : ascii := ascii_of_nat 92.

(** One character of [repr(s)] quoted with [q]. *)
Definition repr_char (q c : ascii) : string :=
  let n := nat_of_ascii c in
  if Ascii.eqb c q || Ascii.eqb c bs_char then String bs_char (String c EmptyString)
  else if Nat.eqb n 9 then String bs_char "t"
  else if Nat.eqb n 10 then String bs_char "n"
  else if Nat.eqb n 13 then String bs_char "r"
  else if py_printable n then String c EmptyString
  else String bs_char (String "x" (hex_byte (Z.of_nat n))).

(** [repr(s)]: single quotes unless [s] has a single quote and no double one. *)
Definition py_repr_str (s : string) : string :=
  let cs := String.list_ascii_of_string s in
  let q := if existsb (Ascii.eqb sq_char) cs && negb (existsb (Ascii.eqb dq_char) cs)
           then dq_char else sq_char in
  String q (foldr (fun c acc => repr_char q c +:+ acc) (String q EmptyString) cs).

Fixpoint py_repr (v : pyval) : string :=
  match v with
  | PNone => "None"
  | PBool true => "True"
  | PBool false => "False"
  | PInt z => pretty z
  | PStr s => py_repr_str s
  | PList l => "[" +:+ py_join ", " (map py_repr l) +:+ "]"
  | PDict d => "{" +:+ py_join ", " (map (fun kv => py_repr_str kv.1 +:+ ": " +:+ py_repr kv.2) d) +:+ "}"
  end.

(** The message of the [ValueError] of [int(s)]: the digit limit, or
    [repr(s)] of a string that is not an integer. *)
Definition int_value_error (s : string) : string :=
  match parse_digits (int_sign_body s).2 0 0 false with
  | Some (_, n) =>
      "Exceeds the limit (4300 digits) for integer string conversion: value has " +:+
      pretty (N.of_nat n) +:+ " digits; use sys.set_int_max_str_digits() to increase the limit"
  | None => "invalid literal for int() with base 10: " +:+ py_repr_str s
  end.

(** [int(v)] *)
Definition py_int (v : pyval) : M Z :=
  match v with
  | PInt z => ret z
  | PBool b => ret (if b then 1%Z else 0%Z)
  | PStr s => match py_int_of_str s with Some z => ret z | None => raise (ValueError (int_value_error s)) end
  | _ => raise (TypeError ("int() argument must be a string, a bytes-like object or a real number, not " +:+
                           sq +:+ py_type_name v +:+ sq))
  end.

(** [str(v)], which f-strings use. *)
Definition py_str (v : pyval) : string :=
  match v with
  | PStr s => s
  | _ => py_repr v
  end.

(** [status not in ["Running", "Succeeded", "Failed"]] compares with [==]:
    only a [str] can be equal to one of them. *)
Definition py_in_settled (v : pyval) : bool :=
  match v with
  | PStr s => existsb (String.eqb s) settled_phases
  | _ => false
  end.

(** [subprocess.run([..., name, ...])] takes only [str] arguments. *)
Definition subprocess_arg (v : pyval) : M string :=
  match v with
  | PStr s => ret s
  | _ => raise (TypeError ("expected str, bytes or os.PathLike object, not " +:+ py_type_name v))
  end.

(** ** The loop body on a [pyval] pod *)

(** [sum(int(c.get("restartCount", 0)) for c in container_statuses)] *)
Fixpoint restarts_py (cs : list pyval) : M Z :=
  match cs with
  | [] => ret 0%Z
  | c :: cs' =>
      x <- py_get c "restartCount" (PInt 0) ;;
      n <- py_int x ;;
      rest <- restarts_py cs' ;;
      ret (n + rest)%Z
  end.

(** The loop of lines 123-130. *)
Fixpoint waiting_reason_py (cs : list pyval) : M (pyval * pyval) :=
  match cs with
  | [] => ret (PStr "", PStr "")
  | c :: cs' =>
      state <- py_get c "state" (PDict []) ;;
      waiting <- py_get state "waiting" PNone ;;
      if py_truthy waiting then
        reason <- py_get waiting "reason" (PStr "") ;;
        message <- py_get waiting "message" (PStr "") ;;
        ret (reason, message)
      else waiting_reason_py cs'
  end.

(** The fields lines 117-130 read, in the code's order: the name once
    [get_manifest] (line 121) has accepted it as a [str]. *)
Record pod_fields := MkFields {
  pf_name : string;
  pf_status : pyval;
  pf_restarts : Z;
  pf_reason : pyval;
  pf_message : pyval
}.

(** Lines 117-130. *)
Definition read_pod (pod : pyval) : M pod_fields :=
  metadata <- py_subscript pod "metadata" ;;
  name <- py_subscript metadata "name" ;;
  status_obj <- py_subscript pod "status" ;;
  status <- py_subscript status_obj "phase" ;;
  status_obj' <- py_subscript pod "status" ;;
  container_statuses <- py_get status_obj' "containerStatuses" (PList []) ;;
  cs <- py_iter container_statuses ;;
  restarts <- restarts_py cs ;;
  name_arg <- subprocess_arg name ;;
  cs' <- py_iter container_statuses ;;
  rm <- waiting_reason_py cs' ;;
  ret (MkFields name_arg status restarts rm.1 rm.2).

Section PodPy.
Context (env : Env).

(** Lines 116-186 on the pod [pod] of [get_pods(namespace)]: the
    condition of line 132 on Python values, then [Dispatcher.pod_body]
    with the f-string forms of the fields. *)
Definition process_pod_py (namespace : string) (pod : pyval) : M (PodRow * option Diagnostic) :=
  f <- read_pod pod ;;
  pod_body env namespace (pf_name f) (py_str (pf_status f)) (pf_restarts f)
           (negb (py_in_settled (pf_status f)) || py_truthy (pf_reason f))
           (py_str (pf_reason f)) (py_str (pf_message f)).
End PodPy.

(** ** The JSON [kubectl] prints for a typed pod *)

Definition encode_waiting (w : json_object) : pyval := PDict (map (fun kv => (kv.1, PStr kv.2)) w).

Definition encode_container (c : ContainerStatus) : pyval :=
  PDict ((if restartCount c is Some n then [("restartCount", PInt n)] else []) ++
         (if waiting c is Some w then [("state", PDict [("waiting", encode_waiting w)])] else [])).

Definition encode_pod (pod : Pod) : pyval :=
  PDict [("metadata", PDict [("name", PStr (pod_name pod))]);
         ("status", PDict [("phase", PStr (pod_phase pod));
                           ("containerStatuses", PList (map encode_container (containerStatuses pod)))])].

(** ** The typed model is the code on well-formed JSON *)

Lemma dict_lookup_waiting (wo : json_object) k dflt :
  from_option id (PStr dflt) (dict_lookup (map (fun kv => (kv.1, PStr kv.2)) wo) k) = PStr (dict_get wo k dflt).
Proof.
  induction wo as [|[k' v] wo IH]; [done|]. cbn.
  destruct (String.eqb k' k); [done | exact IH].
Qed.

Lemma py_get_restartCount c :
  py_get (encode_container c) "restartCount" (PInt 0) = ret (PInt (default 0%Z (restartCount c))).
Proof. unfold encode_container. by destruct (restartCount c), (waiting c). Qed.

Lemma py_get_state c :
  py_get (encode_container c) "state" (PDict [])
    = ret (if waiting c is Some wo then PDict [("waiting", encode_waiting wo)] else PDict []).
Proof. unfold encode_container. by destruct (restartCount c), (waiting c). Qed.

Lemma restarts_py_encode cs w :
  restarts_py (map encode_container cs) w
    = (Ok (foldr (fun c acc => (default 0%Z (restartCount c) + acc)%Z) 0%Z cs), w).
Proof.
  induction cs as [|c cs IH]; [done|]. cbn [map restarts_py].
  rewrite py_get_restartCount, bind_ret_l. cbn [py_int]. rewrite bind_ret_l.
  unfold bind at 1. by rewrite IH.
Qed.

Lemma waiting_reason_py_encode cs w :
  waiting_reason_py (map encode_container cs) w
    = (Ok (PStr (waiting_reason cs).1, PStr (waiting_reason cs).2), w).
Proof.
  induction cs as [|c cs IH]; [done|]. cbn [map waiting_reason_py waiting_reason].
  rewrite py_get_state, bind_ret_l.
  destruct (waiting c) as [[|kv wo]|]; cbn; [exact IH | | exact IH].
  destruct kv as [k v]. cbn.
  destruct (String.eqb k "reason"), (String.eqb k "message"); rewrite <- ?dict_lookup_waiting; reflexivity.
Qed.

Lemma read_pod_encode pod w :
  read_pod (encode_pod pod) w =
    (Ok (MkFields (pod_name pod) (PStr (pod_phase pod)) (restarts pod)
                  (PStr (waiting_reason (containerStatuses pod)).1)
                  (PStr (waiting_reason (containerStatuses pod)).2)), w).
Proof.
  unfold read_pod, encode_pod. cbn -[restarts_py waiting_reason_py map].
  unfold bind at 1. rewrite restarts_py_encode. cbn -[waiting_reason_py map].
  unfold bind at 1. rewrite waiting_reason_py_encode. reflexivity.
Qed.

(** On the JSON of a typed pod the loop body is [process_pod]. *)
Lemma process_pod_py_encode env ns pod w :
  process_pod_py env ns (encode_pod pod) w = process_pod env ns pod w.
Proof.
  unfold process_pod_py, process_pod. unfold bind at 1. rewrite read_pod_encode.
  cbn -[pod_body]. destruct (waiting_reason (containerStatuses pod)) as [reason message].
  reflexivity.
Qed.

(** ** Reading a pod has no side effect *)

Lemma py_subscript_reads v k : reads_only (py_subscript v k).
Proof. intros w. unfold py_subscript. by repeat case_match. Qed.

Lemma py_get_reads v k d : reads_only (py_get v k d).
Proof. intros w. unfold py_get. by repeat case_match. Qed.

Lemma py_iter_reads v : reads_only (py_iter v).
Proof. intros w. unfold py_iter. by repeat case_match. Qed.

Lemma py_int_reads v : reads_only (py_int v).
Proof. intros w. unfold py_int. by repeat case_match. Qed.

Lemma subprocess_arg_reads v : reads_only (subprocess_arg v).
Proof. intros w. unfold subprocess_arg. by repeat case_match. Qed.

#[export] Hint Resolve py_subscript_reads py_get_reads py_iter_reads py_int_reads
  subprocess_arg_reads : eks.

Lemma restarts_py_reads cs : reads_only (restarts_py cs).
Proof. induction cs as [|c cs IH]; cbn [restarts_py]; auto 10 with eks. Qed.

Lemma waiting_reason_py_reads cs : reads_only (waiting_reason_py cs).
Proof.
  induction cs as [|c cs IH]; cbn [waiting_reason_py]; [auto with eks|].
  apply reads_only_bind; [auto with eks | intros state].
  apply reads_only_bind; [auto with eks | intros waiting].
  destruct (py_truthy waiting); auto 10 with eks.
Qed.

#[export] Hint Resolve restarts_py_reads waiting_reason_py_reads : eks.

Lemma read_pod_reads v : reads_only (read_pod v).
Proof. unfold read_pod. repeat (apply reads_only_bind; [auto with eks | intros]). auto with eks. Qed.

(** ** What the rest of the loop body raises *)

Lemma diag_frame_raises d : diag_frame d -> raises_only (fun e => e = InferenceError) d.
Proof. intros Hd w e w' H. destruct (Hd w) as (_ & _ & _ & _ & He). apply He. by rewrite H. Qed.

Lemma alert_then_report_raises {A} env key name d (mk : string -> Z -> A) :
  diag_frame d ->
  raises_only (fun e => e = InferenceError \/ e = SMTPError \/ exists k, e = KeyError k)
              (alert_then_report env key name d mk).
Proof.
  intros Hd.
  unfold alert_then_report, alert_or_suppress, should_send_alert, send_email, record_sent,
    time_time, alert_time.
  raises_only_tac; eauto.
  eapply raises_only_weaken; [|apply diag_frame_raises, Hd]. intros e ->. by left.
Qed.

Lemma alert_then_report_exc {A} env key name d (mk : string -> Z -> A) w e w' :
  diag_frame d -> alert_then_report env key name d mk w = (Exc e, w') ->
  e = InferenceError \/ e = SMTPError.
Proof.
  intros Hd H.
  destruct (alert_then_report_raises env key name d mk Hd w e w' H) as [?|[?|[k ->]]]; [by left | by right|].
  pose proof (alert_then_report_effects env key name d mk w Hd) as Heff.
  rewrite H in Heff. destruct Heff as [Hk _]. by destruct (Hk k).
Qed.

Lemma pod_body_exc env ns name status restarts blocked reason message w e w' :
  pod_body env ns name status restarts blocked reason message w = (Exc e, w') ->
  e = InferenceError \/ e = SMTPError.
Proof.
  unfold pod_body. destruct blocked.
  - apply (alert_then_report_exc env _ _ _ _ w e w'), analyze_container_issue_frame.
  - destruct (has_error _); [|discriminate].
    apply (alert_then_report_exc env _ _ _ _ w e w'), analyze_logs_frame.
Qed.

(** A pod whose fields cannot be read raises before any side effect. *)
Lemma process_pod_py_read_error env ns v w e w' :
  process_pod_py env ns v w = (Exc e, w') -> e <> InferenceError -> e <> SMTPError -> w' = w.
Proof.
  intros H Hi Hs. unfold process_pod_py in H.
  destruct (bind_exc_reads _ _ w e w' (read_pod_reads v) H) as [[_ ->] | (f & _ & Hb)]; [done|].
  by destruct (pod_body_exc _ _ _ _ _ _ _ _ _ _ _ Hb).
Qed.

(** ** The request on [kubectl]'s JSON *)

Section ScanPy.
Context (env : Env).

(** What [kubectl get pods -n ns -o json] gives [get_pods]: [None] when
    it exits with an error ([CalledProcessError], caught), [Some None]
    when its output is not JSON ([JSONDecodeError], not caught), and the
    parsed document otherwise. *)
Context (pods_json : string -> option (option pyval)).

(** Lines 27-32. *)
Definition get_pods_py (namespace : string) : M pyval :=
  match pods_json namespace with
  | None => ret (PList [])
  | Some None => raise JSONDecodeError
  | Some (Some doc) => py_subscript doc "items"
  end.

Definition scan_pod_py (namespace : string) (acc : list PodRow * list Diagnostic) (pod : pyval)
  : M (list PodRow * list Diagnostic) :=
  p <- process_pod_py env namespace pod ;;
  ret ((acc.1 ++ [p.1])%list, (acc.2 ++ option_list p.2)%list).

(** Lines 109-186 on Python values: [for pod in pods] iterates whatever
    [get_pods] returned. *)
Definition dashboard_data_py (namespace_arg : option string) : M Report :=
  let namespace := request_namespace env namespace_arg in
  pods <- get_pods_py namespace ;;
  items <- py_iter pods ;;
  acc <- py_for items ([], []) (scan_pod_py namespace) ;;
  ret (MkReport acc.1 acc.2).
End ScanPy.

(** The JSON [kubectl] prints for the pods of [Env]. *)
Definition kubectl_pods_json (pods : option (list Pod)) : option (option pyval) :=
  match pods with
  | None => None
  | Some ps => Some (Some (PDict [("items", PList (map encode_pod ps))]))
  end.

Lemma scan_pod_py_encode env ns acc pod w :
  scan_pod_py env ns acc (encode_pod pod) w = scan_pod env ns acc pod w.
Proof. unfold scan_pod_py, scan_pod, bind. by rewrite process_pod_py_encode. Qed.

Lemma scan_loop_py_encode env ns pods acc w :
  py_for (map encode_pod pods) acc (scan_pod_py env ns) w = py_for pods acc (scan_pod env ns) w.
Proof.
  revert acc w. induction pods as [|pod pods IH]; intros acc w; [done|].
  cbn [map py_for]. unfold bind. rewrite scan_pod_py_encode.
  destruct (scan_pod env ns acc pod w) as [[a|e] w1]; [apply IH | done].
Qed.

Lemma py_subscript_items v : py_subscript (PDict [("items", v)]) "items" = ret v.
Proof. reflexivity. Qed.

Section ScanPyClaims.
Context (env : Env).

(** C20: Equivalence of the request on [kubectl]'s JSON with the typed
    request: when [kubectl get pods] prints the JSON of the typed pods of
    [env] (or fails where [env] has no pod list), [dashboard_data] run on
    Python values gives the same outcome and world as the typed
    [Scan.dashboard_data]. *)
Theorem dashboard_data_py_encode pods_json arg w :
  (forall ns, pods_json ns = kubectl_pods_json (env_pods env ns)) ->
  dashboard_data_py env pods_json arg w = dashboard_data env arg w.
Proof.
  intros Hjson. rewrite dashboard_data_run. unfold dashboard_data_py, get_pods_py, get_pods.
  rewrite Hjson. destruct (env_pods env (request_namespace env arg)) as [pods|]; [|done].
  cbn [kubectl_pods_json]. rewrite py_subscript_items, !bind_ret_l. cbn [py_iter]. rewrite bind_ret_l. unfold bind.
  rewrite scan_loop_py_encode. cbn [default from_option id]. by destruct (py_for pods _ _ w) as [[] ?].
Qed.

(** C19: A pod object that cannot be read (a missing key, [int] of a
    value that is not a number, a name that is not a string, ...) makes
    the whole request raise, after the pods before it were processed and
    before any prompt, mail or record for it: one malformed item hides
    the report of every pod. *)
Theorem dashboard_py_aborts_on_malformed_pod pods_json arg w pre bad post acc1 w1 e w2 :
  pods_json (request_namespace env arg) = Some (Some (PDict [("items", PList (pre ++ bad :: post))])) ->
  py_for pre ([], []) (scan_pod_py env (request_namespace env arg)) w = (Ok acc1, w1) ->
  process_pod_py env (request_namespace env arg) bad w1 = (Exc e, w2) ->
  e <> InferenceError -> e <> SMTPError ->
  dashboard_data_py env pods_json arg w = (Exc e, w1).
Proof.
  intros Hjson Hpre Hbad Hi Hs.
  pose proof (process_pod_py_read_error env _ bad w1 e w2 Hbad Hi Hs) as ->.
  unfold dashboard_data_py, get_pods_py. rewrite Hjson.
  rewrite py_subscript_items, !bind_ret_l. cbn [py_iter]. rewrite bind_ret_l.
  unfold bind at 1. rewrite (py_for_app_exc pre post bad _ acc1 _ w w1 e w1 Hpre); [done|].
  unfold scan_pod_py, bind. by rewrite Hbad.
Qed.
End ScanPyClaims.

(** ** Concrete runs *)

(** [int("3")] is accepted as a restart count. *)
Example restart_count_string :
  restarts_py [PDict [("restartCount", PStr " 3")]; PDict []] empty_world = (Ok 3%Z, empty_world).
Proof. reflexivity. Qed.

(** A waiting reason [0] is falsy: the pod is not blocked, although
    [str(0)] is not empty. *)
Example falsy_reason_not_blocked :
  (read_pod (PDict [("metadata", PDict [("name", PStr "w")]);
                    ("status", PDict [("phase", PStr "Running");
                                      ("containerStatuses",
                                         PList [PDict [("state", PDict [("waiting",
                                                   PDict [("reason", PInt 0)])])]])])])
            empty_world).1
  = Ok (MkFields "w" (PStr "Running") 0 (PInt 0) (PStr "")) /\
  py_truthy (PInt 0) = false /\ py_str (PInt 0) = "0".
Proof. split; [|split]; reflexivity. Qed.

Lemma dashboard_data_py_encode_witness :
  (forall ns, kubectl_pods_json (env_pods scan_env ns) = kubectl_pods_json (env_pods scan_env ns)) /\
  dashboard_data_py scan_env (fun ns => kubectl_pods_json (env_pods scan_env ns)) None empty_world
    = dashboard_data scan_env None empty_world.
Proof.
  assert (H : forall ns, kubectl_pods_json (env_pods scan_env ns) = kubectl_pods_json (env_pods scan_env ns))
    by reflexivity.
  split; [exact H | exact (dashboard_data_py_encode scan_env _ None empty_world H)].
Defined.

(** [get_pods] catches only [CalledProcessError]: output that is not
    JSON, or JSON without ["items"], makes the whole request raise. *)
Example dashboard_listing_not_json :
  dashboard_data_py scan_env (fun _ => Some None) None empty_world = (Exc JSONDecodeError, empty_world) /\
  dashboard_data_py scan_env (fun _ => Some (Some (PDict []))) None empty_world
    = (Exc (KeyError "items"), empty_world).
Proof. split; reflexivity. Qed.

(** A container status whose restart count is [null]: [int(None)]. *)
Definition unreadable_pod : pyval :=
  PDict [("metadata", PDict [("name", PStr "job-7")]);
         ("status", PDict [("phase", PStr "Running");
                           ("containerStatuses", PList [PDict [("restartCount", PNone)]])])].

Definition unreadable_json (_ : string) : option (option pyval) :=
  Some (Some (PDict [("items", PList ([] ++ unreadable_pod :: [encode_pod healthy_pod]))])).

Definition int_none_error : py_exc :=
  TypeError ("int() argument must be a string, a bytes-like object or a real number, not " +:+
             sq +:+ "NoneType" +:+ sq).

Lemma dashboard_py_aborts_on_malformed_pod_witness :
  process_pod_py scan_env (request_namespace scan_env None) unreadable_pod empty_world
    = (Exc int_none_error, empty_world) /\
  dashboard_data_py scan_env unreadable_json None empty_world = (Exc int_none_error, empty_world).
Proof.
  assert (Hbad : process_pod_py scan_env (request_namespace scan_env None) unreadable_pod empty_world
                   = (Exc int_none_error, empty_world)) by reflexivity.
  split; [exact Hbad|].
  apply (dashboard_py_aborts_on_malformed_pod scan_env unreadable_json None empty_world [] unreadable_pod
           [encode_pod healthy_pod] ([], []) empty_world int_none_error empty_world);
    [reflexivity | reflexivity | exact Hbad | discriminate | discriminate].
Defined.

(** ** [/health] and [get_namespaces] on [kubectl]'s JSON *)

(** A list comprehension or generator over [xs], in order. *)
Fixpoint py_map {A B} (f : A -> M B) (xs : list A) : M (list B) :=
  match xs with
  | [] => ret []
  | x :: xs' => y <- f x ;; ys <- py_map f xs' ;; ret (y :: ys)
  end.

(** [len(v)] *)
Definition py_len (v : pyval) : M nat :=
  match v with
  | PList l => ret (length l)
  | PDict d => ret (length d)
  | PStr s => ret (String.length s)
  | _ => raise (TypeError ("object of type " +:+ sq +:+ py_type_name v +:+ sq +:+ " has no len()"))
  end.

(** Lines 22-25: [ns_json] is the parsed output of [kubectl get
    namespaces -o json], [None] when it is not JSON (an empty output
    when [kubectl] fails, since there is no [check=True]). *)
Definition get_namespaces_py (ns_json : option pyval) : M (list pyval) :=
  doc <- (match ns_json with Some d => ret d | None => raise JSONDecodeError end) ;;
  items <- py_subscript doc "items" ;;
  xs <- py_iter items ;;
  py_map (fun ns => metadata <- py_subscript ns "metadata" ;; py_subscript metadata "name") xs.

(** Lines 105-107, up to [json.dumps]. *)
Definition list_namespaces_py (ns_json : option pyval) : M (list pyval) := get_namespaces_py ns_json.

(** [len(get_pods(ns))] of line 210: [kubectl] takes [ns] as an argument. *)
Definition count_pods (pods_json : string -> option (option pyval)) (ns : pyval) : M nat :=
  name <- subprocess_arg ns ;; pods <- get_pods_py pods_json name ;; py_len pods.

(** Lines 206-213: every exception of the body is caught. *)
Definition health_py (ns_json : option pyval) (pods_json : string -> option (option pyval))
  : M (health_body * nat) :=
  catch (namespaces <- get_namespaces_py ns_json ;;
         counts <- py_map (count_pods pods_json) namespaces ;;
         ret (HealthOK (length namespaces) (sum_list counts), 200))
        (fun e => ret (HealthERROR e, 500)).

(** The JSON [kubectl get namespaces] prints for the namespaces of [Env]. *)
Definition kubectl_namespaces_json (names : option (list string)) : option pyval :=
  option_map (fun ns => PDict [("items", PList (map (fun n => PDict [("metadata",
                 PDict [("name", PStr n)])]) ns))]) names.

Lemma py_map_reads {A B} (f : A -> M B) xs : (forall x, reads_only (f x)) -> reads_only (py_map f xs).
Proof. intros Hf. induction xs as [|x xs IH]; cbn [py_map]; auto with eks. Qed.

Lemma py_len_reads v : reads_only (py_len v).
Proof. intros w. unfold py_len. by repeat case_match. Qed.

Lemma get_pods_py_reads pods_json ns : reads_only (get_pods_py pods_json ns).
Proof. intros w. unfold get_pods_py. repeat case_match; try done. apply py_subscript_reads. Qed.

Lemma count_pods_reads pods_json ns : reads_only (count_pods pods_json ns).
Proof.
  unfold count_pods. apply reads_only_bind; [auto with eks | intros name].
  apply reads_only_bind; [apply get_pods_py_reads | intros; apply py_len_reads].
Qed.

#[export] Hint Resolve py_map_reads py_len_reads get_pods_py_reads count_pods_reads : eks.

Lemma get_namespaces_py_reads ns_json : reads_only (get_namespaces_py ns_json).
Proof.
  unfold get_namespaces_py. apply reads_only_bind; [by destruct ns_json | intros doc].
  repeat (apply reads_only_bind; [auto with eks | intros]). auto 10 with eks.
Qed.

Lemma namespace_names_encode names w :
  py_map (fun ns => metadata <- py_subscript ns "metadata" ;; py_subscript metadata "name")
         (map (fun n => PDict [("metadata", PDict [("name", PStr n)])]) names) w
    = (Ok (map PStr names), w).
Proof.
  induction names as [|n names IH]; [done|]. cbn [map py_map].
  unfold bind at 1. cbn -[py_map map]. unfold bind at 1. by rewrite IH.
Qed.

Lemma get_namespaces_py_encode names w :
  get_namespaces_py (kubectl_namespaces_json (Some names)) w = (Ok (map PStr names), w).
Proof.
  unfold get_namespaces_py. cbn [kubectl_namespaces_json option_map]. rewrite !bind_ret_l.
  rewrite py_subscript_items, bind_ret_l. cbn [py_iter]. rewrite bind_ret_l.
  apply namespace_names_encode.
Qed.

Lemma health_count_encode env pods_json n w :
  (forall ns, pods_json ns = kubectl_pods_json (env_pods env ns)) ->
  count_pods pods_json (PStr n) w = (Ok (length (get_pods env n)), w).
Proof.
  intros Hjson. unfold count_pods. cbn [subprocess_arg]. rewrite bind_ret_l. unfold get_pods_py, get_pods.
  rewrite Hjson. destruct (env_pods env n) as [pods|]; cbn [kubectl_pods_json].
  - rewrite py_subscript_items, bind_ret_l. cbn. by rewrite length_map.
  - reflexivity.
Qed.

Lemma health_counts_encode env pods_json names w :
  (forall ns, pods_json ns = kubectl_pods_json (env_pods env ns)) ->
  py_map (count_pods pods_json) (map PStr names) w
    = (Ok (map (fun ns => length (get_pods env ns)) names), w).
Proof.
  intros Hjson. induction names as [|n names IH]; [done|]. cbn [map py_map].
  unfold bind at 1. rewrite (health_count_encode env pods_json n w Hjson).
  cbn beta iota. unfold bind at 1. by rewrite IH.
Qed.

Section HealthClaims.

(** Equivalence of [/health] on [kubectl]'s JSON with the typed
    [Scan.health]: when [kubectl] prints the JSON of the namespaces and
    pods of [env], the probe answers the same body and status and leaves
    the same world. *)
Theorem health_py_encode env pods_json w :
  (forall ns, pods_json ns = kubectl_pods_json (env_pods env ns)) ->
  health_py (kubectl_namespaces_json (env_namespaces env)) pods_json w = health env w.
Proof.
  intros Hjson. unfold health_py, health, catch, get_namespaces.
  destruct (env_namespaces env) as [names|]; [|reflexivity].
  unfold bind at 1. rewrite get_namespaces_py_encode. cbn beta iota.
  unfold bind at 1. rewrite (health_counts_encode env pods_json names w Hjson).
  cbn. by rewrite length_map.
Qed.

(** The status code each body of [/health] is sent with. *)
Definition health_status (h : health_body) : nat :=
  match h with HealthOK _ _ => 200 | HealthERROR _ => 500 end.

Lemma health_py_answers ns_json pods_json w :
  exists h, health_py ns_json pods_json w = (Ok (h, health_status h), w).
Proof.
  unfold health_py, catch, bind.
  pose proof (get_namespaces_py_reads ns_json w) as R1.
  destruct (get_namespaces_py ns_json w) as [[nss|e] w1]; cbn in R1; subst w1;
    [|by eexists (HealthERROR _)].
  pose proof (py_map_reads (count_pods pods_json) nss (count_pods_reads pods_json) w) as R2.
  destruct (py_map (count_pods pods_json) nss w) as [[counts|e] w2]; cbn in R2; subst w2;
    [by eexists (HealthOK _ _) | by eexists (HealthERROR _)].
Qed.

(** [/health] never raises and never changes the state: whatever
    [kubectl] prints, the probe answers [HealthOK] with status 200 or
    [HealthERROR] with status 500. *)
Theorem health_py_total ns_json pods_json w :
  (exists e, health_py ns_json pods_json w = (Ok (HealthERROR e, 500), w)) \/
  exists n p, health_py ns_json pods_json w = (Ok (HealthOK n p, 200), w).
Proof.
  destruct (health_py_answers ns_json pods_json w) as [[n p | e] ->]; [right | left]; eauto.
Qed.
End HealthClaims.

(** ** Concrete runs of [/health] *)

(** A namespace item without [metadata]: [KeyError], caught. *)
Example health_namespace_without_metadata :
  health_py (Some (PDict [("items", PList [PDict []])])) (fun _ => None) empty_world
    = (Ok (HealthERROR (KeyError "metadata"), 500), empty_world).
Proof. reflexivity. Qed.

Lemma health_py_encode_witness :
  (forall ns, kubectl_pods_json (env_pods scan_env ns) = kubectl_pods_json (env_pods scan_env ns)) /\
  health_py (kubectl_namespaces_json (env_namespaces scan_env))
            (fun ns => kubectl_pods_json (env_pods scan_env ns)) empty_world
    = health scan_env empty_world.
Proof.
  assert (H : forall ns, kubectl_pods_json (env_pods scan_env ns) = kubectl_pods_json (env_pods scan_env ns))
    by reflexivity.
  split; [exact H | exact (health_py_encode scan_env _ empty_world H)].
Defined.
