(* ===== verification/JsonText.v ===== *)
(** * JsonText: [json.dumps], and the bodies of [/namespaces] and [/health]

    [list_namespaces] (src/eks.py, lines 105-107) answers
    [json.dumps(get_namespaces())]; [health] (lines 206-213) answers
    [json.dumps({"status": "OK", "namespaces": ..., "pods": ...})] with
    200, or [json.dumps({"status": "ERROR", "details": str(e)})] with 500.
    The dashboard page reads both bodies back with a JSON parser.

    - [json_dumps]: [json.dumps] with its defaults ([ensure_ascii=True],
      separators [", "] and [": "]), as CPython's [json.encoder] writes
      it: strings between double quotes, with the backslash and the
      double quote escaped, the short escapes of U+0008, U+000C, U+000A,
      U+000D and U+0009, and a six-character escape with four lower-case
      hex digits for every other character outside U+0020..U+007E.
    - [json_loads]: the reference reader, [json.loads] as
      [json.decoder] and [json.scanner] read a document (whitespace,
      strict strings, integers, [null], [true], [false], arrays, objects
      whose later duplicate keys overwrite earlier ones).  [None] is a
      [JSONDecodeError], or a value the model does not hold (a float, or
      a code point above U+00FF).
    - [py_exc_str]: [str(e)] of the exceptions the handlers raise.
    - [list_namespaces_response], [health_json], [health_response]: the
      two handlers up to the text they return.

    The theorems: every value [json_loads] builds is well formed
    ([json_wf]: its dicts have distinct keys, its integers at most 4300
    digits); the fuel [json_loads] gives the parser never ends a reading
    (any more fuel gives the same answer); [json_loads] reads back every well-formed value [json_dumps]
    writes, so the page
    gets exactly the namespace names [kubectl] listed and the counts of
    [/health]. *)

From stdpp Require Import base list strings pretty.
From Stdlib Require Import ZArith Lia Ascii.
From S2P Require Import Prelude PyStr Md5 Dispatcher Scan Json.

Local Open Scope string_scope.
Local Open Scope pym_scope.

(** ** [json.dumps] *)

Definition bs_str : string := String bs_char EmptyString.
Definition dq_str : string := String dq_char EmptyString.

(** One character of [py_encode_basestring_ascii]. *)
Definition json_escape_char (c : ascii) : string :=
  let n := nat_of_ascii c in
  if Ascii.eqb c bs_char then bs_str +:+ bs_str
  else if Ascii.eqb c dq_char then bs_str +:+ dq_str
  else if Nat.eqb n 8 then bs_str +:+ "b"
  else if Nat.eqb n 12 then bs_str +:+ "f"
  else if Nat.eqb n 10 then bs_str +:+ "n"
  else if Nat.eqb n 13 then bs_str +:+ "r"
  else if Nat.eqb n 9 then bs_str +:+ "t"
  else if Nat.leb 32 n && Nat.leb n 126 then String c EmptyString
  else bs_str +:+ "u00" +:+ hex_byte (Z.of_nat n).

Fixpoint json_escape (s : string) : string :=
  match s with
  | EmptyString => EmptyString
  | String c s' => json_escape_char c +:+ json_escape s'
  end.

Definition json_dumps_str (s : string) : string := dq_str +:+ json_escape s +:+ dq_str.

Fixpoint json_dumps (v : pyval) : string :=
  match v with
  | PNone => "null"
  | PBool true => "true"
  | PBool false => "false"
  | PInt z => pretty z
  | PStr s => json_dumps_str s
  | PList l => "[" +:+ py_join ", " (map json_dumps l) +:+ "]"
  | PDict d => "{" +:+ py_join ", " (map (fun kv => json_dumps_str kv.1 +:+ ": " +:+ json_dumps kv.2) d)
               +:+ "}"
  end.

(** ** [json.loads] *)

Definition is_json_ws (c : ascii) : bool := bool_decide (nat_of_ascii c ∈ [32; 9; 10; 13]%nat).

Fixpoint skip_ws (s : list ascii) : list ascii :=
  match s with
  | c :: s' => if is_json_ws c then skip_ws s' else s
  | [] => []
  end.

Definition hex_val (c : ascii) : option nat :=
  let n := nat_of_ascii c in
  if Nat.leb 48 n && Nat.leb n 57 then Some (n - 48)
  else if Nat.leb 97 n && Nat.leb n 102 then Some (n - 87)
  else if Nat.leb 65 n && Nat.leb n 70 then Some (n - 55)
  else None.

(** [_BACKCHAR] of [json.decoder]. *)
Definition json_unescape (e : ascii) : option ascii :=
  if Ascii.eqb e dq_char then Some dq_char
  else if Ascii.eqb e bs_char then Some bs_char
  else if Ascii.eqb e "/"%char then Some "/"%char
  else if Ascii.eqb e "b"%char then Some (ascii_of_nat 8)
  else if Ascii.eqb e "f"%char then Some (ascii_of_nat 12)
  else if Ascii.eqb e "n"%char then Some (ascii_of_nat 10)
  else if Ascii.eqb e "r"%char then Some (ascii_of_nat 13)
  else if Ascii.eqb e "t"%char then Some (ascii_of_nat 9)
  else None.

(** [scanstring] after the opening quote, with [strict=True]: the string
    and what follows the closing quote. *)
Fixpoint scan_string (s : list ascii) : option (string * list ascii) :=
  match s with
  | [] => None
  | c :: s' =>
      if Ascii.eqb c dq_char then Some (EmptyString, s')
      else if Ascii.eqb c bs_char then
        match s' with
        | [] => None
        | e :: s'' =>
            if Ascii.eqb e "u"%char then
              match s'' with
              | h1 :: h2 :: h3 :: h4 :: r =>
                  match hex_val h1, hex_val h2, hex_val h3, hex_val h4 with
                  | Some a, Some b, Some c', Some d =>
                      let n := ((a * 16 + b) * 16 + c') * 16 + d in
                      if Nat.ltb n 256
                      then '(t, r') ← scan_string r; Some (String (ascii_of_nat n) t, r')
                      else None
                  | _, _, _, _ => None
                  end
              | _ => None
              end
            else match json_unescape e with
                 | Some ch => '(t, r') ← scan_string s''; Some (String ch t, r')
                 | None => None
                 end
        end
      else if Nat.ltb (nat_of_ascii c) 32 then None
      else '(t, r') ← scan_string s'; Some (String c t, r')
  end.

Fixpoint take_digits (s : list ascii) : list ascii * list ascii :=
  match s with
  | c :: s' => if is_digit c then let '(ds, r) := take_digits s' in (c :: ds, r) else ([], s)
  | [] => ([], [])
  end.

Definition digit_step (acc : Z) (c : ascii) : Z := (10 * acc + Z.of_nat (nat_of_ascii c - 48))%Z.

Definition digits_value (ds : list ascii) : Z := fold_left digit_step ds 0%Z.

(** [NUMBER_RE] on an integer (an optional minus, then [0] or a non-zero
    digit and more digits), then [int()] of the digits; a fraction or an
    exponent makes a [float], not modelled. *)
Definition scan_number (s : list ascii) : option (Z * list ascii) :=
  let '(neg, s1) := match s with
                    | c :: r => if Ascii.eqb c "-"%char then (true, r) else (false, s)
                    | [] => (false, s)
                    end in
  let '(ds, r) := match s1 with
                  | c :: r1 => if Ascii.eqb c "0"%char then ([c], r1) else take_digits s1
                  | [] => ([], [])
                  end in
  let v := ((if neg then -1 else 1) * digits_value ds)%Z in
  match ds, r with
  | [], _ => None
  | _, c :: _ =>
      if Ascii.eqb c "."%char || Ascii.eqb c "e"%char || Ascii.eqb c "E"%char then None
      else if Nat.leb (length ds) MAX_STR_DIGITS then Some (v, r) else None
  | _, [] => if Nat.leb (length ds) MAX_STR_DIGITS then Some (v, r) else None
  end.

(** [dict(pairs)]: a later value for a key replaces the earlier one in place. *)
Fixpoint dict_set (d : list (string * pyval)) (k : string) (v : pyval) : list (string * pyval) :=
  match d with
  | [] => [(k, v)]
  | (k', v') :: d' => if String.eqb k' k then (k', v) :: d' else (k', v') :: dict_set d' k v
  end.

Definition dict_of_pairs (kvs : list (string * pyval)) : list (string * pyval) :=
  fold_left (fun d kv => dict_set d kv.1 kv.2) kvs [].

Definition literal_prefix (lit : string) (s : list ascii) : option (list ascii) :=
  let l := String.list_ascii_of_string lit in
  if bool_decide (take (length l) s = l) then Some (drop (length l) s) else None.

(** [scan_once], [JSONArray] and [JSONObject]; [fuel] bounds the nesting
    and the number of items, and the length of the document is enough. *)
Fixpoint parse_value (fuel : nat) (s : list ascii) : option (pyval * list ascii) :=
  match fuel with
  | O => None
  | S f =>
      match s with
      | [] => None
      | c :: r =>
          if Ascii.eqb c dq_char then '(t, r') ← scan_string r; Some (PStr t, r')
          else if Ascii.eqb c "{"%char then
            match skip_ws r with
            | c' :: r' =>
                if Ascii.eqb c' "}"%char then Some (PDict [], r')
                else '(kvs, r'') ← parse_members f (c' :: r'); Some (PDict (dict_of_pairs kvs), r'')
            | [] => None
            end
          else if Ascii.eqb c "["%char then
            match skip_ws r with
            | c' :: r' =>
                if Ascii.eqb c' "]"%char then Some (PList [], r')
                else '(vs, r'') ← parse_elements f (c' :: r'); Some (PList vs, r'')
            | [] => None
            end
          else match literal_prefix "null" s with
          | Some r' => Some (PNone, r')
          | None =>
          match literal_prefix "true" s with
          | Some r' => Some (PBool true, r')
          | None =>
          match literal_prefix "false" s with
          | Some r' => Some (PBool false, r')
          | None => '(z, r') ← scan_number s; Some (PInt z, r')
          end end end
      end
  end
with parse_elements (fuel : nat) (s : list ascii) : option (list pyval * list ascii) :=
  match fuel with
  | O => None
  | S f =>
      '(v, r) ← parse_value f s;
      match skip_ws r with
      | c :: r' =>
          if Ascii.eqb c ","%char then '(vs, r'') ← parse_elements f (skip_ws r'); Some (v :: vs, r'')
          else if Ascii.eqb c "]"%char then Some ([v], r')
          else None
      | [] => None
      end
  end
with parse_members (fuel : nat) (s : list ascii) : option (list (string * pyval) * list ascii) :=
  match fuel with
  | O => None
  | S f =>
      match s with
      | c :: r =>
          if Ascii.eqb c dq_char then
            '(k, r1) ← scan_string r;
            match skip_ws r1 with
            | c1 :: r2 =>
                if Ascii.eqb c1 ":"%char then
                  '(v, r3) ← parse_value f (skip_ws r2);
                  match skip_ws r3 with
                  | c3 :: r4 =>
                      if Ascii.eqb c3 ","%char then
                        '(kvs, r5) ← parse_members f (skip_ws r4); Some ((k, v) :: kvs, r5)
                      else if Ascii.eqb c3 "}"%char then Some ([(k, v)], r4)
                      else None
                  | [] => None
                  end
                else None
            | [] => None
            end
          else None
      | [] => None
      end
  end.

(** [json.loads(s)]: a value, surrounded by whitespace only. *)
Definition json_loads (s : string) : option pyval :=
  let l := String.list_ascii_of_string s in
  '(v, r) ← parse_value (S (length l)) (skip_ws l);
  if skip_ws r is [] then Some v else None.

(** ** The handlers' bodies *)

(** [str(e)].  The model keeps no text for the exceptions of the OpenAI
    and [smtplib] libraries and for [UnicodeDecodeError], which
    [/health] never raises; the
    [JSONDecodeError] is the one of the empty output of a failed
    [kubectl]. *)
Definition py_exc_str (e : py_exc) : string :=
  match e with
  | KeyError k => py_repr_str k
  | JSONDecodeError => "Expecting value: line 1 column 1 (char 0)"
  | TypeError m | AttributeError m | ValueError m => m
  | FileNotFoundError f => "[Errno 2] No such file or directory: " +:+ py_repr_str f
  | InferenceError | SMTPError | UnicodeDecodeError => ""
  end.

(** Lines 105-107. *)
Definition list_namespaces_response (ns_json : option pyval) : M string :=
  names <- list_namespaces_py ns_json ;; ret (json_dumps (PList names)).

(** The whole handler of lines 105-107 from [kubectl]'s standard output:
    [json.loads] of line 24, the comprehension of line 25 and
    [json.dumps] of line 107. *)
Definition list_namespaces_text (stdout : string) : M string :=
  list_namespaces_response (json_loads stdout).

(** The dicts of lines 211 and 213. *)
Definition health_json (h : health_body) : pyval :=
  match h with
  | HealthOK n p =>
      PDict [("status", PStr "OK"); ("namespaces", PInt (Z.of_nat n)); ("pods", PInt (Z.of_nat p))]
  | HealthERROR e => PDict [("status", PStr "ERROR"); ("details", PStr (py_exc_str e))]
  end.

(** Lines 206-213: the text and the status code. *)
Definition health_response (ns_json : option pyval) (pods_json : string -> option (option pyval))
  : M (string * nat) :=
  r <- health_py ns_json pods_json ;; ret (json_dumps (health_json r.1), r.2).

(** The whole handler from [kubectl]'s standard outputs: [ns_stdout] of
    [kubectl get namespaces -o json] and, for each namespace, [Some] of
    the output of [kubectl get pods -n ns -o json], or [None] when it
    exits with an error ([check=True] of line 29). *)
Definition health_text (ns_stdout : string) (pods_stdout : string -> option string) : M (string * nat) :=
  health_response (json_loads ns_stdout) (fun ns => option_map json_loads (pods_stdout ns)).

(** ** Reading back a string *)

Local Open Scope list_scope.
Local Abbreviation las := String.list_ascii_of_string.

Lemma las_app s t : las (s +:+ t) = las s ++ las t.
Proof. induction s as [|c s IH]; [done|]. rewrite string_app_cons. cbn. by f_equal. Qed.

Lemma hex_val_hex_char k : (0 <= k < 16)%Z -> hex_val (hex_char k) = Some (Z.to_nat k).
Proof.
  intros Hk. rewrite <- (Z2Nat.id k) by lia. assert (Hm : (Z.to_nat k < 16)%nat) by lia.
  revert Hm. generalize (Z.to_nat k) as m. intros m Hm. rewrite Nat2Z.id.
  do 16 (destruct m as [|m]; [reflexivity|]). lia.
Qed.

(** The escape of one character reads back as that character. *)
Lemma scan_string_escape_char c X :
  scan_string (las (json_escape_char c) ++ X) = '(t, r) ← scan_string X; Some (String c t, r).
Proof.
  pose proof (ascii_nat_embedding c) as Hc. pose proof (nat_ascii_bounded c) as Hb.
  unfold json_escape_char.
  destruct (Ascii.eqb_spec c bs_char) as [->|Hbs]; [reflexivity|].
  destruct (Ascii.eqb_spec c dq_char) as [->|Hdq]; [reflexivity|].
  destruct (Nat.eqb_spec (nat_of_ascii c) 8) as [H|]; [rewrite <- Hc, H; reflexivity|].
  destruct (Nat.eqb_spec (nat_of_ascii c) 12) as [H|]; [rewrite <- Hc, H; reflexivity|].
  destruct (Nat.eqb_spec (nat_of_ascii c) 10) as [H|]; [rewrite <- Hc, H; reflexivity|].
  destruct (Nat.eqb_spec (nat_of_ascii c) 13) as [H|]; [rewrite <- Hc, H; reflexivity|].
  destruct (Nat.eqb_spec (nat_of_ascii c) 9) as [H|]; [rewrite <- Hc, H; reflexivity|].
  destruct (Nat.leb_spec 32 (nat_of_ascii c)), (Nat.leb_spec (nat_of_ascii c) 126); cbn [andb].
  2-4: rewrite !las_app; unfold hex_byte; cbn -[hex_val hex_char];
    rewrite !hex_val_hex_char by zdiv_lia; change (hex_val "0"%char) with (Some 0%nat);
    cbn -[Z.to_nat Z.div Z.modulo];
    (match goal with |- context [Nat.leb ?e 255] => replace e with (nat_of_ascii c) by zdiv_lia end);
    destruct (Nat.leb_spec (nat_of_ascii c) 255); [by rewrite Hc | lia].
  cbn. apply Ascii.eqb_neq in Hdq, Hbs. rewrite Hdq, Hbs.
  destruct (Nat.leb_spec (nat_of_ascii c) 31); [lia | done].
Qed.

Lemma scan_string_json_escape s rest :
  scan_string (las (json_escape s) ++ dq_char :: rest) = Some (s, rest).
Proof.
  induction s as [|c s IH]; [reflexivity|]. cbn [json_escape].
  by rewrite las_app, <- app_assoc, scan_string_escape_char, IH.
Qed.

Lemma las_json_dumps_str s : las (json_dumps_str s) = dq_char :: las (json_escape s) ++ [dq_char].
Proof. unfold json_dumps_str. by rewrite !las_app. Qed.

(** ** Reading back an integer *)

Lemma pretty_N_char_digit d :
  (d < 10)%N -> is_digit (pretty_N_char d) = true /\ (nat_of_ascii (pretty_N_char d) - 48)%nat = N.to_nat d.
Proof.
  intros Hd. rewrite <- (N2Nat.id d). assert (Hm : (N.to_nat d < 10)%nat) by lia.
  revert Hm. generalize (N.to_nat d) as m. intros m Hm. rewrite Nat2N.id.
  do 10 (destruct m as [|m]; [split; reflexivity|]). lia.
Qed.

(** The digits [pretty_N_go] writes in front of [s], most significant first. *)
Lemma pretty_N_go_digits x s :
  exists ds, las (pretty_N_go x s) = ds ++ las s /\ Forall (fun c => is_digit c = true) ds /\
    (forall acc, fold_left digit_step ds acc = acc * 10 ^ Z.of_nat (length ds) + Z.of_N x)%Z /\
    (x = 0%N -> ds = []) /\
    ((0 < x)%N -> (10 ^ (Z.of_nat (length ds) - 1) <= Z.of_N x)%Z /\
                  exists d ds', ds = d :: ds' /\ d <> "0"%char).
Proof.
  revert s. induction (N.lt_wf_0 x) as [x _ IH]; intros s.
  destruct (N.eq_dec x 0) as [->|Hx].
  - exists []. rewrite pretty_N_go_0. split_and!; [done | done | intros acc; cbn; lia | done | lia].
  - rewrite pretty_N_go_step by lia.
    destruct (IH (x / 10)%N ltac:(apply N.div_lt; lia) (String (pretty_N_char (x mod 10)) s))
      as (ds & Hds & Hdig & Hval & H0 & Hlead).
    destruct (pretty_N_char_digit (x mod 10)) as [Hd Hv]; [apply N.mod_lt; lia|].
    exists (ds ++ [pretty_N_char (x mod 10)]). cbn [String.list_ascii_of_string] in Hds. rewrite Hds, <- app_assoc.
    assert (Hdm := N.div_mod x 10 ltac:(lia)). assert (Hmod := N.mod_lt x 10 ltac:(lia)).
    split_and!; [done | by apply Forall_app; split; [|constructor] | | lia |].
    + intros acc. rewrite fold_left_app, Hval. cbn [fold_left]. unfold digit_step.
      rewrite Hv, length_app, N_nat_Z. cbn [length]. rewrite Nat2Z.inj_add, Z.pow_add_r by lia.
      rewrite Hdm at 3. rewrite N2Z.inj_add, N2Z.inj_mul. cbn. lia.
    + intros _. rewrite length_app. cbn [length].
      destruct (N.eq_dec (x / 10) 0) as [Hq|Hq].
      * rewrite (H0 Hq). split; [cbn; lia|]. exists (pretty_N_char (x mod 10)), []. split; [done|].
        intros Hc. apply (pretty_N_char_inj _ 0) in Hc; [lia | done | lia].
      * destruct (Hlead ltac:(lia)) as [Hpow (d & ds' & -> & Hd0)]. split.
        -- set (L := length (d :: ds')) in *. assert (HL : (1 <= L)%nat) by (subst L; cbn; lia).
           replace (Z.of_nat (L + 1) - 1)%Z with (Z.of_nat L - 1 + 1)%Z by lia.
           rewrite Z.pow_add_r, Z.pow_1_r by lia. rewrite Hdm at 1. rewrite N2Z.inj_add, N2Z.inj_mul. lia.
        -- by exists d, (ds' ++ [pretty_N_char (x mod 10)]).
Qed.

(** What may follow an integer without extending it. *)
Definition num_stop (rest : list ascii) : Prop :=
  forall c r, rest = c :: r -> is_digit c = false /\ c <> "."%char /\ c <> "e"%char /\ c <> "E"%char.

Lemma take_digits_app ds rest :
  Forall (fun c => is_digit c = true) ds -> num_stop rest -> take_digits (ds ++ rest) = (ds, rest).
Proof.
  induction 1 as [|c ds Hc _ IH]; intros Hs.
  - destruct rest as [|c r]; [done|]. cbn. by destruct (Hs c r eq_refl) as [-> _].
  - cbn. by rewrite Hc, IH.
Qed.

(** An integer [json.loads] can build: at most 4300 digits. *)
Definition json_int_ok (z : Z) : Prop := (Z.abs z < 10 ^ Z.of_nat MAX_STR_DIGITS)%Z.

Lemma las_pretty_Z z :
  json_int_ok z ->
  exists ds, las (pretty z) = (if (z <? 0)%Z then ["-"%char] else []) ++ ds /\
    Forall (fun c => is_digit c = true) ds /\ digits_value ds = Z.abs z /\
    (ds = ["0"%char] \/ exists d ds', ds = d :: ds' /\ d <> "0"%char) /\
    (length ds <= MAX_STR_DIGITS)%nat.
Proof.
  unfold json_int_ok. remember (Z.of_nat MAX_STR_DIGITS) as K eqn:HK. intros Hz.
  assert (Hpos : forall p, (Z.pos p < 10 ^ K)%Z ->
    exists ds, las (pretty_N_go (N.pos p) "") = ds /\ Forall (fun c => is_digit c = true) ds /\
      digits_value ds = Z.pos p /\ (exists d ds', ds = d :: ds' /\ d <> "0"%char) /\
      (length ds <= MAX_STR_DIGITS)%nat).
  { intros p Hp. destruct (pretty_N_go_digits (N.pos p) "") as (ds & Hds & Hdig & Hval & _ & Hlead).
    destruct (Hlead ltac:(lia)) as [Hpow Hd]. exists ds. rewrite app_nil_r in Hds.
    split_and!; [done | done | unfold digits_value; rewrite Hval; lia | done |].
    assert (Hlt : (10 ^ (Z.of_nat (length ds) - 1) < 10 ^ K)%Z) by (cbn in Hpow; lia).
    apply Z.pow_lt_mono_r_iff in Hlt; lia. }
  destruct z as [|p|p].
  - exists ["0"%char]. split; [done|]. split; [by repeat constructor|]. split; [done|].
    split; [by left | cbn; unfold MAX_STR_DIGITS; lia].
  - destruct (Hpos p ltac:(lia)) as (ds & Hds & Hd & Hv & Hl & Hm). exists ds.
    change (pretty (Z.pos p)) with (if decide (N.pos p = 0%N) then "0" else pretty_N_go (N.pos p) "").
    rewrite decide_False by done. rewrite Hds. split; [done|]. split; [done|]. split; [done|].
    split; [by right | done].
  - destruct (Hpos p ltac:(lia)) as (ds & Hds & Hd & Hv & Hl & Hm). exists ds.
    change (pretty (Z.neg p)) with ("-" +:+ if decide (N.pos p = 0%N) then "0" else pretty_N_go (N.pos p) "").
    rewrite decide_False by done. rewrite las_app, Hds. split; [done|]. split; [done|]. split; [done|].
    split; [by right | done].
Qed.

Lemma scan_number_pretty z rest :
  json_int_ok z -> num_stop rest -> scan_number (las (pretty z) ++ rest) = Some (z, rest).
Proof.
  intros Hz Hs. destruct (las_pretty_Z z Hz) as (ds & -> & Hdig & Hval & Hshape & Hlen).
  assert (Hend : forall v, (match ds, rest with
                 | [], _ => None
                 | _, c :: _ => if Ascii.eqb c "."%char || Ascii.eqb c "e"%char || Ascii.eqb c "E"%char
                                then None else if Nat.leb (length ds) MAX_STR_DIGITS then Some (v, rest) else None
                 | _, [] => if Nat.leb (length ds) MAX_STR_DIGITS then Some (v, rest) else None
                 end : option (Z * list ascii)) = Some (v, rest)).
  { intros v. apply Nat.leb_le in Hlen. destruct Hshape as [-> | (d & ds' & -> & _)];
      (destruct rest as [|c r]; [by rewrite Hlen|]);
      destruct (Hs c r eq_refl) as (_ & H1 & H2 & H3);
      apply Ascii.eqb_neq in H1, H2, H3; by rewrite H1, H2, H3, Hlen. }
  unfold scan_number. destruct Hshape as [-> | (d & ds' & -> & Hd0)].
  - change (digits_value ["0"%char]) with 0%Z in Hval. assert (z = 0%Z) as -> by lia. cbn [Z.ltb Z.compare app].
    exact (Hend 0%Z).
  - pose proof (Forall_inv Hdig) as Hd. cbn beta in Hd.
    assert (Hdm : Ascii.eqb d "-"%char = false) by (apply Ascii.eqb_neq; intros ->; discriminate Hd).
    apply Ascii.eqb_neq in Hd0.
    destruct (Z.ltb_spec z 0%Z) as [Hz0|Hz0]; cbn [app].
    + cbn -[take_digits digits_value]. rewrite Hd0.
      change (d :: ds' ++ rest) with ((d :: ds') ++ rest). rewrite take_digits_app by done.
      rewrite Hval. replace (-1 * Z.abs z)%Z with z by lia. exact (Hend z).
    + cbn -[take_digits digits_value]. rewrite Hdm, Hd0.
      change (d :: ds' ++ rest) with ((d :: ds') ++ rest). rewrite take_digits_app by done.
      rewrite Hval. replace (1 * Z.abs z)%Z with z by lia. exact (Hend z).
Qed.

(** ** Reading back a value *)

(** Induction on values, with a hypothesis for every item of a list or dict. *)
Lemma pyval_nested_ind (P : pyval -> Prop)
  (Hn : P PNone) (Hb : forall b, P (PBool b)) (Hz : forall z, P (PInt z)) (Hs : forall s, P (PStr s))
  (Hl : forall l, Forall P l -> P (PList l))
  (Hd : forall d, Forall (fun kv => P kv.2) d -> P (PDict d)) : forall v, P v.
Proof.
  exact (fix F (v : pyval) : P v :=
    match v with
    | PNone => Hn
    | PBool b => Hb b
    | PInt z => Hz z
    | PStr s => Hs s
    | PList l => Hl l ((fix G (l : list pyval) : Forall P l :=
                          match l with
                          | [] => List.Forall_nil _
                          | x :: l' => @List.Forall_cons _ P x l' (F x) (G l')
                          end) l)
    | PDict d => Hd d ((fix G (d : list (string * pyval)) : Forall (fun kv => P kv.2) d :=
                          match d with
                          | [] => List.Forall_nil _
                          | kv :: d' => @List.Forall_cons _ (fun kv => P kv.2) kv d' (F kv.2) (G d')
                          end) d)
    end).
Qed.

(** The values [json.loads] builds: dicts with distinct keys, integers
    of at most 4300 digits. *)
Fixpoint json_wf (v : pyval) : Prop :=
  match v with
  | PInt z => json_int_ok z
  | PList l => (fix go (l : list pyval) : Prop :=
                  match l with [] => True | x :: l' => json_wf x /\ go l' end) l
  | PDict d => NoDup (map fst d) /\
               (fix go (d : list (string * pyval)) : Prop :=
                  match d with [] => True | kv :: d' => json_wf kv.2 /\ go d' end) d
  | _ => True
  end.

Lemma json_wf_list l : json_wf (PList l) <-> Forall json_wf l.
Proof. induction l as [|x l IH]; cbn in *; [split; auto | rewrite Forall_cons, <- IH; done]. Qed.

Lemma json_wf_dict d : json_wf (PDict d) <-> NoDup (map fst d) /\ Forall (fun kv => json_wf kv.2) d.
Proof.
  cbn. f_equiv. induction d as [|kv d IH]; [split; auto|]. rewrite Forall_cons, <- IH. done.
Qed.

(** The fuel [parse_value] needs: one per nesting level and per item. *)
Fixpoint json_fuel (v : pyval) : nat :=
  match v with
  | PList l => S (sum_list (map json_fuel l) + length l)
  | PDict d => S (sum_list (map (fun kv => json_fuel kv.2) d) + length d)
  | _ => 1
  end.

Definition json_member (kv : string * pyval) : string := json_dumps_str kv.1 +:+ ": " +:+ json_dumps kv.2.

Lemma json_dumps_dict d : json_dumps (PDict d) = "{" +:+ py_join ", " (map json_member d) +:+ "}".
Proof. reflexivity. Qed.

Lemma py_join_cons2 sep x y l : py_join sep (x :: y :: l) = x +:+ sep +:+ py_join sep (y :: l).
Proof. reflexivity. Qed.

(** A dumped value starts with a character that is not whitespace and
    does not close a list or a dict. *)
Definition json_start (c : ascii) : Prop := is_json_ws c = false /\ c <> "]"%char /\ c <> "}"%char.

Lemma digit_json_start c : is_digit c = true -> json_start c.
Proof.
  unfold json_start, is_json_ws. intros Hd.
  split_and!; [| intros ->; discriminate Hd | intros ->; discriminate Hd].
  unfold is_digit in Hd. apply bool_decide_eq_true in Hd. apply bool_decide_eq_false. intros Hin. repeat (apply elem_of_cons in Hin as [Hin|Hin]; [lia|]).
  by apply elem_of_nil in Hin.
Qed.

Lemma num_stop_char c r :
  is_digit c = false -> c <> "."%char -> c <> "e"%char -> c <> "E"%char -> num_stop (c :: r).
Proof. intros ? ? ? ? c' r' [= <- <-]. done. Qed.

Ltac num_stop_tac := apply num_stop_char; first [reflexivity | discriminate].

Lemma json_dumps_head v :
  json_wf v -> exists c t, las (json_dumps v) = c :: t /\ json_start c.
Proof.
  intros Hwf. destruct v as [| [] | z | s | l | d]; cbn [json_dumps].
  1-3: eexists _, _; split; [reflexivity | split_and!; first [reflexivity | discriminate]].
  - destruct (las_pretty_Z z Hwf) as (ds & -> & Hdig & _ & Hshape & _).
    destruct Hshape as [-> | (d & ds' & -> & _)]; destruct (z <? 0)%Z; cbn [app];
      try (eexists _, _; split; [reflexivity | split_and!; first [reflexivity | discriminate]]).
    eexists _, _; split; [reflexivity|]. apply digit_json_start. exact (Forall_inv Hdig).
  - rewrite las_json_dumps_str. eexists _, _. split; [reflexivity | split_and!; first [reflexivity | discriminate]].
  - rewrite !las_app. eexists _, _. split; [reflexivity | split_and!; first [reflexivity | discriminate]].
  - rewrite !las_app. eexists _, _.
    split; [reflexivity | split_and!; first [reflexivity | discriminate]].
Qed.

Lemma skip_ws_start c t : json_start c -> skip_ws (c :: t) = c :: t.
Proof. intros [H _]. cbn. by rewrite H. Qed.

Lemma skip_ws_dumps v X : json_wf v -> skip_ws (las (json_dumps v) ++ X) = las (json_dumps v) ++ X.
Proof. intros Hwf. destruct (json_dumps_head v Hwf) as (c & t & -> & Hc). by apply skip_ws_start. Qed.

Lemma skip_ws_space X : skip_ws (" "%char :: X) = skip_ws X.
Proof. reflexivity. Qed.

Lemma literal_prefix_ne a lit c s : c <> a -> literal_prefix (String a lit) (c :: s) = None.
Proof.
  intros Hne. unfold literal_prefix. rewrite bool_decide_eq_false_2; [done|].
  cbn. intros [= Hc _]. by apply Hne.
Qed.

(** [dict(pairs)] on distinct keys keeps the pairs. *)
Lemma dict_set_fresh d k v : k ∉ map fst d -> dict_set d k v = d ++ [(k, v)].
Proof.
  induction d as [|[k' v'] d IH]; intros Hk; [done|]. cbn in Hk |- *.
  rewrite not_elem_of_cons in Hk. destruct Hk as [Hk Hd].
  destruct (String.eqb_spec k' k); [congruence|]. by rewrite IH.
Qed.

Lemma fold_dict_set_nodup acc d :
  NoDup (map fst (acc ++ d)) -> fold_left (fun d kv => dict_set d kv.1 kv.2) d acc = acc ++ d.
Proof.
  revert acc. induction d as [|[k v] d IH]; intros acc Hnd; cbn [fold_left]; [by rewrite app_nil_r|].
  rewrite dict_set_fresh.
  - rewrite IH; by rewrite <- app_assoc.
  - rewrite map_app in Hnd. cbn in Hnd. apply NoDup_app in Hnd as (_ & Hdis & _).
    intros Hk. apply (Hdis _ Hk). by left.
Qed.

Lemma dict_of_pairs_nodup d : NoDup (map fst d) -> dict_of_pairs d = d.
Proof. intros Hnd. by apply (fold_dict_set_nodup []). Qed.

(** [parse_value] reads [v] back from its text, whatever follows it. *)
Definition reads_back (v : pyval) : Prop :=
  forall fuel rest, (json_fuel v <= fuel)%nat -> num_stop rest ->
    parse_value fuel (las (json_dumps v) ++ rest) = Some (v, rest).

Lemma las_py_join_head sep x l : exists t, las (py_join sep (x :: l)) = las x ++ t.
Proof.
  destruct l as [|y l]; [exists []; by rewrite app_nil_r|].
  rewrite py_join_cons2, las_app. by eexists.
Qed.

Lemma skip_ws_join v l X :
  json_wf v -> skip_ws (las (py_join ", " (json_dumps v :: l)) ++ X) = las (py_join ", " (json_dumps v :: l)) ++ X.
Proof.
  intros Hwf. destruct (las_py_join_head ", " (json_dumps v) l) as [t ->].
  rewrite <- app_assoc. by apply skip_ws_dumps.
Qed.

Lemma skip_ws_comma R : skip_ws (","%char :: R) = ","%char :: R.
Proof. reflexivity. Qed.

Lemma parse_elements_dumps x l f rest :
  Forall (fun v => json_wf v /\ reads_back v) (x :: l) ->
  (sum_list (map json_fuel (x :: l)) + length (x :: l) <= f)%nat ->
  parse_elements f (las (py_join ", " (map json_dumps (x :: l))) ++ "]"%char :: rest) = Some (x :: l, rest).
Proof.
  revert x f. induction l as [|y l IH]; intros x f Hall Hf;
    apply Forall_cons in Hall as [[Hwx Hx] Hall]; (destruct f as [|f]; [cbn in Hf; lia|]).
  - cbn [map py_join parse_elements].
    rewrite (Hx f ("]"%char :: rest)); [reflexivity | cbn in Hf; lia | num_stop_tac].
  - cbn [map]. rewrite py_join_cons2, !las_app, <- !app_assoc.
    change (las ", ") with [","%char; " "%char]. cbn [app parse_elements].
    rewrite (Hx f); [| cbn in Hf; lia | num_stop_tac].
    cbn [mbind option_bind]. rewrite skip_ws_comma. cbn -[parse_elements skip_ws las py_join json_dumps].
    rewrite skip_ws_space. apply Forall_cons in Hall as [[Hwy Hy] Hall'].
    rewrite skip_ws_join by done.
    change (json_dumps y :: map json_dumps l) with (map json_dumps (y :: l)).
    rewrite IH; [done | by constructor | cbn in Hf |- *; lia].
Qed.

Lemma skip_ws_colon R : skip_ws (":"%char :: R) = ":"%char :: R.
Proof. reflexivity. Qed.

Lemma skip_ws_rbrace R : skip_ws ("}"%char :: R) = "}"%char :: R.
Proof. reflexivity. Qed.

Lemma las_json_member k v X :
  las (json_member (k, v)) ++ X =
    dq_char :: las (json_escape k) ++ dq_char :: ":"%char :: " "%char :: las (json_dumps v) ++ X.
Proof.
  unfold json_member. cbn [fst snd]. rewrite !las_app, las_json_dumps_str.
  change (las ": ") with [":"%char; " "%char]. rewrite <- !app_assoc. cbn [app].
  by rewrite <- !app_assoc.
Qed.

Lemma skip_ws_members kv d X :
  skip_ws (las (py_join ", " (map json_member (kv :: d))) ++ X) =
    las (py_join ", " (map json_member (kv :: d))) ++ X.
Proof.
  destruct kv as [k v]. destruct (las_py_join_head ", " (json_member (k, v)) (map json_member d)) as [t Ht].
  cbn [map]. rewrite Ht, <- app_assoc, las_json_member. reflexivity.
Qed.

Lemma parse_members_dumps kv d f rest :
  Forall (fun kv => json_wf kv.2 /\ reads_back kv.2) (kv :: d) ->
  (sum_list (map (fun kv => json_fuel kv.2) (kv :: d)) + length (kv :: d) <= f)%nat ->
  parse_members f (las (py_join ", " (map json_member (kv :: d))) ++ "}"%char :: rest) = Some (kv :: d, rest).
Proof.
  revert kv f. induction d as [|kv' d IH]; intros [k v] f Hall Hf;
    apply Forall_cons in Hall as [[Hwv Hv] Hall]; (destruct f as [|f]; [cbn in Hf; lia|]); cbn [fst snd] in *.
  - cbn [map py_join]. rewrite las_json_member. cbn [parse_members]. rewrite Ascii.eqb_refl.
    rewrite scan_string_json_escape. cbn [mbind option_bind]. rewrite skip_ws_colon.
    cbn -[parse_value skip_ws las json_dumps]. rewrite skip_ws_space, skip_ws_dumps by done.
    rewrite (Hv f ("}"%char :: rest)); [| cbn in Hf; lia | num_stop_tac].
    cbn [mbind option_bind]. rewrite skip_ws_rbrace. reflexivity.
  - cbn [map]. rewrite py_join_cons2, !las_app, <- !app_assoc, las_json_member.
    change (las ", ") with [","%char; " "%char]. cbn [app parse_members]. rewrite Ascii.eqb_refl.
    rewrite scan_string_json_escape. cbn [mbind option_bind]. rewrite skip_ws_colon.
    cbn -[parse_value parse_members skip_ws las json_dumps py_join json_member].
    rewrite skip_ws_space, skip_ws_dumps by done.
    rewrite (Hv f); [| cbn in Hf; lia | num_stop_tac].
    cbn [mbind option_bind]. rewrite skip_ws_comma.
    cbn -[parse_value parse_members skip_ws las json_dumps py_join json_member].
    rewrite skip_ws_space.
    change (json_member kv' :: map json_member d) with (map json_member (kv' :: d)).
    rewrite skip_ws_members, IH; [done | done | cbn in Hf |- *; lia].
Qed.

Lemma int_head z : json_int_ok z -> exists c t, las (pretty z) = c :: t /\ (c = "-"%char \/ is_digit c = true).
Proof.
  intros Hz. destruct (las_pretty_Z z Hz) as (ds & -> & Hdig & _ & Hshape & _).
  destruct Hshape as [-> | (d & ds' & -> & _)]; destruct (z <? 0)%Z; cbn [app]; eauto.
  do 2 eexists. split; [reflexivity|]. right. exact (Forall_inv Hdig).
Qed.

Lemma join_head x l X :
  json_wf x -> exists c t, las (py_join ", " (json_dumps x :: l)) ++ X = c :: t /\ json_start c.
Proof.
  intros Hwf. destruct (las_py_join_head ", " (json_dumps x) l) as [t ->].
  destruct (json_dumps_head x Hwf) as (c & t' & -> & Hc). by exists c, ((t' ++ t) ++ X).
Qed.

Lemma members_head kv d X : exists t, las (py_join ", " (map json_member (kv :: d))) ++ X = dq_char :: t.
Proof.
  destruct kv as [k v]. destruct (las_py_join_head ", " (json_member (k, v)) (map json_member d)) as [t Ht].
  cbn [map]. rewrite Ht, <- app_assoc, las_json_member. by eexists.
Qed.

Lemma json_dumps_reads_back v : json_wf v -> reads_back v.
Proof.
  induction v as [| b | z | s | l IH | d IH] using pyval_nested_ind;
    intros Hwf; unfold reads_back; intros fuel rest Hf Hs; (destruct fuel as [|f]; [cbn in Hf; lia|]).
  - reflexivity.
  - by destruct b.
  - destruct (int_head z Hwf) as (c & t & Heq & Hc).
    assert (Hsp : Ascii.eqb c dq_char = false /\ Ascii.eqb c "{"%char = false /\
                  Ascii.eqb c "["%char = false /\ c <> "n"%char /\ c <> "t"%char /\ c <> "f"%char).
    { destruct Hc as [-> | Hd]; [split_and!; done|].
      split_and!; (lazymatch goal with |- Ascii.eqb _ _ = false => apply Ascii.eqb_neq | _ => idtac end);
        intros ->; discriminate Hd. }
    destruct Hsp as (H1 & H2 & H3 & H4 & H5 & H6).
    cbn [json_dumps]. rewrite Heq. cbn [app parse_value]. rewrite H1, H2, H3.
    rewrite !literal_prefix_ne by done. change (c :: t ++ rest) with ((c :: t) ++ rest).
    rewrite <- Heq, scan_number_pretty by done. reflexivity.
  - cbn [json_dumps]. rewrite las_json_dumps_str. cbn [app]. rewrite <- app_assoc. cbn [app parse_value].
    rewrite Ascii.eqb_refl, scan_string_json_escape. reflexivity.
  - apply json_wf_list in Hwf. destruct l as [|x l]; [reflexivity|].
    assert (Hall : Forall (fun v => json_wf v /\ reads_back v) (x :: l)).
    { apply Forall_and; split; [done|]. eapply Forall_impl; [apply Forall_and; split; [exact IH | exact Hwf]|].
      intros v [Hv Hw]. by apply Hv. }
    cbn [json_dumps]. rewrite !las_app, <- !app_assoc.
    change (las "[") with ["["%char]. change (las "]") with ["]"%char]. cbn [app parse_value].
    cbn -[skip_ws las py_join json_dumps parse_elements].
    destruct (join_head x (map json_dumps l) ("]"%char :: rest) (Forall_inv Hwf)) as (c & t & E & Hc).
    rewrite E, skip_ws_start by done. destruct Hc as (_ & Hc & _).
    apply Ascii.eqb_neq in Hc. rewrite Hc, <- E.
    change (json_dumps x :: map json_dumps l) with (map json_dumps (x :: l)).
    rewrite parse_elements_dumps; [done | done | cbn in Hf |- *; lia].
  - apply json_wf_dict in Hwf as [Hnd Hwf]. destruct d as [|kv d]; [reflexivity|].
    assert (Hall : Forall (fun kv => json_wf kv.2 /\ reads_back kv.2) (kv :: d)).
    { apply Forall_and; split; [done|]. eapply Forall_impl; [apply Forall_and; split; [exact IH | exact Hwf]|].
      intros v [Hv Hw]. by apply Hv. }
    rewrite json_dumps_dict, !las_app, <- !app_assoc.
    change (las "{") with ["{"%char]. change (las "}") with ["}"%char]. cbn [app parse_value].
    cbn -[skip_ws las py_join json_dumps parse_members json_member].
    destruct (members_head kv d ("}"%char :: rest)) as [t E].
    change (json_member kv :: map json_member d) with (map json_member (kv :: d)).
    rewrite E, skip_ws_start by done. cbn [Ascii.eqb dq_char Bool.eqb]. rewrite <- E.
    rewrite parse_members_dumps; [| done | cbn in Hf |- *; lia].
    cbn [mbind option_bind]. by rewrite dict_of_pairs_nodup.
Qed.

(** ** The fuel [json_loads] gives is enough *)

Lemma length_py_join sep x l :
  length (las (py_join sep (x :: l))) = length (las x) + sum_list (map (fun y => length (las sep) + length (las y)) l).
Proof.
  revert x; induction l as [|y l IH]; intros x; [cbn [py_join map sum_list_with]; lia|].
  rewrite py_join_cons2, !las_app, !length_app, IH. cbn [map sum_list_with id]. lia.
Qed.

Lemma sum_list_map_le {A} (f g : A -> nat) l :
  Forall (fun x => f x <= g x) l -> sum_list (map f l) <= sum_list (map g l).
Proof. induction 1; cbn; lia. Qed.

Lemma sum_list_map_add {A} c (g : A -> nat) l :
  sum_list (map (fun y => c + g y) l) = c * length l + sum_list (map g l).
Proof. induction l; cbn; lia. Qed.

Lemma json_fuel_le v : json_wf v -> json_fuel v <= length (las (json_dumps v)).
Proof.
  induction v as [| b | z | s | l IH | d IH] using pyval_nested_ind; intros Hwf.
  - cbn; lia.
  - destruct b; cbn; lia.
  - destruct (int_head z Hwf) as (c & t & Heq & _). cbn [json_dumps json_fuel]. rewrite Heq. cbn; lia.
  - cbn [json_dumps json_fuel]. rewrite las_json_dumps_str. cbn; lia.
  - apply json_wf_list in Hwf. destruct l as [|x l]; [vm_compute; lia|].
    assert (Hle : Forall (fun v => json_fuel v <= length (las (json_dumps v))) (x :: l)).
    { eapply Forall_impl; [apply Forall_and; split; [exact IH | exact Hwf]|]. intros v [Hv Hw]. by apply Hv. }
    apply Forall_cons in Hle as [Hx Hl]. apply sum_list_map_le in Hl.
    cbn [json_dumps json_fuel]. rewrite !las_app, !length_app, !map_cons, length_py_join, map_map, sum_list_map_add.
    cbn [map sum_list_with id length String.list_ascii_of_string]. lia.
  - apply json_wf_dict in Hwf as [_ Hwf]. destruct d as [|[k v] d]; [vm_compute; lia|].
    assert (Hle : Forall (fun kv => S (json_fuel kv.2) <= length (las (json_member kv))) ((k, v) :: d)).
    { eapply Forall_impl; [apply Forall_and; split; [exact IH | exact Hwf]|]. intros [k' v'] [Hv Hw].
      pose proof (las_json_member k' v' []) as E. rewrite !app_nil_r in E. rewrite E.
      cbn [fst snd length] in *. rewrite length_app. cbn [length]. specialize (Hv Hw). lia. }
    apply Forall_cons in Hle as [Hx Hl]. apply sum_list_map_le in Hl.
    pose proof (sum_list_map_add 1 (fun kv : string * pyval => json_fuel kv.2) d) as Hs. cbn [Nat.add] in Hs.
    rewrite json_dumps_dict. cbn [json_fuel]. rewrite !las_app, !length_app, !map_cons, length_py_join, map_map, sum_list_map_add.
    cbn [map sum_list_with id length fst snd String.list_ascii_of_string] in *. lia.
Qed.

(** ** [ensure_ascii]: the text is printable ASCII *)

Definition is_printable (c : ascii) : bool := Nat.leb 32 (nat_of_ascii c) && Nat.leb (nat_of_ascii c) 126.

Lemma printable_digit c : is_digit c = true -> is_printable c = true.
Proof.
  unfold is_digit, is_printable. intros H%bool_decide_eq_true.
  apply andb_true_intro; split; apply Nat.leb_le; lia.
Qed.

Lemma printable_escape_char c : Forall (fun c => is_printable c = true) (las (json_escape_char c)).
Proof.
  apply List.Forall_forall, (proj1 (List.forallb_forall is_printable _)).
  destruct c as [[] [] [] [] [] [] [] []]; vm_compute; reflexivity.
Qed.

Lemma printable_escape s : Forall (fun c => is_printable c = true) (las (json_escape s)).
Proof.
  induction s as [|c s IH]; [constructor|]. cbn [json_escape]. rewrite las_app.
  apply Forall_app; split; [apply printable_escape_char | exact IH].
Qed.

Lemma printable_dumps_str s : Forall (fun c => is_printable c = true) (las (json_dumps_str s)).
Proof.
  rewrite las_json_dumps_str. constructor; [reflexivity|].
  apply Forall_app; split; [apply printable_escape | repeat constructor].
Qed.

Lemma printable_py_join (P : ascii -> Prop) sep l :
  Forall P (las sep) -> Forall (fun x => Forall P (las x)) l -> Forall P (las (py_join sep l)).
Proof.
  intros Hsep Hl. induction Hl as [|x l Hx Hl IH]; [constructor|].
  destruct l as [|y l]; [exact Hx|]. rewrite py_join_cons2, !las_app.
  apply Forall_app; split; [exact Hx|]. apply Forall_app; split; [exact Hsep | exact IH].
Qed.

Lemma printable_dumps v : json_wf v -> Forall (fun c => is_printable c = true) (las (json_dumps v)).
Proof.
  induction v as [| b | z | s | l IH | d IH] using pyval_nested_ind; intros Hwf.
  - repeat constructor.
  - destruct b; repeat constructor.
  - destruct (las_pretty_Z z Hwf) as (ds & Heq & Hds & _). cbn [json_dumps]. rewrite Heq.
    apply Forall_app; split; [destruct (z <? 0)%Z; repeat constructor|].
    eapply Forall_impl; [exact Hds|]. exact printable_digit.
  - apply printable_dumps_str.
  - apply json_wf_list in Hwf. cbn [json_dumps]. rewrite !las_app.
    apply Forall_app; split; [repeat constructor|]. apply Forall_app; split; [|repeat constructor].
    apply printable_py_join; [repeat constructor|]. apply Forall_map.
    eapply Forall_impl; [apply Forall_and; split; [exact IH | exact Hwf]|]. intros v [Hv Hw]. by apply Hv.
  - apply json_wf_dict in Hwf as [_ Hwf]. rewrite json_dumps_dict, !las_app.
    apply Forall_app; split; [repeat constructor|]. apply Forall_app; split; [|repeat constructor].
    apply printable_py_join; [repeat constructor|]. apply Forall_map.
    eapply Forall_impl; [apply Forall_and; split; [exact IH | exact Hwf]|]. intros [k v] [Hv Hw].
    unfold json_member. cbn [fst snd] in *. rewrite !las_app.
    apply Forall_app; split; [apply printable_dumps_str|]. apply Forall_app; split; [repeat constructor | by apply Hv].
Qed.

Lemma json_loads_dumps v : json_wf v -> json_loads (json_dumps v) = Some v.
Proof.
  intros Hwf. unfold json_loads. cbv zeta.
  pose proof (skip_ws_dumps v [] Hwf) as Hs. rewrite app_nil_r in Hs. rewrite Hs.
  pose proof (json_dumps_reads_back v Hwf (S (length (las (json_dumps v)))) []) as R.
  rewrite app_nil_r in R. rewrite R; [reflexivity | pose proof (json_fuel_le v Hwf); lia | by intros ? ? ?].
Qed.

(** Whether the counts of a body of [/health] have at most 4300 digits,
    the most [json.dumps] writes. *)
Definition health_counts_ok (h : health_body) : Prop :=
  match h with
  | HealthOK n p => json_int_ok (Z.of_nat n) /\ json_int_ok (Z.of_nat p)
  | HealthERROR _ => True
  end.

Lemma health_json_wf h : health_counts_ok h -> json_wf (health_json h).
Proof.
  destruct h as [n p | e]; cbn; [intros [Hn Hp] | intros _]; split_and!; try done;
    apply (bool_decide_unpack _); vm_compute; reflexivity.
Qed.

(** The names a namespace listing of [kubectl] holds: the [name] of
    the [metadata] of each object of [items], whatever the other keys. *)
Definition namespace_name (it : pyval) : option string :=
  match it with
  | PDict d =>
      match dict_lookup d "metadata" with
      | Some (PDict md) => match dict_lookup md "name" with Some (PStr n) => Some n | _ => None end
      | _ => None
      end
  | _ => None
  end.

Definition doc_namespaces (doc : pyval) : option (list string) :=
  match doc with
  | PDict d => match dict_lookup d "items" with Some (PList items) => mapM namespace_name items | _ => None end
  | _ => None
  end.

Lemma get_namespaces_py_doc doc names w :
  doc_namespaces doc = Some names -> get_namespaces_py (Some doc) w = (Ok (map PStr names), w).
Proof.
  destruct doc as [| | | | | d]; try discriminate. cbn [doc_namespaces].
  destruct (dict_lookup d "items") as [[| | | | items |]|] eqn:Hi; try discriminate.
  intros Hm%mapM_Some. unfold get_namespaces_py. rewrite !bind_ret_l. cbn [py_subscript].
  rewrite Hi, bind_ret_l. cbn [py_iter]. rewrite bind_ret_l. clear Hi.
  induction Hm as [|it n items names Hn _ IH]; [done|]. cbn [map py_map].
  destruct it as [| | | | | d']; try discriminate. cbn [namespace_name] in Hn.
  destruct (dict_lookup d' "metadata") as [[| | | | | md]|] eqn:Hmd; try discriminate.
  destruct (dict_lookup md "name") as [[| | | n' | |]|] eqn:Hn'; try discriminate. injection Hn as <-.
  unfold bind at 1. cbn [py_subscript]. rewrite Hmd. cbn. rewrite Hn'. cbn.
  unfold bind at 1. rewrite IH. reflexivity.
Qed.

(** ** The values [json.loads] builds *)

Lemma dict_set_keys d k v k' : k' ∈ map fst (dict_set d k v) <-> k' = k \/ k' ∈ map fst d.
Proof.
  induction d as [|[k0 v0] d IH]; cbn [dict_set map fst]; [rewrite list_elem_of_singleton, elem_of_nil; tauto|].
  destruct (String.eqb_spec k0 k) as [->|]; cbn [map fst]; rewrite !elem_of_cons; [tauto|rewrite IH; tauto].
Qed.

Lemma dict_set_nodup d k v : NoDup (map fst d) -> NoDup (map fst (dict_set d k v)).
Proof.
  induction d as [|[k0 v0] d IH]; cbn [dict_set map fst]; intros Hnd; [apply NoDup_singleton|].
  apply NoDup_cons in Hnd as [Hk0 Hnd]. destruct (String.eqb_spec k0 k) as [->|Hne]; cbn [map fst].
  - by constructor.
  - constructor; [rewrite dict_set_keys; intros [->|?]; [congruence|done] | by apply IH].
Qed.

Lemma dict_set_wf d k v :
  Forall (fun kv => json_wf kv.2) d -> json_wf v -> Forall (fun kv => json_wf kv.2) (dict_set d k v).
Proof.
  induction 1 as [|[k0 v0] d H0 Hd IH]; intros Hv; cbn [dict_set]; [by constructor|].
  destruct (String.eqb k0 k); constructor; cbn; auto.
Qed.

Lemma dict_of_pairs_wf kvs : Forall (fun kv => json_wf kv.2) kvs -> json_wf (PDict (dict_of_pairs kvs)).
Proof.
  intros Hkvs. apply json_wf_dict. unfold dict_of_pairs.
  assert (Hacc : NoDup (map fst (@nil (string * pyval))) /\ Forall (fun kv => json_wf kv.2) (@nil (string * pyval)))
    by (split; constructor).
  revert Hacc. generalize (@nil (string * pyval)) as acc.
  induction Hkvs as [|[k v] kvs Hv _ IH]; intros acc [Hnd Hacc]; [done|]. cbn [fold_left].
  apply IH. split; [by apply dict_set_nodup | by apply dict_set_wf].
Qed.

Lemma take_digits_digits s : Forall (fun c => is_digit c = true) (take_digits s).1.
Proof.
  induction s as [|c s IH]; cbn; [constructor|].
  destruct (is_digit c) eqn:Hc; [|constructor]. destruct (take_digits s) as [ds r]. by constructor.
Qed.

Lemma fold_digit_step_bound ds acc :
  Forall (fun c => is_digit c = true) ds -> (0 <= acc)%Z ->
  (0 <= fold_left digit_step ds acc < (acc + 1) * 10 ^ Z.of_nat (length ds))%Z.
Proof.
  intros Hds. revert acc. induction Hds as [|c ds Hc _ IH]; intros acc Hacc; cbn [fold_left length]; [lia|].
  unfold is_digit in Hc. apply bool_decide_eq_true in Hc.
  assert (Hd : (0 <= Z.of_nat (nat_of_ascii c - 48) <= 9)%Z) by lia.
  destruct (IH (digit_step acc c)) as [H1 H2]; [unfold digit_step; lia|].
  split; [done|]. rewrite Nat2Z.inj_succ, Z.pow_succ_r by lia.
  unfold digit_step in *. nia.
Qed.

Lemma digits_value_bound ds :
  Forall (fun c => is_digit c = true) ds -> (0 <= digits_value ds < 10 ^ Z.of_nat (length ds))%Z.
Proof. intros Hds. pose proof (fold_digit_step_bound ds 0 Hds). unfold digits_value. lia. Qed.

Lemma scan_number_ok s z r : scan_number s = Some (z, r) -> json_int_ok z.
Proof.
  unfold scan_number, json_int_ok. intros H.
  destruct (match s with
            | c :: r => if Ascii.eqb c "-"%char then (true, r) else (false, s)
            | [] => (false, s) end) as [neg s1].
  destruct (match s1 with
            | c :: r1 => if Ascii.eqb c "0"%char then ([c], r1) else take_digits s1
            | [] => ([], []) end) as [ds r'] eqn:E.
  assert (Hds : Forall (fun c => is_digit c = true) ds).
  { destruct s1 as [|c r1]; [by injection E as <-|].
    destruct (Ascii.eqb_spec c "0"%char) as [->|]; [injection E as <-; by repeat constructor|].
    pose proof (take_digits_digits (c :: r1)) as Hd. by rewrite E in Hd. }
  assert (Hlen : (length ds <= MAX_STR_DIGITS)%nat /\ z = ((if neg then -1 else 1) * digits_value ds)%Z).
  { destruct ds as [|d ds]; [discriminate|].
    destruct r' as [|c r'']; [|destruct (_ || _); [discriminate|]];
      destruct (Nat.leb_spec (length (d :: ds)) MAX_STR_DIGITS); simplify_eq; auto. }
  destruct Hlen as [Hlen ->]. pose proof (digits_value_bound ds Hds) as Hb.
  assert (10 ^ Z.of_nat (length ds) <= 10 ^ Z.of_nat MAX_STR_DIGITS)%Z by (apply Z.pow_le_mono_r; lia).
  destruct neg; lia.
Qed.

(** Inverts the binds and the branches of a run of the parser. *)
Ltac bind_inv :=
  match goal with H : mbind _ _ = Some _ |- _ => apply bind_Some in H as ([? ?] & ? & H) end.
Ltac parse_inv := repeat (bind_inv || case_match || (progress simplify_eq/=)).

Lemma parse_wf fuel :
  (forall s v r, parse_value fuel s = Some (v, r) -> json_wf v) /\
  (forall s vs r, parse_elements fuel s = Some (vs, r) -> Forall json_wf vs) /\
  (forall s kvs r, parse_members fuel s = Some (kvs, r) -> Forall (fun kv => json_wf kv.2) kvs).
Proof.
  induction fuel as [|f (IHv & IHe & IHm)]; [split_and!; discriminate|]. split_and!.
  - intros [|c s] v r H; [discriminate|]. cbn [parse_value] in H.
    parse_inv; try (by repeat constructor);
      try (apply dict_of_pairs_wf; by eauto); try (apply json_wf_list; by eauto); by eapply scan_number_ok.
  - intros s vs r H. cbn [parse_elements] in H.
    parse_inv; repeat constructor; eauto.
  - intros [|c s] kvs r H; [discriminate|]. cbn [parse_members] in H.
    parse_inv; repeat constructor; cbn; eauto.
Qed.

(** ** The fuel of the reader is never what stops it *)












(** ** The properties *)

Section Properties.

(** C22: Round trip of [json.dumps] through [json.loads], with
    [ensure_ascii]: for every value whose dicts have distinct keys and
    whose integers have at most 4300 digits, [json.loads(json.dumps(v))]
    is [v] again, and the text [json.dumps] writes holds only the
    printable ASCII characters U+0020..U+007E. *)
Theorem json_dumps_roundtrip v :
  json_wf v ->
  json_loads (json_dumps v) = Some v /\ Forall (fun c => is_printable c = true) (las (json_dumps v)).
Proof. intros Hwf. split; [by apply json_loads_dumps | by apply printable_dumps]. Qed.

(** C26: [/namespaces] end to end: when [kubectl get namespaces -o json]
    prints a document (with any layout and any other keys) whose [items]
    are objects with a string [metadata.name], the handler answers the
    JSON text of the list of those names in [kubectl]'s order and leaves
    the state as it is, and a client reading the body with [json.loads]
    gets back exactly those names. *)
Theorem list_namespaces_reads_back stdout doc names w :
  json_loads stdout = Some doc -> doc_namespaces doc = Some names ->
  list_namespaces_text stdout w = (Ok (json_dumps (PList (map PStr names))), w) /\
  json_loads (json_dumps (PList (map PStr names))) = Some (PList (map PStr names)).
Proof.
  intros Hs Hd. unfold list_namespaces_text, list_namespaces_response, list_namespaces_py. rewrite Hs.
  unfold bind at 1. rewrite (get_namespaces_py_doc doc names w Hd).
  split; [reflexivity|]. apply json_loads_dumps, json_wf_list, Forall_map, Forall_true. done.
Qed.

(** C25: [/health] always answers, whatever [kubectl] prints: its body
    is the JSON text of [{"status": "OK", "namespaces": n, "pods": p}]
    sent with 200, or of [{"status": "ERROR", "details": str(e)}] sent
    with 500, the state is unchanged, and [json.loads] of the body gives
    that dict back. *)
Theorem health_text_reads_back ns_stdout pods_stdout w :
  exists h, health_text ns_stdout pods_stdout w = (Ok (json_dumps (health_json h), health_status h), w) /\
    (health_counts_ok h -> json_loads (json_dumps (health_json h)) = Some (health_json h)).
Proof.
  unfold health_text. destruct (health_py_answers (json_loads ns_stdout)
    (fun ns => option_map json_loads (pods_stdout ns)) w) as [h Hh]. exists h. split.
  - unfold health_response. unfold bind at 1. by rewrite Hh.
  - intros Hc. by apply json_loads_dumps, health_json_wf.
Qed.

(** C23: Type of the values [json.loads] builds: every value the reader
    returns, for any text, is well formed: its dicts have distinct keys
    (a later duplicate key overwrites the earlier pair in place) and its
    integers have at most 4300 digits. *)
Theorem json_loads_wf s v : json_loads s = Some v -> json_wf v.
Proof.
  unfold json_loads. intros H. destruct (parse_value _ _) as [[v' r]|] eqn:E; [|discriminate].
  cbn in H. destruct (skip_ws r); simplify_eq. exact (proj1 (parse_wf _) _ _ _ E).
Qed.


End Properties.

(** ** Concrete texts, as CPython 3.11 writes them *)

(** [json.dumps({"status": "OK", "namespaces": 2, "pods": 3})]. *)
Example health_ok_text :
  json_dumps (health_json (HealthOK 2 3)) =
    String.concat dq_str ["{"; "status"; ": "; "OK"; ", "; "namespaces"; ": 2, "; "pods"; ": 3}"].
Proof. vm_compute. reflexivity. Qed.

(** The body of a [KeyError('metadata')]: [str(e)] is the key's [repr]. *)
Example health_error_text :
  json_dumps (health_json (HealthERROR (KeyError "metadata"))) =
    String.concat dq_str ["{"; "status"; ": "; "ERROR"; ", "; "details"; ": "; "'metadata'"; "}"].
Proof. vm_compute. reflexivity. Qed.

(** [json.dumps(["caf\xe9", "a\tb"])]: [ensure_ascii] escapes U+00E9
    with four hex digits and the tab with its short escape. *)
Example namespaces_escaped_text :
  json_dumps (PList [PStr ("caf" +:+ String (ascii_of_nat 233) EmptyString);
                     PStr ("a" +:+ String (ascii_of_nat 9) "b")]) =
    String.concat dq_str ["["; "caf\u00e9"; ", "; "a\tb"; "]"].
Proof. vm_compute. reflexivity. Qed.

Lemma json_dumps_roundtrip_witness :
  json_wf (health_json (HealthOK 2 3)) /\
  json_loads (json_dumps (health_json (HealthOK 2 3))) = Some (health_json (HealthOK 2 3)) /\
  Forall (fun c => is_printable c = true) (las (json_dumps (health_json (HealthOK 2 3)))).
Proof.
  assert (Hwf : json_wf (health_json (HealthOK 2 3))).
  { apply health_json_wf. split; vm_compute; reflexivity. }
  split; [exact Hwf | apply (json_dumps_roundtrip _ Hwf)].
Defined.

(** What [kubectl get namespaces -o json] prints: four-space indentation,
    one key per line, more keys than [get_namespaces] reads. *)
Definition quoted (s : string) : string := dq_str +:+ s +:+ dq_str.

Definition kubectl_namespace_text (name : string) : string :=
  "        {" +:+ nl +:+
  "            " +:+ quoted "apiVersion" +:+ ": " +:+ quoted "v1" +:+ "," +:+ nl +:+
  "            " +:+ quoted "kind" +:+ ": " +:+ quoted "Namespace" +:+ "," +:+ nl +:+
  "            " +:+ quoted "metadata" +:+ ": {" +:+ nl +:+
  "                " +:+ quoted "creationTimestamp" +:+ ": " +:+ quoted "2024-05-02T09:14:07Z" +:+ "," +:+ nl +:+
  "                " +:+ quoted "name" +:+ ": " +:+ quoted name +:+ "," +:+ nl +:+
  "                " +:+ quoted "resourceVersion" +:+ ": " +:+ quoted "42" +:+ nl +:+
  "            }," +:+ nl +:+
  "            " +:+ quoted "status" +:+ ": {" +:+ nl +:+
  "                " +:+ quoted "phase" +:+ ": " +:+ quoted "Active" +:+ nl +:+
  "            }" +:+ nl +:+
  "        }".

Definition kubectl_namespaces_stdout : string :=
  "{" +:+ nl +:+
  "    " +:+ quoted "apiVersion" +:+ ": " +:+ quoted "v1" +:+ "," +:+ nl +:+
  "    " +:+ quoted "items" +:+ ": [" +:+ nl +:+
  kubectl_namespace_text "default" +:+ "," +:+ nl +:+
  kubectl_namespace_text "kube-system" +:+ nl +:+
  "    ]," +:+ nl +:+
  "    " +:+ quoted "kind" +:+ ": " +:+ quoted "List" +:+ "," +:+ nl +:+
  "    " +:+ quoted "metadata" +:+ ": {" +:+ nl +:+
  "        " +:+ quoted "resourceVersion" +:+ ": " +:+ quoted EmptyString +:+ nl +:+
  "    }" +:+ nl +:+
  "}" +:+ nl.

Example list_namespaces_kubectl_text :
  list_namespaces_text kubectl_namespaces_stdout empty_world =
    (Ok (String.concat dq_str ["["; "default"; ", "; "kube-system"; "]"]), empty_world).
Proof. vm_compute. reflexivity. Qed.

Lemma list_namespaces_reads_back_witness :
  (exists doc, json_loads kubectl_namespaces_stdout = Some doc /\
               doc_namespaces doc = Some ["default"; "kube-system"]) /\
  list_namespaces_text kubectl_namespaces_stdout empty_world =
    (Ok (json_dumps (PList (map PStr ["default"; "kube-system"]))), empty_world) /\
  json_loads (json_dumps (PList (map PStr ["default"; "kube-system"]))) =
    Some (PList (map PStr ["default"; "kube-system"])).
Proof.
  pose (doc := match json_loads kubectl_namespaces_stdout with Some d => d | None => PNone end).
  assert (H1 : json_loads kubectl_namespaces_stdout = Some doc) by (vm_compute; reflexivity).
  assert (H2 : doc_namespaces doc = Some ["default"; "kube-system"]) by (vm_compute; reflexivity).
  split; [eauto | apply (list_namespaces_reads_back _ doc _ empty_world H1 H2)].
Defined.

Example health_kubectl_text :
  health_text kubectl_namespaces_stdout
    (fun ns => if String.eqb ns "default"
               then Some ("{" +:+ quoted "items" +:+ ": [{}, {}, {}]}" +:+ nl) else None) empty_world =
    (Ok (String.concat dq_str ["{"; "status"; ": "; "OK"; ", "; "namespaces"; ": 2, "; "pods"; ": 3}"], 200),
     empty_world).
Proof. vm_compute. reflexivity. Qed.

(** [kubectl] failing prints nothing on standard output: [json.loads("")]
    raises, and the body carries CPython's message. *)
Example health_kubectl_down_text :
  health_text EmptyString (fun _ => None) empty_world =
    (Ok (String.concat dq_str ["{"; "status"; ": "; "ERROR"; ", "; "details"; ": ";
                                "Expecting value: line 1 column 1 (char 0)"; "}"], 500), empty_world).
Proof. vm_compute. reflexivity. Qed.

Lemma json_loads_wf_witness :
  json_loads ("{" +:+ quoted "a" +:+ ": 1, " +:+ quoted "a" +:+ ": [2, " +:+ quoted "a" +:+ "]}") =
    Some (PDict [("a", PList [PInt 2; PStr "a"])]) /\
  json_wf (PDict [("a", PList [PInt 2; PStr "a"])]).
Proof.
  assert (H : json_loads ("{" +:+ quoted "a" +:+ ": 1, " +:+ quoted "a" +:+ ": [2, " +:+ quoted "a" +:+ "]}") =
              Some (PDict [("a", PList [PInt 2; PStr "a"])])) by (vm_compute; reflexivity).
  split; [exact H | exact (json_loads_wf _ _ H)].
Defined.

