(* ===== verification/Mail.v ===== *)
(** * Mail: [send_email] (src/eks.py, lines 82-93) in detail

    [Dispatcher.send_email] keeps of a mail only its subject and body and
    of the SMTP exchange only whether it succeeded.  This file models
    what lines 82-93 compute before the exchange:
    - [MIMEText(body)] (line 83) as CPython 3.11's [email] package builds
      it: the headers [Content-Type], [MIME-Version] and
      [Content-Transfer-Encoding], then the payload, which is the text
      itself when it is ASCII, and otherwise the base64 of its UTF-8
      bytes cut in lines of 76 characters ([email.base64mime.body_encode]
      over [binascii.b2a_base64]);
    - the headers [Subject], [From] and [To] (lines 84-86), [None] when
      the variable is not set;
    - [smtp_host] and [smtp_port] (lines 88-89): [int()] of [SMTP_PORT],
      which raises [ValueError] on a value that is not an integer;
    - the session of lines 91-93, an oracle [smtp_session] that sees the
      host, the port, the credentials and the message.

    [b2a_base64] is the loop of Modules/binascii.c on its 32-bit
    accumulator [leftchar], written with [Z.shiftl], [Z.lor], [Z.land]
    and the wrap-around of an [unsigned int]; [b64_encode_groups] is the
    textbook encoding of RFC 4648 by groups of three bytes.

    The theorems: the loop computes the textbook encoding (whatever the
    high bits the accumulator keeps); a mail client decoding the message
    reads back exactly the body; and [send_email_mime] refines
    [Dispatcher.send_email] when [SMTP_PORT] is an integer, and raises
    [ValueError] before any SMTP session when it is not. *)

From stdpp Require Import base list strings.
From Stdlib Require Import ZArith Lia Ascii.
From S2P Require Import Prelude PyStr Utf8 Dispatcher Json JsonText.

Local Open Scope Z_scope.
Local Open Scope list_scope.

(** ** [binascii.b2a_base64] *)

Definition table_b2a_base64 : string :=
  "ABCDEFGHIJKLMNOPQRSTUVWXYZabcdefghijklmnopqrstuvwxyz0123456789+/".

Definition b64_char (n : Z) : ascii :=
  nth (Z.to_nat n) (String.list_ascii_of_string table_b2a_base64) "A"%char.

Definition BASE64_PAD : ascii := "="%char.

Definition LF_char : ascii := "010"%char.

(** The locals of the loop: [leftchar], an [unsigned int], and
    [leftbits], the number of its low bits not yet written. *)
Record b2a_state := MkB2a { leftchar : Z; leftbits : Z; ascii_data : list ascii }.

(** [while (leftbits >= 6)]: at most [fuel] iterations; 2 are enough since
    [leftbits] is below 6 before a byte adds 8 ([b2a_fold_leftbits]). *)
Fixpoint b2a_drain (fuel : nat) (st : b2a_state) : b2a_state :=
  match fuel with
  | O => st
  | S f =>
      if 6 <=? leftbits st then
        b2a_drain f (MkB2a (leftchar st) (leftbits st - 6)
          (ascii_data st ++ [b64_char (Z.land (Z.shiftr (leftchar st) (leftbits st - 6)) 0x3f)]))
      else st
  end.

(** One byte: [leftchar = (leftchar << 8) | *bin_data; leftbits += 8;]. *)
Definition b2a_byte (st : b2a_state) (b : Z) : b2a_state :=
  b2a_drain 2 (MkB2a (Z.land (Z.lor (Z.shiftl (leftchar st) 8) b) 0xFFFFFFFF) (leftbits st + 8)
                     (ascii_data st)).

(** The padding after the last byte. *)
Definition b2a_pad (st : b2a_state) : list ascii :=
  if leftbits st =? 2 then [b64_char (Z.shiftl (Z.land (leftchar st) 3) 4); BASE64_PAD; BASE64_PAD]
  else if leftbits st =? 4 then [b64_char (Z.shiftl (Z.land (leftchar st) 0xf) 2); BASE64_PAD]
  else [].

(** [binascii.b2a_base64(bs)], with its courtesy newline. *)
Definition b2a_base64 (bs : list Z) : list ascii :=
  let st := fold_left b2a_byte bs (MkB2a 0 0 []) in
  ascii_data st ++ b2a_pad st ++ [LF_char].

(** The textbook encoding (RFC 4648, section 4). *)
Fixpoint b64_encode_groups (bs : list Z) : list ascii :=
  match bs with
  | b1 :: b2 :: b3 :: r =>
      b64_char (b1 / 4) :: b64_char (b1 mod 4 * 16 + b2 / 16) ::
      b64_char (b2 mod 16 * 4 + b3 / 64) :: b64_char (b3 mod 64) :: b64_encode_groups r
  | [b1; b2] => [b64_char (b1 / 4); b64_char (b1 mod 4 * 16 + b2 / 16); b64_char (b2 mod 16 * 4); BASE64_PAD]
  | [b1] => [b64_char (b1 / 4); b64_char (b1 mod 4 * 16); BASE64_PAD; BASE64_PAD]
  | [] => []
  end.

(** ** [email.base64mime.body_encode] *)

(** The slices [s[i:i + n]] for [i] in [range(0, len(s), n)]; [fuel]
    bounds the slices, and [length s] is enough for [n > 0]. *)
Fixpoint chunks_fuel {A} (fuel n : nat) (s : list A) : list (list A) :=
  match fuel with
  | O => []
  | S f => match s with [] => [] | _ :: _ => take n s :: chunks_fuel f n (drop n s) end
  end.

Definition chunks {A} (n : nat) (s : list A) : list (list A) := chunks_fuel (length s) n s.

Definition MAX_LINE_LEN : nat := 76.

(** [body_encode(s, maxlinelen=76, eol="\n")]: [b2a_base64] of each slice
    of [max_unencoded = maxlinelen * 3 // 4] bytes, joined; [""] for no
    bytes. *)
Definition body_encode (bs : list Z) : list ascii :=
  concat (map b2a_base64 (chunks (MAX_LINE_LEN * 3 / 4) bs)).

(** ** [MIMEText(body)] and the headers of lines 84-86 *)

(** A message: its headers in the order they were added (a header set
    to [None], as [os.getenv] returns for a missing variable, is kept as
    [None]) and its payload. *)
Record mime_message := MkMime {
  mime_headers : list (string * option string);
  mime_payload : list ascii
}.

(** [_text.encode('us-ascii')] succeeds. *)
Definition is_ascii_text (s : string) : bool :=
  forallb (fun c => Nat.ltb (nat_of_ascii c) 128) (String.list_ascii_of_string s).

(** [MIMEText(_text)]: charset [us-ascii] and the text itself when it
    encodes as ASCII, else charset [utf-8] and the base64 of its UTF-8
    bytes. *)
Definition mime_text (text : string) : mime_message :=
  if is_ascii_text text then
    MkMime [("Content-Type", Some ("text/plain; charset=" +:+ quoted "us-ascii"));
            ("MIME-Version", Some "1.0"); ("Content-Transfer-Encoding", Some "7bit")]
           (String.list_ascii_of_string text)
  else
    MkMime [("Content-Type", Some ("text/plain; charset=" +:+ quoted "utf-8"));
            ("MIME-Version", Some "1.0"); ("Content-Transfer-Encoding", Some "base64")]
           (body_encode (py_encode_utf8 text)).

(** [msg[name] = value] appends a header. *)
Definition set_header (msg : mime_message) (name : string) (value : option string) : mime_message :=
  MkMime (mime_headers msg ++ [(name, value)]) (mime_payload msg).

(** ** What a mail client reads *)

(** The alphabet position of a character ([table_a2b_base64]). *)
Definition b64_index (c : ascii) : option Z :=
  let n := Z.of_nat (nat_of_ascii c) in
  if (65 <=? n) && (n <=? 90) then Some (n - 65)
  else if (97 <=? n) && (n <=? 122) then Some (n - 71)
  else if (48 <=? n) && (n <=? 57) then Some (n + 4)
  else if n =? 43 then Some 62
  else if n =? 47 then Some 63
  else None.

(** Decoding by groups of four characters, the last one padded. *)
Fixpoint b64_decode_groups (cs : list ascii) : option (list Z) :=
  match cs with
  | [] => Some []
  | c1 :: c2 :: c3 :: c4 :: r =>
      n1 ← b64_index c1; n2 ← b64_index c2;
      if Ascii.eqb c3 BASE64_PAD then
        if Ascii.eqb c4 BASE64_PAD && bool_decide (r = []) then Some [n1 * 4 + n2 / 16] else None
      else
        n3 ← b64_index c3;
        if Ascii.eqb c4 BASE64_PAD then
          if bool_decide (r = []) then Some [n1 * 4 + n2 / 16; n2 mod 16 * 16 + n3 / 4] else None
        else
          n4 ← b64_index c4; rest ← b64_decode_groups r;
          Some ([n1 * 4 + n2 / 16; n2 mod 16 * 16 + n3 / 4; n3 mod 4 * 64 + n4] ++ rest)
  | _ => None
  end.

(** The lines of a base64 payload, without their newlines. *)
Definition strip_newlines (cs : list ascii) : list ascii :=
  List.filter (fun c => negb (Ascii.eqb c LF_char)) cs.

Fixpoint header_value (hs : list (string * option string)) (name : string) : option (option string) :=
  match hs with
  | [] => None
  | (n, v) :: hs' => if String.eqb n name then Some v else header_value hs' name
  end.

(** The text a mail client shows: the payload itself for [7bit], the
    UTF-8 decoding of the base64 payload for [base64]. *)
Definition mime_body (msg : mime_message) : option pystr :=
  match header_value (mime_headers msg) "Content-Transfer-Encoding" with
  | Some (Some cte) =>
      if String.eqb cte "7bit" then Some (map (fun c => Z.of_nat (nat_of_ascii c)) (mime_payload msg))
      else if String.eqb cte "base64" then
        bs ← b64_decode_groups (strip_newlines (mime_payload msg)); Some (utf8_decode_replace bs)
      else None
  | _ => None
  end.

(** ** [send_email] *)

(** What [smtplib.SMTP_SSL(smtp_host, smtp_port)], [server.login] and
    [server.send_message(msg)] are given. *)
Record smtp_request := MkSmtpRequest {
  smtp_req_host : string;
  smtp_req_port : Z;
  smtp_req_user : option string;
  smtp_req_password : option string;
  smtp_req_msg : mime_message
}.

Section Send.
Local Open Scope pym_scope.
(** [os.getenv], and whether the [i]-th SMTP session delivers. *)
Context (getenv : string -> option string) (smtp_session : nat -> smtp_request -> bool).

(** Lines 83-86. *)
Definition email_message (subject body : string) : mime_message :=
  set_header (set_header (set_header (mime_text body) "Subject" (Some subject))
                         "From" (getenv "EMAIL_SENDER"))
             "To" (getenv "EMAIL_RECEIVER").

(** Line 88. *)
Definition smtp_host : string := default "smtp.gmail.com" (getenv "SMTP_HOST").

(** The argument of [int] on line 89: the variable's text, or the
    integer default. *)
Definition smtp_port_arg : pyval :=
  match getenv "SMTP_PORT" with Some p => PStr p | None => PInt 465 end.

(** Lines 82-93: the session is attempted once the port is read; it
    delivers the mail or raises. *)
Definition send_email_mime (subject body : string) : M unit :=
  smtp_port <- py_int smtp_port_arg ;;
  w <- get ;;
  if smtp_session (smtp_attempts w)
       (MkSmtpRequest smtp_host smtp_port (getenv "EMAIL_SENDER") (getenv "EMAIL_PASSWORD")
                      (email_message subject body))
  then put (deliver subject body w)
  else put (smtp_attempted w) ;;; raise SMTPError.

(** [send_email(subject, body)] on a Python value: [MIMEText(None)]
    (line 83) raises before anything else. *)
Definition send_email_py (subject : string) (body : option string) : M unit :=
  match body with
  | Some text => send_email_mime subject text
  | None => raise (AttributeError "'NoneType' object has no attribute 'encode'")
  end.

End Send.

(** ** The loop computes the textbook encoding *)

Lemma land_ones_mod x k : 0 <= k -> Z.land x (2 ^ k - 1) = x mod 2 ^ k.
Proof. intros Hk. replace (2 ^ k - 1) with (Z.ones k) by (rewrite Z.ones_equiv; lia). by apply Z.land_ones. Qed.

Lemma lor_shiftl8 x b : 0 <= b < 256 -> Z.lor (Z.shiftl x 8) b = x * 256 + b.
Proof.
  intros Hb. rewrite Z.shiftl_mul_pow2 by lia. apply (lor_disjoint _ _ 8); [lia| |exact Hb].
  rewrite Z.land_ones by lia. apply Z.mod_mul. lia.
Qed.

(** The accumulator after one byte, its wrap-around written out. *)
Definition next_leftchar (lc b : Z) : Z := (lc * 256 + b) mod 2 ^ 32.

Lemma next_leftchar_spec lc b :
  0 <= b < 256 -> Z.land (Z.lor (Z.shiftl lc 8) b) 0xFFFFFFFF = next_leftchar lc b.
Proof. intros Hb. rewrite lor_shiftl8 by done. exact (land_ones_mod _ 32 ltac:(lia)). Qed.

Lemma next_leftchar_mod4 lc b : 0 <= b < 256 -> next_leftchar lc b mod 4 = b mod 4.
Proof. unfold next_leftchar. intros. zdiv_lia. Qed.

Lemma next_leftchar_mod16 lc b : 0 <= b < 256 -> next_leftchar lc b mod 16 = b mod 16.
Proof. unfold next_leftchar. intros. zdiv_lia. Qed.

Lemma b64_sextet x k : 0 <= k -> Z.land (Z.shiftr x k) 0x3f = (x / 2 ^ k) mod 64.
Proof. intros Hk. rewrite Z.shiftr_div_pow2 by done. exact (land_ones_mod _ 6 ltac:(lia)). Qed.

Ltac b2a_step :=
  unfold b2a_byte; cbn [leftchar leftbits ascii_data]; rewrite next_leftchar_spec by done;
  cbn [b2a_drain leftchar leftbits ascii_data]; zdecide; cbn [b2a_drain leftchar leftbits ascii_data];
  zdecide; rewrite ?b64_sextet by lia.

Lemma b2a_byte_0 lc out b : 0 <= b < 256 ->
  b2a_byte (MkB2a lc 0 out) b = MkB2a (next_leftchar lc b) 2 (out ++ [b64_char (b / 4)]).
Proof. intros Hb. b2a_step. do 4 f_equal. unfold next_leftchar. zdiv_lia. Qed.

Lemma b2a_byte_2 lc out b : 0 <= b < 256 ->
  b2a_byte (MkB2a lc 2 out) b = MkB2a (next_leftchar lc b) 4 (out ++ [b64_char (lc mod 4 * 16 + b / 16)]).
Proof. intros Hb. b2a_step. do 4 f_equal. unfold next_leftchar. zdiv_lia. Qed.

Lemma b2a_byte_4 lc out b : 0 <= b < 256 ->
  b2a_byte (MkB2a lc 4 out) b =
    MkB2a (next_leftchar lc b) 0 (out ++ [b64_char (lc mod 16 * 4 + b / 64); b64_char (b mod 64)]).
Proof. intros Hb. b2a_step. rewrite <- app_assoc. cbn [app]. do 5 f_equal; unfold next_leftchar; zdiv_lia. Qed.

Lemma b2a_pad_2 lc out : b2a_pad (MkB2a lc 2 out) = [b64_char (lc mod 4 * 16); BASE64_PAD; BASE64_PAD].
Proof. unfold b2a_pad. cbn. rewrite Z.shiftl_mul_pow2, (land_ones_mod _ 2) by lia. reflexivity. Qed.

Lemma b2a_pad_4 lc out : b2a_pad (MkB2a lc 4 out) = [b64_char (lc mod 16 * 4); BASE64_PAD].
Proof. unfold b2a_pad. cbn. rewrite Z.shiftl_mul_pow2, (land_ones_mod _ 4) by lia. reflexivity. Qed.

(** Induction by groups of three, as the encoding reads its input. *)
Lemma list_ind3 {A} (P : list A -> Prop) :
  P [] -> (forall x, P [x]) -> (forall x y, P [x; y]) -> (forall x y z r, P r -> P (x :: y :: z :: r)) ->
  forall l, P l.
Proof.
  intros H0 H1 H2 H3. fix IH 1. intros [|x [|y [|z r]]]; [exact H0 | apply H1 | apply H2 | apply H3, IH].
Qed.

Lemma b2a_fold_groups bs lc out :
  Forall is_byte bs ->
  ascii_data (fold_left b2a_byte bs (MkB2a lc 0 out)) ++ b2a_pad (fold_left b2a_byte bs (MkB2a lc 0 out)) =
    out ++ b64_encode_groups bs.
Proof.
  revert lc out. induction bs as [|b1|b1 b2|b1 b2 b3 r IH] using list_ind3; intros lc out Hbs;
    repeat (apply Forall_cons in Hbs as [? Hbs]); unfold is_byte in *; cbn [fold_left b64_encode_groups].
  - reflexivity.
  - rewrite b2a_byte_0, b2a_pad_2, next_leftchar_mod4 by done. cbn [ascii_data]. by rewrite <- app_assoc.
  - rewrite b2a_byte_0, b2a_byte_2, b2a_pad_4, !next_leftchar_mod4, next_leftchar_mod16 by done.
    cbn [ascii_data]. by rewrite <- !app_assoc.
  - rewrite b2a_byte_0, b2a_byte_2, b2a_byte_4, next_leftchar_mod4, next_leftchar_mod16 by done.
    rewrite IH by done. by rewrite <- !app_assoc.
Qed.

(** [leftbits] is 0, 2 or 4 between bytes, so two iterations of the
    inner loop always empty it below 6. *)
Lemma b2a_fold_leftbits bs lc lb out :
  Forall is_byte bs -> lb = 0 \/ lb = 2 \/ lb = 4 ->
  let st := fold_left b2a_byte bs (MkB2a lc lb out) in
  leftbits st = 0 \/ leftbits st = 2 \/ leftbits st = 4.
Proof.
  revert lc lb out. induction bs as [|b bs IH]; intros lc lb out Hbs Hlb; [exact Hlb|].
  apply Forall_cons in Hbs as [Hb Hbs]. unfold is_byte in Hb. cbn [fold_left].
  destruct Hlb as [-> | [-> | ->]];
    [rewrite b2a_byte_0 by done | rewrite b2a_byte_2 by done | rewrite b2a_byte_4 by done]; apply IH; auto.
Qed.

(** The loop of binascii computes the textbook encoding, followed by the
    courtesy newline. *)
Lemma b2a_base64_groups bs : Forall is_byte bs -> b2a_base64 bs = b64_encode_groups bs ++ [LF_char].
Proof. intros Hbs. unfold b2a_base64. by rewrite app_assoc, b2a_fold_groups. Qed.

(** ** Decoding inverts the encoding *)

Lemma b64_index_char n : 0 <= n < 64 -> b64_index (b64_char n) = Some n.
Proof.
  intros Hn.
  assert (Hall : forallb (fun n => bool_decide (b64_index (b64_char n) = Some n)) (seqZ 0 64) = true)
    by (vm_compute; reflexivity).
  apply (bool_decide_eq_true_1 (b64_index (b64_char n) = Some n)).
  apply (proj1 (List.forallb_forall _ _) Hall), list_elem_of_In, elem_of_seqZ. lia.
Qed.

Lemma b64_char_not_pad n : 0 <= n < 64 -> Ascii.eqb (b64_char n) BASE64_PAD = false.
Proof.
  intros Hn. apply Ascii.eqb_neq. intros Heq. pose proof (b64_index_char n Hn) as H.
  rewrite Heq in H. discriminate.
Qed.

Lemma b64_decode_encode bs : Forall is_byte bs -> b64_decode_groups (b64_encode_groups bs) = Some bs.
Proof.
  induction bs as [|b1|b1 b2|b1 b2 b3 r IH] using list_ind3; intros Hbs;
    repeat (apply Forall_cons in Hbs as [? Hbs]); unfold is_byte in *; cbn [b64_encode_groups].
  - reflexivity.
  - cbn [b64_decode_groups]. rewrite !b64_index_char by zdiv_lia. cbn. f_equal. f_equal. zdiv_lia.
  - cbn [b64_decode_groups]. rewrite !b64_index_char, b64_char_not_pad by zdiv_lia.
    cbn. do 2 f_equal; [|f_equal]; zdiv_lia.
  - cbn [b64_decode_groups]. rewrite !b64_index_char, !b64_char_not_pad by zdiv_lia.
    cbn -[b64_decode_groups]. rewrite IH by done. cbn. do 2 f_equal; [|f_equal; [|f_equal]]; zdiv_lia.
Qed.

(** ** The payload of [body_encode] *)

Lemma b64_char_not_lf n : 0 <= n < 64 -> Ascii.eqb (b64_char n) LF_char = false.
Proof.
  intros Hn. apply Ascii.eqb_neq. intros Heq. pose proof (b64_index_char n Hn) as H.
  rewrite Heq in H. discriminate.
Qed.

Lemma b64_encode_groups_app a b :
  (length a mod 3 = 0)%nat -> b64_encode_groups (a ++ b) = b64_encode_groups a ++ b64_encode_groups b.
Proof.
  induction a as [|x|x y|x y z r IH] using list_ind3; cbn [length]; intros Ha; try done.
  cbn [app b64_encode_groups]. rewrite IH; [done|].
  replace (S (S (S (length r)))) with (length r + 1 * 3)%nat in Ha by lia. by rewrite Nat.Div0.mod_add in Ha.
Qed.

Lemma length_b64_encode_groups bs : length (b64_encode_groups bs) = (4 * ((length bs + 2) / 3))%nat.
Proof.
  induction bs as [|x|x y|x y z r IH] using list_ind3; try reflexivity.
  cbn [b64_encode_groups length]. rewrite IH.
  replace (S (S (S (length r))) + 2)%nat with (length r + 2 + 1 * 3)%nat by lia.
  rewrite Nat.div_add by lia. lia.
Qed.

Lemma filter_id {A} (f : A -> bool) l : Forall (fun x => f x = true) l -> List.filter f l = l.
Proof. induction 1 as [|x l Hx _ IH]; [done|]. cbn. by rewrite Hx, IH. Qed.

Lemma b64_encode_groups_no_lf bs :
  Forall is_byte bs -> Forall (fun c => negb (Ascii.eqb c LF_char) = true) (b64_encode_groups bs).
Proof.
  induction bs as [|b1|b1 b2|b1 b2 b3 r IH] using list_ind3; intros Hbs;
    repeat (apply Forall_cons in Hbs as [? Hbs]); unfold is_byte in *; cbn [b64_encode_groups];
    repeat apply List.Forall_cons; rewrite ?b64_char_not_lf by zdiv_lia; try reflexivity;
    try apply List.Forall_nil.
  by apply IH.
Qed.

(** The lines without their newlines are the textbook encoding of all
    the bytes, since every slice but the last has 57 bytes, a multiple
    of three. *)
Lemma strip_chunks_fuel fuel n bs :
  (0 < n)%nat -> (n mod 3 = 0)%nat -> (length bs <= fuel)%nat -> Forall is_byte bs ->
  strip_newlines (concat (map b2a_base64 (chunks_fuel fuel n bs))) = b64_encode_groups bs.
Proof.
  intros Hn H3. revert bs. induction fuel as [|f IH]; intros bs Hlen Hbs.
  { destruct bs; [done | cbn in Hlen; lia]. }
  destruct bs as [|b bs']; [done|]. cbn [chunks_fuel map concat].
  unfold strip_newlines. rewrite List.filter_app. fold (strip_newlines (concat (map b2a_base64 (chunks_fuel f n (drop n (b :: bs')))))).
  rewrite IH by (try apply Forall_drop; try done; rewrite length_drop; cbn in Hlen |- *; lia).
  rewrite b2a_base64_groups by (by apply Forall_take). rewrite List.filter_app.
  rewrite filter_id by (apply b64_encode_groups_no_lf, Forall_take, Hbs). cbn. rewrite app_nil_r.
  destruct (decide (n <= length (b :: bs'))%nat) as [Hle|Hgt].
  - rewrite <- b64_encode_groups_app; [by rewrite take_drop|]. by rewrite length_take_le.
  - rewrite drop_ge, take_ge by lia. cbn. by rewrite app_nil_r.
Qed.

Lemma chunks_fuel_slices {A} (P : A -> Prop) fuel n (bs : list A) :
  Forall P bs -> Forall (fun c => Forall P c /\ (length c <= n)%nat) (chunks_fuel fuel n bs).
Proof.
  revert bs. induction fuel as [|f IH]; intros bs Hbs; [constructor|]. destruct bs as [|b bs']; [constructor|].
  cbn [chunks_fuel]. constructor; [split; [by apply Forall_take | rewrite length_take; lia]|].
  by apply IH, Forall_drop.
Qed.

Lemma body_encode_decode bs : Forall is_byte bs -> b64_decode_groups (strip_newlines (body_encode bs)) = Some bs.
Proof.
  intros Hbs. unfold body_encode, chunks. rewrite strip_chunks_fuel by (done || cbv; lia).
  by apply b64_decode_encode.
Qed.

(** Every line of the payload has at most 76 characters before its
    newline (RFC 2045, section 6.8). *)
Lemma body_encode_lines bs :
  Forall is_byte bs ->
  exists lines, body_encode bs = concat (map (fun l => l ++ [LF_char]) lines) /\
    Forall (fun l => (length l <= MAX_LINE_LEN)%nat /\ LF_char ∉ l) lines.
Proof.
  intros Hbs. pose proof (chunks_fuel_slices is_byte (length bs) (MAX_LINE_LEN * 3 / 4) bs Hbs) as Hc.
  exists (map b64_encode_groups (chunks (MAX_LINE_LEN * 3 / 4) bs)). split.
  - unfold body_encode. rewrite map_map. f_equal. apply map_ext_in. intros c Hin.
    apply b2a_base64_groups. rewrite Forall_forall in Hc. apply (Hc c), list_elem_of_In, Hin.
  - apply Forall_map. eapply Forall_impl; [exact Hc|]. intros c [Hcb Hlen]. split.
    + rewrite length_b64_encode_groups. change MAX_LINE_LEN with 76%nat.
      change (MAX_LINE_LEN * 3 / 4)%nat with 57%nat in Hlen.
      apply Nat.le_trans with (4 * ((57 + 2) / 3))%nat; [|apply Nat.leb_le; reflexivity].
      apply Nat.mul_le_mono_l, Nat.Div0.div_le_mono. lia.
    + intros Hin. pose proof (b64_encode_groups_no_lf c Hcb) as Hno. rewrite Forall_forall in Hno.
      specialize (Hno LF_char Hin). by rewrite Ascii.eqb_refl in Hno.
Qed.

Lemma py_encode_utf8_bytes s : Forall is_byte (py_encode_utf8 s).
Proof.
  induction s as [|a s IH]; [constructor|]. cbn [py_encode_utf8 map String.list_ascii_of_string List.concat].
  apply Forall_app; split; [|exact IH]. pose proof (nat_ascii_bounded a) as Ha.
  unfold is_byte. destruct (Z.ltb_spec (Z.of_nat (nat_of_ascii a)) 128);
    repeat constructor; zdiv_lia.
Qed.

(** ** The message and the session *)

Lemma mime_body_email getenv subject body : mime_body (email_message getenv subject body) = Some (cps body).
Proof.
  unfold email_message, mime_body, set_header, mime_text.
  destruct (is_ascii_text body); cbn [mime_headers mime_payload app header_value]; [reflexivity|].
  cbn -[b64_decode_groups strip_newlines body_encode py_encode_utf8].
  rewrite body_encode_decode by apply py_encode_utf8_bytes. cbn. by rewrite utf8_decode_py_encode.
Qed.

Section SendLemmas.
Context (getenv : string -> option string) (smtp_session : nat -> smtp_request -> bool).

Lemma send_email_mime_port port subject body w :
  py_int (smtp_port_arg getenv) = ret port ->
  send_email_mime getenv smtp_session subject body w =
    (if smtp_session (smtp_attempts w)
          (MkSmtpRequest (smtp_host getenv) port (getenv "EMAIL_SENDER") (getenv "EMAIL_PASSWORD")
                         (email_message getenv subject body))
     then (Ok tt, deliver subject body w) else (Exc SMTPError, smtp_attempted w)).
Proof.
  intros Hp. unfold send_email_mime. rewrite Hp. unfold bind, ret, get, put, raise. cbn.
  by destruct (smtp_session _ _).
Qed.

Lemma send_email_mime_bad_port p subject body w :
  getenv "SMTP_PORT" = Some p -> py_int_of_str p = None ->
  send_email_mime getenv smtp_session subject body w = (Exc (ValueError (int_value_error p)), w).
Proof.
  intros Hs Hp. unfold send_email_mime, smtp_port_arg. rewrite Hs. cbn [py_int]. by rewrite Hp.
Qed.

End SendLemmas.

(** ** Properties *)

Section Properties.

(** C31: Equivalence of the loop of [binascii.b2a_base64] with the
    encoding of RFC 4648: on any bytes, the bit-accumulator loop over its
    wrapping 32-bit [leftchar] writes the textbook encoding by groups of
    three bytes, [4 * ceil(n / 3)] characters and a newline, and
    decoding that text gives the bytes back. *)
Theorem b2a_base64_rfc4648 bs :
  Forall is_byte bs ->
  b2a_base64 bs = b64_encode_groups bs ++ [LF_char] /\
  length (b64_encode_groups bs) = (4 * ((length bs + 2) / 3))%nat /\
  b64_decode_groups (b64_encode_groups bs) = Some bs.
Proof.
  intros Hbs. split_and!; [by apply b2a_base64_groups | apply length_b64_encode_groups | by apply b64_decode_encode].
Qed.

(** C30: Round trip of the mail of lines 83-86: whatever the body, the
    message carries the subject and the configured sender and recipient,
    a mail client decoding it (the text itself for an ASCII body, the
    UTF-8 of the base64 payload otherwise) reads exactly the body, and a
    base64 payload is cut in lines of at most 76 characters. *)
Theorem email_message_reads_back getenv subject body :
  mime_body (email_message getenv subject body) = Some (cps body) /\
  header_value (mime_headers (email_message getenv subject body)) "Subject" = Some (Some subject) /\
  header_value (mime_headers (email_message getenv subject body)) "From" = Some (getenv "EMAIL_SENDER") /\
  header_value (mime_headers (email_message getenv subject body)) "To" = Some (getenv "EMAIL_RECEIVER") /\
  (is_ascii_text body = false ->
   exists lines, mime_payload (email_message getenv subject body) = concat (map (fun l => l ++ [LF_char]) lines) /\
     Forall (fun l => (length l <= MAX_LINE_LEN)%nat /\ LF_char ∉ l) lines).
Proof.
  split; [apply mime_body_email|].
  unfold email_message, set_header, mime_text. destruct (is_ascii_text body); cbn; split_and!; try done.
  intros _. apply body_encode_lines, py_encode_utf8_bytes.
Qed.

(** C29: Refinement of [Dispatcher.send_email]: when [SMTP_PORT] is unset
    or an integer, the detailed [send_email] (message, host, port,
    credentials, session) behaves exactly as the abstract one whose
    oracle answers what the session answers for that request; when
    [SMTP_PORT] is set to a text [int()] rejects, it raises that
    [ValueError] before any SMTP session, leaving the state unchanged. *)
Theorem send_email_refinement env getenv smtp_session subject body w :
  (forall port,
     py_int (smtp_port_arg getenv) = ret port ->
     (forall i, env_smtp env i = smtp_session i (MkSmtpRequest (smtp_host getenv) port (getenv "EMAIL_SENDER")
                                                 (getenv "EMAIL_PASSWORD") (email_message getenv subject body))) ->
     send_email_mime getenv smtp_session subject body w = send_email env subject body w) /\
  (forall p, getenv "SMTP_PORT" = Some p -> py_int_of_str p = None ->
     send_email_mime getenv smtp_session subject body w = (Exc (ValueError (int_value_error p)), w)).
Proof.
  split; [|intros p; apply send_email_mime_bad_port].
  intros port Hp Hs. rewrite (send_email_mime_port getenv smtp_session port subject body w Hp), <- Hs.
  unfold send_email, bind, get, put, raise. cbn. by destruct (env_smtp env (smtp_attempts w)).
Qed.

End Properties.

(** ** Concrete runs, checked against CPython 3.11 *)

Definition hello_latin1 : string := "h" +:+ String (ascii_of_nat 233) "llo".

(** [binascii.b2a_base64(b"ab") == b"YWI=\n"] *)
Example b2a_base64_ab : b2a_base64 [97; 98] = String.list_ascii_of_string "YWI=" ++ [LF_char].
Proof. vm_compute. reflexivity. Qed.

(** [MIMEText("h\xe9llo").get_payload() == "aMOpbGxv\n"] *)
Example mime_text_latin1_payload :
  mime_payload (mime_text hello_latin1) = String.list_ascii_of_string "aMOpbGxv" ++ [LF_char].
Proof. vm_compute. reflexivity. Qed.

(** [base64mime.body_encode(bytes(range(60)))]: a line of 57 bytes, then 3. *)
Example body_encode_two_lines :
  body_encode (seqZ 0 60) =
    String.list_ascii_of_string "AAECAwQFBgcICQoLDA0ODxAREhMUFRYXGBkaGxwdHh8gISIjJCUmJygpKissLS4vMDEyMzQ1Njc4" ++
    [LF_char] ++ String.list_ascii_of_string "OTo7" ++ [LF_char].
Proof. vm_compute. reflexivity. Qed.

Definition demo_getenv (v : string) : option string :=
  if String.eqb v "EMAIL_RECEIVER" then Some "ops@x" else None.

Example email_message_headers :
  mime_headers (email_message demo_getenv "Issue in pod a" "hello") =
    [("Content-Type", Some ("text/plain; charset=" +:+ quoted "us-ascii")); ("MIME-Version", Some "1.0");
     ("Content-Transfer-Encoding", Some "7bit"); ("Subject", Some "Issue in pod a"); ("From", None);
     ("To", Some "ops@x")].
Proof. reflexivity. Qed.

(** [int("465x")] on line 89. *)
Example send_email_port_typo :
  send_email_mime (fun v => if String.eqb v "SMTP_PORT" then Some "465x" else None) (fun _ _ => true)
    "s" "b" empty_world =
    (Exc (ValueError ("invalid literal for int() with base 10: " +:+ sq +:+ "465x" +:+ sq)), empty_world).
Proof. reflexivity. Qed.

(** The UTF-8 bytes of [hello_latin1]. *)
Lemma b2a_base64_rfc4648_witness :
  Forall is_byte [104; 195; 169; 108; 108; 111] /\
  b2a_base64 [104; 195; 169; 108; 108; 111] = b64_encode_groups [104; 195; 169; 108; 108; 111] ++ [LF_char] /\
  length (b64_encode_groups [104; 195; 169; 108; 108; 111]) = (4 * ((6 + 2) / 3))%nat /\
  b64_decode_groups (b64_encode_groups [104; 195; 169; 108; 108; 111]) = Some [104; 195; 169; 108; 108; 111].
Proof.
  assert (H : Forall is_byte [104; 195; 169; 108; 108; 111]) by (repeat constructor; unfold is_byte; lia).
  split; [exact H | exact (b2a_base64_rfc4648 _ H)].
Defined.
