(* ===== verification/Inference.v ===== *)
(** * Inference: the requests to the Azure OpenAI deployment in detail

    [analyze_logs] and [analyze_container_issue] (src/eks.py, lines 50-80)
    end in [client.chat.completions.create(model=os.getenv(
    "AZURE_DEPLOYMENT_MODEL"), messages=[...])] with a system message and
    a user message holding the prompt, and return
    [response.choices[0].message.content].  [Dispatcher.chat_completion]
    keeps of a request its prompt and of the answer a text or a failure.
    Here the request is the one lines 59-65 and 73-79 build, and the call
    has the three outcomes the OpenAI library gives it: it raises, or its
    content is a [str], or it is [None] (the library types it
    [Optional[str]]; the service answers no text, e.g. when a content
    filter stops the completion).

    [chat_completion_py] is the call on these outcomes; [diagnose_and_mail]
    is lines 138-139 (and 163-164) with it: the diagnosis, then
    [send_email] on the Python value, which raises [AttributeError] at
    [MIMEText(None)] (line 83) on a [None] content.

    The theorem: the abstract [chat_completion] is [chat_completion_py]
    with a [None] content folded into the failure [InferenceError] (same
    prompts, same world); and a [None] content makes the alert step raise
    after its prompt and before any SMTP session, so [sent_alerts] is not
    written and the next request prompts again. *)

From stdpp Require Import base list strings.
From Stdlib Require Import ZArith Lia.
From S2P Require Import Prelude PyStr Dispatcher Mail.

Local Open Scope string_scope.
Local Open Scope pym_scope.

Record chat_message := MkChatMessage { chat_role : string; chat_content : string }.

(** The arguments of [client.chat.completions.create]. *)
Record chat_request := MkChatRequest {
  chat_model : option string;
  chat_messages : list chat_message
}.

Definition SYSTEM_PROMPT : string := "You're a Kubernetes troubleshooting assistant.".

Section Client.
(** [os.getenv], and the [i]-th call of [client.chat.completions.create]:
    [None] when it raises, else [response.choices[0].message.content]. *)
Context (getenv : string -> option string) (chat_create : nat -> chat_request -> option (option string)).

(** Lines 59-65 and 73-79. *)
Definition chat_request_for (context : string) : chat_request :=
  MkChatRequest (getenv "AZURE_DEPLOYMENT_MODEL")
    [MkChatMessage "system" SYSTEM_PROMPT; MkChatMessage "user" context].

(** Lines 59-66 (and 73-80). *)
Definition chat_completion_py (context : string) : M (option string) :=
  w <- get ;;
  put (log_request context w) ;;;
  match chat_create (length (ai_requests w)) (chat_request_for context) with
  | Some content => ret content
  | None => raise InferenceError
  end.

Context (smtp_session : nat -> smtp_request -> bool).

(** Lines 138-139 (and 163-164): the diagnosis and the mail about it. *)
Definition diagnose_and_mail (name : string) (diagnose : M (option string)) : M (option string) :=
  ai_feedback <- diagnose ;;
  send_email_py getenv smtp_session ("Issue in pod " +:+ name) ai_feedback ;;;
  ret ai_feedback.

End Client.

(** The answers of the abstract model: a text, or a failure for a call
    that raises or answers no text. *)
Definition abstract_answer (a : option (option string)) : option string :=
  match a with Some (Some t) => Some t | _ => None end.

(** ** Properties *)

Section Properties.

(** C32: Refinement of [Dispatcher.chat_completion]: when the oracle of the
    abstract model answers what the client answers to the request of
    lines 59-65, the abstract call is the detailed one with a [None]
    content turned into [InferenceError], with the same prompts and the
    same world; and when the content is [None], the alert step raises
    [AttributeError] after logging its prompt and before any SMTP
    session, leaving [sent_alerts] and the outbox as they were. *)
Theorem chat_completion_refinement env getenv chat_create smtp_session :
  (forall i context, env_ai env i context = abstract_answer (chat_create i (chat_request_for getenv context))) ->
  (forall context w,
     chat_completion env context w =
       match chat_completion_py getenv chat_create context w with
       | (Ok (Some t), w') => (Ok t, w')
       | (Ok None, w') => (Exc InferenceError, w')
       | (Exc e, w') => (Exc e, w')
       end) /\
  (forall name context w,
     chat_create (length (ai_requests w)) (chat_request_for getenv context) = Some None ->
     diagnose_and_mail getenv smtp_session name (chat_completion_py getenv chat_create context) w =
       (Exc (AttributeError "'NoneType' object has no attribute 'encode'"), log_request context w)).
Proof.
  intros Hai. split.
  - intros context w. unfold chat_completion, chat_completion_py, bind, get, put, ret, raise.
    cbn. rewrite Hai. by destruct (chat_create _ _) as [[t|]|].
  - intros name context w Hnone. unfold diagnose_and_mail, chat_completion_py, bind, get, put, ret.
    cbn. by rewrite Hnone.
Qed.

End Properties.

(** ** A concrete run *)

Definition filtered_create (i : nat) (req : chat_request) : option (option string) :=
  if Nat.eqb i 0 then Some None else Some (Some "Restart the pod.").

Definition filtered_env : Env :=
  MkEnv (env_clock demo_env)
        (fun i context => abstract_answer (filtered_create i (chat_request_for (fun _ => None) context)))
        (env_smtp demo_env) (env_logs demo_env) (env_manifest demo_env) (env_pods demo_env)
        (env_namespaces demo_env) (env_strftime demo_env) (env_default_namespace demo_env).

Lemma chat_completion_refinement_witness :
  (forall i context, env_ai filtered_env i context =
                     abstract_answer (filtered_create i (chat_request_for (fun _ => None) context))) /\
  diagnose_and_mail (fun _ => None) (fun _ _ => true) "api" (chat_completion_py (fun _ => None) filtered_create "ctx")
    empty_world =
    (Exc (AttributeError "'NoneType' object has no attribute 'encode'"), log_request "ctx" empty_world).
Proof.
  assert (H : forall i context, env_ai filtered_env i context =
                                abstract_answer (filtered_create i (chat_request_for (fun _ => None) context)))
    by (intros; reflexivity).
  split; [exact H|].
  apply (proj2 (chat_completion_refinement filtered_env (fun _ => None) filtered_create (fun _ _ => true) H)).
  reflexivity.
Defined.
