(* ===== verification/Simulation.v ===== *)
(** * Simulation: a whole request against the abstract history of alerts

    [Suppression] states the contract of the suppression engine over any
    [AlertCache] and gives its abstract model, the list of alerts sent
    ([alert_history]).  A request of [dashboard_data] (src/eks.py, lines
    109-186) consults and updates the dict [sent_alerts] once per pod, in
    pod order, between reading the clock, asking the inference service
    and sending mail.

    [cache_scan] is the abstract run of a request through any cache: each
    pod brings its issue key (if any), its name, the time its alert is
    checked and the time it is recorded; the cache decides, a mail is
    sent and the alert recorded, or nothing happens.  The theorem is a
    simulation: every completed request, started from a dict that agrees
    with a history, ends in a dict that agrees with the history's
    [cache_scan] over the pods [kubectl] listed, at check and record
    times that are clock readings taken in order during the request, and
    the mails it sent are exactly the mails of that abstract run. *)

From stdpp Require Import base list strings gmap.
From Stdlib Require Import ZArith Lia.
From S2P Require Import Prelude PyStr Fingerprint Suppression Pod Dispatcher Scan.

Local Open Scope string_scope.
Local Open Scope pym_scope.

(** One pod of a request: its key, its name, and the check and record times. *)
Abbreviation event := (option string * string * (Z * Z))%type.

Fixpoint cache_scan {C} `{AlertCache C} (c : C) (evs : list event) : C * list string :=
  match evs with
  | [] => (c, [])
  | (None, _, _) :: evs' => cache_scan c evs'
  | (Some k, name, (now, t)) :: evs' =>
      if cache_should c k now
      then let '(c', ms) := cache_scan (cache_record c k t) evs' in (c', name :: ms)
      else cache_scan c evs'
  end.

(** Clock indices [(check, record)] taken in order from [lo] to [hi]. *)
Fixpoint indices_in_order (lo : nat) (idx : list (nat * nat)) (hi : nat) : Prop :=
  match idx with
  | [] => lo <= hi
  | (a, b) :: idx' => lo <= a /\ a <= b /\ indices_in_order b idx' hi
  end.

(** The dict agrees with the history on every key. *)
Definition agrees (m : gmap string Z) (h : alert_history) : Prop :=
  forall k, m !! k = history_last h k.

Lemma cache_scan_cons {C} `{AlertCache C} (c : C) e evs :
  cache_scan c (e :: evs) =
    let '(c1, ms1) := cache_scan c [e] in
    let '(c2, ms2) := cache_scan c1 evs in (c2, (ms1 ++ ms2)%list).
Proof.
  destruct e as [[[k|] name] [now t]]; cbn; [|by destruct (cache_scan c evs)].
  destruct (cache_should c k now); cbn; by destruct (cache_scan _ evs).
Qed.

Lemma indices_in_order_mono lo lo' idx hi :
  lo' <= lo -> indices_in_order lo idx hi -> indices_in_order lo' idx hi.
Proof. destruct idx as [|[a b] idx]; cbn; intros; [lia | intuition lia]. Qed.

Lemma agrees_insert m h k t : agrees m h -> agrees (<[k := t]> m) ((k, t) :: h).
Proof.
  intros Hag k'. cbn. destruct (String.eqb_spec k' k) as [->|Hne].
  - apply lookup_insert_eq.
  - rewrite lookup_insert_ne by congruence. apply Hag.
Qed.

(** The dict's decision is the history's. *)
Lemma agrees_should m h k now :
  agrees m h -> timestamps_positive m ->
  should_send_alert_at m k now = ttl_allows (history_last h k) now.
Proof.
  intros Hag Hpos. rewrite <- Hag.
  exact (cache_should_spec (C := gmap string Z) (wf := timestamps_positive) m k now Hpos).
Qed.

(** ** One pod *)

Section Step.
Context (env : Env).

Lemma check_tick_reads key w : clock_reads w <= clock_reads (check_tick key w).
Proof. unfold check_tick. repeat case_match; cbn; lia. Qed.

(** A completed alert step: it alerted (one record at the reading after
    the check, one mail) or it held the alert back (only the check). *)
Lemma alert_then_report_ok_cases {A} key name ctx (mk : string -> Z -> A) w v w' :
  alert_then_report env key name (chat_completion env ctx) mk w = (Ok v, w') ->
  (should_send_alert_at (sent_alerts w) key (env_clock env (clock_reads w)) = true /\
   exists fb, sent_alerts w' = <[key := env_clock env (clock_reads (check_tick key w))]> (sent_alerts w) /\
              outbox w' = (outbox w ++ [("Issue in pod " +:+ name, fb)])%list /\
              clock_reads w' = S (clock_reads (check_tick key w))) \/
  (should_send_alert_at (sent_alerts w) key (env_clock env (clock_reads w)) = false /\
   w' = check_tick key w).
Proof.
  unfold alert_then_report, bind at 1. rewrite alert_or_suppress_run.
  destruct (should_send_alert_at _ _ _) eqn:Hs.
  - rewrite chat_completion_run. destruct (env_ai env _ ctx) as [fb|]; [|discriminate].
    cbn. destruct (env_smtp env _); [|discriminate]. cbn.
    unfold alert_time, bind, get. cbn. unfold record_alert. rewrite lookup_insert_eq.
    intros [= _ <-]. left. split; [done|]. exists fb. cbn.
    rewrite check_tick_alerts, check_tick_outbox. done.
  - destruct (sent_alerts w !! key) eqn:E; [|discriminate]. cbn.
    unfold alert_time, bind, get. rewrite check_tick_alerts, E. intros [= _ <-]. by right.
Qed.

Lemma process_pod_refines ns pod w v w' h :
  process_pod env ns pod w = (Ok v, w') ->
  (forall i, (0 < env_clock env i)%Z) -> timestamps_positive (sent_alerts w) ->
  agrees (sent_alerts w) h ->
  exists a b, clock_reads w <= a <= b /\ b <= clock_reads w' /\
    let st := cache_scan h [(pod_issue_key env ns pod, pod_name pod, (env_clock env a, env_clock env b))] in
    agrees (sent_alerts w') st.1 /\ timestamps_positive (sent_alerts w') /\
    map fst (outbox w') = (map fst (outbox w) ++ map (fun n => "Issue in pod " +:+ n) st.2)%list.
Proof.
  intros Hrun Hclock Hpos Hag.
  destruct (process_pod_cases env ns pod) as [[Hn Hp] | (key & ctx & mk & Hk & _ & Hp)];
    rewrite Hp in Hrun.
  - injection Hrun as _ <-. exists (clock_reads w), (clock_reads w). rewrite Hn. cbn.
    split; [lia|]. split; [lia|]. split; [done|]. split; [done|]. by rewrite app_nil_r.
  - rewrite Hk. pose proof (check_tick_reads key w) as Hle.
    apply alert_then_report_ok_cases in Hrun as [(Hs & fb & Ha & Ho & Hc) | (Hs & ->)].
    + exists (clock_reads w), (clock_reads (check_tick key w)).
      cbn [cache_scan cache_should cache_record history_cache].
      rewrite <- (agrees_should _ _ _ _ Hag Hpos), Hs. cbn.
      split; [lia|]. split; [lia|]. rewrite Ha, Ho, map_app.
      split; [by apply agrees_insert|]. split; [by apply map_Forall_insert_2|]. done.
    + exists (clock_reads w), (clock_reads w).
      cbn [cache_scan cache_should cache_record history_cache].
      rewrite <- (agrees_should _ _ _ _ Hag Hpos), Hs. cbn.
      rewrite check_tick_alerts, check_tick_outbox, app_nil_r. auto with lia.
Qed.
End Step.

(** ** The loop over the pods *)

Section Loop.
Context (env : Env).

(** The abstract run of the pods [pods] of [ns] at the clock indices [idx]. *)
Definition scan_events (ns : string) (pods : list Pod) (idx : list (nat * nat)) : list event :=
  zip (map (fun pod => (pod_issue_key env ns pod, pod_name pod)) pods)
      (map (fun ab => (env_clock env ab.1, env_clock env ab.2)) idx).

Lemma scan_loop_refines ns pods acc w acc' w' h :
  py_for pods acc (scan_pod env ns) w = (Ok acc', w') ->
  (forall i, (0 < env_clock env i)%Z) -> timestamps_positive (sent_alerts w) ->
  agrees (sent_alerts w) h ->
  exists idx, length idx = length pods /\ indices_in_order (clock_reads w) idx (clock_reads w') /\
    let st := cache_scan h (scan_events ns pods idx) in
    agrees (sent_alerts w') st.1 /\
    map fst (outbox w') = (map fst (outbox w) ++ map (fun n => "Issue in pod " +:+ n) st.2)%list.
Proof.
  revert acc w h. induction pods as [|pod pods IH]; intros acc w h Hrun Hclock Hpos Hag.
  - injection Hrun as _ <-. exists []. cbn. rewrite app_nil_r. auto.
  - cbn [py_for] in Hrun. unfold bind at 1 in Hrun. rewrite scan_pod_run in Hrun.
    destruct (process_pod env ns pod w) as [[v|e] w1] eqn:Hp; [|discriminate].
    destruct (process_pod_refines env ns pod w v w1 h Hp Hclock Hpos Hag)
      as (a & b & Hab & Hb & Hag1 & Hpos1 & Ho1).
    cbv zeta in Hag1, Ho1.
    destruct (cache_scan h _) as [h1 ms1] eqn:E1. cbn [fst snd] in Hag1, Ho1.
    destruct (IH _ _ _ Hrun Hclock Hpos1 Hag1) as (idx & Hlen & Hord & Hag2 & Ho2).
    exists ((a, b) :: idx). split; [cbn; lia|]. split.
    + cbn. split; [lia|]. split; [lia|]. eapply indices_in_order_mono; [exact Hb | exact Hord].
    + unfold scan_events in *. cbn [map zip fst snd]. rewrite cache_scan_cons, E1.
      destruct (cache_scan h1 _) as [h2 ms2]. cbn [fst snd] in *.
      split; [exact Hag2|]. rewrite Ho2, Ho1, map_app, app_assoc. reflexivity.
Qed.
End Loop.

Section SimulationClaim.
Context (env : Env).

(** C39: Refinement of the abstract suppression engine by a whole request:
    started from a dict that agrees with a history of alerts (positive
    times, a clock reading positive times), a completed [dashboard_data]
    request ends in a dict that agrees with the abstract run
    [cache_scan] of that history over the pods [kubectl] listed, in their
    order, where each pod's alert is checked and recorded at clock
    readings taken in order during the request; and the mails it sent
    are exactly, in order, the mails of that abstract run. *)
Theorem dashboard_refines_history arg w r w' h :
  dashboard_data env arg w = (Ok r, w') ->
  (forall i, (0 < env_clock env i)%Z) -> timestamps_positive (sent_alerts w) ->
  agrees (sent_alerts w) h ->
  let ns := request_namespace env arg in
  let pods := get_pods env ns in
  exists idx, length idx = length pods /\ indices_in_order (clock_reads w) idx (clock_reads w') /\
    let st := cache_scan h (scan_events env ns pods idx) in
    agrees (sent_alerts w') st.1 /\
    map fst (outbox w') = (map fst (outbox w) ++ map (fun n => "Issue in pod " +:+ n) st.2)%list.
Proof.
  intros Hrun Hclock Hpos Hag. rewrite dashboard_data_run in Hrun.
  destruct (py_for _ _ _ w) as [[acc|e] w1] eqn:E; [|discriminate]. injection Hrun as _ <-.
  exact (scan_loop_refines env _ _ _ _ _ _ h E Hclock Hpos Hag).
Qed.
End SimulationClaim.

(** ** Concrete run *)

Lemma dashboard_refines_history_witness :
  dashboard_data scan_env None empty_world = (Ok scan_report, scan_world) /\
  (forall i, (0 < env_clock scan_env i)%Z) /\ timestamps_positive (sent_alerts empty_world) /\
  agrees (sent_alerts empty_world) [] /\
  exists idx, length idx = length (get_pods scan_env (request_namespace scan_env None)) /\
    indices_in_order (clock_reads empty_world) idx (clock_reads scan_world) /\
    let st := cache_scan ([] : alert_history)
                (scan_events scan_env (request_namespace scan_env None)
                   (get_pods scan_env (request_namespace scan_env None)) idx) in
    agrees (sent_alerts scan_world) st.1 /\
    map fst (outbox scan_world) = (map fst (outbox empty_world) ++ map (fun n => "Issue in pod " +:+ n) st.2)%list.
Proof.
  assert (Hrun : dashboard_data scan_env None empty_world = (Ok scan_report, scan_world))
    by (vm_compute; reflexivity).
  assert (Hclock : forall i, (0 < env_clock scan_env i)%Z) by (intros; cbn; lia).
  assert (Hpos : timestamps_positive (sent_alerts empty_world)) by apply map_Forall_empty.
  assert (Hag : agrees (sent_alerts empty_world) []) by (intros k; reflexivity).
  split; [exact Hrun|]. split; [exact Hclock|]. split; [exact Hpos|]. split; [exact Hag|].
  exact (dashboard_refines_history scan_env None empty_world scan_report scan_world [] Hrun Hclock Hpos Hag).
Defined.
