(* ===== verification/Startup.v ===== *)
(** * Startup: importing the module, and [__main__]

    Importing src/eks.py runs lines 8-20 once, before any request:
    [load_dotenv()] (line 8) fills the process environment from the
    [.env] file, [sent_alerts] starts empty (line 10), [DEFAULT_NAMESPACE]
    is read (line 13) and the Azure OpenAI client is built from three
    variables (lines 16-20).  Every later [os.getenv] of the handlers
    ([AZURE_DEPLOYMENT_MODEL] in [Inference], the [EMAIL_*] and [SMTP_*]
    variables in [Mail]) reads the environment [load_dotenv] left.

    - [environ]: [os.environ], from names to strings.
    - [dotenv_values]: the dict python-dotenv builds from the bindings of
      the file in order, a later binding of a name replacing the earlier
      one; a name without [=] is bound to [None].  The bindings are the
      file's lines as the library parses and interpolates them, an input
      of the model.
    - [load_dotenv]: [set_as_environment_variables] with the default
      [override=False]: for each item of that dict, a name the
      environment already holds is skipped, a [None] value is skipped,
      and any other value is set.
    - [import_eks]: lines 8-20 from the environment the process starts
      with; [main]: lines 215-216 before [app.run].

    The theorem: after the import, every variable reads the value the
    process was started with when it has one, and otherwise the last
    binding of the [.env] file ([None] when that binding has no value);
    [DEFAULT_NAMESPACE] and the three arguments of the client are read
    from that environment. *)

From stdpp Require Import base list strings gmap.
From Stdlib Require Import ZArith Lia.
From S2P Require Import Prelude Dispatcher Scan.

Local Open Scope string_scope.

(** [os.environ] *)
Abbreviation environ := (gmap string string).

(** [os.getenv(k)] *)
Definition os_getenv (e : environ) (k : string) : option string := e !! k.

(** [DotEnv.dict()]: the bindings into an ordered dict, a later binding of
    a name replacing the earlier one. *)
Definition dotenv_values (bindings : list (string * option string)) : gmap string (option string) :=
  foldl (fun d '(k, v) => <[k := v]> d) ∅ bindings.

(** One iteration of [set_as_environment_variables]:
    [if k in os.environ and not self.override: continue];
    [if v is not None: os.environ[k] = v]. *)
Definition set_env_var (e : environ) (kv : string * option string) : environ :=
  let '(k, v) := kv in
  if decide (is_Some (e !! k)) then e
  else match v with Some s => <[k := s]> e | None => e end.

(** [load_dotenv()] (line 8) *)
Definition load_dotenv (bindings : list (string * option string)) (e : environ) : environ :=
  foldl set_env_var e (map_to_list (dotenv_values bindings)).

(** The arguments of [AzureOpenAI(...)] (lines 16-20). *)
Record client_args := MkClientArgs {
  api_key : option string;
  api_version : option string;
  azure_endpoint : option string
}.

Definition client_args_of (getenv : string -> option string) : client_args :=
  MkClientArgs (getenv "AZURE_API_KEY") (getenv "AZURE_API_VERSION") (getenv "AZURE_API_BASE").

(** What the import leaves: the environment, the dict [sent_alerts],
    [DEFAULT_NAMESPACE] and the client. *)
Record module_state := MkModule {
  mod_environ : environ;
  mod_sent_alerts : gmap string Z;
  mod_default_namespace : string;
  mod_client : client_args
}.

(** Lines 8-20 ([app = Flask(__name__)] and the unused [feedback_cache]
    of lines 9 and 11 hold nothing the handlers read). *)
Definition import_eks (bindings : list (string * option string)) (e : environ) : module_state :=
  let e' := load_dotenv bindings e in
  MkModule e' ∅ (DEFAULT_NAMESPACE (os_getenv e')) (client_args_of (os_getenv e')).

(** Lines 215-216: [sent_alerts.clear()], then [app.run] serves with the
    world [startup] leaves. *)
Definition main (st : module_state) (w : World) : module_state * World :=
  (MkModule (mod_environ st) ∅ (mod_default_namespace st) (mod_client st), startup w).

(** ** The contract of the configuration *)

(** The last binding of [k] in the file, if any. *)
Definition last_binding (bindings : list (string * option string)) (k : string) : option (option string) :=
  foldl (fun acc '(k', v) => if String.eqb k' k then Some v else acc) None bindings.

(** A variable of the process wins; otherwise the file's value. *)
Definition env_or_dotenv (bindings : list (string * option string)) (e : environ) (k : string) : option string :=
  match e !! k with Some s => Some s | None => mjoin (last_binding bindings k) end.

(** ** Lemmas *)

Lemma dotenv_values_lookup_from (d : gmap string (option string)) bindings k :
  foldl (fun d '(k', v) => <[k' := v]> d) d bindings !! k =
    foldl (fun acc '(k', v) => if String.eqb k' k then Some v else acc) (d !! k) bindings.
Proof.
  revert d. induction bindings as [|[k' v] bs IH]; intros d; [done|]. cbn [foldl].
  rewrite IH. f_equal. destruct (String.eqb_spec k' k) as [->|Hne].
  - by rewrite lookup_insert_eq.
  - by rewrite lookup_insert_ne.
Qed.

Lemma dotenv_values_lookup bindings k : dotenv_values bindings !! k = last_binding bindings k.
Proof. unfold dotenv_values, last_binding. by rewrite dotenv_values_lookup_from, lookup_empty. Qed.

Lemma set_env_var_keep e kv k : is_Some (e !! k) -> set_env_var e kv !! k = e !! k.
Proof.
  destruct kv as [k' [s|]]; intros Hk; cbn; case_decide as Hk'; try done.
  rewrite lookup_insert_ne; [done|]. intros ->. contradiction.
Qed.

Lemma set_env_var_other e k' v k : k' <> k -> set_env_var e (k', v) !! k = e !! k.
Proof. intros Hne. destruct v; cbn; case_decide; try done. by rewrite lookup_insert_ne. Qed.

Lemma foldl_set_env_var e l k :
  NoDup l.*1 ->
  foldl set_env_var e l !! k =
    match e !! k with Some s => Some s | None => mjoin ((list_to_map l : gmap string (option string)) !! k) end.
Proof.
  revert e. induction l as [|[k' v] l IH]; intros e Hnd; cbn [foldl]; [by destruct (e !! k)|].
  apply NoDup_cons in Hnd as [Hk' Hnd]. rewrite IH by done. cbn [list_to_map foldr fst snd].
  destruct (decide (k' = k)) as [<-|Hne].
  - rewrite lookup_insert_eq, (not_elem_of_list_to_map_1 l k' Hk').
    destruct (e !! k') as [s|] eqn:E.
    + by rewrite set_env_var_keep, E by eauto.
    + cbn. rewrite E. case_decide as H; [by destruct H|]. destruct v; [by rewrite lookup_insert_eq | by rewrite E].
  - by rewrite set_env_var_other, lookup_insert_ne by done.
Qed.

Lemma load_dotenv_lookup bindings e k :
  load_dotenv bindings e !! k = env_or_dotenv bindings e k.
Proof.
  unfold load_dotenv, env_or_dotenv. rewrite foldl_set_env_var by apply NoDup_fst_map_to_list.
  by rewrite list_to_map_to_list, dotenv_values_lookup.
Qed.

(** ** Properties *)

Section Properties.

(** C38: The configuration the import reads: after lines 8-20, every
    variable of the environment is the value the process was started
    with when it has one ([load_dotenv] does not override), otherwise
    the last binding of the [.env] file, unset when that binding has no
    value; [DEFAULT_NAMESPACE] and the client's [api_key], [api_version]
    and [azure_endpoint] are read from it, and [sent_alerts] is empty. *)
Theorem import_reads_config bindings e :
  let st := import_eks bindings e in
  (forall k, os_getenv (mod_environ st) k = env_or_dotenv bindings e k) /\
  mod_default_namespace st = default "default" (env_or_dotenv bindings e "KUBERNETES_NAMESPACE") /\
  mod_client st = client_args_of (env_or_dotenv bindings e) /\
  mod_sent_alerts st = ∅.
Proof.
  cbn zeta. unfold import_eks, os_getenv. cbn [mod_environ mod_default_namespace mod_client mod_sent_alerts].
  unfold DEFAULT_NAMESPACE, client_args_of, os_getenv. rewrite !load_dotenv_lookup.
  split_and!; [exact (load_dotenv_lookup bindings e) | done..].
Qed.

End Properties.

(** ** A concrete start *)

(** The process has [KUBERNETES_NAMESPACE=prod]; the file sets it to
    [dev], sets [AZURE_API_KEY] twice, and names [AZURE_API_BASE] with
    no value. *)
Definition demo_process_env : environ := <["KUBERNETES_NAMESPACE" := "prod"]> ∅.

Definition demo_dotenv : list (string * option string) :=
  [("KUBERNETES_NAMESPACE", Some "dev"); ("AZURE_API_KEY", Some "k1");
   ("AZURE_API_VERSION", Some "2024-02-01"); ("AZURE_API_KEY", Some "k2");
   ("AZURE_API_BASE", None)].

Example import_demo :
  mod_default_namespace (import_eks demo_dotenv demo_process_env) = "prod" /\
  mod_client (import_eks demo_dotenv demo_process_env) = MkClientArgs (Some "k2") (Some "2024-02-01") None.
Proof. vm_compute. split; reflexivity. Qed.

(** A later binding without a value unsets an earlier one. *)
Example import_unset_later :
  mod_default_namespace (import_eks [("KUBERNETES_NAMESPACE", Some "dev"); ("KUBERNETES_NAMESPACE", None)] ∅)
    = "default".
Proof. vm_compute. reflexivity. Qed.
